(** * OpenPGM transport core: a shallow embedding of [pgm/net.c] and
      [pgm/transport.c], with the properties of the transport specification
      checked against it.

    The C functions act on a [pgm_transport_t] through a pointer and talk to
    the operating system.  They are embedded as computations of a small
    state-and-early-return monad [M]: the state is the transport structure
    together with a [world] that logs every external call and answers it
    from an oracle.  A C [return] inside a function body is [Return]; a
    failed [g_assert] is [Abort].

    Conventions: integers are [Z]; boolean [gboolean] results are the
    integers [TRUE] = 1 and [FALSE] = 0; the host is little-endian Linux
    (LP64), which fixes the numeric constants below. *)

From Stdlib Require Import ZArith Lia Bool List.
From stdpp Require Import base numbers list.
Import ListNotations.
Local Open Scope Z_scope.

(** ** Constants of the platform headers *)

Definition TRUE : Z := 1.
Definition FALSE : Z := 0.

Definition EPERM : Z := 1.
Definition EAGAIN : Z := 11.
Definition EINVAL : Z := 22.
Definition ENETUNREACH : Z := 101.
Definition EHOSTUNREACH : Z := 113.

Definition MSG_DONTWAIT : Z := 64.
Definition POLLOUT : Z := 4.

Definition AF_INET : Z := 2.
Definition AF_INET6 : Z := 10.
Definition SOCK_DGRAM : Z := 2.
Definition SOCK_RAW : Z := 3.
Definition IPPROTO_IP : Z := 0.
Definition IPPROTO_UDP : Z := 17.
Definition IPPROTO_IPV6 : Z := 41.
Definition ipproto_pgm : Z := 113.
Definition SOL_SOCKET : Z := 1.
Definition SOL_IP : Z := 0.
Definition SOL_IPV6 : Z := 41.
Definition SO_REUSEADDR : Z := 2.
Definition SO_SNDBUF : Z := 7.
Definition SO_RCVBUF : Z := 8.
Definition MCAST_JOIN_GROUP : Z := 42.
Definition MCAST_LEAVE_GROUP : Z := 45.
Definition MCAST_JOIN_SOURCE_GROUP : Z := 46.
Definition INADDR_ANY : Z := 0.

Definition UINT16_MAX : Z := 65535.
Definition IP_MAX_MEMBERSHIPS : nat := 20.
Definition PGM_MAX_FRAGMENTS : Z := 16.

(** [sizeof] of the structures the code measures. *)
Definition sizeof_pgm_ip : Z := 20.
Definition sizeof_pgm_ip6_hdr : Z := 40.
Definition sizeof_pgm_udphdr : Z := 8.
Definition sizeof_pgm_header : Z := 16.
Definition sizeof_pgm_data : Z := 8.
Definition sizeof_pgm_opt_length : Z := 4.
Definition sizeof_pgm_opt_header : Z := 3.
Definition sizeof_pgm_opt_fragment : Z := 13.
Definition sizeof_group_req : Z := 136.
Definition sizeof_group_source_req : Z := 264.

(** ** Socket addresses and multicast requests *)

(** A [struct sockaddr_storage], read through the fields of the
    [sockaddr_in] / [sockaddr_in6] it holds.  [sin_addr] is the address as
    an integer (32 bits for IPv4, 128 bits for IPv6). *)
Record sockaddr : Type := mk_sockaddr {
  sa_family : Z;
  sin_port : Z;
  sin_addr : Z;
  sin6_scope_id : Z
}.

Definition sockaddr_zero : sockaddr := mk_sockaddr 0 0 0 0.

Definition pgm_sockaddr_family (sa : sockaddr) : Z := sa_family sa.

Definition pgm_sockaddr_scope_id (sa : sockaddr) : Z :=
  if sa_family sa =? AF_INET6 then sin6_scope_id sa else 0.

Definition with_sin_port (p : Z) (sa : sockaddr) : sockaddr :=
  mk_sockaddr (sa_family sa) p (sin_addr sa) (sin6_scope_id sa).

Definition with_sa_family (f : Z) (sa : sockaddr) : sockaddr :=
  mk_sockaddr f (sin_port sa) (sin_addr sa) (sin6_scope_id sa).

Definition with_sin_addr (a : Z) (sa : sockaddr) : sockaddr :=
  mk_sockaddr (sa_family sa) (sin_port sa) a (sin6_scope_id sa).

Record group_req : Type := mk_group_req {
  gr_interface : Z;
  gr_group : sockaddr
}.

Record group_source_req : Type := mk_group_source_req {
  gsr_interface : Z;
  gsr_group : sockaddr;
  gsr_source : sockaddr
}.

Definition gsr_zero : group_source_req :=
  mk_group_source_req 0 sockaddr_zero sockaddr_zero.

(** Handles of the collaborators the transport owns.  A transmit window and a
    rate regulator are known here by the arguments they were created with. *)
Record txw_t : Type := mk_txw {
  txw_tpdu : Z; txw_sqns_arg : Z; txw_secs_arg : Z; txw_max_rte_arg : Z;
  txw_use_fec : bool; txw_rs_n : Z; txw_rs_k : Z
}.

Record rate_t : Type := mk_rate {
  rate_per_sec : Z; rate_iphdr_len : Z
}.

(** ** The transport structure *)

(** The fields of [pgm_transport_t] that [net.c] and [transport.c] read or
    write in the functions embedded below.  [recv_gsr] is the fixed array of
    [IP_MAX_MEMBERSHIPS] slots and [recv_gsr_len] the count of slots in
    use.  [rand_], [pending_notify] say whether the object has been
    set up; [window], [peers_hashtable], [rate_control], [rx_buffer] are
    [None] for a NULL pointer. *)
Record pgm_transport_t : Type := mk_transport {
  tsi_gsi : list Z; tsi_sport : Z; dport : Z; udp_encap_ucast_port : Z;
  udp_encap_mcast_port : Z; send_gsr : group_source_req; recv_gsr : list group_source_req;
  recv_gsr_len : nat; recv_sock : Z; send_sock : Z; send_with_router_alert_sock : Z;
  can_send_data : bool; can_send_nak : bool; can_recv_data : bool; is_nonblocking : bool;
  use_multicast_loop : bool; is_abort_on_reset : bool; is_bound : bool; max_tpdu : Z; hops : Z;
  sndbuf : Z; rcvbuf : Z; use_proactive_parity : bool; use_ondemand_parity : bool;
  use_varpkt_len : bool; rs_n : Z; rs_k : Z; rs_proactive_h : Z; txw_sqns : Z; txw_secs : Z;
  txw_max_rte : Z; spm_ambient_interval : Z; iphdr_len : Z; max_tsdu : Z; max_tsdu_fragment : Z;
  max_apdu : Z; window : option txw_t; peers_hashtable : option (list Z); rand_ : bool;
  pending_notify : bool; send_addr : sockaddr; rate_control : option rate_t; next_poll : Z;
  next_ambient_spm : Z; rx_buffer : option Z
}.

Definition with_max_tpdu (v : Z) (t : pgm_transport_t) : pgm_transport_t :=
  {|
    tsi_gsi := tsi_gsi t; tsi_sport := tsi_sport t; dport := dport t;
    udp_encap_ucast_port := udp_encap_ucast_port t;
    udp_encap_mcast_port := udp_encap_mcast_port t; send_gsr := send_gsr t;
    recv_gsr := recv_gsr t; recv_gsr_len := recv_gsr_len t; recv_sock := recv_sock t;
    send_sock := send_sock t; send_with_router_alert_sock := send_with_router_alert_sock t;
    can_send_data := can_send_data t; can_send_nak := can_send_nak t;
    can_recv_data := can_recv_data t; is_nonblocking := is_nonblocking t;
    use_multicast_loop := use_multicast_loop t; is_abort_on_reset := is_abort_on_reset t;
    is_bound := is_bound t; max_tpdu := v; hops := hops t; sndbuf := sndbuf t;
    rcvbuf := rcvbuf t; use_proactive_parity := use_proactive_parity t;
    use_ondemand_parity := use_ondemand_parity t; use_varpkt_len := use_varpkt_len t;
    rs_n := rs_n t; rs_k := rs_k t; rs_proactive_h := rs_proactive_h t; txw_sqns := txw_sqns t;
    txw_secs := txw_secs t; txw_max_rte := txw_max_rte t;
    spm_ambient_interval := spm_ambient_interval t; iphdr_len := iphdr_len t;
    max_tsdu := max_tsdu t; max_tsdu_fragment := max_tsdu_fragment t; max_apdu := max_apdu t;
    window := window t; peers_hashtable := peers_hashtable t; rand_ := rand_ t;
    pending_notify := pending_notify t; send_addr := send_addr t;
    rate_control := rate_control t; next_poll := next_poll t;
    next_ambient_spm := next_ambient_spm t; rx_buffer := rx_buffer t
  |}.

Definition with_use_multicast_loop (v : bool) (t : pgm_transport_t) : pgm_transport_t :=
  {|
    tsi_gsi := tsi_gsi t; tsi_sport := tsi_sport t; dport := dport t;
    udp_encap_ucast_port := udp_encap_ucast_port t;
    udp_encap_mcast_port := udp_encap_mcast_port t; send_gsr := send_gsr t;
    recv_gsr := recv_gsr t; recv_gsr_len := recv_gsr_len t; recv_sock := recv_sock t;
    send_sock := send_sock t; send_with_router_alert_sock := send_with_router_alert_sock t;
    can_send_data := can_send_data t; can_send_nak := can_send_nak t;
    can_recv_data := can_recv_data t; is_nonblocking := is_nonblocking t;
    use_multicast_loop := v; is_abort_on_reset := is_abort_on_reset t; is_bound := is_bound t;
    max_tpdu := max_tpdu t; hops := hops t; sndbuf := sndbuf t; rcvbuf := rcvbuf t;
    use_proactive_parity := use_proactive_parity t;
    use_ondemand_parity := use_ondemand_parity t; use_varpkt_len := use_varpkt_len t;
    rs_n := rs_n t; rs_k := rs_k t; rs_proactive_h := rs_proactive_h t; txw_sqns := txw_sqns t;
    txw_secs := txw_secs t; txw_max_rte := txw_max_rte t;
    spm_ambient_interval := spm_ambient_interval t; iphdr_len := iphdr_len t;
    max_tsdu := max_tsdu t; max_tsdu_fragment := max_tsdu_fragment t; max_apdu := max_apdu t;
    window := window t; peers_hashtable := peers_hashtable t; rand_ := rand_ t;
    pending_notify := pending_notify t; send_addr := send_addr t;
    rate_control := rate_control t; next_poll := next_poll t;
    next_ambient_spm := next_ambient_spm t; rx_buffer := rx_buffer t
  |}.

Definition with_hops (v : Z) (t : pgm_transport_t) : pgm_transport_t :=
  {|
    tsi_gsi := tsi_gsi t; tsi_sport := tsi_sport t; dport := dport t;
    udp_encap_ucast_port := udp_encap_ucast_port t;
    udp_encap_mcast_port := udp_encap_mcast_port t; send_gsr := send_gsr t;
    recv_gsr := recv_gsr t; recv_gsr_len := recv_gsr_len t; recv_sock := recv_sock t;
    send_sock := send_sock t; send_with_router_alert_sock := send_with_router_alert_sock t;
    can_send_data := can_send_data t; can_send_nak := can_send_nak t;
    can_recv_data := can_recv_data t; is_nonblocking := is_nonblocking t;
    use_multicast_loop := use_multicast_loop t; is_abort_on_reset := is_abort_on_reset t;
    is_bound := is_bound t; max_tpdu := max_tpdu t; hops := v; sndbuf := sndbuf t;
    rcvbuf := rcvbuf t; use_proactive_parity := use_proactive_parity t;
    use_ondemand_parity := use_ondemand_parity t; use_varpkt_len := use_varpkt_len t;
    rs_n := rs_n t; rs_k := rs_k t; rs_proactive_h := rs_proactive_h t; txw_sqns := txw_sqns t;
    txw_secs := txw_secs t; txw_max_rte := txw_max_rte t;
    spm_ambient_interval := spm_ambient_interval t; iphdr_len := iphdr_len t;
    max_tsdu := max_tsdu t; max_tsdu_fragment := max_tsdu_fragment t; max_apdu := max_apdu t;
    window := window t; peers_hashtable := peers_hashtable t; rand_ := rand_ t;
    pending_notify := pending_notify t; send_addr := send_addr t;
    rate_control := rate_control t; next_poll := next_poll t;
    next_ambient_spm := next_ambient_spm t; rx_buffer := rx_buffer t
  |}.

Definition with_sndbuf (v : Z) (t : pgm_transport_t) : pgm_transport_t :=
  {|
    tsi_gsi := tsi_gsi t; tsi_sport := tsi_sport t; dport := dport t;
    udp_encap_ucast_port := udp_encap_ucast_port t;
    udp_encap_mcast_port := udp_encap_mcast_port t; send_gsr := send_gsr t;
    recv_gsr := recv_gsr t; recv_gsr_len := recv_gsr_len t; recv_sock := recv_sock t;
    send_sock := send_sock t; send_with_router_alert_sock := send_with_router_alert_sock t;
    can_send_data := can_send_data t; can_send_nak := can_send_nak t;
    can_recv_data := can_recv_data t; is_nonblocking := is_nonblocking t;
    use_multicast_loop := use_multicast_loop t; is_abort_on_reset := is_abort_on_reset t;
    is_bound := is_bound t; max_tpdu := max_tpdu t; hops := hops t; sndbuf := v;
    rcvbuf := rcvbuf t; use_proactive_parity := use_proactive_parity t;
    use_ondemand_parity := use_ondemand_parity t; use_varpkt_len := use_varpkt_len t;
    rs_n := rs_n t; rs_k := rs_k t; rs_proactive_h := rs_proactive_h t; txw_sqns := txw_sqns t;
    txw_secs := txw_secs t; txw_max_rte := txw_max_rte t;
    spm_ambient_interval := spm_ambient_interval t; iphdr_len := iphdr_len t;
    max_tsdu := max_tsdu t; max_tsdu_fragment := max_tsdu_fragment t; max_apdu := max_apdu t;
    window := window t; peers_hashtable := peers_hashtable t; rand_ := rand_ t;
    pending_notify := pending_notify t; send_addr := send_addr t;
    rate_control := rate_control t; next_poll := next_poll t;
    next_ambient_spm := next_ambient_spm t; rx_buffer := rx_buffer t
  |}.

Definition with_rcvbuf (v : Z) (t : pgm_transport_t) : pgm_transport_t :=
  {|
    tsi_gsi := tsi_gsi t; tsi_sport := tsi_sport t; dport := dport t;
    udp_encap_ucast_port := udp_encap_ucast_port t;
    udp_encap_mcast_port := udp_encap_mcast_port t; send_gsr := send_gsr t;
    recv_gsr := recv_gsr t; recv_gsr_len := recv_gsr_len t; recv_sock := recv_sock t;
    send_sock := send_sock t; send_with_router_alert_sock := send_with_router_alert_sock t;
    can_send_data := can_send_data t; can_send_nak := can_send_nak t;
    can_recv_data := can_recv_data t; is_nonblocking := is_nonblocking t;
    use_multicast_loop := use_multicast_loop t; is_abort_on_reset := is_abort_on_reset t;
    is_bound := is_bound t; max_tpdu := max_tpdu t; hops := hops t; sndbuf := sndbuf t;
    rcvbuf := v; use_proactive_parity := use_proactive_parity t;
    use_ondemand_parity := use_ondemand_parity t; use_varpkt_len := use_varpkt_len t;
    rs_n := rs_n t; rs_k := rs_k t; rs_proactive_h := rs_proactive_h t; txw_sqns := txw_sqns t;
    txw_secs := txw_secs t; txw_max_rte := txw_max_rte t;
    spm_ambient_interval := spm_ambient_interval t; iphdr_len := iphdr_len t;
    max_tsdu := max_tsdu t; max_tsdu_fragment := max_tsdu_fragment t; max_apdu := max_apdu t;
    window := window t; peers_hashtable := peers_hashtable t; rand_ := rand_ t;
    pending_notify := pending_notify t; send_addr := send_addr t;
    rate_control := rate_control t; next_poll := next_poll t;
    next_ambient_spm := next_ambient_spm t; rx_buffer := rx_buffer t
  |}.

Definition with_use_proactive_parity (v : bool) (t : pgm_transport_t) : pgm_transport_t :=
  {|
    tsi_gsi := tsi_gsi t; tsi_sport := tsi_sport t; dport := dport t;
    udp_encap_ucast_port := udp_encap_ucast_port t;
    udp_encap_mcast_port := udp_encap_mcast_port t; send_gsr := send_gsr t;
    recv_gsr := recv_gsr t; recv_gsr_len := recv_gsr_len t; recv_sock := recv_sock t;
    send_sock := send_sock t; send_with_router_alert_sock := send_with_router_alert_sock t;
    can_send_data := can_send_data t; can_send_nak := can_send_nak t;
    can_recv_data := can_recv_data t; is_nonblocking := is_nonblocking t;
    use_multicast_loop := use_multicast_loop t; is_abort_on_reset := is_abort_on_reset t;
    is_bound := is_bound t; max_tpdu := max_tpdu t; hops := hops t; sndbuf := sndbuf t;
    rcvbuf := rcvbuf t; use_proactive_parity := v; use_ondemand_parity := use_ondemand_parity t;
    use_varpkt_len := use_varpkt_len t; rs_n := rs_n t; rs_k := rs_k t;
    rs_proactive_h := rs_proactive_h t; txw_sqns := txw_sqns t; txw_secs := txw_secs t;
    txw_max_rte := txw_max_rte t; spm_ambient_interval := spm_ambient_interval t;
    iphdr_len := iphdr_len t; max_tsdu := max_tsdu t; max_tsdu_fragment := max_tsdu_fragment t;
    max_apdu := max_apdu t; window := window t; peers_hashtable := peers_hashtable t;
    rand_ := rand_ t; pending_notify := pending_notify t; send_addr := send_addr t;
    rate_control := rate_control t; next_poll := next_poll t;
    next_ambient_spm := next_ambient_spm t; rx_buffer := rx_buffer t
  |}.

Definition with_use_ondemand_parity (v : bool) (t : pgm_transport_t) : pgm_transport_t :=
  {|
    tsi_gsi := tsi_gsi t; tsi_sport := tsi_sport t; dport := dport t;
    udp_encap_ucast_port := udp_encap_ucast_port t;
    udp_encap_mcast_port := udp_encap_mcast_port t; send_gsr := send_gsr t;
    recv_gsr := recv_gsr t; recv_gsr_len := recv_gsr_len t; recv_sock := recv_sock t;
    send_sock := send_sock t; send_with_router_alert_sock := send_with_router_alert_sock t;
    can_send_data := can_send_data t; can_send_nak := can_send_nak t;
    can_recv_data := can_recv_data t; is_nonblocking := is_nonblocking t;
    use_multicast_loop := use_multicast_loop t; is_abort_on_reset := is_abort_on_reset t;
    is_bound := is_bound t; max_tpdu := max_tpdu t; hops := hops t; sndbuf := sndbuf t;
    rcvbuf := rcvbuf t; use_proactive_parity := use_proactive_parity t;
    use_ondemand_parity := v; use_varpkt_len := use_varpkt_len t; rs_n := rs_n t;
    rs_k := rs_k t; rs_proactive_h := rs_proactive_h t; txw_sqns := txw_sqns t;
    txw_secs := txw_secs t; txw_max_rte := txw_max_rte t;
    spm_ambient_interval := spm_ambient_interval t; iphdr_len := iphdr_len t;
    max_tsdu := max_tsdu t; max_tsdu_fragment := max_tsdu_fragment t; max_apdu := max_apdu t;
    window := window t; peers_hashtable := peers_hashtable t; rand_ := rand_ t;
    pending_notify := pending_notify t; send_addr := send_addr t;
    rate_control := rate_control t; next_poll := next_poll t;
    next_ambient_spm := next_ambient_spm t; rx_buffer := rx_buffer t
  |}.

Definition with_use_varpkt_len (v : bool) (t : pgm_transport_t) : pgm_transport_t :=
  {|
    tsi_gsi := tsi_gsi t; tsi_sport := tsi_sport t; dport := dport t;
    udp_encap_ucast_port := udp_encap_ucast_port t;
    udp_encap_mcast_port := udp_encap_mcast_port t; send_gsr := send_gsr t;
    recv_gsr := recv_gsr t; recv_gsr_len := recv_gsr_len t; recv_sock := recv_sock t;
    send_sock := send_sock t; send_with_router_alert_sock := send_with_router_alert_sock t;
    can_send_data := can_send_data t; can_send_nak := can_send_nak t;
    can_recv_data := can_recv_data t; is_nonblocking := is_nonblocking t;
    use_multicast_loop := use_multicast_loop t; is_abort_on_reset := is_abort_on_reset t;
    is_bound := is_bound t; max_tpdu := max_tpdu t; hops := hops t; sndbuf := sndbuf t;
    rcvbuf := rcvbuf t; use_proactive_parity := use_proactive_parity t;
    use_ondemand_parity := use_ondemand_parity t; use_varpkt_len := v; rs_n := rs_n t;
    rs_k := rs_k t; rs_proactive_h := rs_proactive_h t; txw_sqns := txw_sqns t;
    txw_secs := txw_secs t; txw_max_rte := txw_max_rte t;
    spm_ambient_interval := spm_ambient_interval t; iphdr_len := iphdr_len t;
    max_tsdu := max_tsdu t; max_tsdu_fragment := max_tsdu_fragment t; max_apdu := max_apdu t;
    window := window t; peers_hashtable := peers_hashtable t; rand_ := rand_ t;
    pending_notify := pending_notify t; send_addr := send_addr t;
    rate_control := rate_control t; next_poll := next_poll t;
    next_ambient_spm := next_ambient_spm t; rx_buffer := rx_buffer t
  |}.

Definition with_rs_n (v : Z) (t : pgm_transport_t) : pgm_transport_t :=
  {|
    tsi_gsi := tsi_gsi t; tsi_sport := tsi_sport t; dport := dport t;
    udp_encap_ucast_port := udp_encap_ucast_port t;
    udp_encap_mcast_port := udp_encap_mcast_port t; send_gsr := send_gsr t;
    recv_gsr := recv_gsr t; recv_gsr_len := recv_gsr_len t; recv_sock := recv_sock t;
    send_sock := send_sock t; send_with_router_alert_sock := send_with_router_alert_sock t;
    can_send_data := can_send_data t; can_send_nak := can_send_nak t;
    can_recv_data := can_recv_data t; is_nonblocking := is_nonblocking t;
    use_multicast_loop := use_multicast_loop t; is_abort_on_reset := is_abort_on_reset t;
    is_bound := is_bound t; max_tpdu := max_tpdu t; hops := hops t; sndbuf := sndbuf t;
    rcvbuf := rcvbuf t; use_proactive_parity := use_proactive_parity t;
    use_ondemand_parity := use_ondemand_parity t; use_varpkt_len := use_varpkt_len t; rs_n := v;
    rs_k := rs_k t; rs_proactive_h := rs_proactive_h t; txw_sqns := txw_sqns t;
    txw_secs := txw_secs t; txw_max_rte := txw_max_rte t;
    spm_ambient_interval := spm_ambient_interval t; iphdr_len := iphdr_len t;
    max_tsdu := max_tsdu t; max_tsdu_fragment := max_tsdu_fragment t; max_apdu := max_apdu t;
    window := window t; peers_hashtable := peers_hashtable t; rand_ := rand_ t;
    pending_notify := pending_notify t; send_addr := send_addr t;
    rate_control := rate_control t; next_poll := next_poll t;
    next_ambient_spm := next_ambient_spm t; rx_buffer := rx_buffer t
  |}.

Definition with_rs_k (v : Z) (t : pgm_transport_t) : pgm_transport_t :=
  {|
    tsi_gsi := tsi_gsi t; tsi_sport := tsi_sport t; dport := dport t;
    udp_encap_ucast_port := udp_encap_ucast_port t;
    udp_encap_mcast_port := udp_encap_mcast_port t; send_gsr := send_gsr t;
    recv_gsr := recv_gsr t; recv_gsr_len := recv_gsr_len t; recv_sock := recv_sock t;
    send_sock := send_sock t; send_with_router_alert_sock := send_with_router_alert_sock t;
    can_send_data := can_send_data t; can_send_nak := can_send_nak t;
    can_recv_data := can_recv_data t; is_nonblocking := is_nonblocking t;
    use_multicast_loop := use_multicast_loop t; is_abort_on_reset := is_abort_on_reset t;
    is_bound := is_bound t; max_tpdu := max_tpdu t; hops := hops t; sndbuf := sndbuf t;
    rcvbuf := rcvbuf t; use_proactive_parity := use_proactive_parity t;
    use_ondemand_parity := use_ondemand_parity t; use_varpkt_len := use_varpkt_len t;
    rs_n := rs_n t; rs_k := v; rs_proactive_h := rs_proactive_h t; txw_sqns := txw_sqns t;
    txw_secs := txw_secs t; txw_max_rte := txw_max_rte t;
    spm_ambient_interval := spm_ambient_interval t; iphdr_len := iphdr_len t;
    max_tsdu := max_tsdu t; max_tsdu_fragment := max_tsdu_fragment t; max_apdu := max_apdu t;
    window := window t; peers_hashtable := peers_hashtable t; rand_ := rand_ t;
    pending_notify := pending_notify t; send_addr := send_addr t;
    rate_control := rate_control t; next_poll := next_poll t;
    next_ambient_spm := next_ambient_spm t; rx_buffer := rx_buffer t
  |}.

Definition with_rs_proactive_h (v : Z) (t : pgm_transport_t) : pgm_transport_t :=
  {|
    tsi_gsi := tsi_gsi t; tsi_sport := tsi_sport t; dport := dport t;
    udp_encap_ucast_port := udp_encap_ucast_port t;
    udp_encap_mcast_port := udp_encap_mcast_port t; send_gsr := send_gsr t;
    recv_gsr := recv_gsr t; recv_gsr_len := recv_gsr_len t; recv_sock := recv_sock t;
    send_sock := send_sock t; send_with_router_alert_sock := send_with_router_alert_sock t;
    can_send_data := can_send_data t; can_send_nak := can_send_nak t;
    can_recv_data := can_recv_data t; is_nonblocking := is_nonblocking t;
    use_multicast_loop := use_multicast_loop t; is_abort_on_reset := is_abort_on_reset t;
    is_bound := is_bound t; max_tpdu := max_tpdu t; hops := hops t; sndbuf := sndbuf t;
    rcvbuf := rcvbuf t; use_proactive_parity := use_proactive_parity t;
    use_ondemand_parity := use_ondemand_parity t; use_varpkt_len := use_varpkt_len t;
    rs_n := rs_n t; rs_k := rs_k t; rs_proactive_h := v; txw_sqns := txw_sqns t;
    txw_secs := txw_secs t; txw_max_rte := txw_max_rte t;
    spm_ambient_interval := spm_ambient_interval t; iphdr_len := iphdr_len t;
    max_tsdu := max_tsdu t; max_tsdu_fragment := max_tsdu_fragment t; max_apdu := max_apdu t;
    window := window t; peers_hashtable := peers_hashtable t; rand_ := rand_ t;
    pending_notify := pending_notify t; send_addr := send_addr t;
    rate_control := rate_control t; next_poll := next_poll t;
    next_ambient_spm := next_ambient_spm t; rx_buffer := rx_buffer t
  |}.

Definition with_can_recv_data (v : bool) (t : pgm_transport_t) : pgm_transport_t :=
  {|
    tsi_gsi := tsi_gsi t; tsi_sport := tsi_sport t; dport := dport t;
    udp_encap_ucast_port := udp_encap_ucast_port t;
    udp_encap_mcast_port := udp_encap_mcast_port t; send_gsr := send_gsr t;
    recv_gsr := recv_gsr t; recv_gsr_len := recv_gsr_len t; recv_sock := recv_sock t;
    send_sock := send_sock t; send_with_router_alert_sock := send_with_router_alert_sock t;
    can_send_data := can_send_data t; can_send_nak := can_send_nak t; can_recv_data := v;
    is_nonblocking := is_nonblocking t; use_multicast_loop := use_multicast_loop t;
    is_abort_on_reset := is_abort_on_reset t; is_bound := is_bound t; max_tpdu := max_tpdu t;
    hops := hops t; sndbuf := sndbuf t; rcvbuf := rcvbuf t;
    use_proactive_parity := use_proactive_parity t;
    use_ondemand_parity := use_ondemand_parity t; use_varpkt_len := use_varpkt_len t;
    rs_n := rs_n t; rs_k := rs_k t; rs_proactive_h := rs_proactive_h t; txw_sqns := txw_sqns t;
    txw_secs := txw_secs t; txw_max_rte := txw_max_rte t;
    spm_ambient_interval := spm_ambient_interval t; iphdr_len := iphdr_len t;
    max_tsdu := max_tsdu t; max_tsdu_fragment := max_tsdu_fragment t; max_apdu := max_apdu t;
    window := window t; peers_hashtable := peers_hashtable t; rand_ := rand_ t;
    pending_notify := pending_notify t; send_addr := send_addr t;
    rate_control := rate_control t; next_poll := next_poll t;
    next_ambient_spm := next_ambient_spm t; rx_buffer := rx_buffer t
  |}.

Definition with_can_send_data (v : bool) (t : pgm_transport_t) : pgm_transport_t :=
  {|
    tsi_gsi := tsi_gsi t; tsi_sport := tsi_sport t; dport := dport t;
    udp_encap_ucast_port := udp_encap_ucast_port t;
    udp_encap_mcast_port := udp_encap_mcast_port t; send_gsr := send_gsr t;
    recv_gsr := recv_gsr t; recv_gsr_len := recv_gsr_len t; recv_sock := recv_sock t;
    send_sock := send_sock t; send_with_router_alert_sock := send_with_router_alert_sock t;
    can_send_data := v; can_send_nak := can_send_nak t; can_recv_data := can_recv_data t;
    is_nonblocking := is_nonblocking t; use_multicast_loop := use_multicast_loop t;
    is_abort_on_reset := is_abort_on_reset t; is_bound := is_bound t; max_tpdu := max_tpdu t;
    hops := hops t; sndbuf := sndbuf t; rcvbuf := rcvbuf t;
    use_proactive_parity := use_proactive_parity t;
    use_ondemand_parity := use_ondemand_parity t; use_varpkt_len := use_varpkt_len t;
    rs_n := rs_n t; rs_k := rs_k t; rs_proactive_h := rs_proactive_h t; txw_sqns := txw_sqns t;
    txw_secs := txw_secs t; txw_max_rte := txw_max_rte t;
    spm_ambient_interval := spm_ambient_interval t; iphdr_len := iphdr_len t;
    max_tsdu := max_tsdu t; max_tsdu_fragment := max_tsdu_fragment t; max_apdu := max_apdu t;
    window := window t; peers_hashtable := peers_hashtable t; rand_ := rand_ t;
    pending_notify := pending_notify t; send_addr := send_addr t;
    rate_control := rate_control t; next_poll := next_poll t;
    next_ambient_spm := next_ambient_spm t; rx_buffer := rx_buffer t
  |}.

Definition with_can_send_nak (v : bool) (t : pgm_transport_t) : pgm_transport_t :=
  {|
    tsi_gsi := tsi_gsi t; tsi_sport := tsi_sport t; dport := dport t;
    udp_encap_ucast_port := udp_encap_ucast_port t;
    udp_encap_mcast_port := udp_encap_mcast_port t; send_gsr := send_gsr t;
    recv_gsr := recv_gsr t; recv_gsr_len := recv_gsr_len t; recv_sock := recv_sock t;
    send_sock := send_sock t; send_with_router_alert_sock := send_with_router_alert_sock t;
    can_send_data := can_send_data t; can_send_nak := v; can_recv_data := can_recv_data t;
    is_nonblocking := is_nonblocking t; use_multicast_loop := use_multicast_loop t;
    is_abort_on_reset := is_abort_on_reset t; is_bound := is_bound t; max_tpdu := max_tpdu t;
    hops := hops t; sndbuf := sndbuf t; rcvbuf := rcvbuf t;
    use_proactive_parity := use_proactive_parity t;
    use_ondemand_parity := use_ondemand_parity t; use_varpkt_len := use_varpkt_len t;
    rs_n := rs_n t; rs_k := rs_k t; rs_proactive_h := rs_proactive_h t; txw_sqns := txw_sqns t;
    txw_secs := txw_secs t; txw_max_rte := txw_max_rte t;
    spm_ambient_interval := spm_ambient_interval t; iphdr_len := iphdr_len t;
    max_tsdu := max_tsdu t; max_tsdu_fragment := max_tsdu_fragment t; max_apdu := max_apdu t;
    window := window t; peers_hashtable := peers_hashtable t; rand_ := rand_ t;
    pending_notify := pending_notify t; send_addr := send_addr t;
    rate_control := rate_control t; next_poll := next_poll t;
    next_ambient_spm := next_ambient_spm t; rx_buffer := rx_buffer t
  |}.

Definition with_is_abort_on_reset (v : bool) (t : pgm_transport_t) : pgm_transport_t :=
  {|
    tsi_gsi := tsi_gsi t; tsi_sport := tsi_sport t; dport := dport t;
    udp_encap_ucast_port := udp_encap_ucast_port t;
    udp_encap_mcast_port := udp_encap_mcast_port t; send_gsr := send_gsr t;
    recv_gsr := recv_gsr t; recv_gsr_len := recv_gsr_len t; recv_sock := recv_sock t;
    send_sock := send_sock t; send_with_router_alert_sock := send_with_router_alert_sock t;
    can_send_data := can_send_data t; can_send_nak := can_send_nak t;
    can_recv_data := can_recv_data t; is_nonblocking := is_nonblocking t;
    use_multicast_loop := use_multicast_loop t; is_abort_on_reset := v; is_bound := is_bound t;
    max_tpdu := max_tpdu t; hops := hops t; sndbuf := sndbuf t; rcvbuf := rcvbuf t;
    use_proactive_parity := use_proactive_parity t;
    use_ondemand_parity := use_ondemand_parity t; use_varpkt_len := use_varpkt_len t;
    rs_n := rs_n t; rs_k := rs_k t; rs_proactive_h := rs_proactive_h t; txw_sqns := txw_sqns t;
    txw_secs := txw_secs t; txw_max_rte := txw_max_rte t;
    spm_ambient_interval := spm_ambient_interval t; iphdr_len := iphdr_len t;
    max_tsdu := max_tsdu t; max_tsdu_fragment := max_tsdu_fragment t; max_apdu := max_apdu t;
    window := window t; peers_hashtable := peers_hashtable t; rand_ := rand_ t;
    pending_notify := pending_notify t; send_addr := send_addr t;
    rate_control := rate_control t; next_poll := next_poll t;
    next_ambient_spm := next_ambient_spm t; rx_buffer := rx_buffer t
  |}.

Definition with_is_nonblocking (v : bool) (t : pgm_transport_t) : pgm_transport_t :=
  {|
    tsi_gsi := tsi_gsi t; tsi_sport := tsi_sport t; dport := dport t;
    udp_encap_ucast_port := udp_encap_ucast_port t;
    udp_encap_mcast_port := udp_encap_mcast_port t; send_gsr := send_gsr t;
    recv_gsr := recv_gsr t; recv_gsr_len := recv_gsr_len t; recv_sock := recv_sock t;
    send_sock := send_sock t; send_with_router_alert_sock := send_with_router_alert_sock t;
    can_send_data := can_send_data t; can_send_nak := can_send_nak t;
    can_recv_data := can_recv_data t; is_nonblocking := v;
    use_multicast_loop := use_multicast_loop t; is_abort_on_reset := is_abort_on_reset t;
    is_bound := is_bound t; max_tpdu := max_tpdu t; hops := hops t; sndbuf := sndbuf t;
    rcvbuf := rcvbuf t; use_proactive_parity := use_proactive_parity t;
    use_ondemand_parity := use_ondemand_parity t; use_varpkt_len := use_varpkt_len t;
    rs_n := rs_n t; rs_k := rs_k t; rs_proactive_h := rs_proactive_h t; txw_sqns := txw_sqns t;
    txw_secs := txw_secs t; txw_max_rte := txw_max_rte t;
    spm_ambient_interval := spm_ambient_interval t; iphdr_len := iphdr_len t;
    max_tsdu := max_tsdu t; max_tsdu_fragment := max_tsdu_fragment t; max_apdu := max_apdu t;
    window := window t; peers_hashtable := peers_hashtable t; rand_ := rand_ t;
    pending_notify := pending_notify t; send_addr := send_addr t;
    rate_control := rate_control t; next_poll := next_poll t;
    next_ambient_spm := next_ambient_spm t; rx_buffer := rx_buffer t
  |}.

Definition with_recv_gsr (v : list group_source_req) (t : pgm_transport_t) : pgm_transport_t :=
  {|
    tsi_gsi := tsi_gsi t; tsi_sport := tsi_sport t; dport := dport t;
    udp_encap_ucast_port := udp_encap_ucast_port t;
    udp_encap_mcast_port := udp_encap_mcast_port t; send_gsr := send_gsr t; recv_gsr := v;
    recv_gsr_len := recv_gsr_len t; recv_sock := recv_sock t; send_sock := send_sock t;
    send_with_router_alert_sock := send_with_router_alert_sock t;
    can_send_data := can_send_data t; can_send_nak := can_send_nak t;
    can_recv_data := can_recv_data t; is_nonblocking := is_nonblocking t;
    use_multicast_loop := use_multicast_loop t; is_abort_on_reset := is_abort_on_reset t;
    is_bound := is_bound t; max_tpdu := max_tpdu t; hops := hops t; sndbuf := sndbuf t;
    rcvbuf := rcvbuf t; use_proactive_parity := use_proactive_parity t;
    use_ondemand_parity := use_ondemand_parity t; use_varpkt_len := use_varpkt_len t;
    rs_n := rs_n t; rs_k := rs_k t; rs_proactive_h := rs_proactive_h t; txw_sqns := txw_sqns t;
    txw_secs := txw_secs t; txw_max_rte := txw_max_rte t;
    spm_ambient_interval := spm_ambient_interval t; iphdr_len := iphdr_len t;
    max_tsdu := max_tsdu t; max_tsdu_fragment := max_tsdu_fragment t; max_apdu := max_apdu t;
    window := window t; peers_hashtable := peers_hashtable t; rand_ := rand_ t;
    pending_notify := pending_notify t; send_addr := send_addr t;
    rate_control := rate_control t; next_poll := next_poll t;
    next_ambient_spm := next_ambient_spm t; rx_buffer := rx_buffer t
  |}.

Definition with_recv_gsr_len (v : nat) (t : pgm_transport_t) : pgm_transport_t :=
  {|
    tsi_gsi := tsi_gsi t; tsi_sport := tsi_sport t; dport := dport t;
    udp_encap_ucast_port := udp_encap_ucast_port t;
    udp_encap_mcast_port := udp_encap_mcast_port t; send_gsr := send_gsr t;
    recv_gsr := recv_gsr t; recv_gsr_len := v; recv_sock := recv_sock t;
    send_sock := send_sock t; send_with_router_alert_sock := send_with_router_alert_sock t;
    can_send_data := can_send_data t; can_send_nak := can_send_nak t;
    can_recv_data := can_recv_data t; is_nonblocking := is_nonblocking t;
    use_multicast_loop := use_multicast_loop t; is_abort_on_reset := is_abort_on_reset t;
    is_bound := is_bound t; max_tpdu := max_tpdu t; hops := hops t; sndbuf := sndbuf t;
    rcvbuf := rcvbuf t; use_proactive_parity := use_proactive_parity t;
    use_ondemand_parity := use_ondemand_parity t; use_varpkt_len := use_varpkt_len t;
    rs_n := rs_n t; rs_k := rs_k t; rs_proactive_h := rs_proactive_h t; txw_sqns := txw_sqns t;
    txw_secs := txw_secs t; txw_max_rte := txw_max_rte t;
    spm_ambient_interval := spm_ambient_interval t; iphdr_len := iphdr_len t;
    max_tsdu := max_tsdu t; max_tsdu_fragment := max_tsdu_fragment t; max_apdu := max_apdu t;
    window := window t; peers_hashtable := peers_hashtable t; rand_ := rand_ t;
    pending_notify := pending_notify t; send_addr := send_addr t;
    rate_control := rate_control t; next_poll := next_poll t;
    next_ambient_spm := next_ambient_spm t; rx_buffer := rx_buffer t
  |}.

Definition with_send_gsr (v : group_source_req) (t : pgm_transport_t) : pgm_transport_t :=
  {|
    tsi_gsi := tsi_gsi t; tsi_sport := tsi_sport t; dport := dport t;
    udp_encap_ucast_port := udp_encap_ucast_port t;
    udp_encap_mcast_port := udp_encap_mcast_port t; send_gsr := v; recv_gsr := recv_gsr t;
    recv_gsr_len := recv_gsr_len t; recv_sock := recv_sock t; send_sock := send_sock t;
    send_with_router_alert_sock := send_with_router_alert_sock t;
    can_send_data := can_send_data t; can_send_nak := can_send_nak t;
    can_recv_data := can_recv_data t; is_nonblocking := is_nonblocking t;
    use_multicast_loop := use_multicast_loop t; is_abort_on_reset := is_abort_on_reset t;
    is_bound := is_bound t; max_tpdu := max_tpdu t; hops := hops t; sndbuf := sndbuf t;
    rcvbuf := rcvbuf t; use_proactive_parity := use_proactive_parity t;
    use_ondemand_parity := use_ondemand_parity t; use_varpkt_len := use_varpkt_len t;
    rs_n := rs_n t; rs_k := rs_k t; rs_proactive_h := rs_proactive_h t; txw_sqns := txw_sqns t;
    txw_secs := txw_secs t; txw_max_rte := txw_max_rte t;
    spm_ambient_interval := spm_ambient_interval t; iphdr_len := iphdr_len t;
    max_tsdu := max_tsdu t; max_tsdu_fragment := max_tsdu_fragment t; max_apdu := max_apdu t;
    window := window t; peers_hashtable := peers_hashtable t; rand_ := rand_ t;
    pending_notify := pending_notify t; send_addr := send_addr t;
    rate_control := rate_control t; next_poll := next_poll t;
    next_ambient_spm := next_ambient_spm t; rx_buffer := rx_buffer t
  |}.

Definition with_tsi_gsi (v : list Z) (t : pgm_transport_t) : pgm_transport_t :=
  {|
    tsi_gsi := v; tsi_sport := tsi_sport t; dport := dport t;
    udp_encap_ucast_port := udp_encap_ucast_port t;
    udp_encap_mcast_port := udp_encap_mcast_port t; send_gsr := send_gsr t;
    recv_gsr := recv_gsr t; recv_gsr_len := recv_gsr_len t; recv_sock := recv_sock t;
    send_sock := send_sock t; send_with_router_alert_sock := send_with_router_alert_sock t;
    can_send_data := can_send_data t; can_send_nak := can_send_nak t;
    can_recv_data := can_recv_data t; is_nonblocking := is_nonblocking t;
    use_multicast_loop := use_multicast_loop t; is_abort_on_reset := is_abort_on_reset t;
    is_bound := is_bound t; max_tpdu := max_tpdu t; hops := hops t; sndbuf := sndbuf t;
    rcvbuf := rcvbuf t; use_proactive_parity := use_proactive_parity t;
    use_ondemand_parity := use_ondemand_parity t; use_varpkt_len := use_varpkt_len t;
    rs_n := rs_n t; rs_k := rs_k t; rs_proactive_h := rs_proactive_h t; txw_sqns := txw_sqns t;
    txw_secs := txw_secs t; txw_max_rte := txw_max_rte t;
    spm_ambient_interval := spm_ambient_interval t; iphdr_len := iphdr_len t;
    max_tsdu := max_tsdu t; max_tsdu_fragment := max_tsdu_fragment t; max_apdu := max_apdu t;
    window := window t; peers_hashtable := peers_hashtable t; rand_ := rand_ t;
    pending_notify := pending_notify t; send_addr := send_addr t;
    rate_control := rate_control t; next_poll := next_poll t;
    next_ambient_spm := next_ambient_spm t; rx_buffer := rx_buffer t
  |}.

Definition with_tsi_sport (v : Z) (t : pgm_transport_t) : pgm_transport_t :=
  {|
    tsi_gsi := tsi_gsi t; tsi_sport := v; dport := dport t;
    udp_encap_ucast_port := udp_encap_ucast_port t;
    udp_encap_mcast_port := udp_encap_mcast_port t; send_gsr := send_gsr t;
    recv_gsr := recv_gsr t; recv_gsr_len := recv_gsr_len t; recv_sock := recv_sock t;
    send_sock := send_sock t; send_with_router_alert_sock := send_with_router_alert_sock t;
    can_send_data := can_send_data t; can_send_nak := can_send_nak t;
    can_recv_data := can_recv_data t; is_nonblocking := is_nonblocking t;
    use_multicast_loop := use_multicast_loop t; is_abort_on_reset := is_abort_on_reset t;
    is_bound := is_bound t; max_tpdu := max_tpdu t; hops := hops t; sndbuf := sndbuf t;
    rcvbuf := rcvbuf t; use_proactive_parity := use_proactive_parity t;
    use_ondemand_parity := use_ondemand_parity t; use_varpkt_len := use_varpkt_len t;
    rs_n := rs_n t; rs_k := rs_k t; rs_proactive_h := rs_proactive_h t; txw_sqns := txw_sqns t;
    txw_secs := txw_secs t; txw_max_rte := txw_max_rte t;
    spm_ambient_interval := spm_ambient_interval t; iphdr_len := iphdr_len t;
    max_tsdu := max_tsdu t; max_tsdu_fragment := max_tsdu_fragment t; max_apdu := max_apdu t;
    window := window t; peers_hashtable := peers_hashtable t; rand_ := rand_ t;
    pending_notify := pending_notify t; send_addr := send_addr t;
    rate_control := rate_control t; next_poll := next_poll t;
    next_ambient_spm := next_ambient_spm t; rx_buffer := rx_buffer t
  |}.

Definition with_dport (v : Z) (t : pgm_transport_t) : pgm_transport_t :=
  {|
    tsi_gsi := tsi_gsi t; tsi_sport := tsi_sport t; dport := v;
    udp_encap_ucast_port := udp_encap_ucast_port t;
    udp_encap_mcast_port := udp_encap_mcast_port t; send_gsr := send_gsr t;
    recv_gsr := recv_gsr t; recv_gsr_len := recv_gsr_len t; recv_sock := recv_sock t;
    send_sock := send_sock t; send_with_router_alert_sock := send_with_router_alert_sock t;
    can_send_data := can_send_data t; can_send_nak := can_send_nak t;
    can_recv_data := can_recv_data t; is_nonblocking := is_nonblocking t;
    use_multicast_loop := use_multicast_loop t; is_abort_on_reset := is_abort_on_reset t;
    is_bound := is_bound t; max_tpdu := max_tpdu t; hops := hops t; sndbuf := sndbuf t;
    rcvbuf := rcvbuf t; use_proactive_parity := use_proactive_parity t;
    use_ondemand_parity := use_ondemand_parity t; use_varpkt_len := use_varpkt_len t;
    rs_n := rs_n t; rs_k := rs_k t; rs_proactive_h := rs_proactive_h t; txw_sqns := txw_sqns t;
    txw_secs := txw_secs t; txw_max_rte := txw_max_rte t;
    spm_ambient_interval := spm_ambient_interval t; iphdr_len := iphdr_len t;
    max_tsdu := max_tsdu t; max_tsdu_fragment := max_tsdu_fragment t; max_apdu := max_apdu t;
    window := window t; peers_hashtable := peers_hashtable t; rand_ := rand_ t;
    pending_notify := pending_notify t; send_addr := send_addr t;
    rate_control := rate_control t; next_poll := next_poll t;
    next_ambient_spm := next_ambient_spm t; rx_buffer := rx_buffer t
  |}.

Definition with_udp_encap_ucast_port (v : Z) (t : pgm_transport_t) : pgm_transport_t :=
  {|
    tsi_gsi := tsi_gsi t; tsi_sport := tsi_sport t; dport := dport t; udp_encap_ucast_port := v;
    udp_encap_mcast_port := udp_encap_mcast_port t; send_gsr := send_gsr t;
    recv_gsr := recv_gsr t; recv_gsr_len := recv_gsr_len t; recv_sock := recv_sock t;
    send_sock := send_sock t; send_with_router_alert_sock := send_with_router_alert_sock t;
    can_send_data := can_send_data t; can_send_nak := can_send_nak t;
    can_recv_data := can_recv_data t; is_nonblocking := is_nonblocking t;
    use_multicast_loop := use_multicast_loop t; is_abort_on_reset := is_abort_on_reset t;
    is_bound := is_bound t; max_tpdu := max_tpdu t; hops := hops t; sndbuf := sndbuf t;
    rcvbuf := rcvbuf t; use_proactive_parity := use_proactive_parity t;
    use_ondemand_parity := use_ondemand_parity t; use_varpkt_len := use_varpkt_len t;
    rs_n := rs_n t; rs_k := rs_k t; rs_proactive_h := rs_proactive_h t; txw_sqns := txw_sqns t;
    txw_secs := txw_secs t; txw_max_rte := txw_max_rte t;
    spm_ambient_interval := spm_ambient_interval t; iphdr_len := iphdr_len t;
    max_tsdu := max_tsdu t; max_tsdu_fragment := max_tsdu_fragment t; max_apdu := max_apdu t;
    window := window t; peers_hashtable := peers_hashtable t; rand_ := rand_ t;
    pending_notify := pending_notify t; send_addr := send_addr t;
    rate_control := rate_control t; next_poll := next_poll t;
    next_ambient_spm := next_ambient_spm t; rx_buffer := rx_buffer t
  |}.

Definition with_udp_encap_mcast_port (v : Z) (t : pgm_transport_t) : pgm_transport_t :=
  {|
    tsi_gsi := tsi_gsi t; tsi_sport := tsi_sport t; dport := dport t;
    udp_encap_ucast_port := udp_encap_ucast_port t; udp_encap_mcast_port := v;
    send_gsr := send_gsr t; recv_gsr := recv_gsr t; recv_gsr_len := recv_gsr_len t;
    recv_sock := recv_sock t; send_sock := send_sock t;
    send_with_router_alert_sock := send_with_router_alert_sock t;
    can_send_data := can_send_data t; can_send_nak := can_send_nak t;
    can_recv_data := can_recv_data t; is_nonblocking := is_nonblocking t;
    use_multicast_loop := use_multicast_loop t; is_abort_on_reset := is_abort_on_reset t;
    is_bound := is_bound t; max_tpdu := max_tpdu t; hops := hops t; sndbuf := sndbuf t;
    rcvbuf := rcvbuf t; use_proactive_parity := use_proactive_parity t;
    use_ondemand_parity := use_ondemand_parity t; use_varpkt_len := use_varpkt_len t;
    rs_n := rs_n t; rs_k := rs_k t; rs_proactive_h := rs_proactive_h t; txw_sqns := txw_sqns t;
    txw_secs := txw_secs t; txw_max_rte := txw_max_rte t;
    spm_ambient_interval := spm_ambient_interval t; iphdr_len := iphdr_len t;
    max_tsdu := max_tsdu t; max_tsdu_fragment := max_tsdu_fragment t; max_apdu := max_apdu t;
    window := window t; peers_hashtable := peers_hashtable t; rand_ := rand_ t;
    pending_notify := pending_notify t; send_addr := send_addr t;
    rate_control := rate_control t; next_poll := next_poll t;
    next_ambient_spm := next_ambient_spm t; rx_buffer := rx_buffer t
  |}.

Definition with_recv_sock (v : Z) (t : pgm_transport_t) : pgm_transport_t :=
  {|
    tsi_gsi := tsi_gsi t; tsi_sport := tsi_sport t; dport := dport t;
    udp_encap_ucast_port := udp_encap_ucast_port t;
    udp_encap_mcast_port := udp_encap_mcast_port t; send_gsr := send_gsr t;
    recv_gsr := recv_gsr t; recv_gsr_len := recv_gsr_len t; recv_sock := v;
    send_sock := send_sock t; send_with_router_alert_sock := send_with_router_alert_sock t;
    can_send_data := can_send_data t; can_send_nak := can_send_nak t;
    can_recv_data := can_recv_data t; is_nonblocking := is_nonblocking t;
    use_multicast_loop := use_multicast_loop t; is_abort_on_reset := is_abort_on_reset t;
    is_bound := is_bound t; max_tpdu := max_tpdu t; hops := hops t; sndbuf := sndbuf t;
    rcvbuf := rcvbuf t; use_proactive_parity := use_proactive_parity t;
    use_ondemand_parity := use_ondemand_parity t; use_varpkt_len := use_varpkt_len t;
    rs_n := rs_n t; rs_k := rs_k t; rs_proactive_h := rs_proactive_h t; txw_sqns := txw_sqns t;
    txw_secs := txw_secs t; txw_max_rte := txw_max_rte t;
    spm_ambient_interval := spm_ambient_interval t; iphdr_len := iphdr_len t;
    max_tsdu := max_tsdu t; max_tsdu_fragment := max_tsdu_fragment t; max_apdu := max_apdu t;
    window := window t; peers_hashtable := peers_hashtable t; rand_ := rand_ t;
    pending_notify := pending_notify t; send_addr := send_addr t;
    rate_control := rate_control t; next_poll := next_poll t;
    next_ambient_spm := next_ambient_spm t; rx_buffer := rx_buffer t
  |}.

Definition with_send_sock (v : Z) (t : pgm_transport_t) : pgm_transport_t :=
  {|
    tsi_gsi := tsi_gsi t; tsi_sport := tsi_sport t; dport := dport t;
    udp_encap_ucast_port := udp_encap_ucast_port t;
    udp_encap_mcast_port := udp_encap_mcast_port t; send_gsr := send_gsr t;
    recv_gsr := recv_gsr t; recv_gsr_len := recv_gsr_len t; recv_sock := recv_sock t;
    send_sock := v; send_with_router_alert_sock := send_with_router_alert_sock t;
    can_send_data := can_send_data t; can_send_nak := can_send_nak t;
    can_recv_data := can_recv_data t; is_nonblocking := is_nonblocking t;
    use_multicast_loop := use_multicast_loop t; is_abort_on_reset := is_abort_on_reset t;
    is_bound := is_bound t; max_tpdu := max_tpdu t; hops := hops t; sndbuf := sndbuf t;
    rcvbuf := rcvbuf t; use_proactive_parity := use_proactive_parity t;
    use_ondemand_parity := use_ondemand_parity t; use_varpkt_len := use_varpkt_len t;
    rs_n := rs_n t; rs_k := rs_k t; rs_proactive_h := rs_proactive_h t; txw_sqns := txw_sqns t;
    txw_secs := txw_secs t; txw_max_rte := txw_max_rte t;
    spm_ambient_interval := spm_ambient_interval t; iphdr_len := iphdr_len t;
    max_tsdu := max_tsdu t; max_tsdu_fragment := max_tsdu_fragment t; max_apdu := max_apdu t;
    window := window t; peers_hashtable := peers_hashtable t; rand_ := rand_ t;
    pending_notify := pending_notify t; send_addr := send_addr t;
    rate_control := rate_control t; next_poll := next_poll t;
    next_ambient_spm := next_ambient_spm t; rx_buffer := rx_buffer t
  |}.

Definition with_send_with_router_alert_sock (v : Z) (t : pgm_transport_t) : pgm_transport_t :=
  {|
    tsi_gsi := tsi_gsi t; tsi_sport := tsi_sport t; dport := dport t;
    udp_encap_ucast_port := udp_encap_ucast_port t;
    udp_encap_mcast_port := udp_encap_mcast_port t; send_gsr := send_gsr t;
    recv_gsr := recv_gsr t; recv_gsr_len := recv_gsr_len t; recv_sock := recv_sock t;
    send_sock := send_sock t; send_with_router_alert_sock := v;
    can_send_data := can_send_data t; can_send_nak := can_send_nak t;
    can_recv_data := can_recv_data t; is_nonblocking := is_nonblocking t;
    use_multicast_loop := use_multicast_loop t; is_abort_on_reset := is_abort_on_reset t;
    is_bound := is_bound t; max_tpdu := max_tpdu t; hops := hops t; sndbuf := sndbuf t;
    rcvbuf := rcvbuf t; use_proactive_parity := use_proactive_parity t;
    use_ondemand_parity := use_ondemand_parity t; use_varpkt_len := use_varpkt_len t;
    rs_n := rs_n t; rs_k := rs_k t; rs_proactive_h := rs_proactive_h t; txw_sqns := txw_sqns t;
    txw_secs := txw_secs t; txw_max_rte := txw_max_rte t;
    spm_ambient_interval := spm_ambient_interval t; iphdr_len := iphdr_len t;
    max_tsdu := max_tsdu t; max_tsdu_fragment := max_tsdu_fragment t; max_apdu := max_apdu t;
    window := window t; peers_hashtable := peers_hashtable t; rand_ := rand_ t;
    pending_notify := pending_notify t; send_addr := send_addr t;
    rate_control := rate_control t; next_poll := next_poll t;
    next_ambient_spm := next_ambient_spm t; rx_buffer := rx_buffer t
  |}.

Definition with_rand_ (v : bool) (t : pgm_transport_t) : pgm_transport_t :=
  {|
    tsi_gsi := tsi_gsi t; tsi_sport := tsi_sport t; dport := dport t;
    udp_encap_ucast_port := udp_encap_ucast_port t;
    udp_encap_mcast_port := udp_encap_mcast_port t; send_gsr := send_gsr t;
    recv_gsr := recv_gsr t; recv_gsr_len := recv_gsr_len t; recv_sock := recv_sock t;
    send_sock := send_sock t; send_with_router_alert_sock := send_with_router_alert_sock t;
    can_send_data := can_send_data t; can_send_nak := can_send_nak t;
    can_recv_data := can_recv_data t; is_nonblocking := is_nonblocking t;
    use_multicast_loop := use_multicast_loop t; is_abort_on_reset := is_abort_on_reset t;
    is_bound := is_bound t; max_tpdu := max_tpdu t; hops := hops t; sndbuf := sndbuf t;
    rcvbuf := rcvbuf t; use_proactive_parity := use_proactive_parity t;
    use_ondemand_parity := use_ondemand_parity t; use_varpkt_len := use_varpkt_len t;
    rs_n := rs_n t; rs_k := rs_k t; rs_proactive_h := rs_proactive_h t; txw_sqns := txw_sqns t;
    txw_secs := txw_secs t; txw_max_rte := txw_max_rte t;
    spm_ambient_interval := spm_ambient_interval t; iphdr_len := iphdr_len t;
    max_tsdu := max_tsdu t; max_tsdu_fragment := max_tsdu_fragment t; max_apdu := max_apdu t;
    window := window t; peers_hashtable := peers_hashtable t; rand_ := v;
    pending_notify := pending_notify t; send_addr := send_addr t;
    rate_control := rate_control t; next_poll := next_poll t;
    next_ambient_spm := next_ambient_spm t; rx_buffer := rx_buffer t
  |}.

Definition with_pending_notify (v : bool) (t : pgm_transport_t) : pgm_transport_t :=
  {|
    tsi_gsi := tsi_gsi t; tsi_sport := tsi_sport t; dport := dport t;
    udp_encap_ucast_port := udp_encap_ucast_port t;
    udp_encap_mcast_port := udp_encap_mcast_port t; send_gsr := send_gsr t;
    recv_gsr := recv_gsr t; recv_gsr_len := recv_gsr_len t; recv_sock := recv_sock t;
    send_sock := send_sock t; send_with_router_alert_sock := send_with_router_alert_sock t;
    can_send_data := can_send_data t; can_send_nak := can_send_nak t;
    can_recv_data := can_recv_data t; is_nonblocking := is_nonblocking t;
    use_multicast_loop := use_multicast_loop t; is_abort_on_reset := is_abort_on_reset t;
    is_bound := is_bound t; max_tpdu := max_tpdu t; hops := hops t; sndbuf := sndbuf t;
    rcvbuf := rcvbuf t; use_proactive_parity := use_proactive_parity t;
    use_ondemand_parity := use_ondemand_parity t; use_varpkt_len := use_varpkt_len t;
    rs_n := rs_n t; rs_k := rs_k t; rs_proactive_h := rs_proactive_h t; txw_sqns := txw_sqns t;
    txw_secs := txw_secs t; txw_max_rte := txw_max_rte t;
    spm_ambient_interval := spm_ambient_interval t; iphdr_len := iphdr_len t;
    max_tsdu := max_tsdu t; max_tsdu_fragment := max_tsdu_fragment t; max_apdu := max_apdu t;
    window := window t; peers_hashtable := peers_hashtable t; rand_ := rand_ t;
    pending_notify := v; send_addr := send_addr t; rate_control := rate_control t;
    next_poll := next_poll t; next_ambient_spm := next_ambient_spm t; rx_buffer := rx_buffer t
  |}.

Definition with_iphdr_len (v : Z) (t : pgm_transport_t) : pgm_transport_t :=
  {|
    tsi_gsi := tsi_gsi t; tsi_sport := tsi_sport t; dport := dport t;
    udp_encap_ucast_port := udp_encap_ucast_port t;
    udp_encap_mcast_port := udp_encap_mcast_port t; send_gsr := send_gsr t;
    recv_gsr := recv_gsr t; recv_gsr_len := recv_gsr_len t; recv_sock := recv_sock t;
    send_sock := send_sock t; send_with_router_alert_sock := send_with_router_alert_sock t;
    can_send_data := can_send_data t; can_send_nak := can_send_nak t;
    can_recv_data := can_recv_data t; is_nonblocking := is_nonblocking t;
    use_multicast_loop := use_multicast_loop t; is_abort_on_reset := is_abort_on_reset t;
    is_bound := is_bound t; max_tpdu := max_tpdu t; hops := hops t; sndbuf := sndbuf t;
    rcvbuf := rcvbuf t; use_proactive_parity := use_proactive_parity t;
    use_ondemand_parity := use_ondemand_parity t; use_varpkt_len := use_varpkt_len t;
    rs_n := rs_n t; rs_k := rs_k t; rs_proactive_h := rs_proactive_h t; txw_sqns := txw_sqns t;
    txw_secs := txw_secs t; txw_max_rte := txw_max_rte t;
    spm_ambient_interval := spm_ambient_interval t; iphdr_len := v; max_tsdu := max_tsdu t;
    max_tsdu_fragment := max_tsdu_fragment t; max_apdu := max_apdu t; window := window t;
    peers_hashtable := peers_hashtable t; rand_ := rand_ t; pending_notify := pending_notify t;
    send_addr := send_addr t; rate_control := rate_control t; next_poll := next_poll t;
    next_ambient_spm := next_ambient_spm t; rx_buffer := rx_buffer t
  |}.

Definition with_max_tsdu (v : Z) (t : pgm_transport_t) : pgm_transport_t :=
  {|
    tsi_gsi := tsi_gsi t; tsi_sport := tsi_sport t; dport := dport t;
    udp_encap_ucast_port := udp_encap_ucast_port t;
    udp_encap_mcast_port := udp_encap_mcast_port t; send_gsr := send_gsr t;
    recv_gsr := recv_gsr t; recv_gsr_len := recv_gsr_len t; recv_sock := recv_sock t;
    send_sock := send_sock t; send_with_router_alert_sock := send_with_router_alert_sock t;
    can_send_data := can_send_data t; can_send_nak := can_send_nak t;
    can_recv_data := can_recv_data t; is_nonblocking := is_nonblocking t;
    use_multicast_loop := use_multicast_loop t; is_abort_on_reset := is_abort_on_reset t;
    is_bound := is_bound t; max_tpdu := max_tpdu t; hops := hops t; sndbuf := sndbuf t;
    rcvbuf := rcvbuf t; use_proactive_parity := use_proactive_parity t;
    use_ondemand_parity := use_ondemand_parity t; use_varpkt_len := use_varpkt_len t;
    rs_n := rs_n t; rs_k := rs_k t; rs_proactive_h := rs_proactive_h t; txw_sqns := txw_sqns t;
    txw_secs := txw_secs t; txw_max_rte := txw_max_rte t;
    spm_ambient_interval := spm_ambient_interval t; iphdr_len := iphdr_len t; max_tsdu := v;
    max_tsdu_fragment := max_tsdu_fragment t; max_apdu := max_apdu t; window := window t;
    peers_hashtable := peers_hashtable t; rand_ := rand_ t; pending_notify := pending_notify t;
    send_addr := send_addr t; rate_control := rate_control t; next_poll := next_poll t;
    next_ambient_spm := next_ambient_spm t; rx_buffer := rx_buffer t
  |}.

Definition with_max_tsdu_fragment (v : Z) (t : pgm_transport_t) : pgm_transport_t :=
  {|
    tsi_gsi := tsi_gsi t; tsi_sport := tsi_sport t; dport := dport t;
    udp_encap_ucast_port := udp_encap_ucast_port t;
    udp_encap_mcast_port := udp_encap_mcast_port t; send_gsr := send_gsr t;
    recv_gsr := recv_gsr t; recv_gsr_len := recv_gsr_len t; recv_sock := recv_sock t;
    send_sock := send_sock t; send_with_router_alert_sock := send_with_router_alert_sock t;
    can_send_data := can_send_data t; can_send_nak := can_send_nak t;
    can_recv_data := can_recv_data t; is_nonblocking := is_nonblocking t;
    use_multicast_loop := use_multicast_loop t; is_abort_on_reset := is_abort_on_reset t;
    is_bound := is_bound t; max_tpdu := max_tpdu t; hops := hops t; sndbuf := sndbuf t;
    rcvbuf := rcvbuf t; use_proactive_parity := use_proactive_parity t;
    use_ondemand_parity := use_ondemand_parity t; use_varpkt_len := use_varpkt_len t;
    rs_n := rs_n t; rs_k := rs_k t; rs_proactive_h := rs_proactive_h t; txw_sqns := txw_sqns t;
    txw_secs := txw_secs t; txw_max_rte := txw_max_rte t;
    spm_ambient_interval := spm_ambient_interval t; iphdr_len := iphdr_len t;
    max_tsdu := max_tsdu t; max_tsdu_fragment := v; max_apdu := max_apdu t; window := window t;
    peers_hashtable := peers_hashtable t; rand_ := rand_ t; pending_notify := pending_notify t;
    send_addr := send_addr t; rate_control := rate_control t; next_poll := next_poll t;
    next_ambient_spm := next_ambient_spm t; rx_buffer := rx_buffer t
  |}.

Definition with_max_apdu (v : Z) (t : pgm_transport_t) : pgm_transport_t :=
  {|
    tsi_gsi := tsi_gsi t; tsi_sport := tsi_sport t; dport := dport t;
    udp_encap_ucast_port := udp_encap_ucast_port t;
    udp_encap_mcast_port := udp_encap_mcast_port t; send_gsr := send_gsr t;
    recv_gsr := recv_gsr t; recv_gsr_len := recv_gsr_len t; recv_sock := recv_sock t;
    send_sock := send_sock t; send_with_router_alert_sock := send_with_router_alert_sock t;
    can_send_data := can_send_data t; can_send_nak := can_send_nak t;
    can_recv_data := can_recv_data t; is_nonblocking := is_nonblocking t;
    use_multicast_loop := use_multicast_loop t; is_abort_on_reset := is_abort_on_reset t;
    is_bound := is_bound t; max_tpdu := max_tpdu t; hops := hops t; sndbuf := sndbuf t;
    rcvbuf := rcvbuf t; use_proactive_parity := use_proactive_parity t;
    use_ondemand_parity := use_ondemand_parity t; use_varpkt_len := use_varpkt_len t;
    rs_n := rs_n t; rs_k := rs_k t; rs_proactive_h := rs_proactive_h t; txw_sqns := txw_sqns t;
    txw_secs := txw_secs t; txw_max_rte := txw_max_rte t;
    spm_ambient_interval := spm_ambient_interval t; iphdr_len := iphdr_len t;
    max_tsdu := max_tsdu t; max_tsdu_fragment := max_tsdu_fragment t; max_apdu := v;
    window := window t; peers_hashtable := peers_hashtable t; rand_ := rand_ t;
    pending_notify := pending_notify t; send_addr := send_addr t;
    rate_control := rate_control t; next_poll := next_poll t;
    next_ambient_spm := next_ambient_spm t; rx_buffer := rx_buffer t
  |}.

Definition with_window (v : option txw_t) (t : pgm_transport_t) : pgm_transport_t :=
  {|
    tsi_gsi := tsi_gsi t; tsi_sport := tsi_sport t; dport := dport t;
    udp_encap_ucast_port := udp_encap_ucast_port t;
    udp_encap_mcast_port := udp_encap_mcast_port t; send_gsr := send_gsr t;
    recv_gsr := recv_gsr t; recv_gsr_len := recv_gsr_len t; recv_sock := recv_sock t;
    send_sock := send_sock t; send_with_router_alert_sock := send_with_router_alert_sock t;
    can_send_data := can_send_data t; can_send_nak := can_send_nak t;
    can_recv_data := can_recv_data t; is_nonblocking := is_nonblocking t;
    use_multicast_loop := use_multicast_loop t; is_abort_on_reset := is_abort_on_reset t;
    is_bound := is_bound t; max_tpdu := max_tpdu t; hops := hops t; sndbuf := sndbuf t;
    rcvbuf := rcvbuf t; use_proactive_parity := use_proactive_parity t;
    use_ondemand_parity := use_ondemand_parity t; use_varpkt_len := use_varpkt_len t;
    rs_n := rs_n t; rs_k := rs_k t; rs_proactive_h := rs_proactive_h t; txw_sqns := txw_sqns t;
    txw_secs := txw_secs t; txw_max_rte := txw_max_rte t;
    spm_ambient_interval := spm_ambient_interval t; iphdr_len := iphdr_len t;
    max_tsdu := max_tsdu t; max_tsdu_fragment := max_tsdu_fragment t; max_apdu := max_apdu t;
    window := v; peers_hashtable := peers_hashtable t; rand_ := rand_ t;
    pending_notify := pending_notify t; send_addr := send_addr t;
    rate_control := rate_control t; next_poll := next_poll t;
    next_ambient_spm := next_ambient_spm t; rx_buffer := rx_buffer t
  |}.

Definition with_peers_hashtable (v : option (list Z)) (t : pgm_transport_t) : pgm_transport_t :=
  {|
    tsi_gsi := tsi_gsi t; tsi_sport := tsi_sport t; dport := dport t;
    udp_encap_ucast_port := udp_encap_ucast_port t;
    udp_encap_mcast_port := udp_encap_mcast_port t; send_gsr := send_gsr t;
    recv_gsr := recv_gsr t; recv_gsr_len := recv_gsr_len t; recv_sock := recv_sock t;
    send_sock := send_sock t; send_with_router_alert_sock := send_with_router_alert_sock t;
    can_send_data := can_send_data t; can_send_nak := can_send_nak t;
    can_recv_data := can_recv_data t; is_nonblocking := is_nonblocking t;
    use_multicast_loop := use_multicast_loop t; is_abort_on_reset := is_abort_on_reset t;
    is_bound := is_bound t; max_tpdu := max_tpdu t; hops := hops t; sndbuf := sndbuf t;
    rcvbuf := rcvbuf t; use_proactive_parity := use_proactive_parity t;
    use_ondemand_parity := use_ondemand_parity t; use_varpkt_len := use_varpkt_len t;
    rs_n := rs_n t; rs_k := rs_k t; rs_proactive_h := rs_proactive_h t; txw_sqns := txw_sqns t;
    txw_secs := txw_secs t; txw_max_rte := txw_max_rte t;
    spm_ambient_interval := spm_ambient_interval t; iphdr_len := iphdr_len t;
    max_tsdu := max_tsdu t; max_tsdu_fragment := max_tsdu_fragment t; max_apdu := max_apdu t;
    window := window t; peers_hashtable := v; rand_ := rand_ t;
    pending_notify := pending_notify t; send_addr := send_addr t;
    rate_control := rate_control t; next_poll := next_poll t;
    next_ambient_spm := next_ambient_spm t; rx_buffer := rx_buffer t
  |}.

Definition with_send_addr (v : sockaddr) (t : pgm_transport_t) : pgm_transport_t :=
  {|
    tsi_gsi := tsi_gsi t; tsi_sport := tsi_sport t; dport := dport t;
    udp_encap_ucast_port := udp_encap_ucast_port t;
    udp_encap_mcast_port := udp_encap_mcast_port t; send_gsr := send_gsr t;
    recv_gsr := recv_gsr t; recv_gsr_len := recv_gsr_len t; recv_sock := recv_sock t;
    send_sock := send_sock t; send_with_router_alert_sock := send_with_router_alert_sock t;
    can_send_data := can_send_data t; can_send_nak := can_send_nak t;
    can_recv_data := can_recv_data t; is_nonblocking := is_nonblocking t;
    use_multicast_loop := use_multicast_loop t; is_abort_on_reset := is_abort_on_reset t;
    is_bound := is_bound t; max_tpdu := max_tpdu t; hops := hops t; sndbuf := sndbuf t;
    rcvbuf := rcvbuf t; use_proactive_parity := use_proactive_parity t;
    use_ondemand_parity := use_ondemand_parity t; use_varpkt_len := use_varpkt_len t;
    rs_n := rs_n t; rs_k := rs_k t; rs_proactive_h := rs_proactive_h t; txw_sqns := txw_sqns t;
    txw_secs := txw_secs t; txw_max_rte := txw_max_rte t;
    spm_ambient_interval := spm_ambient_interval t; iphdr_len := iphdr_len t;
    max_tsdu := max_tsdu t; max_tsdu_fragment := max_tsdu_fragment t; max_apdu := max_apdu t;
    window := window t; peers_hashtable := peers_hashtable t; rand_ := rand_ t;
    pending_notify := pending_notify t; send_addr := v; rate_control := rate_control t;
    next_poll := next_poll t; next_ambient_spm := next_ambient_spm t; rx_buffer := rx_buffer t
  |}.

Definition with_rate_control (v : option rate_t) (t : pgm_transport_t) : pgm_transport_t :=
  {|
    tsi_gsi := tsi_gsi t; tsi_sport := tsi_sport t; dport := dport t;
    udp_encap_ucast_port := udp_encap_ucast_port t;
    udp_encap_mcast_port := udp_encap_mcast_port t; send_gsr := send_gsr t;
    recv_gsr := recv_gsr t; recv_gsr_len := recv_gsr_len t; recv_sock := recv_sock t;
    send_sock := send_sock t; send_with_router_alert_sock := send_with_router_alert_sock t;
    can_send_data := can_send_data t; can_send_nak := can_send_nak t;
    can_recv_data := can_recv_data t; is_nonblocking := is_nonblocking t;
    use_multicast_loop := use_multicast_loop t; is_abort_on_reset := is_abort_on_reset t;
    is_bound := is_bound t; max_tpdu := max_tpdu t; hops := hops t; sndbuf := sndbuf t;
    rcvbuf := rcvbuf t; use_proactive_parity := use_proactive_parity t;
    use_ondemand_parity := use_ondemand_parity t; use_varpkt_len := use_varpkt_len t;
    rs_n := rs_n t; rs_k := rs_k t; rs_proactive_h := rs_proactive_h t; txw_sqns := txw_sqns t;
    txw_secs := txw_secs t; txw_max_rte := txw_max_rte t;
    spm_ambient_interval := spm_ambient_interval t; iphdr_len := iphdr_len t;
    max_tsdu := max_tsdu t; max_tsdu_fragment := max_tsdu_fragment t; max_apdu := max_apdu t;
    window := window t; peers_hashtable := peers_hashtable t; rand_ := rand_ t;
    pending_notify := pending_notify t; send_addr := send_addr t; rate_control := v;
    next_poll := next_poll t; next_ambient_spm := next_ambient_spm t; rx_buffer := rx_buffer t
  |}.

Definition with_next_poll (v : Z) (t : pgm_transport_t) : pgm_transport_t :=
  {|
    tsi_gsi := tsi_gsi t; tsi_sport := tsi_sport t; dport := dport t;
    udp_encap_ucast_port := udp_encap_ucast_port t;
    udp_encap_mcast_port := udp_encap_mcast_port t; send_gsr := send_gsr t;
    recv_gsr := recv_gsr t; recv_gsr_len := recv_gsr_len t; recv_sock := recv_sock t;
    send_sock := send_sock t; send_with_router_alert_sock := send_with_router_alert_sock t;
    can_send_data := can_send_data t; can_send_nak := can_send_nak t;
    can_recv_data := can_recv_data t; is_nonblocking := is_nonblocking t;
    use_multicast_loop := use_multicast_loop t; is_abort_on_reset := is_abort_on_reset t;
    is_bound := is_bound t; max_tpdu := max_tpdu t; hops := hops t; sndbuf := sndbuf t;
    rcvbuf := rcvbuf t; use_proactive_parity := use_proactive_parity t;
    use_ondemand_parity := use_ondemand_parity t; use_varpkt_len := use_varpkt_len t;
    rs_n := rs_n t; rs_k := rs_k t; rs_proactive_h := rs_proactive_h t; txw_sqns := txw_sqns t;
    txw_secs := txw_secs t; txw_max_rte := txw_max_rte t;
    spm_ambient_interval := spm_ambient_interval t; iphdr_len := iphdr_len t;
    max_tsdu := max_tsdu t; max_tsdu_fragment := max_tsdu_fragment t; max_apdu := max_apdu t;
    window := window t; peers_hashtable := peers_hashtable t; rand_ := rand_ t;
    pending_notify := pending_notify t; send_addr := send_addr t;
    rate_control := rate_control t; next_poll := v; next_ambient_spm := next_ambient_spm t;
    rx_buffer := rx_buffer t
  |}.

Definition with_next_ambient_spm (v : Z) (t : pgm_transport_t) : pgm_transport_t :=
  {|
    tsi_gsi := tsi_gsi t; tsi_sport := tsi_sport t; dport := dport t;
    udp_encap_ucast_port := udp_encap_ucast_port t;
    udp_encap_mcast_port := udp_encap_mcast_port t; send_gsr := send_gsr t;
    recv_gsr := recv_gsr t; recv_gsr_len := recv_gsr_len t; recv_sock := recv_sock t;
    send_sock := send_sock t; send_with_router_alert_sock := send_with_router_alert_sock t;
    can_send_data := can_send_data t; can_send_nak := can_send_nak t;
    can_recv_data := can_recv_data t; is_nonblocking := is_nonblocking t;
    use_multicast_loop := use_multicast_loop t; is_abort_on_reset := is_abort_on_reset t;
    is_bound := is_bound t; max_tpdu := max_tpdu t; hops := hops t; sndbuf := sndbuf t;
    rcvbuf := rcvbuf t; use_proactive_parity := use_proactive_parity t;
    use_ondemand_parity := use_ondemand_parity t; use_varpkt_len := use_varpkt_len t;
    rs_n := rs_n t; rs_k := rs_k t; rs_proactive_h := rs_proactive_h t; txw_sqns := txw_sqns t;
    txw_secs := txw_secs t; txw_max_rte := txw_max_rte t;
    spm_ambient_interval := spm_ambient_interval t; iphdr_len := iphdr_len t;
    max_tsdu := max_tsdu t; max_tsdu_fragment := max_tsdu_fragment t; max_apdu := max_apdu t;
    window := window t; peers_hashtable := peers_hashtable t; rand_ := rand_ t;
    pending_notify := pending_notify t; send_addr := send_addr t;
    rate_control := rate_control t; next_poll := next_poll t; next_ambient_spm := v;
    rx_buffer := rx_buffer t
  |}.

Definition with_rx_buffer (v : option Z) (t : pgm_transport_t) : pgm_transport_t :=
  {|
    tsi_gsi := tsi_gsi t; tsi_sport := tsi_sport t; dport := dport t;
    udp_encap_ucast_port := udp_encap_ucast_port t;
    udp_encap_mcast_port := udp_encap_mcast_port t; send_gsr := send_gsr t;
    recv_gsr := recv_gsr t; recv_gsr_len := recv_gsr_len t; recv_sock := recv_sock t;
    send_sock := send_sock t; send_with_router_alert_sock := send_with_router_alert_sock t;
    can_send_data := can_send_data t; can_send_nak := can_send_nak t;
    can_recv_data := can_recv_data t; is_nonblocking := is_nonblocking t;
    use_multicast_loop := use_multicast_loop t; is_abort_on_reset := is_abort_on_reset t;
    is_bound := is_bound t; max_tpdu := max_tpdu t; hops := hops t; sndbuf := sndbuf t;
    rcvbuf := rcvbuf t; use_proactive_parity := use_proactive_parity t;
    use_ondemand_parity := use_ondemand_parity t; use_varpkt_len := use_varpkt_len t;
    rs_n := rs_n t; rs_k := rs_k t; rs_proactive_h := rs_proactive_h t; txw_sqns := txw_sqns t;
    txw_secs := txw_secs t; txw_max_rte := txw_max_rte t;
    spm_ambient_interval := spm_ambient_interval t; iphdr_len := iphdr_len t;
    max_tsdu := max_tsdu t; max_tsdu_fragment := max_tsdu_fragment t; max_apdu := max_apdu t;
    window := window t; peers_hashtable := peers_hashtable t; rand_ := rand_ t;
    pending_notify := pending_notify t; send_addr := send_addr t;
    rate_control := rate_control t; next_poll := next_poll t;
    next_ambient_spm := next_ambient_spm t; rx_buffer := v
  |}.

Definition with_is_bound (v : bool) (t : pgm_transport_t) : pgm_transport_t :=
  {|
    tsi_gsi := tsi_gsi t; tsi_sport := tsi_sport t; dport := dport t;
    udp_encap_ucast_port := udp_encap_ucast_port t;
    udp_encap_mcast_port := udp_encap_mcast_port t; send_gsr := send_gsr t;
    recv_gsr := recv_gsr t; recv_gsr_len := recv_gsr_len t; recv_sock := recv_sock t;
    send_sock := send_sock t; send_with_router_alert_sock := send_with_router_alert_sock t;
    can_send_data := can_send_data t; can_send_nak := can_send_nak t;
    can_recv_data := can_recv_data t; is_nonblocking := is_nonblocking t;
    use_multicast_loop := use_multicast_loop t; is_abort_on_reset := is_abort_on_reset t;
    is_bound := v; max_tpdu := max_tpdu t; hops := hops t; sndbuf := sndbuf t;
    rcvbuf := rcvbuf t; use_proactive_parity := use_proactive_parity t;
    use_ondemand_parity := use_ondemand_parity t; use_varpkt_len := use_varpkt_len t;
    rs_n := rs_n t; rs_k := rs_k t; rs_proactive_h := rs_proactive_h t; txw_sqns := txw_sqns t;
    txw_secs := txw_secs t; txw_max_rte := txw_max_rte t;
    spm_ambient_interval := spm_ambient_interval t; iphdr_len := iphdr_len t;
    max_tsdu := max_tsdu t; max_tsdu_fragment := max_tsdu_fragment t; max_apdu := max_apdu t;
    window := window t; peers_hashtable := peers_hashtable t; rand_ := rand_ t;
    pending_notify := pending_notify t; send_addr := send_addr t;
    rate_control := rate_control t; next_poll := next_poll t;
    next_ambient_spm := next_ambient_spm t; rx_buffer := rx_buffer t
  |}.

Definition with_txw_sqns (v : Z) (t : pgm_transport_t) : pgm_transport_t :=
  {|
    tsi_gsi := tsi_gsi t; tsi_sport := tsi_sport t; dport := dport t;
    udp_encap_ucast_port := udp_encap_ucast_port t;
    udp_encap_mcast_port := udp_encap_mcast_port t; send_gsr := send_gsr t;
    recv_gsr := recv_gsr t; recv_gsr_len := recv_gsr_len t; recv_sock := recv_sock t;
    send_sock := send_sock t; send_with_router_alert_sock := send_with_router_alert_sock t;
    can_send_data := can_send_data t; can_send_nak := can_send_nak t;
    can_recv_data := can_recv_data t; is_nonblocking := is_nonblocking t;
    use_multicast_loop := use_multicast_loop t; is_abort_on_reset := is_abort_on_reset t;
    is_bound := is_bound t; max_tpdu := max_tpdu t; hops := hops t; sndbuf := sndbuf t;
    rcvbuf := rcvbuf t; use_proactive_parity := use_proactive_parity t;
    use_ondemand_parity := use_ondemand_parity t; use_varpkt_len := use_varpkt_len t;
    rs_n := rs_n t; rs_k := rs_k t; rs_proactive_h := rs_proactive_h t; txw_sqns := v;
    txw_secs := txw_secs t; txw_max_rte := txw_max_rte t;
    spm_ambient_interval := spm_ambient_interval t; iphdr_len := iphdr_len t;
    max_tsdu := max_tsdu t; max_tsdu_fragment := max_tsdu_fragment t; max_apdu := max_apdu t;
    window := window t; peers_hashtable := peers_hashtable t; rand_ := rand_ t;
    pending_notify := pending_notify t; send_addr := send_addr t;
    rate_control := rate_control t; next_poll := next_poll t;
    next_ambient_spm := next_ambient_spm t; rx_buffer := rx_buffer t
  |}.

Definition with_txw_secs (v : Z) (t : pgm_transport_t) : pgm_transport_t :=
  {|
    tsi_gsi := tsi_gsi t; tsi_sport := tsi_sport t; dport := dport t;
    udp_encap_ucast_port := udp_encap_ucast_port t;
    udp_encap_mcast_port := udp_encap_mcast_port t; send_gsr := send_gsr t;
    recv_gsr := recv_gsr t; recv_gsr_len := recv_gsr_len t; recv_sock := recv_sock t;
    send_sock := send_sock t; send_with_router_alert_sock := send_with_router_alert_sock t;
    can_send_data := can_send_data t; can_send_nak := can_send_nak t;
    can_recv_data := can_recv_data t; is_nonblocking := is_nonblocking t;
    use_multicast_loop := use_multicast_loop t; is_abort_on_reset := is_abort_on_reset t;
    is_bound := is_bound t; max_tpdu := max_tpdu t; hops := hops t; sndbuf := sndbuf t;
    rcvbuf := rcvbuf t; use_proactive_parity := use_proactive_parity t;
    use_ondemand_parity := use_ondemand_parity t; use_varpkt_len := use_varpkt_len t;
    rs_n := rs_n t; rs_k := rs_k t; rs_proactive_h := rs_proactive_h t; txw_sqns := txw_sqns t;
    txw_secs := v; txw_max_rte := txw_max_rte t; spm_ambient_interval := spm_ambient_interval t;
    iphdr_len := iphdr_len t; max_tsdu := max_tsdu t; max_tsdu_fragment := max_tsdu_fragment t;
    max_apdu := max_apdu t; window := window t; peers_hashtable := peers_hashtable t;
    rand_ := rand_ t; pending_notify := pending_notify t; send_addr := send_addr t;
    rate_control := rate_control t; next_poll := next_poll t;
    next_ambient_spm := next_ambient_spm t; rx_buffer := rx_buffer t
  |}.

Definition with_txw_max_rte (v : Z) (t : pgm_transport_t) : pgm_transport_t :=
  {|
    tsi_gsi := tsi_gsi t; tsi_sport := tsi_sport t; dport := dport t;
    udp_encap_ucast_port := udp_encap_ucast_port t;
    udp_encap_mcast_port := udp_encap_mcast_port t; send_gsr := send_gsr t;
    recv_gsr := recv_gsr t; recv_gsr_len := recv_gsr_len t; recv_sock := recv_sock t;
    send_sock := send_sock t; send_with_router_alert_sock := send_with_router_alert_sock t;
    can_send_data := can_send_data t; can_send_nak := can_send_nak t;
    can_recv_data := can_recv_data t; is_nonblocking := is_nonblocking t;
    use_multicast_loop := use_multicast_loop t; is_abort_on_reset := is_abort_on_reset t;
    is_bound := is_bound t; max_tpdu := max_tpdu t; hops := hops t; sndbuf := sndbuf t;
    rcvbuf := rcvbuf t; use_proactive_parity := use_proactive_parity t;
    use_ondemand_parity := use_ondemand_parity t; use_varpkt_len := use_varpkt_len t;
    rs_n := rs_n t; rs_k := rs_k t; rs_proactive_h := rs_proactive_h t; txw_sqns := txw_sqns t;
    txw_secs := txw_secs t; txw_max_rte := v; spm_ambient_interval := spm_ambient_interval t;
    iphdr_len := iphdr_len t; max_tsdu := max_tsdu t; max_tsdu_fragment := max_tsdu_fragment t;
    max_apdu := max_apdu t; window := window t; peers_hashtable := peers_hashtable t;
    rand_ := rand_ t; pending_notify := pending_notify t; send_addr := send_addr t;
    rate_control := rate_control t; next_poll := next_poll t;
    next_ambient_spm := next_ambient_spm t; rx_buffer := rx_buffer t
  |}.

Definition with_spm_ambient_interval (v : Z) (t : pgm_transport_t) : pgm_transport_t :=
  {|
    tsi_gsi := tsi_gsi t; tsi_sport := tsi_sport t; dport := dport t;
    udp_encap_ucast_port := udp_encap_ucast_port t;
    udp_encap_mcast_port := udp_encap_mcast_port t; send_gsr := send_gsr t;
    recv_gsr := recv_gsr t; recv_gsr_len := recv_gsr_len t; recv_sock := recv_sock t;
    send_sock := send_sock t; send_with_router_alert_sock := send_with_router_alert_sock t;
    can_send_data := can_send_data t; can_send_nak := can_send_nak t;
    can_recv_data := can_recv_data t; is_nonblocking := is_nonblocking t;
    use_multicast_loop := use_multicast_loop t; is_abort_on_reset := is_abort_on_reset t;
    is_bound := is_bound t; max_tpdu := max_tpdu t; hops := hops t; sndbuf := sndbuf t;
    rcvbuf := rcvbuf t; use_proactive_parity := use_proactive_parity t;
    use_ondemand_parity := use_ondemand_parity t; use_varpkt_len := use_varpkt_len t;
    rs_n := rs_n t; rs_k := rs_k t; rs_proactive_h := rs_proactive_h t; txw_sqns := txw_sqns t;
    txw_secs := txw_secs t; txw_max_rte := txw_max_rte t; spm_ambient_interval := v;
    iphdr_len := iphdr_len t; max_tsdu := max_tsdu t; max_tsdu_fragment := max_tsdu_fragment t;
    max_apdu := max_apdu t; window := window t; peers_hashtable := peers_hashtable t;
    rand_ := rand_ t; pending_notify := pending_notify t; send_addr := send_addr t;
    rate_control := rate_control t; next_poll := next_poll t;
    next_ambient_spm := next_ambient_spm t; rx_buffer := rx_buffer t
  |}.

(** g_malloc0: every field zero. *)
Definition transport_zero : pgm_transport_t :=
  {|
    tsi_gsi := replicate 6 0; tsi_sport := 0; dport := 0;
    udp_encap_ucast_port := 0; udp_encap_mcast_port := 0; send_gsr := gsr_zero;
    recv_gsr := replicate IP_MAX_MEMBERSHIPS gsr_zero; recv_gsr_len := 0%nat;
    recv_sock := 0; send_sock := 0; send_with_router_alert_sock := 0;
    can_send_data := false; can_send_nak := false; can_recv_data := false;
    is_nonblocking := false; use_multicast_loop := false; is_abort_on_reset := false;
    is_bound := false; max_tpdu := 0; hops := 0; sndbuf := 0; rcvbuf := 0;
    use_proactive_parity := false; use_ondemand_parity := false; use_varpkt_len := false;
    rs_n := 0; rs_k := 0; rs_proactive_h := 0; txw_sqns := 0; txw_secs := 0;
    txw_max_rte := 0; spm_ambient_interval := 0; iphdr_len := 0; max_tsdu := 0;
    max_tsdu_fragment := 0; max_apdu := 0; window := None; peers_hashtable := None;
    rand_ := false; pending_notify := false; send_addr := sockaddr_zero;
    rate_control := None; next_poll := 0; next_ambient_spm := 0; rx_buffer := None
  |}.

(** The receive group-source list: the slots of [recv_gsr] in use. *)
Definition recv_list (t : pgm_transport_t) : list group_source_req :=
  take (recv_gsr_len t) (recv_gsr t).

(** ** External calls *)

Inductive mutex_id : Type :=
| Transport_mutex
| Send_mutex
| Send_with_router_alert_mutex.

(** The value handed to [setsockopt]. *)
Inductive optval : Type :=
| Opt_int (v : Z)
| Opt_group_req (gr : group_req)
| Opt_group_source_req (gsr : group_source_req).

(** The places of [pgm_transport_bind] and [pgm_transport_create] that
    report an error with [g_set_error]. *)
Inductive error_site : Type :=
| Err_notify_init
| Err_reuseaddr
| Err_pktinfo
| Err_hdrincl
| Err_rcvbuf
| Err_sndbuf
| Err_bind_recv
| Err_bind_send
| Err_bind_router_alert
| Err_join_group
| Err_join_source_group
| Err_multicast_if
| Err_multicast_if_router_alert
| Err_multicast_loop
| Err_multicast_hops
| Err_send_spm
| Err_socket_recv
| Err_socket_send
| Err_socket_router_alert.

Inductive warning : Type :=
| Warn_sendto_failed
| Warn_sendto_timeout
| Warn_blocked_sendto_failed
| Warn_no_wmem_max
| Warn_no_rmem_max
| Warn_no_cap_net_raw
| Warn_no_cap_net_admin
| Critical_check_failed.

(** Every interaction of the embedded functions with code outside the two
    source files: system calls, GLib, and the other PGM modules. *)
Inductive call : Type :=
| Mutex_init (m : mutex_id)
| Mutex_lock (m : mutex_id)
| Mutex_unlock (m : mutex_id)
| Mutex_free (m : mutex_id)
| G_warning (w : warning)
| G_set_error (site : error_site)
| Rate_check (rc : option rate_t) (len flags : Z)
| Sendto (sock : Z) (buf : list Z) (len flags : Z) (to : sockaddr) (tolen : Z)
| Poll (fd events timeout_ms : Z)
| Select (nfds : Z) (writefds : list Z) (tv_sec tv_usec : Z)
| Socket (family type protocol : Z)
| Close (fd : Z)
| Random_int_range (lo hi : Z)
| Fopen_mem_max (is_wmem : bool)
| Fscanf_int
| Fclose
| Setsockopt (sock level optname : Z) (v : optval) (len : Z)
| Rand_new
| Notify_init
| Txw_create (w : txw_t)
| Hash_table_new
| Sockaddr_pktinfo (sock family : Z) (v : bool)
| Sockaddr_hdrincl (sock family : Z) (v : bool)
| Indextoaddr (ifindex family scope : Z)
| If_indextoaddr (ifindex family scope : Z)
| If_getnodeaddr (family : Z)
| Bind (sock : Z) (addr : sockaddr)
| Sockaddr_multicast_if (sock : Z) (addr : sockaddr) (ifindex : Z)
| Sockaddr_multicast_loop (sock family : Z) (v : bool)
| Sockaddr_multicast_hops (sock family hops : Z)
| Sockaddr_tos (sock family tos : Z)
| Rate_create (r : rate_t)
| Send_spm_unlocked
| Time_update_now
| Sockaddr_nonblocking (sock : Z) (v : bool)
| Alloc_skb (size : Z)
| Timer_prepare
| Transport_list_append.

(** What a call answers: its return value, the [errno] it leaves when it
    fails, and the address it writes through an out-parameter. *)
Record reply : Type := mk_reply {
  r_val : Z;
  r_errno : Z;
  r_addr : sockaddr
}.

Definition reply_ok : reply := mk_reply 0 0 sockaddr_zero.
Definition reply_val (v : Z) : reply := mk_reply v 0 sockaddr_zero.
Definition reply_err (v e : Z) : reply := mk_reply v e sockaddr_zero.

(** A logged call with the answer it got. *)
Definition event : Type := call * reply.

(** The world outside: the log of the calls made so far, each with its
    answer, the oracle that answers a call given its position in the log,
    and [errno]. *)
Record world : Type := mk_world {
  w_oracle : nat -> call -> reply;
  w_trace : list event;
  w_errno : Z
}.

Definition world_init (o : nat -> call -> reply) : world := mk_world o [] 0.

Definition next_reply (w : world) (c : call) : reply := w_oracle w (length (w_trace w)) c.

(** The world after call [c] was answered [r]: a negative answer leaves its
    [errno]. *)
Definition log (c : call) (r : reply) (w : world) : world :=
  mk_world (w_oracle w) (w_trace w ++ [(c, r)])
           (if r_val r <? 0 then r_errno r else w_errno w).

(** ** The monad of the embedded C functions *)

Inductive result (A : Type) : Type :=
| Val (a : A)
| Return (v : Z)
| Abort
| Out_of_fuel.
Arguments Val {A} a.
Arguments Return {A} v.
Arguments Abort {A}.
Arguments Out_of_fuel {A}.

Definition M (A : Type) : Type :=
  pgm_transport_t -> world -> result A * pgm_transport_t * world.

Definition ret {A : Type} (a : A) : M A := fun t w => (Val a, t, w).

Definition bindM {A B : Type} (m : M A) (k : A -> M B) : M B :=
  fun t w =>
    match m t w with
    | (Val a, t', w') => k a t' w'
    | (Return v, t', w') => (Return v, t', w')
    | (Abort, t', w') => (Abort, t', w')
    | (Out_of_fuel, t', w') => (Out_of_fuel, t', w')
    end.

#[global] Instance M_ret : MRet M := @ret.
#[global] Instance M_bind : MBind M := fun A B k m => bindM m k.

(** [return v;] *)
Definition return_ {A : Type} (v : Z) : M A := fun t w => (Return v, t, w).

(** A failed [g_assert] ends the process. *)
Definition abort {A : Type} : M A := fun t w => (Abort, t, w).
Definition out_of_fuel {A : Type} : M A := fun t w => (Out_of_fuel, t, w).

Definition get : M pgm_transport_t := fun t w => (Val t, t, w).
Definition modify (f : pgm_transport_t -> pgm_transport_t) : M unit :=
  fun t w => (Val tt, f t, w).
Definition get_errno : M Z := fun t w => (Val (w_errno w), t, w).

(** An external call: answered by the oracle and logged. *)
Definition sys_reply (c : call) : M reply :=
  fun t w => (Val (next_reply w c), t, log c (next_reply w c) w).

Definition sys (c : call) : M Z := r ← sys_reply c; mret (r_val r).
Definition emit (c : call) : M unit := _ ← sys_reply c; mret tt.

Definition g_assert (c : bool) : M unit := if c then mret tt else abort.

(** [g_return_val_if_fail (c, v)] logs a critical message and returns [v]
    when [c] is false. *)
Definition g_return_val_if_fail (c : bool) (v : Z) : M unit :=
  if c then mret tt else (emit (G_warning Critical_check_failed);; return_ v).

Definition when (c : bool) (m : M unit) : M unit := if c then m else mret tt.

(** A whole C function: its body's [Return v] is the function's value. *)
Definition fn (body : M Z) : M Z :=
  fun t w =>
    match body t w with
    | (Return v, t', w') => (Val v, t', w')
    | other => other
    end.

Definition c_bool (b : bool) : Z := if b then TRUE else FALSE.
Definition nonzero (z : Z) : bool := negb (z =? 0).

(** ** [net.c] *)

Section Net.

(** Whether the build has [poll] ([CONFIG_HAVE_POLL]); without it the wait
    is a [select]. *)
Variable CONFIG_HAVE_POLL : bool.

(** The wait for a cleared socket inside [_pgm_sendto]. *)
Definition wait_send_sock : M Z :=
  t ← get;
  if CONFIG_HAVE_POLL
  then sys (Poll (send_sock t) POLLOUT 500)
  else sys (Select 1 [send_sock t] 0 (500 * 1000)).

(** The test that guards the retry: the first [sendto] failed and [errno] is
    none of the three excluded cases. *)
Definition sendto_needs_wait (sent e flags : Z) : bool :=
  (sent <? 0) &&
  negb (e =? ENETUNREACH) &&
  negb (e =? EHOSTUNREACH) &&
  negb ((e =? EAGAIN) && nonzero (Z.land flags MSG_DONTWAIT)).

Definition _pgm_sendto (use_rate_limit use_router_alert : bool)
    (buf : list Z) (len flags : Z) (to : sockaddr) (tolen : Z) : M Z :=
  fn (
    g_assert (0 <? len);;
    g_assert (0 <? tolen);;
    t ← get;
    let mutex := if use_router_alert then Send_with_router_alert_mutex else Send_mutex in
    let sock := if use_router_alert then send_with_router_alert_sock t else send_sock t in
    when use_rate_limit (
      check ← sys (Rate_check (rate_control t) len flags);
      e ← get_errno;
      if (check <? 0) && (e =? EAGAIN) then return_ check else mret tt);;
    emit (Mutex_lock mutex);;
    sent ← sys (Sendto sock buf len flags to tolen);
    e ← get_errno;
    sent ← (if sendto_needs_wait sent e flags then
              ready ← wait_send_sock;
              if 0 <? ready then
                sent ← sys (Sendto sock buf len flags to tolen);
                when (sent <? 0) (emit (G_warning Warn_sendto_failed));;
                mret sent
              else if ready =? 0 then
                emit (G_warning Warn_sendto_timeout);; mret sent
              else
                emit (G_warning Warn_blocked_sendto_failed);; mret sent
            else mret sent);
    emit (Mutex_unlock mutex);;
    return_ sent).

End Net.

(** ** [transport.c]: packet offset and the configurators *)

Definition pgm_transport_pkt_offset (can_fragment : bool) : Z :=
  if can_fragment
  then sizeof_pgm_header + sizeof_pgm_data + sizeof_pgm_opt_length
       + sizeof_pgm_opt_header + sizeof_pgm_opt_fragment
  else sizeof_pgm_header + sizeof_pgm_data.

(** [max_tpdu] is the value of a [guint16] parameter: the function is
    called with [0 <= max_tpdu < 65536] only. *)
Definition pgm_transport_set_max_tpdu (max_tpdu : Z) : M Z :=
  fn (
    t ← get;
    g_return_val_if_fail (negb (is_bound t)) FALSE;;
    g_return_val_if_fail (sizeof_pgm_ip + sizeof_pgm_header <=? max_tpdu) FALSE;;
    emit (Mutex_lock Transport_mutex);;
    modify (with_max_tpdu max_tpdu);;
    emit (Mutex_unlock Transport_mutex);;
    return_ TRUE).

Definition pgm_transport_set_multicast_loop (use_multicast_loop : bool) : M Z :=
  fn (
    t ← get;
    g_return_val_if_fail (negb (is_bound t)) FALSE;;
    emit (Mutex_lock Transport_mutex);;
    modify (with_use_multicast_loop use_multicast_loop);;
    emit (Mutex_unlock Transport_mutex);;
    return_ TRUE).

Definition pgm_transport_set_hops (hops : Z) : M Z :=
  fn (
    t ← get;
    g_return_val_if_fail (negb (is_bound t)) FALSE;;
    g_return_val_if_fail (0 <? hops) FALSE;;
    g_return_val_if_fail (hops <? 256) FALSE;;
    emit (Mutex_lock Transport_mutex);;
    modify (with_hops hops);;
    emit (Mutex_unlock Transport_mutex);;
    return_ TRUE).

(** The bound read from [/proc/sys/net/core/{w,r}mem_max], when the file
    opens: a size above it is refused with [-EINVAL]. *)
Definition check_mem_max (is_wmem : bool) (size : Z) : M unit :=
  fp ← sys (Fopen_mem_max is_wmem);
  if nonzero fp then
    mem_max ← sys Fscanf_int;
    emit Fclose;;
    g_return_val_if_fail (size <=? mem_max) (- EINVAL)
  else
    emit (G_warning (if is_wmem then Warn_no_wmem_max else Warn_no_rmem_max)).

Definition pgm_transport_set_sndbuf (size : Z) : M Z :=
  fn (
    t ← get;
    g_return_val_if_fail (negb (is_bound t)) FALSE;;
    g_return_val_if_fail (0 <? size) FALSE;;
    check_mem_max true size;;
    emit (Mutex_lock Transport_mutex);;
    modify (with_sndbuf size);;
    emit (Mutex_unlock Transport_mutex);;
    return_ TRUE).

Definition pgm_transport_set_rcvbuf (size : Z) : M Z :=
  fn (
    t ← get;
    g_return_val_if_fail (negb (is_bound t)) FALSE;;
    g_return_val_if_fail (0 <? size) FALSE;;
    check_mem_max false size;;
    emit (Mutex_lock Transport_mutex);;
    modify (with_rcvbuf size);;
    emit (Mutex_unlock Transport_mutex);;
    return_ TRUE).

(** [guint] arithmetic: 32 bits, wrapping. *)
Definition guint_wrap (z : Z) : Z := z mod 2 ^ 32.

(** [( (default_h * 223.0) / default_k ) < 1.0], for [guint] operands.  The
    product of a 32-bit integer and 223 is exact in a double, the quotient
    is correctly rounded, and no quotient of two such integers rounds across
    1.0; so the comparison is decided by the integers. *)
Definition parity_ratio_below_one (default_h default_k : Z) : bool :=
  default_h * 223 <? default_k.

Definition pgm_transport_set_fec (proactive_h : Z) (use_ondemand_parity use_varpkt_len : bool)
    (default_n default_k : Z) : M Z :=
  fn (
    g_return_val_if_fail (Z.land default_k (guint_wrap (default_k - 1)) =? 0) FALSE;;
    g_return_val_if_fail ((2 <=? default_k) && (default_k <=? 128)) FALSE;;
    g_return_val_if_fail ((guint_wrap (default_k + 1) <=? default_n) && (default_n <=? 255))
                         FALSE;;
    let default_h := guint_wrap (default_n - default_k) in
    g_return_val_if_fail (proactive_h <=? default_h) FALSE;;
    (* g_error is fatal: the [return FALSE] after it is not reached *)
    (if (223 <? default_k) && parity_ratio_below_one default_h default_k
     then abort else mret tt);;
    emit (Mutex_lock Transport_mutex);;
    modify (with_use_proactive_parity (0 <? proactive_h));;
    modify (with_use_ondemand_parity use_ondemand_parity);;
    modify (with_use_varpkt_len use_varpkt_len);;
    modify (with_rs_n default_n);;
    modify (with_rs_k default_k);;
    modify (with_rs_proactive_h proactive_h);;
    emit (Mutex_unlock Transport_mutex);;
    return_ TRUE).

Definition pgm_transport_set_send_only (send_only : bool) : M Z :=
  fn (
    emit (Mutex_lock Transport_mutex);;
    modify (with_can_recv_data (negb send_only));;
    emit (Mutex_unlock Transport_mutex);;
    return_ TRUE).

Definition pgm_transport_set_recv_only (is_passive : bool) : M Z :=
  fn (
    emit (Mutex_lock Transport_mutex);;
    modify (with_can_send_data false);;
    modify (with_can_send_nak (negb is_passive));;
    emit (Mutex_unlock Transport_mutex);;
    return_ TRUE).

Definition pgm_transport_set_abort_on_reset (abort_on_reset : bool) : M Z :=
  fn (
    emit (Mutex_lock Transport_mutex);;
    modify (with_is_abort_on_reset abort_on_reset);;
    emit (Mutex_unlock Transport_mutex);;
    return_ TRUE).

Definition pgm_transport_set_nonblocking (nonblocking : bool) : M Z :=
  fn (
    emit (Mutex_lock Transport_mutex);;
    modify (with_is_nonblocking nonblocking);;
    emit (Mutex_unlock Transport_mutex);;
    return_ TRUE).

(** ** [transport.c]: group membership, creation and binding *)

Section Transport.

(** [pgm_sockaddr_cmp] of [pgm/sockaddr.h]: zero when two addresses are the
    same. *)
Variable pgm_sockaddr_cmp : sockaddr -> sockaddr -> Z.

(** [recv_gsr[i]]. *)
Definition recv_slot (t : pgm_transport_t) (i : nat) : group_source_req :=
  nth i (recv_gsr t) gsr_zero.

Definition SOCKADDR_TO_LEVEL (sa : sockaddr) : Z :=
  if AF_INET =? pgm_sockaddr_family sa then IPPROTO_IP else IPPROTO_IPV6.

Definition TRANSPORT_TO_LEVEL (t : pgm_transport_t) : Z :=
  SOCKADDR_TO_LEVEL (gsr_group (recv_slot t 0)).

(** The test of the duplicate scan in [pgm_transport_join_group]. *)
Definition join_group_dup (gr : group_req) (e : group_source_req) : bool :=
  (pgm_sockaddr_cmp (gr_group gr) (gsr_group e) =? 0) &&
  (pgm_sockaddr_cmp (gr_group gr) (gsr_source e) =? 0) &&
  ((gr_interface gr =? gsr_interface e) || (0 =? gsr_interface e)).

(** The slot written by [pgm_transport_join_group]: interface zero, group
    and source both copied from [gr->gr_group]. *)
Definition join_group_entry (gr : group_req) : group_source_req :=
  mk_group_source_req 0 (gr_group gr) (gr_group gr).

Definition pgm_transport_join_group (gr : group_req) (len : Z) : M Z :=
  fn (
    g_return_val_if_fail (sizeof_group_req =? len) (- EINVAL);;
    t ← get;
    g_return_val_if_fail (recv_gsr_len t <? IP_MAX_MEMBERSHIPS)%nat (- EINVAL);;
    (if existsb (join_group_dup gr) (recv_list t) then return_ (- EINVAL) else mret tt);;
    modify (fun t => with_recv_gsr (<[recv_gsr_len t := join_group_entry gr]> (recv_gsr t)) t);;
    modify (fun t => with_recv_gsr_len (S (recv_gsr_len t)) t);;
    t ← get;
    r ← sys (Setsockopt (recv_sock t) (TRANSPORT_TO_LEVEL t) MCAST_JOIN_GROUP
                         (Opt_group_req gr) len);
    return_ r).

(** [memmove (&a[dst], &a[src], n * sizeof (struct group_source_req))]. *)
Definition memmove_slots (a : list group_source_req) (dst src n : nat)
  : list group_source_req :=
  take dst a ++ take n (drop src a) ++ drop (dst + n) a.

Definition leave_group_match (gr : group_req) (e : group_source_req) : bool :=
  (pgm_sockaddr_cmp (gr_group gr) (gsr_group e) =? 0) &&
  ((gr_interface gr =? 0) || (gr_interface gr =? gsr_interface e)).

(** The scan of [pgm_transport_leave_group], from index [i]; [None] when
    [fuel] iterations do not finish it. *)
Fixpoint leave_group_loop (fuel : nat) (gr : group_req) (i : nat)
    (a : list group_source_req) (len : nat) : option (list group_source_req * nat) :=
  if (i <? len)%nat then
    match fuel with
    | O => None
    | S fuel' =>
        if leave_group_match gr (nth i a gsr_zero) then
          let len' := (len - 1)%nat in
          if (i <? IP_MAX_MEMBERSHIPS - 1)%nat
          then leave_group_loop fuel' gr i (memmove_slots a i (i + 1) (len' - i)) len'
          else leave_group_loop fuel' gr (S i) a len'
        else leave_group_loop fuel' gr (S i) a len
    end
  else Some (a, len).

Definition pgm_transport_leave_group (gr : group_req) (len : Z) : M Z :=
  fn (
    g_return_val_if_fail (sizeof_group_req =? len) (- EINVAL);;
    t ← get;
    g_return_val_if_fail (recv_gsr_len t =? 0)%nat (- EINVAL);;
    match leave_group_loop (recv_gsr_len t) gr 0 (recv_gsr t) (recv_gsr_len t) with
    | None => out_of_fuel
    | Some (a, n) => modify (with_recv_gsr a);; modify (with_recv_gsr_len n)
    end;;
    t ← get;
    r ← sys (Setsockopt (recv_sock t) (TRANSPORT_TO_LEVEL t) MCAST_LEAVE_GROUP
                         (Opt_group_req gr) len);
    return_ r).

(** What lies at the address of the parameter [gsr] of
    [pgm_transport_join_source_group]: the pointer it holds, and the memory
    that follows the parameter, as far as a [struct group_source_req] laid
    over it reaches. *)
Record gsr_param : Type := mk_gsr_param {
  gsr_pointer : Z;
  gsr_beyond_group : sockaddr;
  gsr_beyond_source : sockaddr
}.

(** [memcpy (dst, &gsr, sizeof (struct group_source_req))]: the structure
    read off the parameter's own storage.  The leading four bytes, where
    [gsr_interface] lives, are the low half of the pointer. *)
Definition gsr_of_param (p : gsr_param) : group_source_req :=
  mk_group_source_req (gsr_pointer p mod 2 ^ 32) (gsr_beyond_group p) (gsr_beyond_source p).

Definition join_source_group_match (gsr e : group_source_req) : bool :=
  (pgm_sockaddr_cmp (gsr_group gsr) (gsr_group e) =? 0) &&
  ((gsr_interface gsr =? gsr_interface e) || (0 =? gsr_interface e)).

(** [gsr] is the structure the argument points to, [p] the argument's own
    storage. *)
Definition pgm_transport_join_source_group (p : gsr_param) (gsr : group_source_req)
    (len : Z) : M Z :=
  fn (
    g_return_val_if_fail (nonzero (gsr_pointer p)) (- EINVAL);;
    g_return_val_if_fail (sizeof_group_source_req =? len) (- EINVAL);;
    t ← get;
    g_return_val_if_fail (recv_gsr_len t <? IP_MAX_MEMBERSHIPS)%nat (- EINVAL);;
    match find (join_source_group_match gsr) (recv_list t) with
    | Some e =>
        if pgm_sockaddr_cmp (gsr_source gsr) (gsr_source e) =? 0
        then return_ (- EINVAL) else mret tt
    | None => mret tt
    end;;
    modify (fun t => with_recv_gsr (<[recv_gsr_len t := gsr_of_param p]> (recv_gsr t)) t);;
    modify (fun t => with_recv_gsr_len (S (recv_gsr_len t)) t);;
    t ← get;
    r ← sys (Setsockopt (recv_sock t) (TRANSPORT_TO_LEVEL t) MCAST_JOIN_SOURCE_GROUP
                         (Opt_group_source_req gsr) len);
    return_ r).

(** *** [pgm_transport_create] *)

Record pgm_transport_info_t : Type := mk_tinfo {
  ti_gsi : list Z;
  ti_udp_encap_ucast_port : Z;
  ti_udp_encap_mcast_port : Z;
  ti_sport : Z;
  ti_dport : Z;
  ti_recv_addrs_len : nat;
  ti_recv_addrs : option (list group_source_req);
  ti_send_addrs_len : nat;
  ti_send_addrs : option (list group_source_req)
}.

(** [g_htons]: the two bytes of a [guint16] swapped. *)
Definition g_htons (val : Z) : Z :=
  let v := val mod 65536 in
  Z.lor (Z.shiftr v 8) (Z.shiftl v 8 mod 65536).

Definition addr_at (a : option (list group_source_req)) (i : nat) : group_source_req :=
  nth i (default [] a) gsr_zero.

(** The family checks over [ti_recv_addrs[0 .. len)]. *)
Definition recv_families_ok (tinfo : pgm_transport_info_t) : bool :=
  forallb
    (fun i =>
       (pgm_sockaddr_family (gsr_group (addr_at (ti_recv_addrs tinfo) i))
        =? pgm_sockaddr_family (gsr_group (addr_at (ti_recv_addrs tinfo) 0))) &&
       (pgm_sockaddr_family (gsr_group (addr_at (ti_recv_addrs tinfo) i))
        =? pgm_sockaddr_family (gsr_source (addr_at (ti_recv_addrs tinfo) i))))
    (seq 0 (ti_recv_addrs_len tinfo)).

(** The redraw loop for an unset source port; [fuel] bounds the draws. *)
Fixpoint draw_sport (fuel : nat) : M unit :=
  match fuel with
  | O => out_of_fuel
  | S fuel' =>
      r ← sys (Random_int_range 0 UINT16_MAX);
      modify (with_tsi_sport (g_htons r));;
      t ← get;
      if tsi_sport t =? dport t then draw_sport fuel' else mret tt
  end.

(** The copy of [ti_recv_addrs[i]] into [recv_gsr[i]] with the port of the
    group overwritten, for [i] from [i0] on. *)
Fixpoint copy_recv_addrs (n i : nat) (tinfo : pgm_transport_info_t)
    (t : pgm_transport_t) : pgm_transport_t :=
  match n with
  | O => t
  | S n' =>
      let e := addr_at (ti_recv_addrs tinfo) i in
      let e' := mk_group_source_req (gsr_interface e)
                  (with_sin_port (g_htons (udp_encap_mcast_port t)) (gsr_group e))
                  (gsr_source e) in
      copy_recv_addrs n' (S i) tinfo (with_recv_gsr (<[i := e']> (recv_gsr t)) t)
  end.

(** The exit through [err_destroy]. *)
Definition err_destroy : M Z :=
  t ← get;
  when (nonzero (recv_sock t)) (emit (Close (recv_sock t));; modify (with_recv_sock 0));;
  t ← get;
  when (nonzero (send_sock t)) (emit (Close (send_sock t));; modify (with_send_sock 0));;
  t ← get;
  when (nonzero (send_with_router_alert_sock t))
       (emit (Close (send_with_router_alert_sock t));;
        modify (with_send_with_router_alert_sock 0));;
  emit (Mutex_free Transport_mutex);;
  return_ FALSE.

(** The body of [pgm_transport_create], run on the freshly allocated
    structure. *)
Definition create_body (fuel : nat) (tinfo : pgm_transport_info_t) : M Z :=
  fn (
    when (nonzero (ti_sport tinfo))
         (g_return_val_if_fail (negb (ti_sport tinfo =? ti_dport tinfo)) FALSE);;
    (if nonzero (ti_udp_encap_ucast_port tinfo)
     then g_return_val_if_fail (nonzero (ti_udp_encap_mcast_port tinfo)) FALSE
     else when (nonzero (ti_udp_encap_mcast_port tinfo))
               (g_return_val_if_fail (nonzero (ti_udp_encap_ucast_port tinfo)) FALSE));;
    g_return_val_if_fail (0 <? ti_recv_addrs_len tinfo)%nat FALSE;;
    g_return_val_if_fail (ti_recv_addrs_len tinfo <=? IP_MAX_MEMBERSHIPS)%nat FALSE;;
    g_return_val_if_fail (bool_decide (is_Some (ti_recv_addrs tinfo))) FALSE;;
    g_return_val_if_fail (1 =? ti_send_addrs_len tinfo)%nat FALSE;;
    g_return_val_if_fail (bool_decide (is_Some (ti_send_addrs tinfo))) FALSE;;
    g_return_val_if_fail (recv_families_ok tinfo) (- FALSE);;
    g_return_val_if_fail
      (pgm_sockaddr_family (gsr_group (addr_at (ti_send_addrs tinfo) 0))
       =? pgm_sockaddr_family (gsr_source (addr_at (ti_send_addrs tinfo) 0))) (- FALSE);;
    (* new_transport = g_malloc0 (sizeof(pgm_transport_t)) *)
    modify (fun _ => transport_zero);;
    modify (with_can_send_data true);;
    modify (with_can_send_nak true);;
    modify (with_can_recv_data true);;
    emit (Mutex_init Send_mutex);;
    emit (Mutex_init Send_with_router_alert_mutex);;
    emit (Mutex_init Transport_mutex);;
    (* lock tx until bound *)
    emit (Mutex_lock Send_mutex);;
    modify (with_tsi_gsi (ti_gsi tinfo));;
    modify (with_dport (g_htons (ti_dport tinfo)));;
    (if nonzero (ti_sport tinfo)
     then modify (with_tsi_sport (g_htons (ti_sport tinfo)))
     else draw_sport fuel);;
    modify (with_udp_encap_ucast_port (ti_udp_encap_ucast_port tinfo));;
    modify (with_udp_encap_mcast_port (ti_udp_encap_mcast_port tinfo));;
    modify (fun t =>
      let e := addr_at (ti_send_addrs tinfo) 0 in
      with_send_gsr (mk_group_source_req (gsr_interface e)
                       (with_sin_port (g_htons (udp_encap_mcast_port t)) (gsr_group e))
                       (gsr_source e)) t);;
    modify (copy_recv_addrs (ti_recv_addrs_len tinfo) 0 tinfo);;
    modify (with_recv_gsr_len (ti_recv_addrs_len tinfo));;
    t ← get;
    let socket_type := if nonzero (udp_encap_ucast_port t) then SOCK_DGRAM else SOCK_RAW in
    let protocol := if nonzero (udp_encap_ucast_port t) then IPPROTO_UDP else ipproto_pgm in
    s ← sys (Socket (pgm_sockaddr_family (gsr_group (recv_slot t 0))) socket_type protocol);
    modify (with_recv_sock s);;
    (if s <? 0 then
       e ← get_errno;
       emit (G_set_error Err_socket_recv);;
       when (e =? EPERM) (emit (G_warning Warn_no_cap_net_raw));;
       err_destroy
     else mret 0);;
    s ← sys (Socket (pgm_sockaddr_family (gsr_group (send_gsr t))) socket_type protocol);
    modify (with_send_sock s);;
    (if s <? 0 then emit (G_set_error Err_socket_send);; err_destroy else mret 0);;
    s ← sys (Socket (pgm_sockaddr_family (gsr_group (send_gsr t))) socket_type protocol);
    modify (with_send_with_router_alert_sock s);;
    (if s <? 0 then emit (G_set_error Err_socket_router_alert);; err_destroy else mret 0);;
    emit Transport_list_append;;
    return_ TRUE).

(** [pgm_transport_create]: the new transport is handed out through
    [*transport] only when the body returns TRUE. *)
Definition pgm_transport_create (fuel : nat) (tinfo : pgm_transport_info_t) (w : world)
  : result Z * option pgm_transport_t * world :=
  match create_body fuel tinfo transport_zero w with
  | (Val v, t, w') => (Val v, if v =? TRUE then Some t else None, w')
  | (r, _, w') => (r, None, w')
  end.

(** *** [pgm_transport_bind] *)

(** Whether the build binds the receive socket to the any-address
    ([CONFIG_BIND_INADDR_ANY]). *)
Variable CONFIG_BIND_INADDR_ANY : bool.

(** [0 != call (...)]. *)
Definition fails (c : call) : M bool := r ← sys c; mret (nonzero r).

(** [!call (...)], for a callee that answers a [gboolean]. *)
Definition refuses (c : call) : M bool := r ← sys c; mret (r =? 0).

(** [a || b] on conditions with effects: [b] runs only when [a] is false. *)
Definition orM (a b : M bool) : M bool :=
  bindM a (fun x : bool => if x then mret true else b).

(** The common failure exit of [pgm_transport_bind]. *)
Definition bind_fail {A : Type} : M A :=
  emit (Mutex_unlock Transport_mutex);; return_ FALSE.

Definition bind_fail_with {A : Type} (site : error_site) : M A :=
  emit (G_set_error site);; bind_fail.

Definition pgm_secs (s : Z) : Z := s * 1000000.

(** Addition of [pgm_time_t] values: microseconds in 64 bits. *)
Definition pgm_time_add (a b : Z) : Z := (a + b) mod 2 ^ 64.

(** [gsize] arithmetic: 64 bits on the host, wrapping. *)
Definition gsize_wrap (z : Z) : Z := z mod 2 ^ 64.

(** Lines 588-630: random source, notification channel, sizing, transmit
    window and peer table.  The three sizes are computed in [gsize], the
    type of [iphdr_len] and of [pgm_transport_pkt_offset]: a [max_tpdu]
    below the headers gives a size that wraps around, not a negative one.
    The fields that receive the sizes are declared in [transport.h]; they
    are taken wide enough to hold a [gsize].  A notification channel whose
    creation fails is left as it was. *)
Definition bind_construct : M unit :=
  emit (Mutex_lock Transport_mutex);;
  r ← sys Rand_new;
  modify (with_rand_ (nonzero r));;
  g_assert (nonzero r);;
  t ← get;
  when (can_recv_data t) (
    failed ← fails Notify_init;
    if (failed : bool) then bind_fail_with Err_notify_init
    else modify (with_pending_notify true));;
  modify (fun t =>
    with_iphdr_len (if AF_INET =? pgm_sockaddr_family (gsr_group (send_gsr t))
                    then sizeof_pgm_ip else sizeof_pgm_ip6_hdr) t);;
  t ← get;
  when (nonzero (udp_encap_ucast_port t))
       (modify (fun t => with_iphdr_len (iphdr_len t + sizeof_pgm_udphdr) t));;
  modify (fun t =>
    with_max_tsdu
      (gsize_wrap (max_tpdu t - iphdr_len t - pgm_transport_pkt_offset false)) t);;
  modify (fun t =>
    with_max_tsdu_fragment
      (gsize_wrap (max_tpdu t - iphdr_len t - pgm_transport_pkt_offset true)) t);;
  modify (fun t =>
    with_max_apdu
      (gsize_wrap (Z.min PGM_MAX_FRAGMENTS (txw_sqns t) * max_tsdu_fragment t)) t);;
  t ← get;
  when (can_send_data t) (
    let fec := use_ondemand_parity t || use_proactive_parity t in
    let w := if nonzero (txw_sqns t)
             then mk_txw 0 (txw_sqns t) 0 0 fec (rs_n t) (rs_k t)
             else mk_txw (max_tpdu t) 0 (txw_secs t) (txw_max_rte t) fec (rs_n t) (rs_k t) in
    r ← sys (Txw_create w);
    modify (with_window (if nonzero r then Some w else None));;
    g_assert (nonzero r));;
  when (can_recv_data t) (
    r ← sys Hash_table_new;
    modify (with_peers_hashtable (if nonzero r then Some [] else None));;
    g_assert (nonzero r)).

(** Lines 632-724: socket sharing, packet information, buffer sizes. *)
Definition bind_socket_options : M unit :=
  t ← get;
  let recv_family := pgm_sockaddr_family (gsr_group (recv_slot t 0)) in
  (if nonzero (udp_encap_ucast_port t) then
     failed ← orM (fails (Setsockopt (recv_sock t) SOL_SOCKET SO_REUSEADDR (Opt_int TRUE) 4))
              (orM (fails (Setsockopt (send_sock t) SOL_SOCKET SO_REUSEADDR (Opt_int TRUE) 4))
                   (fails (Setsockopt (send_with_router_alert_sock t) SOL_SOCKET SO_REUSEADDR
                                      (Opt_int TRUE) 4)));
     (if (failed : bool) then bind_fail_with Err_reuseaddr else mret tt);;
     failed ← fails (Sockaddr_pktinfo (recv_sock t) recv_family true);
     if (failed : bool) then bind_fail_with Err_pktinfo else mret tt
   else if AF_INET =? recv_family then
     failed ← fails (Sockaddr_hdrincl (recv_sock t) recv_family true);
     if (failed : bool) then bind_fail_with Err_hdrincl else mret tt
   else
     g_assert (AF_INET6 =? recv_family);;
     failed ← fails (Sockaddr_pktinfo (recv_sock t) recv_family true);
     if (failed : bool) then bind_fail_with Err_pktinfo else mret tt);;
  when (nonzero (rcvbuf t)) (
    failed ← fails (Setsockopt (recv_sock t) SOL_SOCKET SO_RCVBUF (Opt_int (rcvbuf t)) 4);
    if (failed : bool) then bind_fail_with Err_rcvbuf else mret tt);;
  when (nonzero (sndbuf t)) (
    failed ← orM (fails (Setsockopt (send_sock t) SOL_SOCKET SO_SNDBUF (Opt_int (sndbuf t)) 4))
                 (fails (Setsockopt (send_with_router_alert_sock t) SOL_SOCKET SO_SNDBUF
                                    (Opt_int (sndbuf t)) 4));
    if (failed : bool) then bind_fail_with Err_sndbuf else mret tt).

(** Lines 726-876: the three sockets are bound; the resolved send address
    is kept in [send_addr]. *)
Definition bind_addresses : M unit :=
  t ← get;
  recv_addr ← (if CONFIG_BIND_INADDR_ANY then
                 mret (with_sin_addr INADDR_ANY
                        (with_sa_family (pgm_sockaddr_family (gsr_group (recv_slot t 0)))
                                        sockaddr_zero))
               else
                 r ← sys_reply (Indextoaddr
                                  (gsr_interface (recv_slot t 0))
                                  (pgm_sockaddr_family (gsr_group (recv_slot t 0)))
                                  (pgm_sockaddr_scope_id (gsr_group (recv_slot t 0))));
                 if r_val r =? 0 then bind_fail else mret (r_addr r));
  let recv_addr := with_sin_port (sin_port (gsr_group (recv_slot t 0))) recv_addr in
  failed ← fails (Bind (recv_sock t) recv_addr);
  (if (failed : bool) then bind_fail_with Err_bind_recv else mret tt);;
  r ← sys_reply (If_indextoaddr (gsr_interface (send_gsr t))
                                (pgm_sockaddr_family (gsr_group (send_gsr t)))
                                (pgm_sockaddr_scope_id (gsr_group (send_gsr t))));
  send_addr0 ← (if r_val r =? 0 then bind_fail else mret (r_addr r));
  let send_with_router_alert_addr := send_addr0 in
  failed ← fails (Bind (send_sock t) send_addr0);
  (if (failed : bool) then bind_fail_with Err_bind_send else mret tt);;
  (* resolve bound address if 0.0.0.0 *)
  send_addr1 ←
    (if sin_addr send_addr0 =? INADDR_ANY then
       r ← sys_reply (If_getnodeaddr
                        (if AF_INET =? pgm_sockaddr_family send_addr0
                         then AF_INET else AF_INET6));
       if r_val r =? 0 then bind_fail else mret (r_addr r)
     else mret send_addr0);
  failed ← fails (Bind (send_with_router_alert_sock t) send_with_router_alert_addr);
  (if (failed : bool) then bind_fail_with Err_bind_router_alert else mret tt);;
  modify (with_send_addr send_addr1).

(** Lines 878-936: one membership request per receive group. *)
Definition bind_join_one (p : group_source_req) : M unit :=
  t ← get;
  let recv_level := if AF_INET =? pgm_sockaddr_family (gsr_group p) then SOL_IP else SOL_IPV6 in
  let asm := pgm_sockaddr_cmp (gsr_group p) (gsr_source p) =? 0 in
  let optname := if asm then MCAST_JOIN_GROUP else MCAST_JOIN_SOURCE_GROUP in
  let plen := if asm then sizeof_group_req else sizeof_group_source_req in
  failed ← fails (Setsockopt (recv_sock t) recv_level optname (Opt_group_source_req p) plen);
  if (failed : bool)
  then bind_fail_with (if asm then Err_join_group else Err_join_source_group)
  else mret tt.

Fixpoint bind_join_groups (ps : list group_source_req) : M unit :=
  match ps with
  | [] => mret tt
  | p :: ps' => bind_join_one p;; bind_join_groups ps'
  end.

(** Lines 938-1044: multicast interface, loopback, hop limit, DSCP. *)
Definition bind_multicast_options : M unit :=
  t ← get;
  let recv_family := pgm_sockaddr_family (gsr_group (recv_slot t 0)) in
  let send_family := pgm_sockaddr_family (gsr_group (send_gsr t)) in
  failed ← fails (Sockaddr_multicast_if (send_sock t) (send_addr t)
                                        (gsr_interface (send_gsr t)));
  (if (failed : bool) then bind_fail_with Err_multicast_if else mret tt);;
  failed ← fails (Sockaddr_multicast_if (send_with_router_alert_sock t) (send_addr t)
                                        (gsr_interface (send_gsr t)));
  (if (failed : bool) then bind_fail_with Err_multicast_if_router_alert else mret tt);;
  failed ← orM (fails (Sockaddr_multicast_loop (recv_sock t) recv_family false))
           (orM (fails (Sockaddr_multicast_loop (send_sock t) send_family
                                                (use_multicast_loop t)))
                (fails (Sockaddr_multicast_loop (send_with_router_alert_sock t) send_family
                                                (use_multicast_loop t))));
  (if (failed : bool) then bind_fail_with Err_multicast_loop else mret tt);;
  failed ← orM (fails (Sockaddr_multicast_hops (recv_sock t) recv_family (hops t)))
           (orM (fails (Sockaddr_multicast_hops (send_sock t) send_family (hops t)))
                (fails (Sockaddr_multicast_hops (send_with_router_alert_sock t) send_family
                                                (hops t))));
  (if (failed : bool) then bind_fail_with Err_multicast_hops else mret tt);;
  let dscp := Z.shiftl 46 2 in
  failed ← orM (fails (Sockaddr_tos (send_sock t) send_family dscp))
               (fails (Sockaddr_tos (send_with_router_alert_sock t) send_family dscp));
  when (failed : bool) (emit (G_warning Warn_no_cap_net_admin)).

(** Lines 1061-1075: the session is announced with ambient SPMs and the
    ambient timer is armed. *)
Definition bind_announce : M unit :=
  failed ← orM (refuses Send_spm_unlocked)
           (orM (refuses Send_spm_unlocked) (refuses Send_spm_unlocked));
  (if (failed : bool) then bind_fail_with Err_send_spm else mret tt);;
  now ← sys Time_update_now;
  modify (fun t => with_next_ambient_spm (pgm_time_add now (spm_ambient_interval t)) t);;
  modify (fun t => with_next_poll (next_ambient_spm t) t).

(** Lines 1049-1081. *)
Definition bind_source_side : M unit :=
  t ← get;
  if can_send_data t then
    when (nonzero (txw_max_rte t)) (
      let rc := mk_rate (txw_max_rte t) (iphdr_len t) in
      r ← sys (Rate_create rc);
      modify (with_rate_control (if nonzero r then Some rc else None));;
      g_assert (nonzero r));;
    bind_announce
  else
    g_assert (can_recv_data t);;
    now ← sys Time_update_now;
    modify (with_next_poll (pgm_time_add now (pgm_secs 30))).

(** Lines 1083-1102. *)
Definition bind_finish : M Z :=
  t ← get;
  emit (Sockaddr_nonblocking (recv_sock t) (is_nonblocking t));;
  when (can_send_data t) (
    emit (Sockaddr_nonblocking (send_sock t) (is_nonblocking t));;
    emit (Sockaddr_nonblocking (send_with_router_alert_sock t) (is_nonblocking t)));;
  emit (Alloc_skb (max_tpdu t));;
  modify (with_rx_buffer (Some (max_tpdu t)));;
  modify (with_is_bound true);;
  emit (Mutex_unlock Send_mutex);;
  emit (Mutex_unlock Transport_mutex);;
  emit Timer_prepare;;
  return_ TRUE.

Definition pgm_transport_bind : M Z :=
  fn (
    t ← get;
    g_return_val_if_fail (negb (is_bound t)) FALSE;;
    bind_construct;;
    bind_socket_options;;
    bind_addresses;;
    t ← get;
    bind_join_groups (recv_list t);;
    bind_multicast_options;;
    bind_source_side;;
    bind_finish).

End Transport.

(** ** Observations on a run *)

Definition rs {A : Type} (x : result A * pgm_transport_t * world) : result A := x.1.1.
Definition st {A : Type} (x : result A * pgm_transport_t * world) : pgm_transport_t := x.1.2.
Definition wd {A : Type} (x : result A * pgm_transport_t * world) : world := x.2.

(** The events a run adds to the log. *)
Definition new_events {A : Type} (w : world) (x : result A * pgm_transport_t * world)
  : list event :=
  drop (length (w_trace w)) (w_trace (wd x)).

(** How many of the events are calls of kind [p]. *)
Definition count_calls (p : call -> bool) (es : list event) : nat :=
  length (List.filter (fun e => p e.1) es).

(** None of the events is a call of kind [p]. *)
Definition no_calls (p : call -> bool) (es : list event) : Prop :=
  Forall (fun e => p e.1 = false) es.

Definition is_sendto (c : call) : bool :=
  match c with Sendto _ _ _ _ _ _ => true | _ => false end.

Definition is_wait (c : call) : bool :=
  match c with Poll _ _ _ | Select _ _ _ _ => true | _ => false end.

(** The descriptors that a wait examines: [poll] the descriptor of its
    entry, [select] the descriptors of [writefds] below [nfds]. *)
Definition examined (c : call) : list Z :=
  match c with
  | Poll f _ _ => [f]
  | Select nfds writefds _ _ =>
      List.filter (fun fd => (0 <=? fd) && (fd <? nfds)) writefds
  | _ => []
  end.

(** A wait for writability of [fd] alone, of 500 ms: a [poll] of [fd] for
    [POLLOUT], or a [select] on the write set of [fd] whose [nfds] is above
    [fd], so that [fd] is examined. *)
Definition waits_500ms_for (fd : Z) (c : call) : bool :=
  match c with
  | Poll f events ms => (f =? fd) && (events =? POLLOUT) && (ms =? 500)
  | Select nfds writefds sec usec =>
      bool_decide (writefds = [fd]) && (0 <=? fd) && (fd <? nfds)
      && (sec * 1000000 + usec =? 500 * 1000)
  | _ => false
  end.

Definition is_send_spm (c : call) : bool :=
  match c with Send_spm_unlocked => true | _ => false end.

Definition is_unlock_send (c : call) : bool :=
  match c with Mutex_unlock Send_mutex => true | _ => false end.

Definition is_notify_error (c : call) : bool :=
  match c with G_set_error Err_notify_init => true | _ => false end.

Definition is_setsockopt (c : call) : bool :=
  match c with Setsockopt _ _ _ _ _ => true | _ => false end.

(** ** Concrete inputs *)

(** A comparison of socket addresses for the concrete runs: family first,
    then address. *)
Definition sockaddr_cmp_model (a b : sockaddr) : Z :=
  if sa_family a =? sa_family b then
    if sin_addr a =? sin_addr b then 0
    else if sin_addr a <? sin_addr b then -1 else 1
  else if sa_family a <? sa_family b then -1 else 1.

Definition ipv4 (a b c d : Z) : sockaddr :=
  mk_sockaddr AF_INET 0 (((a * 256 + b) * 256 + c) * 256 + d) 0.

(** 239.192.0.1, 239.192.0.2 and a unicast source. *)
Definition group1 : sockaddr := ipv4 239 192 0 1.
Definition group2 : sockaddr := ipv4 239 192 0 2.
Definition source1 : sockaddr := ipv4 10 0 0 1.
Definition local_addr : sockaddr := ipv4 192 168 1 10.

(** One any-source receive group and the same send group, raw PGM,
    destination port 7500, source port left to the library. *)
Definition example_tinfo : pgm_transport_info_t :=
  {| ti_gsi := [1; 2; 3; 4; 5; 6];
     ti_udp_encap_ucast_port := 0; ti_udp_encap_mcast_port := 0;
     ti_sport := 0; ti_dport := 7500;
     ti_recv_addrs_len := 1;
     ti_recv_addrs := Some [mk_group_source_req 0 group1 group1];
     ti_send_addrs_len := 1;
     ti_send_addrs := Some [mk_group_source_req 0 group1 group1] |}.

(** A system in which every call succeeds: file descriptors from [socket],
    TRUE from the PGM helpers, an address from the interface lookups, a
    bound of 4 MiB for the socket buffers, zero elsewhere. *)
Definition oracle_ok (n : nat) (c : call) : reply :=
  match c with
  | Socket _ _ _ => reply_val (Z.of_nat n)
  | Random_int_range _ _ => reply_val 40000
  | Fopen_mem_max _ | Rand_new | Txw_create _ | Hash_table_new | Rate_create _
  | Send_spm_unlocked | Alloc_skb _ => reply_val 1
  | Fscanf_int => reply_val 4194304
  | Indextoaddr _ _ _ | If_indextoaddr _ _ _ | If_getnodeaddr _ =>
      mk_reply 1 0 local_addr
  | Time_update_now => reply_val 1000000
  | Sendto _ _ len _ _ _ => reply_val len
  | Poll _ _ _ | Select _ _ _ _ => reply_val 1
  | _ => reply_ok
  end.

(** The same system, except that call number [k] is answered [r]. *)
Definition oracle_with (k : nat) (r : reply) (n : nat) (c : call) : reply :=
  if (n =? k)%nat then r else oracle_ok n c.

(** The first draw of the source port collides with the destination port. *)
Definition example_create_run :=
  pgm_transport_create 2 example_tinfo (world_init (oracle_with 4 (reply_val 7500))).

Definition example_transport : pgm_transport_t :=
  match example_create_run with
  | (_, Some t, _) => t
  | _ => transport_zero
  end.

(** The transport configured as a sender with a window of 100 packets. *)
Definition example_configured : pgm_transport_t :=
  with_spm_ambient_interval 30000000
    (with_txw_sqns 100 (with_hops 16 (with_max_tpdu 1500 example_transport))).

Definition example_bind_run :=
  pgm_transport_bind sockaddr_cmp_model false example_configured (world_init oracle_ok).

Definition example_bound : pgm_transport_t := st example_bind_run.

(** ** Well-formed transports *)

(** The shape the C type gives the receive list: an array of
    [IP_MAX_MEMBERSHIPS] slots, of which at most all are in use. *)
Definition wf_transport (t : pgm_transport_t) : Prop :=
  length (recv_gsr t) = IP_MAX_MEMBERSHIPS /\ (recv_gsr_len t <= IP_MAX_MEMBERSHIPS)%nat.

(** A request for [group2] on interface 2 from [source1], and the storage
    of a pointer to it: a stack address, with zeroed memory beyond. *)
Definition example_gsr : group_source_req := mk_group_source_req 2 group2 source1.

Definition example_gsr_param : gsr_param :=
  mk_gsr_param 140723412341536 sockaddr_zero sockaddr_zero.

Definition is_random (c : call) : bool :=
  match c with Random_int_range _ _ => true | _ => false end.

(** A value of type [guint16]. *)
Definition is_guint16 (z : Z) : Prop := 0 <= z < 65536.

(** The errno values of the concrete runs. *)
Definition EADDRINUSE : Z := 98.
Definition ECONNREFUSED : Z := 111.

(** A bind in which the receive socket cannot be bound (call 7 of the
    run), and one in which the first SPM is refused (call 22). *)
Definition example_bind_fails_at_bind :=
  pgm_transport_bind sockaddr_cmp_model false example_configured
    (world_init (oracle_with 7 (reply_err (-1) EADDRINUSE))).

Definition example_bind_fails_at_spm :=
  pgm_transport_bind sockaddr_cmp_model false example_configured
    (world_init (oracle_with 22 (reply_val 0))).

(** A send whose first [sendto] (call 1 of the run) is refused, after
    which the socket polls writable and the retry goes through. *)
Definition example_send_world : world :=
  world_init (oracle_with 1 (reply_err (-1) ECONNREFUSED)).

Definition example_send_run :=
  _pgm_sendto true false false [80; 71; 77] 3 0 group1 16 example_bound example_send_world.

(** The events of that run: what precedes the refused [sendto], the call
    and its answer, and what follows. *)
Definition example_send_call : call :=
  Sendto (send_sock example_bound) [80; 71; 77] 3 0 group1 16.

Definition example_send_before : list event := [(Mutex_lock Send_mutex, reply_ok)].

Definition example_send_refusal : reply := reply_err (-1) ECONNREFUSED.

Definition example_send_after : list event :=
  [(Poll (send_sock example_bound) POLLOUT 500, reply_val 1);
   (example_send_call, reply_val 3);
   (Mutex_unlock Send_mutex, reply_ok)].

(** The same send in the build without [poll], on a system where every
    descriptor that a [select] examines is writable.  The send socket of
    [example_bound] is descriptor 7, which [select (1, ...)] does not
    examine: the wait times out and the send is not repeated. *)
Definition example_select_world : world :=
  world_init (fun n c =>
                match c with
                | Select _ _ _ _ => reply_val (Z.of_nat (length (examined c)))
                | _ => oracle_with 1 (reply_err (-1) ECONNREFUSED) n c
                end).

Definition example_select_after : list event :=
  [(Select 1 [send_sock example_bound] 0 (500 * 1000), reply_val 0);
   (G_warning Warn_sendto_timeout, reply_ok);
   (Mutex_unlock Send_mutex, reply_ok)].

(** A request to join [group2] on interface 2. *)
Definition example_gr : group_req := mk_group_req 2 group2.

(** * Vocabulary of the properties *)

(** [wp m t w Q]: the run of [m] from [t] and [w] ends in a result, a
    transport and a world that satisfy [Q]. *)
Definition wp {A : Type} (m : M A) (t : pgm_transport_t) (w : world)
    (Q : result A -> pgm_transport_t -> world -> Prop) : Prop :=
  Q (rs (m t w)) (st (m t w)) (wd (m t w)).

(** What [m ≫= k] owes when [m] has ended with result [r]. *)
Definition after {A B : Type} (k : A -> M B)
    (Q : result B -> pgm_transport_t -> world -> Prop)
    (r : result A) (t : pgm_transport_t) (w : world) : Prop :=
  match r with
  | Val a => wp (k a) t w Q
  | Return v => Q (Return v) t w
  | Abort => Q Abort t w
  | Out_of_fuel => Q Out_of_fuel t w
  end.

(** A result that is not an early return of a value outside [E]. *)
Definition exits_in {A : Type} (E : Z -> Prop) (r : result A) : Prop :=
  match r with
  | Return v => E v
  | _ => True
  end.

(** [inv E J m]: whatever way [m] ends, it keeps [J], and when it ends by
    an early return the value returned is in [E]. *)
Definition inv {A : Type} (E : Z -> Prop) (J : pgm_transport_t -> world -> Prop)
    (m : M A) : Prop :=
  forall t w, J t w -> wp m t w (fun r t' w' => J t' w' /\ exits_in E r).

(** The usual invariant: the transport satisfies [S], and the events logged
    since the log was [tr0] are all calls allowed by [ok]. *)
Definition Inv (S : pgm_transport_t -> Prop) (ok : call -> bool) (tr0 : list event)
    (t : pgm_transport_t) (w : world) : Prop :=
  S t /\ exists es, w_trace w = tr0 ++ es /\ Forall (fun e => ok e.1 = true) es.

(** The first event of kind [p] in a list, with what precedes and what
    follows it. *)
Fixpoint split_first (p : call -> bool) (es : list event)
  : option (list event * event * list event) :=
  match es with
  | [] => None
  | e :: es' =>
      if p e.1 then Some ([], e, es')
      else match split_first p es' with
           | Some (pre, x, post) => Some (e :: pre, x, post)
           | None => None
           end
  end.

(** The FEC parameters the specification admits, in its words: [k] a power
    of two in [2,128], [n] in [k+1,255], [proactive_h <= n - k], and for
    [k > 223] at least one parity packet per 223 data packets. *)
Definition is_power_of_two (k : Z) : Prop := exists e : Z, 0 <= e /\ k = 2 ^ e.

Definition fec_valid (proactive_h n k : Z) : Prop :=
  is_power_of_two k /\ 2 <= k <= 128 /\ k + 1 <= n <= 255 /\ proactive_h <= n - k /\
  (k > 223 -> 1 <= (n - k) * 223 / k).

(** A value of type [guint]. *)
Definition is_guint (z : Z) : Prop := 0 <= z < 2 ^ 32.

Definition powers_of_two_upto_128 : list Z := [2; 4; 8; 16; 32; 64; 128].

(** The four checks of [pgm_transport_set_fec], as the code evaluates them. *)
Definition fec_checks (proactive_h n k : Z) : bool :=
  (Z.land k (guint_wrap (k - 1)) =? 0) &&
  ((2 <=? k) && (k <=? 128)) &&
  ((guint_wrap (k + 1) <=? n) && (n <=? 255)) &&
  (proactive_h <=? guint_wrap (n - k)).

(** The draws of [draw_sport]: each one but the last gave the destination
    port again. *)
Definition redraws (d : Z) (es : list event) : Prop :=
  Forall (fun e => e.1 = Random_int_range 0 UINT16_MAX /\ g_htons (r_val e.2) = d) es.

(** Every early return of [pgm_transport_bind] returns FALSE. *)
Definition returns_false (v : Z) : Prop := v = FALSE.

(** What holds of a sending transport until its announcement: it still
    sends, its ambient interval is [ivl]; no SPM has been sent and the send
    lock is still held. *)
Definition sender_state (ivl : Z) (t : pgm_transport_t) : Prop :=
  can_send_data t = true /\ spm_ambient_interval t = ivl.

Definition before_announce (c : call) : bool :=
  negb (is_send_spm c) && negb (is_unlock_send c).

(** The announcement as seen in the events of a successful bind. *)
Definition announced (ivl : Z) (t' : pgm_transport_t) (es : list event) : Prop :=
  exists pre s1 s2 s3 now post u,
    es = pre ++ [(Send_spm_unlocked, s1); (Send_spm_unlocked, s2); (Send_spm_unlocked, s3);
                 (Time_update_now, now)] ++ post /\
    no_calls is_send_spm pre /\ no_calls is_unlock_send pre /\
    no_calls is_send_spm post /\ In (Mutex_unlock Send_mutex, u) post /\
    r_val s1 <> 0 /\ r_val s2 <> 0 /\ r_val s3 <> 0 /\
    next_ambient_spm t' = pgm_time_add (r_val now) ivl /\
    is_bound t' = true.

Definition announce_post (ivl : Z) (tr0 : list event)
    (r : result Z) (t' : pgm_transport_t) (w' : world) : Prop :=
  exists es, w_trace w' = tr0 ++ es /\
    ((r <> Val TRUE /\ (no_calls is_send_spm es \/ r = Val FALSE)) \/
     (r = Val TRUE /\ announced ivl t' es)).

(** The objects [pgm_transport_bind] constructs first, as they are once
    constructed for a transport that was [t0]: a transmit window when [t0]
    sends, a peer table and a notification channel when [t0] receives; and
    the transport is not yet bound. *)
Definition constructed (t0 t' : pgm_transport_t) : Prop :=
  is_bound t' = false /\
  (can_send_data t0 = true -> is_Some (window t')) /\
  (can_recv_data t0 = true -> peers_hashtable t' = Some [] /\ pending_notify t' = true).

(** The same objects and the bound flag, as they were in [t0]. *)
Definition untouched (t0 t' : pgm_transport_t) : Prop :=
  is_bound t' = is_bound t0 /\
  window t' = window t0 /\
  peers_hashtable t' = peers_hashtable t0 /\
  pending_notify t' = pending_notify t0.

Definition after_notify (c : call) : bool := negb (is_notify_error c).

Definition failure_post (t0 : pgm_transport_t) (tr0 : list event)
    (r : result Z) (t' : pgm_transport_t) (w' : world) : Prop :=
  r = Val FALSE ->
  exists es, w_trace w' = tr0 ++ es /\
    ((untouched t0 t' /\
      (is_bound t0 = true \/ exists e, In (G_set_error Err_notify_init, e) es)) \/
     (is_bound t0 = false /\ constructed t0 t' /\ no_calls is_notify_error es)).

(** * Further vocabulary: the rest of [net.c] and [transport.c] *)

(** ** [_pgm_sendto] *)

Definition is_mutex_call (c : call) : bool :=
  match c with
  | Mutex_init _ | Mutex_lock _ | Mutex_unlock _ | Mutex_free _ => true
  | _ => false
  end.

Definition is_rate_check (c : call) : bool :=
  match c with Rate_check _ _ _ => true | _ => false end.

(** The lock and the socket that [use_router_alert] selects. *)
Definition sendto_mutex (use_router_alert : bool) : mutex_id :=
  if use_router_alert then Send_with_router_alert_mutex else Send_mutex.



(** The answer to the last call of kind [p] among the events. *)
Definition last_answer (p : call -> bool) (es : list event) : option reply :=
  fold_left (fun acc (e : event) => if p e.1 then Some e.2 else acc) es None.

(** ** [transport.c]: the other membership requests *)

Definition MCAST_BLOCK_SOURCE : Z := 43.
Definition MCAST_UNBLOCK_SOURCE : Z := 44.
Definition MCAST_LEAVE_SOURCE_GROUP : Z := 47.

Definition pgm_transport_block_source (gsr : group_source_req) (len : Z) : M Z :=
  fn (
    g_return_val_if_fail (sizeof_group_source_req =? len) (- EINVAL);;
    t ← get;
    r ← sys (Setsockopt (recv_sock t) (TRANSPORT_TO_LEVEL t) MCAST_BLOCK_SOURCE
                         (Opt_group_source_req gsr) len);
    return_ r).

Definition pgm_transport_unblock_source (gsr : group_source_req) (len : Z) : M Z :=
  fn (
    g_return_val_if_fail (sizeof_group_source_req =? len) (- EINVAL);;
    t ← get;
    r ← sys (Setsockopt (recv_sock t) (TRANSPORT_TO_LEVEL t) MCAST_UNBLOCK_SOURCE
                         (Opt_group_source_req gsr) len);
    return_ r).

Section Source_groups.

Variable pgm_sockaddr_cmp : sockaddr -> sockaddr -> Z.

Definition leave_source_group_match (gsr e : group_source_req) : bool :=
  (pgm_sockaddr_cmp (gsr_group gsr) (gsr_group e) =? 0) &&
  (pgm_sockaddr_cmp (gsr_source gsr) (gsr_source e) =? 0) &&
  (gsr_interface gsr =? gsr_interface e).

(** The scan of [pgm_transport_leave_source_group], from index [i]: it
    stops at the first match that it closes up with [memmove]; [None] when
    [fuel] iterations do not finish it. *)
Fixpoint leave_source_group_loop (fuel : nat) (gsr : group_source_req) (i : nat)
    (a : list group_source_req) (len : nat) : option (list group_source_req * nat) :=
  if (i <? len)%nat then
    match fuel with
    | O => None
    | S fuel' =>
        if leave_source_group_match gsr (nth i a gsr_zero) then
          let len' := (len - 1)%nat in
          if (i <? IP_MAX_MEMBERSHIPS - 1)%nat
          then Some (memmove_slots a i (i + 1) (len' - i), len')
          else leave_source_group_loop fuel' gsr (S i) a len'
        else leave_source_group_loop fuel' gsr (S i) a len
    end
  else Some (a, len).

Definition pgm_transport_leave_source_group (gsr : group_source_req) (len : Z) : M Z :=
  fn (
    g_return_val_if_fail (sizeof_group_source_req =? len) (- EINVAL);;
    t ← get;
    g_return_val_if_fail (recv_gsr_len t =? 0)%nat (- EINVAL);;
    match leave_source_group_loop (recv_gsr_len t) gsr 0 (recv_gsr t) (recv_gsr_len t) with
    | None => out_of_fuel
    | Some (a, n) => modify (with_recv_gsr a);; modify (with_recv_gsr_len n)
    end;;
    t ← get;
    r ← sys (Setsockopt (recv_sock t) (TRANSPORT_TO_LEVEL t) MCAST_LEAVE_SOURCE_GROUP
                         (Opt_group_source_req gsr) len);
    return_ r).

End Source_groups.

(** ** Vocabulary of the configurators and of membership *)

(** [pgm_transport_set_sndbuf] when [is_wmem], else
    [pgm_transport_set_rcvbuf]; and the field each of them writes. *)
Definition set_buffer_size (is_wmem : bool) : Z -> M Z :=
  if is_wmem then pgm_transport_set_sndbuf else pgm_transport_set_rcvbuf.

Definition with_buffer_size (is_wmem : bool) : Z -> pgm_transport_t -> pgm_transport_t :=
  if is_wmem then with_sndbuf else with_rcvbuf.

Definition ENOBUFS : Z := 105.

(** [n] distinct any-source groups 239.192.1.1, 239.192.1.2, ... *)
Definition example_groups (n : nat) : list group_req :=
  map (fun i => mk_group_req 0 (ipv4 239 192 1 (Z.of_nat (S i)))) (seq 0 n).

(** The transport after the groups of [grs] were joined one after the
    other, in a system in which every call succeeds. *)
Definition join_all (grs : list group_req) (t : pgm_transport_t) : pgm_transport_t :=
  fold_left
    (fun t gr => st (pgm_transport_join_group sockaddr_cmp_model gr sizeof_group_req t
                       (world_init oracle_ok)))
    grs t.

(** [example_bound] with nineteen more groups joined: its receive list is
    full. *)
Definition example_full : pgm_transport_t := join_all (example_groups 19) example_bound.

(** A system whose first call fails for want of buffer space. *)
Definition example_no_buffers : world := world_init (oracle_with 0 (reply_err (-1) ENOBUFS)).

(** ** Vocabulary of [pgm_transport_create] *)

(** The descriptors that [socket] answered, and the descriptors handed to
    [close], in the order of the calls. *)
Definition socket_answers (es : list event) : list Z :=
  flat_map (fun e : event => match e.1 with Socket _ _ _ => [r_val e.2] | _ => [] end) es.

Definition closed_fds (es : list event) : list Z :=
  flat_map (fun e : event => match e.1 with Close fd => [fd] | _ => [] end) es.

Definition is_lock_send (c : call) : bool :=
  match c with Mutex_lock Send_mutex => true | _ => false end.

(** A group-source pair as [pgm_transport_create] stores it: the port of
    the group is the multicast encapsulation port in network order. *)
Definition with_encap_port (tinfo : pgm_transport_info_t) (e : group_source_req)
  : group_source_req :=
  mk_group_source_req (gsr_interface e)
    (with_sin_port (g_htons (ti_udp_encap_mcast_port tinfo)) (gsr_group e))
    (gsr_source e).

(** What [pgm_transport_create] requires of a description before it
    allocates anything: a source port, when given, differs from the
    destination port; the two encapsulation ports are given together or not
    at all; there are between one and [IP_MAX_MEMBERSHIPS] receive
    addresses and exactly one send address; every receive group has the
    family of the first and of its own source, and the send group has the
    family of its source. *)
Definition tinfo_valid (tinfo : pgm_transport_info_t) : Prop :=
  (ti_sport tinfo <> 0 -> ti_sport tinfo <> ti_dport tinfo) /\
  (ti_udp_encap_ucast_port tinfo = 0 <-> ti_udp_encap_mcast_port tinfo = 0) /\
  (0 < ti_recv_addrs_len tinfo <= IP_MAX_MEMBERSHIPS)%nat /\
  is_Some (ti_recv_addrs tinfo) /\
  ti_send_addrs_len tinfo = 1%nat /\
  is_Some (ti_send_addrs tinfo) /\
  (forall i, (i < ti_recv_addrs_len tinfo)%nat ->
     sa_family (gsr_group (addr_at (ti_recv_addrs tinfo) i))
     = sa_family (gsr_group (addr_at (ti_recv_addrs tinfo) 0)) /\
     sa_family (gsr_group (addr_at (ti_recv_addrs tinfo) i))
     = sa_family (gsr_source (addr_at (ti_recv_addrs tinfo) i))) /\
  sa_family (gsr_group (addr_at (ti_send_addrs tinfo) 0))
  = sa_family (gsr_source (addr_at (ti_send_addrs tinfo) 0)).

(** The checks of [pgm_transport_create], as the code evaluates them. *)
Definition tinfo_checks (tinfo : pgm_transport_info_t) : bool :=
  (if nonzero (ti_sport tinfo) then negb (ti_sport tinfo =? ti_dport tinfo) else true) &&
  (if nonzero (ti_udp_encap_ucast_port tinfo)
   then nonzero (ti_udp_encap_mcast_port tinfo)
   else if nonzero (ti_udp_encap_mcast_port tinfo)
        then nonzero (ti_udp_encap_ucast_port tinfo) else true) &&
  (0 <? ti_recv_addrs_len tinfo)%nat &&
  (ti_recv_addrs_len tinfo <=? IP_MAX_MEMBERSHIPS)%nat &&
  bool_decide (is_Some (ti_recv_addrs tinfo)) &&
  (1 =? ti_send_addrs_len tinfo)%nat &&
  bool_decide (is_Some (ti_send_addrs tinfo)) &&
  recv_families_ok tinfo &&
  (pgm_sockaddr_family (gsr_group (addr_at (ti_send_addrs tinfo) 0))
   =? pgm_sockaddr_family (gsr_source (addr_at (ti_send_addrs tinfo) 0))).

(** The [socket] call for the receive socket, or for either send socket:
    datagram sockets of UDP under encapsulation, raw PGM sockets without. *)
Definition create_socket_call (tinfo : pgm_transport_info_t) (for_send : bool) : call :=
  Socket
    (sa_family (gsr_group (addr_at (if for_send then ti_send_addrs tinfo
                                    else ti_recv_addrs tinfo) 0)))
    (if nonzero (ti_udp_encap_ucast_port tinfo) then SOCK_DGRAM else SOCK_RAW)
    (if nonzero (ti_udp_encap_ucast_port tinfo) then IPPROTO_UDP else ipproto_pgm).

(** The calls of a [pgm_transport_create] that passed its checks: the three
    locks are set up and the send lock is taken, the source port is drawn
    when none was given, and [rest] follows. *)
Definition create_calls (draws rest es : list event) : Prop :=
  exists u1 u2 u3 u4 : reply,
    es = [(Mutex_init Send_mutex, u1); (Mutex_init Send_with_router_alert_mutex, u2);
          (Mutex_init Transport_mutex, u3); (Mutex_lock Send_mutex, u4)] ++ draws ++ rest /\
    Forall (fun e : event => is_random e.1 = true) draws.

(** The transport that a successful [pgm_transport_create] hands out for
    the description [tinfo] when the three sockets are [s1], [s2], [s3]. *)
Definition created_from (tinfo : pgm_transport_info_t) (s1 s2 s3 : Z)
    (t : pgm_transport_t) : Prop :=
  recv_sock t = s1 /\ send_sock t = s2 /\ send_with_router_alert_sock t = s3 /\
  can_send_data t = true /\ can_send_nak t = true /\ can_recv_data t = true /\
  is_bound t = false /\
  tsi_gsi t = ti_gsi tinfo /\ dport t = g_htons (ti_dport tinfo) /\
  udp_encap_ucast_port t = ti_udp_encap_ucast_port tinfo /\
  udp_encap_mcast_port t = ti_udp_encap_mcast_port tinfo /\
  send_gsr t = with_encap_port tinfo (addr_at (ti_send_addrs tinfo) 0) /\
  recv_gsr_len t = ti_recv_addrs_len tinfo /\
  recv_list t = map (fun i => with_encap_port tinfo (addr_at (ti_recv_addrs tinfo) i))
                    (seq 0 (ti_recv_addrs_len tinfo)) /\
  wf_transport t.

(** The end of a successful creation: three sockets, none refused, and the
    transport entered in the list of transports. *)
Definition create_succeeded (tinfo : pgm_transport_info_t) (t : pgm_transport_t)
    (rest : list event) : Prop :=
  exists r1 r2 r3 u : reply,
    rest = [(create_socket_call tinfo false, r1); (create_socket_call tinfo true, r2);
            (create_socket_call tinfo true, r3); (Transport_list_append, u)] /\
    0 <= r_val r1 /\ 0 <= r_val r2 /\ 0 <= r_val r3 /\
    created_from tinfo (r_val r1) (r_val r2) (r_val r3) t.

(** The mutexes disposed of. *)
Definition freed_mutexes (es : list event) : list mutex_id :=
  flat_map (fun e : event => match e.1 with Mutex_free m => [m] | _ => [] end) es.

Definition is_lock_or_unlock (c : call) : bool :=
  match c with Mutex_lock _ | Mutex_unlock _ => true | _ => false end.

(** The end of a creation that fails at a socket: the last descriptor
    answered is negative, every descriptor answered other than 0 is handed
    to [close] once, in the order of opening, the transport lock and no
    other is disposed of, as the last call, and no lock is taken or
    released. *)
Definition create_failed (rest : list event) : Prop :=
  closed_fds rest = List.filter nonzero (socket_answers rest) /\
  (exists s, last (socket_answers rest) = Some s /\ s < 0) /\
  freed_mutexes rest = [Transport_mutex] /\
  (exists pre u, rest = pre ++ [(Mutex_free Transport_mutex, u)]) /\
  no_calls is_lock_or_unlock rest.

(** What a run of the body of [pgm_transport_create] comes to, for the
    events [es] it adds: an invalid description costs one warning and
    nothing else; a valid one leads to the calls of [create_calls], ending
    in success or in the failure of a socket.  The run ends for want of
    fuel only in the draws of a source port. *)
Definition create_outcome (tinfo : pgm_transport_info_t) (r : result Z)
    (t : pgm_transport_t) (es : list event) : Prop :=
  match r with
  | Val v =>
      if tinfo_checks tinfo then
        exists draws rest,
          create_calls draws rest es /\
          ((v = TRUE /\ create_succeeded tinfo t rest) \/
           (v = FALSE /\ create_failed rest))
      else v = FALSE /\ exists u, es = [(G_warning Critical_check_failed, u)]
  | Out_of_fuel => tinfo_checks tinfo = true /\ ti_sport tinfo = 0
  | _ => False
  end.

(** The description of [example_tinfo] with the source port set to the
    destination port, and a system that has no socket to give when the
    second one is asked for (call 5 of the run). *)
Definition example_tinfo_same_ports : pgm_transport_info_t :=
  {| ti_gsi := ti_gsi example_tinfo;
     ti_udp_encap_ucast_port := 0; ti_udp_encap_mcast_port := 0;
     ti_sport := 7500; ti_dport := 7500;
     ti_recv_addrs_len := 1; ti_recv_addrs := ti_recv_addrs example_tinfo;
     ti_send_addrs_len := 1; ti_send_addrs := ti_send_addrs example_tinfo |}.

Definition EMFILE : Z := 24.

(** The events a creation adds to the log. *)
Definition create_events (w : world) (x : result Z * option pgm_transport_t * world)
  : list event :=
  drop (length (w_trace w)) (w_trace x.2).


(** ** Vocabulary of [pgm_transport_bind] *)

(** [steps P R m]: from a state in [P], the run of [m] ends in a state in
    [P], or by an early return of some [v] in a state in [R v], or it
    aborts; it does not run out of fuel. *)
Definition steps {A : Type} (P : pgm_transport_t -> world -> Prop)
    (R : Z -> pgm_transport_t -> world -> Prop) (m : M A) : Prop :=
  forall t w, P t w ->
    wp m t w (fun r t' w' =>
                match r with
                | Val _ => P t' w'
                | Return v => R v t' w'
                | Abort => True
                | Out_of_fuel => False
                end).

(** The calls by which [pgm_transport_bind] sets up its sockets and
    reports on it; a [setsockopt] among them carries an integer. *)
Definition is_setup_call (c : call) : bool :=
  match c with
  | Setsockopt _ _ _ (Opt_int _) _
  | Sockaddr_pktinfo _ _ _ | Sockaddr_hdrincl _ _ _
  | Indextoaddr _ _ _ | If_indextoaddr _ _ _ | If_getnodeaddr _
  | Bind _ _
  | Sockaddr_multicast_if _ _ _ | Sockaddr_multicast_loop _ _ _
  | Sockaddr_multicast_hops _ _ _ | Sockaddr_tos _ _ _
  | G_set_error _ | G_warning _ => true
  | _ => false
  end.

(** A membership request of [pgm_transport_bind]: a [setsockopt] that
    carries a group-source pair. *)
Definition is_membership (c : call) : bool :=
  match c with Setsockopt _ _ _ (Opt_group_source_req _) _ => true | _ => false end.

Definition membership_calls (es : list event) : list event :=
  List.filter (fun e : event => is_membership e.1) es.

(** The membership request that [pgm_transport_bind] makes on socket
    [sock] for the entry [p] of the receive list: any-source when group and
    source compare equal, source-specific otherwise, at the level of the
    family of the group. *)
Definition bind_join_call (pgm_sockaddr_cmp : sockaddr -> sockaddr -> Z) (sock : Z)
    (p : group_source_req) : call :=
  let asm := pgm_sockaddr_cmp (gsr_group p) (gsr_source p) =? 0 in
  Setsockopt sock
    (if AF_INET =? pgm_sockaddr_family (gsr_group p) then SOL_IP else SOL_IPV6)
    (if asm then MCAST_JOIN_GROUP else MCAST_JOIN_SOURCE_GROUP)
    (Opt_group_source_req p)
    (if asm then sizeof_group_req else sizeof_group_source_req).

(** The calls that serve sending only, and those that serve receiving
    only. *)
Definition is_sender_call (c : call) : bool :=
  match c with Txw_create _ | Rate_create _ | Send_spm_unlocked => true | _ => false end.

Definition is_receiver_call (c : call) : bool :=
  match c with Notify_init | Hash_table_new => true | _ => false end.

(** The calls on which the lifetime of the locks and of the descriptors
    of a transport depends. *)
Definition is_lifetime_call (c : call) : bool :=
  is_mutex_call c || match c with Socket _ _ _ | Close _ => true | _ => false end.

(** What [pgm_transport_bind] keeps of the transport [t0] it was given:
    the roles, the three sockets and the receive list; and of the objects
    of a role that [t0] does not have, all. *)
Definition same_role (t0 t : pgm_transport_t) : Prop :=
  can_send_data t = can_send_data t0 /\ can_recv_data t = can_recv_data t0 /\
  (recv_sock t = recv_sock t0 /\ send_sock t = send_sock t0 /\
   send_with_router_alert_sock t = send_with_router_alert_sock t0) /\
  recv_gsr t = recv_gsr t0 /\ recv_gsr_len t = recv_gsr_len t0 /\
  (can_send_data t0 = false ->
     window t = window t0 /\ rate_control t = rate_control t0) /\
  (can_recv_data t0 = false ->
     peers_hashtable t = peers_hashtable t0 /\ pending_notify t = pending_notify t0).

Definition role_calls (t0 : pgm_transport_t) (es : list event) : Prop :=
  (can_send_data t0 = false -> no_calls is_sender_call es) /\
  (can_recv_data t0 = false -> no_calls is_receiver_call es).

(** The membership requests among [es] are those of the entries [done] of
    the receive list, in order, and each was granted. *)
Definition joined (pgm_sockaddr_cmp : sockaddr -> sockaddr -> Z) (t0 : pgm_transport_t)
    (done : list group_source_req) (es : list event) : Prop :=
  @map event call fst (membership_calls es)
  = map (bind_join_call pgm_sockaddr_cmp (recv_sock t0)) done /\
  Forall (fun e : event => r_val e.2 = 0) (membership_calls es).

(** A bind of [t0] under way: the transport lock was taken as the first
    call and no lock was touched since, no socket opened and none closed;
    the entries [done] have been joined. *)
Definition binding (pgm_sockaddr_cmp : sockaddr -> sockaddr -> Z) (t0 : pgm_transport_t)
    (tr0 : list event) (done : list group_source_req)
    (t : pgm_transport_t) (w : world) : Prop :=
  is_bound t = false /\ same_role t0 t /\
  exists u body,
    w_trace w = tr0 ++ (Mutex_lock Transport_mutex, u) :: body /\
    no_calls is_lifetime_call body /\ role_calls t0 body /\
    joined pgm_sockaddr_cmp t0 done body.

(** A bind of [t0] that has failed: the transport lock is released as the
    last call, and it is the only lock touched since it was taken. *)
Definition bind_failed (t0 : pgm_transport_t) (tr0 : list event)
    (t : pgm_transport_t) (w : world) : Prop :=
  is_bound t = false /\ same_role t0 t /\
  exists u body u',
    w_trace w = tr0 ++ (Mutex_lock Transport_mutex, u) :: body
                    ++ [(Mutex_unlock Transport_mutex, u')] /\
    no_calls is_lifetime_call body /\ role_calls t0 body.

(** A bind of [t0] that has succeeded: the transport is bound and has a
    role; all of the receive list was joined; the send lock and then the
    transport lock are released, and the timer is prepared last. *)
Definition bind_succeeded (pgm_sockaddr_cmp : sockaddr -> sockaddr -> Z)
    (t0 : pgm_transport_t) (tr0 : list event) (t : pgm_transport_t) (w : world) : Prop :=
  is_bound t = true /\ same_role t0 t /\
  (can_send_data t0 = true \/ can_recv_data t0 = true) /\
  is_Some (rx_buffer t) /\
  exists u body u1 u2 u3,
    w_trace w = tr0 ++ (Mutex_lock Transport_mutex, u) :: body
                    ++ [(Mutex_unlock Send_mutex, u1); (Mutex_unlock Transport_mutex, u2);
                        (Timer_prepare, u3)] /\
    no_calls is_lifetime_call body /\ role_calls t0 body /\
    joined pgm_sockaddr_cmp t0 (recv_list t0) body.

(** What a run of [pgm_transport_bind] on [t0] comes to. *)
Definition bind_outcome (pgm_sockaddr_cmp : sockaddr -> sockaddr -> Z)
    (t0 : pgm_transport_t) (tr0 : list event)
    (r : result Z) (t : pgm_transport_t) (w : world) : Prop :=
  match r with
  | Val v =>
      if is_bound t0
      then v = FALSE /\ t = t0 /\
           exists u, w_trace w = tr0 ++ [(G_warning Critical_check_failed, u)]
      else (v = TRUE /\ bind_succeeded pgm_sockaddr_cmp t0 tr0 t w) \/
           (v = FALSE /\ bind_failed t0 tr0 t w)
  | Abort => is_bound t0 = false
  | _ => False
  end.

(** The exits of the blocks of [pgm_transport_bind]. *)
Definition bind_exit (t0 : pgm_transport_t) (tr0 : list event) (v : Z)
    (t : pgm_transport_t) (w : world) : Prop :=
  v = FALSE /\ bind_failed t0 tr0 t w.
(** ** Waiting on a transport, and its end *)

(** The functions embedded from here on call code that the functions above
    do not, and read fields of the transport that they do not.  As above,
    the pointer to the transport is not NULL and trace output is no call.
    Their calls are those of [call], under [Base], and the further ones;
    [Txw_set_lead] is the store into the transmit window, an object of
    another module.  [Transport_list_remove] is the removal from
    [pgm_transport_list] under its lock, as [Transport_list_append] is the
    insertion. *)
Inductive more_call : Type :=
| Base (c : call)
| Fcntl_getfl (fd : Z)
| Fcntl_setfl (fd flags : Z)
| Epoll_ctl (epfd op fd events : Z)
| Transport_list_remove
| Txw_set_lead (lead : Z)
| Window_lock_writer_unlock
| Hash_table_destroy
| Peer_unref (peer : Z)
| Txw_shutdown (w : txw_t)
| Rate_destroy (r : rate_t)
| Free_spm_heartbeat_interval
| Rand_free
| Notify_destroy
| Peers_lock_free
| Window_lock_free
| Free_skb (skb : Z)
| Free_transport.

Definition more_event : Type := more_call * reply.

Record outside : Type := mk_outside {
  o_oracle : nat -> more_call -> reply;
  o_trace : list more_event;
  o_errno : Z
}.

Definition outside_init (o : nat -> more_call -> reply) : outside := mk_outside o [] 0.

Definition next_answer (o : outside) (c : more_call) : reply :=
  o_oracle o (length (o_trace o)) c.

Definition record (c : more_call) (r : reply) (o : outside) : outside :=
  mk_outside (o_oracle o) (o_trace o ++ [(c, r)])
             (if r_val r <? 0 then r_errno r else o_errno o).

(** The monad of these functions, over the state [S] that the function
    reads and writes. *)
Definition Act (S A : Type) : Type := S -> outside -> result A * S * outside.

Definition a_ret {S A : Type} (a : A) : Act S A := fun s o => (Val a, s, o).

Definition a_bind {S A B : Type} (m : Act S A) (k : A -> Act S B) : Act S B :=
  fun s o =>
    match m s o with
    | (Val a, s', o') => k a s' o'
    | (Return v, s', o') => (Return v, s', o')
    | (Abort, s', o') => (Abort, s', o')
    | (Out_of_fuel, s', o') => (Out_of_fuel, s', o')
    end.

#[global] Instance Act_ret {S : Type} : MRet (Act S) := @a_ret S.
#[global] Instance Act_bind {S : Type} : MBind (Act S) := fun A B k m => a_bind m k.

Definition a_return {S A : Type} (v : Z) : Act S A := fun s o => (Return v, s, o).

(** A failed [g_assert], and a step that C leaves undefined: a store
    outside an array or a descriptor set, a NULL pointer followed. *)
Definition a_abort {S A : Type} : Act S A := fun s o => (Abort, s, o).

Definition a_get {S : Type} : Act S S := fun s o => (Val s, s, o).
Definition a_modify {S : Type} (f : S -> S) : Act S unit := fun s o => (Val tt, f s, o).

(** [errno = e;] *)
Definition a_set_errno {S : Type} (e : Z) : Act S unit :=
  fun s o => (Val tt, s, mk_outside (o_oracle o) (o_trace o) e).

Definition a_sys {S : Type} (c : more_call) : Act S Z :=
  fun s o => (Val (r_val (next_answer o c)), s, record c (next_answer o c) o).

Definition a_emit {S : Type} (c : more_call) : Act S unit := _ ← a_sys c; mret tt.

Definition a_assert {S : Type} (c : bool) : Act S unit := if c then mret tt else a_abort.

Definition a_when {S : Type} (c : bool) (m : Act S unit) : Act S unit :=
  if c then m else mret tt.

Definition a_fn {S : Type} (body : Act S Z) : Act S Z :=
  fun s o =>
    match body s o with
    | (Return v, s', o') => (Val v, s', o')
    | other => other
    end.

(** The events a run adds to the log. *)
Definition added {S A : Type} (o : outside) (x : result A * S * outside) : list more_event :=
  drop (length (o_trace o)) (o_trace x.2).

(** The events that are calls of [call]. *)
Definition base_events (es : list more_event) : list event :=
  flat_map (fun e : more_event => match e.1 with Base c => [(c, e.2)] | _ => [] end) es.

(** *** [net.c]: [_pgm_set_nonblocking] *)

Definition O_NONBLOCK : Z := 2048.

(** [filedes] is the pair of the pipe: [filedes.1] the read end
    [filedes[0]], [filedes.2] the write end [filedes[1]]. *)
Definition _pgm_set_nonblocking (filedes : Z * Z) : Act unit Z :=
  a_fn (
    (* set write end non-blocking *)
    fd_flags ← a_sys (Fcntl_getfl filedes.2);
    a_when (fd_flags <? 0) (a_return fd_flags);;
    retval ← a_sys (Fcntl_setfl filedes.2 (Z.lor fd_flags O_NONBLOCK));
    a_when (retval <? 0) (a_return fd_flags);;
    (* set read end non-blocking: the answer is dropped *)
    a_emit (Fcntl_getfl filedes.1);;
    a_when (fd_flags <? 0) (a_return fd_flags);;
    retval ← a_sys (Fcntl_setfl filedes.1 (Z.lor fd_flags O_NONBLOCK));
    a_when (retval <? 0) (a_return fd_flags);;
    a_return retval).

(** *** [transport.c]: the descriptors to wait on *)

(** The fields of [pgm_transport_t] that only the functions below read or
    write.  [peers_list] holds the peers in list order;
    [spm_heartbeat_interval] is [None] for a NULL pointer. *)
Record pgm_transport_rest : Type := mk_rest {
  is_destroyed : bool;
  is_edge_triggered_recv : bool;
  is_apdu_eagain : bool;
  pkt_dontwait_first_sqn : Z;
  peers_list : list Z;
  spm_heartbeat_interval : option (list Z)
}.

Definition with_is_destroyed (v : bool) (m : pgm_transport_rest) : pgm_transport_rest :=
  mk_rest v (is_edge_triggered_recv m) (is_apdu_eagain m) (pkt_dontwait_first_sqn m)
          (peers_list m) (spm_heartbeat_interval m).

Definition with_is_edge_triggered_recv (v : bool) (m : pgm_transport_rest)
  : pgm_transport_rest :=
  mk_rest (is_destroyed m) v (is_apdu_eagain m) (pkt_dontwait_first_sqn m)
          (peers_list m) (spm_heartbeat_interval m).

Definition with_is_apdu_eagain (v : bool) (m : pgm_transport_rest) : pgm_transport_rest :=
  mk_rest (is_destroyed m) (is_edge_triggered_recv m) v (pkt_dontwait_first_sqn m)
          (peers_list m) (spm_heartbeat_interval m).

Definition with_peers_list (v : list Z) (m : pgm_transport_rest) : pgm_transport_rest :=
  mk_rest (is_destroyed m) (is_edge_triggered_recv m) (is_apdu_eagain m)
          (pkt_dontwait_first_sqn m) v (spm_heartbeat_interval m).

Definition with_spm_heartbeat_interval (v : option (list Z)) (m : pgm_transport_rest)
  : pgm_transport_rest :=
  mk_rest (is_destroyed m) (is_edge_triggered_recv m) (is_apdu_eagain m)
          (pkt_dontwait_first_sqn m) (peers_list m) v.

(** [g_malloc0]. *)
Definition rest_zero : pgm_transport_rest := mk_rest false false false 0 [] None.

(** The whole structure. *)
Definition whole_transport : Type := pgm_transport_t * pgm_transport_rest.

Definition EBADF : Z := 9.
Definition FD_SETSIZE : Z := 1024.
Definition POLLIN : Z := 1.
Definition EPOLL_CTL_ADD : Z := 1.
Definition EPOLLIN : Z := 1.
Definition EPOLLOUT : Z := 4.
Definition EPOLLET : Z := 2 ^ 31.

(** GLib's [MAX (a, b)]: [((a) > (b)) ? (a) : (b)]. *)
Definition MAX (a b : Z) : Z := if b <? a then a else b.

(** An [fd_set]: the bit array of [FD_SETSIZE] bits, bit [fd] for the
    descriptor [fd]. *)
Definition fd_set : Type := Z.

Definition FD_ISSET (fd : Z) (s : fd_set) : bool := Z.testbit s fd.

(** [FD_SET (fd, &s)]: undefined for a descriptor outside the array. *)
Definition FD_SET {S : Type} (fd : Z) (s : fd_set) : Act S fd_set :=
  if (0 <=? fd) && (fd <? FD_SETSIZE) then mret (Z.lor s (Z.shiftl 1 fd)) else a_abort.

(** What [pgm_transport_select_info] is handed by pointer: the two
    descriptor sets, each [None] for a NULL pointer, held apart, and
    [*n_fds]. *)
Record select_args : Type := mk_select_args {
  sel_readfds : option fd_set;
  sel_writefds : option fd_set;
  sel_n_fds : option Z
}.

Definition FD_SET_readfds (fd : Z) : Act select_args unit :=
  a ← a_get;
  s ← FD_SET fd (default 0 (sel_readfds a));
  a_modify (fun a => mk_select_args (Some s) (sel_writefds a) (sel_n_fds a)).

Definition FD_SET_writefds (fd : Z) : Act select_args unit :=
  a ← a_get;
  s ← FD_SET fd (default 0 (sel_writefds a));
  a_modify (fun a => mk_select_args (sel_readfds a) (Some s) (sel_n_fds a)).

(** A [struct pollfd]. *)
Record pollfd : Type := mk_pollfd {
  pfd_fd : Z;
  pfd_events : Z;
  pfd_revents : Z
}.

(** What [pgm_transport_poll_info] is handed by pointer: the array [fds]
    and [*n_fds]. *)
Record poll_args : Type := mk_poll_args {
  poll_fds : option (list pollfd);
  poll_n_fds : option Z
}.

(** [g_assert ( (1 + moo) <= *n_fds );] *)
Definition poll_room (moo : Z) : Act poll_args unit :=
  a ← a_get;
  a_assert (1 + moo <=? default 0 (poll_n_fds a)).

(** [fds[moo].fd = fd; fds[moo].events = events;], undefined outside the
    array. *)
Definition poll_store (moo fd events : Z) : Act poll_args unit :=
  a ← a_get;
  let fds := default [] (poll_fds a) in
  match fds !! Z.to_nat moo with
  | Some p =>
      a_modify (fun a => mk_poll_args
                           (Some (<[Z.to_nat moo := mk_pollfd fd events (pfd_revents p)]> fds))
                           (poll_n_fds a))
  | None => a_abort
  end.

Section Wait.

(** [pgm_notify_get_fd (&transport->pending_notify)], of [notify.h]: the
    descriptor of the notification channel of the transport. *)
Variable pgm_notify_get_fd : pgm_transport_t -> Z.

Definition pgm_transport_select_info (t : pgm_transport_t) (m : pgm_transport_rest)
  : Act select_args Z :=
  a_fn (
    a ← a_get;
    a_assert (bool_decide (is_Some (sel_n_fds a)));;
    a_when (is_destroyed m) (a_set_errno EBADF;; a_return (-1));;
    let fds := 0 in
    fds ← (if bool_decide (is_Some (sel_readfds a)) then
             FD_SET_readfds (recv_sock t);;
             let fds := recv_sock t + 1 in
             if can_recv_data t then
               let waiting_fd := pgm_notify_get_fd t in
               FD_SET_readfds waiting_fd;;
               mret (MAX fds (waiting_fd + 1))
             else mret fds
           else mret fds);
    fds ← (if can_send_data t && bool_decide (is_Some (sel_writefds a)) then
             FD_SET_writefds (send_sock t);;
             mret (MAX (send_sock t + 1) fds)
           else mret fds);
    a ← a_get;
    let v := MAX fds (default 0 (sel_n_fds a)) in
    a_modify (fun a => mk_select_args (sel_readfds a) (sel_writefds a) (Some v));;
    a_return v).

Definition pgm_transport_poll_info (t : pgm_transport_t) (m : pgm_transport_rest)
    (events : Z) : Act poll_args Z :=
  a_fn (
    a ← a_get;
    a_assert (bool_decide (is_Some (poll_fds a)));;
    a_assert (bool_decide (is_Some (poll_n_fds a)));;
    a_when (is_destroyed m) (a_set_errno EBADF;; a_return (-1));;
    let moo := 0 in
    (* we currently only support one incoming socket *)
    moo ← (if nonzero (Z.land events POLLIN) then
             poll_room moo;;
             poll_store moo (recv_sock t) POLLIN;;
             let moo := moo + 1 in
             if can_recv_data t then
               poll_room moo;;
               poll_store moo (pgm_notify_get_fd t) POLLIN;;
               mret (moo + 1)
             else mret moo
           else mret moo);
    moo ← (if can_send_data t && nonzero (Z.land events POLLOUT) then
             poll_room moo;;
             poll_store moo (send_sock t) POLLOUT;;
             mret (moo + 1)
           else mret moo);
    a_modify (fun a => mk_poll_args (poll_fds a) (Some moo));;
    a_return moo).

Definition pgm_transport_epoll_ctl (epfd op events : Z) : Act whole_transport Z :=
  a_fn (
    s ← a_get;
    let t := s.1 in
    (if negb (op =? EPOLL_CTL_ADD) then a_set_errno EINVAL;; a_return (-1)
     else a_when (is_destroyed s.2) (a_set_errno EBADF;; a_return (-1)));;
    let retval := 0 in
    retval ← (if nonzero (Z.land events EPOLLIN) then
                let event_events := Z.land events (Z.lor EPOLLIN EPOLLET) in
                retval ← a_sys (Epoll_ctl epfd op (recv_sock t) event_events);
                a_when (nonzero retval) (a_return retval);;
                retval ← (if can_recv_data t then
                            retval ← a_sys (Epoll_ctl epfd op (pgm_notify_get_fd t)
                                              event_events);
                            a_when (nonzero retval) (a_return retval);;
                            mret retval
                          else mret retval);
                a_when (nonzero (Z.land events EPOLLET))
                       (a_modify (fun s : whole_transport =>
                                    (s.1, with_is_edge_triggered_recv true s.2)));;
                mret retval
              else mret retval);
    (if can_send_data t && nonzero (Z.land events EPOLLOUT) then
       retval ← a_sys (Epoll_ctl epfd op (send_sock t)
                         (Z.land events (Z.lor EPOLLOUT EPOLLET)));
       a_return retval
     else a_return retval)).

End Wait.

(** *** [pgm_transport_destroy] *)

Definition modify_transport (f : pgm_transport_t -> pgm_transport_t)
  : Act whole_transport unit :=
  a_modify (fun s : whole_transport => (f s.1, s.2)).

Definition modify_rest (f : pgm_transport_rest -> pgm_transport_rest)
  : Act whole_transport unit :=
  a_modify (fun s : whole_transport => (s.1, f s.2)).

(** The [do ... while] over [peers_list]. *)
Fixpoint unref_peers (peers : list Z) : Act whole_transport unit :=
  match peers with
  | [] => mret tt
  | p :: next =>
      a_emit (Peer_unref p);;
      modify_rest (with_peers_list next);;
      unref_peers next
  end.

Definition close_and_clear (sock : pgm_transport_t -> Z)
    (clear : Z -> pgm_transport_t -> pgm_transport_t) : Act whole_transport unit :=
  s ← a_get;
  a_when (nonzero (sock s.1))
         (a_emit (Base (Close (sock s.1)));; modify_transport (clear 0)).

Definition pgm_transport_destroy (flush : bool) : Act whole_transport Z :=
  a_fn (
    a_emit Transport_list_remove;;
    modify_rest (with_is_destroyed true);;
    (* rollback any pkt_dontwait APDU *)
    s ← a_get;
    a_when (is_apdu_eagain s.2)
           (match window s.1 with
            | Some _ => a_emit (Txw_set_lead (guint_wrap (pkt_dontwait_first_sqn s.2 - 1)))
            | None => a_abort
            end;;
            a_emit Window_lock_writer_unlock;;
            modify_rest (with_is_apdu_eagain false));;
    a_emit (Base (Mutex_lock Transport_mutex));;
    (* assume lock from create() if not bound *)
    a_when (is_bound s.1)
           (a_emit (Base (Mutex_lock Send_mutex));;
            a_emit (Base (Mutex_lock Send_with_router_alert_mutex)));;
    a_when (bool_decide (is_Some (peers_hashtable s.1)))
           (a_emit Hash_table_destroy;; modify_transport (with_peers_hashtable None));;
    unref_peers (peers_list s.2);;
    match window s.1 with
    | Some w => a_emit (Txw_shutdown w);; modify_transport (with_window None)
    | None => mret tt
    end;;
    match rate_control s.1 with
    | Some r => a_emit (Rate_destroy r);; modify_transport (with_rate_control None)
    | None => mret tt
    end;;
    close_and_clear recv_sock with_recv_sock;;
    close_and_clear send_sock with_send_sock;;
    close_and_clear send_with_router_alert_sock with_send_with_router_alert_sock;;
    a_when (bool_decide (is_Some (spm_heartbeat_interval s.2)))
           (a_emit Free_spm_heartbeat_interval;;
            modify_rest (with_spm_heartbeat_interval None));;
    a_when (rand_ s.1) (a_emit Rand_free;; modify_transport (with_rand_ false));;
    a_emit Notify_destroy;;
    a_emit Peers_lock_free;;
    a_emit Window_lock_free;;
    a_when (is_bound s.1)
           (a_emit (Base (Mutex_unlock Send_mutex));;
            a_emit (Base (Mutex_unlock Send_with_router_alert_mutex)));;
    a_emit (Base (Mutex_free Send_mutex));;
    a_emit (Base (Mutex_free Send_with_router_alert_mutex));;
    a_emit (Base (Mutex_unlock Transport_mutex));;
    a_emit (Base (Mutex_free Transport_mutex));;
    match rx_buffer s.1 with
    | Some b => a_emit (Free_skb b);; modify_transport (with_rx_buffer None)
    | None => mret tt
    end;;
    a_emit Free_transport;;
    a_return TRUE).

(** *** Vocabulary of the functions that wait and of the destruction *)

Section Wait_vocabulary.

Variable pgm_notify_get_fd : pgm_transport_t -> Z.

(** The descriptors on which to wait for a transport: to read, the
    receive socket and, for a transport that receives, the notification
    channel; to write, the send socket of a transport that sends data. *)
Definition wait_read_fds (t : pgm_transport_t) : list Z :=
  recv_sock t :: (if can_recv_data t then [pgm_notify_get_fd t] else []).

Definition wait_write_fds (t : pgm_transport_t) : list Z :=
  if can_send_data t then [send_sock t] else [].

(** The descriptors that [pgm_transport_select_info] sets in the sets it
    is given. *)
Definition select_fds (t : pgm_transport_t) (a : select_args) : list Z :=
  match sel_readfds a with Some _ => wait_read_fds t | None => [] end
  ++ match sel_writefds a with Some _ => wait_write_fds t | None => [] end.

(** The entries that [pgm_transport_poll_info] has to store for [events]:
    descriptor and events of each. *)
Definition poll_entries (t : pgm_transport_t) (events : Z) : list (Z * Z) :=
  (if nonzero (Z.land events POLLIN)
   then map (fun fd => (fd, POLLIN)) (wait_read_fds t) else [])
  ++ (if nonzero (Z.land events POLLOUT)
      then map (fun fd => (fd, POLLOUT)) (wait_write_fds t) else []).

(** The registrations that [pgm_transport_epoll_ctl] has to make for
    [events]. *)
Definition epoll_read_calls (t : pgm_transport_t) (epfd events : Z) : list more_call :=
  map (fun fd => Epoll_ctl epfd EPOLL_CTL_ADD fd (Z.land events (Z.lor EPOLLIN EPOLLET)))
      (wait_read_fds t).

Definition epoll_write_calls (t : pgm_transport_t) (epfd events : Z) : list more_call :=
  map (fun fd => Epoll_ctl epfd EPOLL_CTL_ADD fd (Z.land events (Z.lor EPOLLOUT EPOLLET)))
      (wait_write_fds t).

Definition epoll_calls (t : pgm_transport_t) (epfd events : Z) : list more_call :=
  (if nonzero (Z.land events EPOLLIN) then epoll_read_calls t epfd events else [])
  ++ (if nonzero (Z.land events EPOLLOUT) then epoll_write_calls t epfd events else []).

(** The registrations for reading were all made, as the first of [es], and
    all granted. *)
Definition registered_to_read (t : pgm_transport_t) (es : list more_event) : bool :=
  (length (wait_read_fds t) <=? length es)%nat
  && forallb (fun e : more_event => r_val e.2 =? 0) (take (length (wait_read_fds t)) es).

End Wait_vocabulary.

Definition granted (e : more_event) : Prop := r_val e.2 = 0.

(** [does m s cs r Q]: from the state [s], whatever the answers, [m] ends
    with [r] in a state of [Q], having made the calls [cs]. *)
Definition does {S A : Type} (m : Act S A) (s : S) (cs : list more_call) (r : result A)
    (Q : S -> Prop) : Prop :=
  forall o, exists o' es s',
    m s o = (r, s', o') /\ o_trace o' = o_trace o ++ es /\ map fst es = cs /\ Q s'.

(** The sockets of [t] that are still in the state when the first [i] of
    them have been closed. *)
Definition sockets_left (i : nat) (t : pgm_transport_t) (s : whole_transport) : Prop :=
  match i with
  | 0%nat => recv_sock s.1 = recv_sock t /\ send_sock s.1 = send_sock t /\
             send_with_router_alert_sock s.1 = send_with_router_alert_sock t
  | 1%nat => send_sock s.1 = send_sock t /\
             send_with_router_alert_sock s.1 = send_with_router_alert_sock t
  | 2%nat => send_with_router_alert_sock s.1 = send_with_router_alert_sock t
  | _ => True
  end.

(** The calls of [call] among [cs]. *)
Definition base_calls (cs : list more_call) : list call :=
  flat_map (fun c => match c with Base c => [c] | _ => [] end) cs.

(** The locks, the descriptors and the objects of a transport that
    [pgm_transport_destroy] has to release. *)
Definition destroy_closes (t : pgm_transport_t) : list Z :=
  List.filter nonzero [recv_sock t; send_sock t; send_with_router_alert_sock t].

Definition destroy_base_calls (t : pgm_transport_t) : list call :=
  Mutex_lock Transport_mutex
  :: (if is_bound t
      then [Mutex_lock Send_mutex; Mutex_lock Send_with_router_alert_mutex] else [])
  ++ map Close (destroy_closes t)
  ++ (if is_bound t
      then [Mutex_unlock Send_mutex; Mutex_unlock Send_with_router_alert_mutex] else [])
  ++ [Mutex_free Send_mutex; Mutex_free Send_with_router_alert_mutex;
      Mutex_unlock Transport_mutex; Mutex_free Transport_mutex].

(** The calls of [pgm_transport_destroy], in order. *)
Definition destroy_calls (t : pgm_transport_t) (m : pgm_transport_rest) : list more_call :=
  [Transport_list_remove]
  ++ (if is_apdu_eagain m
      then [Txw_set_lead (guint_wrap (pkt_dontwait_first_sqn m - 1));
            Window_lock_writer_unlock]
      else [])
  ++ [Base (Mutex_lock Transport_mutex)]
  ++ (if is_bound t
      then [Base (Mutex_lock Send_mutex); Base (Mutex_lock Send_with_router_alert_mutex)]
      else [])
  ++ (if bool_decide (is_Some (peers_hashtable t)) then [Hash_table_destroy] else [])
  ++ map Peer_unref (peers_list m)
  ++ match window t with Some w => [Txw_shutdown w] | None => [] end
  ++ match rate_control t with Some r => [Rate_destroy r] | None => [] end
  ++ (if nonzero (recv_sock t) then [Base (Close (recv_sock t))] else [])
  ++ (if nonzero (send_sock t) then [Base (Close (send_sock t))] else [])
  ++ (if nonzero (send_with_router_alert_sock t)
      then [Base (Close (send_with_router_alert_sock t))] else [])
  ++ (if bool_decide (is_Some (spm_heartbeat_interval m))
      then [Free_spm_heartbeat_interval] else [])
  ++ (if rand_ t then [Rand_free] else [])
  ++ [Notify_destroy]
  ++ [Peers_lock_free]
  ++ [Window_lock_free]
  ++ (if is_bound t
      then [Base (Mutex_unlock Send_mutex);
            Base (Mutex_unlock Send_with_router_alert_mutex)]
      else [])
  ++ [Base (Mutex_free Send_mutex)]
  ++ [Base (Mutex_free Send_with_router_alert_mutex)]
  ++ [Base (Mutex_unlock Transport_mutex)]
  ++ [Base (Mutex_free Transport_mutex)]
  ++ match rx_buffer t with Some b => [Free_skb b] | None => [] end
  ++ [Free_transport].

(** How many of the calls are of kind [p]. *)
Definition count_of (p : call -> bool) (cs : list call) : nat := length (List.filter p cs).

Definition mutex_eqb (a b : mutex_id) : bool :=
  match a, b with
  | Transport_mutex, Transport_mutex
  | Send_mutex, Send_mutex
  | Send_with_router_alert_mutex, Send_with_router_alert_mutex => true
  | _, _ => false
  end.

Definition is_lock (m : mutex_id) (c : call) : bool :=
  match c with Mutex_lock m' => mutex_eqb m' m | _ => false end.

Definition is_unlock (m : mutex_id) (c : call) : bool :=
  match c with Mutex_unlock m' => mutex_eqb m' m | _ => false end.

Definition is_init (m : mutex_id) (c : call) : bool :=
  match c with Mutex_init m' => mutex_eqb m' m | _ => false end.

Definition is_free (m : mutex_id) (c : call) : bool :=
  match c with Mutex_free m' => mutex_eqb m' m | _ => false end.

(** The descriptors handed to [close] by the calls [cs]. *)
Definition closes_of (cs : list call) : list Z :=
  flat_map (fun c => match c with Close fd => [fd] | _ => [] end) cs.

Definition is_peer_unref (c : more_call) : bool :=
  match c with Peer_unref _ => true | _ => false end.

Definition is_socket (c : call) : bool :=
  match c with Socket _ _ _ => true | _ => false end.

(** The calls of the events [es]. *)
Definition calls_of (es : list event) : list call := map fst es.

(** ** More concrete inputs *)

(** A system whose rate regulator holds the first packet back. *)
Definition example_held_back : world := world_init (oracle_with 0 (reply_err (-1) EAGAIN)).

(** The membership request of [example_gr] on [example_bound]. *)
Definition example_join_call : call :=
  Setsockopt (recv_sock example_bound) IPPROTO_IP MCAST_JOIN_GROUP (Opt_group_req example_gr)
    sizeof_group_req.

(** The bind of the transport handed out by [example_create_run], in the
    world that run left. *)
Definition example_first_bind :=
  pgm_transport_bind sockaddr_cmp_model false example_transport example_create_run.2.

(** A notification channel on descriptor 9, a system that grants every
    call, and the fields of a transport that was not destroyed and of one
    that was. *)
Definition example_notify_fd (t : pgm_transport_t) : Z := 9.

Definition outside_ok : outside := outside_init (fun _ _ => reply_ok).

Definition example_destroyed : pgm_transport_rest := with_is_destroyed true rest_zero.

Definition example_select_args : select_args := mk_select_args (Some 0) (Some 0) (Some 0).

Definition example_pollfds : list pollfd := replicate 3 (mk_pollfd 0 0 0).
(** * Properties *)

(** ** Reasoning about runs *)

Lemma wp_bind {A B : Type} (m : M A) (k : A -> M B) t w Q :
  wp m t w (after k Q) -> wp (m ≫= k) t w Q.
Proof.
  unfold wp, after, rs, st, wd, mbind, M_bind, bindM.
  destruct (m t w) as [[[a|v| |] t'] w']; simpl; auto.
Qed.

Lemma wp_ret {A : Type} (a : A) t w (Q : result A -> _ -> _ -> Prop) :
  Q (Val a) t w -> wp (mret a) t w Q.
Proof. auto. Qed.

Lemma wp_return {A : Type} v t w (Q : result A -> _ -> _ -> Prop) :
  Q (Return v) t w -> wp (return_ v) t w Q.
Proof. auto. Qed.

Lemma wp_abort {A : Type} t w (Q : result A -> _ -> _ -> Prop) :
  Q Abort t w -> wp abort t w Q.
Proof. auto. Qed.

Lemma wp_out_of_fuel {A : Type} t w (Q : result A -> _ -> _ -> Prop) :
  Q Out_of_fuel t w -> wp out_of_fuel t w Q.
Proof. auto. Qed.

Lemma wp_get t w Q : Q (Val t) t w -> wp get t w Q.
Proof. auto. Qed.

Lemma wp_get_errno t w Q : Q (Val (w_errno w)) t w -> wp get_errno t w Q.
Proof. auto. Qed.

Lemma wp_modify f t w Q : Q (Val tt) (f t) w -> wp (modify f) t w Q.
Proof. auto. Qed.

Lemma wp_sys_reply c t w Q :
  (forall r, r = next_reply w c -> Q (Val r) t (log c r w)) -> wp (sys_reply c) t w Q.
Proof. intros H. apply H. reflexivity. Qed.

Lemma wp_fn (body : M Z) t w Q :
  wp body t w (fun r t' w' =>
                 match r with
                 | Return v => Q (Val v) t' w'
                 | other => Q other t' w'
                 end) ->
  wp (fn body) t w Q.
Proof.
  unfold wp, fn, rs, st, wd.
  destruct (body t w) as [[[a|v| |] t'] w']; simpl; auto.
Qed.

Lemma wp_mono {A : Type} (m : M A) t w (Q Q' : result A -> _ -> _ -> Prop) :
  wp m t w Q -> (forall r t' w', Q r t' w' -> Q' r t' w') -> wp m t w Q'.
Proof. unfold wp. auto. Qed.

Lemma wp_run {A : Type} (m : M A) t w Q r t' w' :
  wp m t w Q -> m t w = (r, t', w') -> Q r t' w'.
Proof. unfold wp. intros H E. rewrite E in H. exact H. Qed.

(** The derived operations are opened up into the primitive ones. *)
Ltac open_ops :=
  unfold sys, emit, g_assert, g_return_val_if_fail, when.

(** One step of a run. *)
Ltac wp_step :=
  lazymatch goal with
  | |- wp (mbind _ _) _ _ _ => apply wp_bind
  | |- wp (bindM _ _) _ _ _ => apply wp_bind
  | |- wp (mret _) _ _ _ => apply wp_ret
  | |- wp (ret _) _ _ _ => apply wp_ret
  | |- wp (return_ _) _ _ _ => apply wp_return
  | |- wp abort _ _ _ => apply wp_abort
  | |- wp out_of_fuel _ _ _ => apply wp_out_of_fuel
  | |- wp get _ _ _ => apply wp_get
  | |- wp get_errno _ _ _ => apply wp_get_errno
  | |- wp (modify _) _ _ _ => apply wp_modify
  | |- wp (sys_reply _) _ _ _ => apply wp_sys_reply; intros ? ?
  | |- wp (fn _) _ _ _ => apply wp_fn
  | |- wp (sys _) _ _ _ => unfold sys
  | |- wp (emit _) _ _ _ => unfold emit
  | |- wp (g_assert _) _ _ _ => unfold g_assert
  | |- wp (g_return_val_if_fail _ _) _ _ _ => unfold g_return_val_if_fail
  | |- wp (when _ _) _ _ _ => unfold when
  | |- wp (fails _) _ _ _ => unfold fails
  | |- wp (refuses _) _ _ _ => unfold refuses
  | |- wp (orM _ _) _ _ _ => unfold orM
  | |- wp bind_fail _ _ _ => unfold bind_fail
  | |- wp (bind_fail_with _) _ _ _ => unfold bind_fail_with
  | |- after _ _ _ _ _ => unfold after at 1
  | |- wp (if ?b then _ else _) _ _ _ => destruct b eqn:?
  | |- wp (match ?x with _ => _ end) _ _ _ => destruct x eqn:?
  end.

Ltac wp_run_all := repeat wp_step.

(** The equations that name the answers are seldom needed. *)
Ltac forget_replies :=
  repeat match goal with H : _ = next_reply _ _ |- _ => clear H end.

(** The log only grows, and a run's new events are what was appended. *)
Lemma new_events_app {A : Type} (w : world) (x : result A * pgm_transport_t * world) es :
  w_trace (wd x) = w_trace w ++ es -> new_events w x = es.
Proof.
  intros E. unfold new_events. rewrite E. apply drop_app_length.
Qed.

Lemma w_trace_log c r w : w_trace (log c r w) = w_trace w ++ [(c, r)].
Proof. reflexivity. Qed.

Lemma w_errno_log c r w :
  w_errno (log c r w) = if r_val r <? 0 then r_errno r else w_errno w.
Proof. reflexivity. Qed.

(** ** Invariants of a run *)

Lemma inv_bind {A B : Type} E J (m : M A) (k : A -> M B) :
  inv E J m -> (forall a, inv E J (k a)) -> inv E J (m ≫= k).
Proof.
  intros Hm Hk t w HI. apply wp_bind. eapply wp_mono; [apply Hm, HI|].
  intros [a|v| |] t' w' [HI' HE]; simpl; auto. apply Hk, HI'.
Qed.

Lemma inv_ret {A : Type} E J (a : A) : inv E J (mret a).
Proof. intros t w HI. split; [exact HI | exact Logic.I]. Qed.

Lemma inv_return {A : Type} (E : Z -> Prop) J v : E v -> inv E J (@return_ A v).
Proof. intros HE t w HI. split; [exact HI | exact HE]. Qed.

Lemma inv_abort {A : Type} E J : inv E J (@abort A).
Proof. intros t w HI. split; [exact HI | exact Logic.I]. Qed.

Lemma inv_out_of_fuel {A : Type} E J : inv E J (@out_of_fuel A).
Proof. intros t w HI. split; [exact HI | exact Logic.I]. Qed.

Lemma inv_get E J : inv E J get.
Proof. intros t w HI. split; [exact HI | exact Logic.I]. Qed.

Lemma inv_get_errno E J : inv E J get_errno.
Proof. intros t w HI. split; [exact HI | exact Logic.I]. Qed.

Lemma inv_modify E (J : pgm_transport_t -> world -> Prop) f :
  (forall t w, J t w -> J (f t) w) -> inv E J (modify f).
Proof. intros H t w HI. split; [apply H, HI | exact Logic.I]. Qed.

Lemma inv_sys_reply E (J : pgm_transport_t -> world -> Prop) c :
  (forall t w r, J t w -> J t (log c r w)) -> inv E J (sys_reply c).
Proof. intros H t w HI. split; [apply H, HI | exact Logic.I]. Qed.

(** An invariant of a block used inside a run: the run goes on from any
    state the block can leave. *)
Lemma wp_inv {A : Type} E J (m : M A) t w Q :
  inv E J m -> J t w ->
  (forall r t' w', J t' w' -> exits_in E r -> Q r t' w') ->
  wp m t w Q.
Proof.
  intros Hm HI HQ. eapply wp_mono; [apply Hm, HI|].
  intros r t' w' [HI' HE]. apply HQ; assumption.
Qed.

Lemma Inv_modify E S ok tr0 f :
  (forall t, S t -> S (f t)) -> inv E (Inv S ok tr0) (modify f).
Proof.
  intros H. apply inv_modify. intros t w [HS Hes]. split; [apply H, HS | exact Hes].
Qed.

Lemma Inv_sys_reply E S ok tr0 c :
  ok c = true -> inv E (Inv S ok tr0) (sys_reply c).
Proof.
  intros H. apply inv_sys_reply. intros t w r [HS (es & Heq & F)]. split; [exact HS|].
  exists (es ++ [(c, r)]). split.
  - rewrite w_trace_log, Heq. apply eq_sym, app_assoc.
  - apply Forall_app. split; [exact F|]. constructor; [exact H | constructor].
Qed.

Lemma Inv_start (S : pgm_transport_t -> Prop) ok t w :
  S t -> Inv S ok (w_trace w) t w.
Proof.
  intros HS. split; [exact HS|]. exists []. split; [apply eq_sym, app_nil_r | constructor].
Qed.

(** The same, after more events allowed by [ok] and a change of the
    transport that establishes a new [S]. *)
Lemma Inv_extend (S S' : pgm_transport_t -> Prop) ok tr0 t t' w w' es :
  Inv S ok tr0 t w -> w_trace w' = w_trace w ++ es ->
  Forall (fun e => ok e.1 = true) es -> S' t' -> Inv S' ok tr0 t' w'.
Proof.
  intros [_ (es0 & E0 & F0)] E F HS. split; [exact HS|].
  exists (es0 ++ es). split; [rewrite E, E0; apply eq_sym, app_assoc|].
  apply Forall_app. split; assumption.
Qed.

(** The invariant under a weaker reading of the transport and of the
    events. *)
Lemma Inv_weaken (S S' : pgm_transport_t -> Prop) (ok ok' : call -> bool) tr0 t w :
  Inv S ok tr0 t w -> (S t -> S' t) -> (forall c, ok c = true -> ok' c = true) ->
  Inv S' ok' tr0 t w.
Proof.
  intros [HS (es & E & F)] HSS Hok. split; [apply HSS, HS|].
  exists es. split; [exact E|]. eapply Forall_impl; [exact F|].
  intros e He. apply Hok, He.
Qed.

(** An invariant carried through a program, one construct at a time. *)
Ltac inv_step :=
  lazymatch goal with
  | |- inv _ _ (mbind _ _) => apply inv_bind; [| intro]
  | |- inv _ _ (bindM _ _) => apply inv_bind; [| intro]
  | |- inv _ _ (mret _) => apply inv_ret
  | |- inv _ _ (ret _) => apply inv_ret
  | |- inv _ _ (return_ _) => apply inv_return; first [reflexivity | exact Logic.I]
  | |- inv _ _ abort => apply inv_abort
  | |- inv _ _ out_of_fuel => apply inv_out_of_fuel
  | |- inv _ _ get => apply inv_get
  | |- inv _ _ get_errno => apply inv_get_errno
  | |- inv _ (Inv _ _ _) (modify _) => apply Inv_modify; intros ? HS; exact HS
  | |- inv _ (Inv _ _ _) (sys_reply _) => apply Inv_sys_reply; reflexivity
  | |- inv _ _ (sys _) => unfold sys
  | |- inv _ _ (emit _) => unfold emit
  | |- inv _ _ (g_assert _) => unfold g_assert
  | |- inv _ _ (g_return_val_if_fail _ _) => unfold g_return_val_if_fail
  | |- inv _ _ (when _ _) => unfold when
  | |- inv _ _ (fails _) => unfold fails
  | |- inv _ _ (refuses _) => unfold refuses
  | |- inv _ _ (orM _ _) => unfold orM
  | |- inv _ _ bind_fail => unfold bind_fail
  | |- inv _ _ (bind_fail_with _) => unfold bind_fail_with
  | |- inv _ _ (if ?b then _ else _) => destruct b
  | |- inv _ _ (match ?x with _ => _ end) => destruct x
  end.

Ltac inv_auto := repeat inv_step.

(** ** [_pgm_sendto]: the retry policy *)

Lemma split_first_spec p es pre x post :
  es = pre ++ x :: post -> p x.1 = true -> no_calls p pre ->
  split_first p es = Some (pre, x, post).
Proof.
  intros -> Hx Hpre. induction Hpre as [|e pre He _ IH]; simpl.
  - rewrite Hx. reflexivity.
  - rewrite He, IH. reflexivity.
Qed.

Lemma sendto_needs_wait_true sent e flags :
  sent < 0 ->
  sendto_needs_wait sent e flags = true <->
  ~ (e = ENETUNREACH \/ e = EHOSTUNREACH \/ (e = EAGAIN /\ Z.land flags MSG_DONTWAIT <> 0)).
Proof.
  intros Hs. unfold sendto_needs_wait, nonzero.
  apply Z.ltb_lt in Hs. rewrite Hs. simpl.
  destruct (Z.eqb_spec e ENETUNREACH), (Z.eqb_spec e EHOSTUNREACH), (Z.eqb_spec e EAGAIN),
    (Z.eqb_spec (Z.land flags MSG_DONTWAIT) 0); simpl; split; intros H;
    try discriminate; try reflexivity; try tauto.
  all: exfalso; apply H; tauto.
Qed.

Lemma waits_500ms_for_poll fd : waits_500ms_for fd (Poll fd POLLOUT 500) = true.
Proof. simpl. rewrite Z.eqb_refl. reflexivity. Qed.

(** [select (1, ...)] examines descriptor 0 and no other. *)
Lemma waits_500ms_for_select fd :
  waits_500ms_for fd (Select 1 [fd] 0 (500 * 1000)) = (fd =? 0).
Proof.
  unfold waits_500ms_for. rewrite bool_decide_eq_true_2 by reflexivity.
  change (0 * 1000000 + 500 * 1000 =? 500 * 1000) with true.
  destruct (Z.leb_spec 0 fd), (Z.ltb_spec fd 1), (Z.eqb_spec fd 0); simpl;
    first [reflexivity | lia].
Qed.

Lemma examined_select fd : fd <> 0 -> examined (Select 1 [fd] 0 (500 * 1000)) = [].
Proof.
  intros H. unfold examined. cbn [List.filter].
  destruct (Z.leb_spec 0 fd), (Z.ltb_spec fd 1); simpl; first [reflexivity | lia].
Qed.

(** C7.  The retry of [_pgm_sendto], as the code has it.  When the first
    [sendto] fails and [errno] is not ENETUNREACH, not EHOSTUNREACH, and not
    EAGAIN under MSG_DONTWAIT, the next call is the wait.  In the build with
    [poll] it is a [poll] of 500 ms for writability of the transport's send
    socket.  In the build without, it is [select (1, NULL, &writefds, NULL,
    &tv)] of 500 ms with the send socket in [writefds]: its [nfds] is 1
    whatever the socket, so that it waits for the send socket only when
    that is descriptor 0.  The send is then repeated, once, exactly when
    the wait answers a positive number, and no other wait follows; hence in
    the build without [poll], when [select] answers no more than the
    number of descriptors it examines, a send socket other than 0 is never
    sent to again.  In the three excluded cases the first [sendto] is
    followed by no wait and no further [sendto]. *)
Theorem sendto_retry_policy poll rl ra buf len flags to tolen t w pre c r post :
  0 < len -> 0 < tolen ->
  new_events w (_pgm_sendto poll rl ra buf len flags to tolen t w) = pre ++ (c, r) :: post ->
  is_sendto c = true -> no_calls is_sendto pre -> r_val r < 0 ->
  let e := r_errno r in
  let excluded :=
    e = ENETUNREACH \/ e = EHOSTUNREACH \/ (e = EAGAIN /\ Z.land flags MSG_DONTWAIT <> 0) in
  (~ excluded ->
     exists cw rw post',
       post = (cw, rw) :: post' /\
       cw = (if poll then Poll (send_sock t) POLLOUT 500
             else Select 1 [send_sock t] 0 (500 * 1000)) /\
       waits_500ms_for (send_sock t) cw = poll || (send_sock t =? 0) /\
       count_calls is_wait post' = 0%nat /\
       count_calls is_sendto post' = (if 0 <? r_val rw then 1%nat else 0%nat) /\
       (0 < r_val rw -> exists r2 rest, post' = (c, r2) :: rest) /\
       (poll = false -> send_sock t <> 0 ->
        r_val rw <= Z.of_nat (length (examined cw)) ->
        count_calls is_sendto post' = 0%nat)) /\
  (excluded -> count_calls is_wait post = 0%nat /\ count_calls is_sendto post = 0%nat).
Proof.
  intros Hlen Htolen Hev Hc Hpre Hr e excluded.
  apply (split_first_spec is_sendto) in Hev; [|exact Hc|exact Hpre].
  revert Hev. unfold new_events.
  change (wp (_pgm_sendto poll rl ra buf len flags to tolen) t w
            (fun _ _ w' =>
               split_first is_sendto (drop (length (w_trace w)) (w_trace w'))
               = Some (pre, (c, r), post) ->
               (~ excluded -> exists cw rw post',
                   post = (cw, rw) :: post' /\
                   cw = (if poll then Poll (send_sock t) POLLOUT 500
                         else Select 1 [send_sock t] 0 (500 * 1000)) /\
                   waits_500ms_for (send_sock t) cw = poll || (send_sock t =? 0) /\
                   count_calls is_wait post' = 0%nat /\
                   count_calls is_sendto post' = (if 0 <? r_val rw then 1%nat else 0%nat) /\
                   (0 < r_val rw -> exists r2 rest, post' = (c, r2) :: rest) /\
                   (poll = false -> send_sock t <> 0 ->
                    r_val rw <= Z.of_nat (length (examined cw)) ->
                    count_calls is_sendto post' = 0%nat)) /\
               (excluded -> count_calls is_wait post = 0%nat /\
                            count_calls is_sendto post = 0%nat))).
  unfold _pgm_sendto, wait_send_sock.
  apply Z.ltb_lt in Hlen, Htolen.
  wp_step. wp_step. wp_step. rewrite Hlen. wp_step. wp_step. wp_step. rewrite Htolen.
  wp_run_all.
  all: cbn [w_trace log]; rewrite <- ?app_assoc; rewrite ?drop_app_length.
  all: cbn [app split_first fst is_sendto]; intros Hs; try discriminate Hs.
  all: injection Hs as <- <- <- <-; subst e excluded.
  all: repeat match goal with
         | H : sendto_needs_wait _ _ _ = _ |- _ =>
             rewrite w_errno_log in H;
             rewrite (proj2 (Z.ltb_lt _ _) Hr) in H;
             first [ apply sendto_needs_wait_true in H; [|exact Hr]
                   | apply not_true_iff_false in H;
                     rewrite (sendto_needs_wait_true _ _ _ Hr) in H ]
         end.
  all: split; intros Hex; try tauto.
  all: try (split; reflexivity).
  all: eexists _, _, _; split; [reflexivity|].
  all: split; [reflexivity|].
  all: split; [first [apply waits_500ms_for_poll | apply waits_500ms_for_select]|].
  all: split; [reflexivity|].
  all: match goal with H : (0 <? r_val _) = _ |- _ => rewrite H end.
  all: split; [reflexivity|].
  all: split;
    [intros Hpos; first [eexists _, _; reflexivity
                        | match goal with
                          | H : (0 <? r_val _) = false |- _ => apply Z.ltb_ge in H; lia
                          end]
    |].
  all: intros Hpoll Hsock Hans; try discriminate Hpoll; try reflexivity.
  all: rewrite (examined_select _ Hsock) in Hans; cbn [length Z.of_nat] in Hans.
  all: match goal with H : (0 <? r_val _) = true |- _ => apply Z.ltb_lt in H; lia end.
Qed.
(** ** The configurators *)

Lemma land_pred_table :
  forallb (fun i => let k := Z.of_nat i in
                    Bool.eqb (Z.land k (k - 1) =? 0)
                             (existsb (Z.eqb k) powers_of_two_upto_128))
          (seq 2 127) = true.
Proof. vm_compute. reflexivity. Qed.

Lemma land_pred_power k :
  2 <= k <= 128 -> (Z.land k (k - 1) =? 0) = true <-> is_power_of_two k.
Proof.
  intros Hk.
  assert (Htab : Bool.eqb (Z.land k (k - 1) =? 0)
                   (existsb (Z.eqb k) powers_of_two_upto_128) = true).
  { pose proof land_pred_table as T. rewrite forallb_forall in T.
    specialize (T (Z.to_nat k)). rewrite Z2Nat.id in T by lia.
    apply T. apply in_seq. lia. }
  apply eqb_prop in Htab. rewrite Htab. clear Htab.
  rewrite existsb_exists. split.
  - intros (x & Hin & Hx). apply Z.eqb_eq in Hx. subst x.
    simpl in Hin.
    destruct Hin as [<-|[<-|[<-|[<-|[<-|[<-|[<-|[]]]]]]]];
      [exists 1|exists 2|exists 3|exists 4|exists 5|exists 6|exists 7]; split; (lia || reflexivity).
  - intros (e & He & ->). exists (2 ^ e). split; [|apply Z.eqb_refl].
    assert (e < 8).
    { destruct (Z.lt_ge_cases e 8) as [?|Hge]; [assumption|].
      pose proof (Z.pow_le_mono_r 2 8 e ltac:(lia) Hge) as P.
      change (2 ^ 8) with 256 in P. lia. }
    assert (1 <= e).
    { destruct (Z.lt_ge_cases e 1) as [Hlt|?]; [|assumption].
      assert (e = 0) by lia. subst e. simpl in Hk. lia. }
    assert (Hcases : e = 1 \/ e = 2 \/ e = 3 \/ e = 4 \/ e = 5 \/ e = 6 \/ e = 7) by lia.
    destruct Hcases as [->|[->|[->|[->|[->|[->| ->]]]]]]; simpl; tauto.
Qed.

Lemma guint_wrap_id z : is_guint z -> guint_wrap z = z.
Proof. intros H. apply Z.mod_small. exact H. Qed.

Lemma fec_checks_valid h n k :
  is_guint h -> is_guint n -> is_guint k ->
  fec_checks h n k = true <-> fec_valid h n k.
Proof.
  intros Hh Hn Hk. unfold fec_checks, fec_valid, is_guint in *.
  rewrite !andb_true_iff, !Z.leb_le. split.
  - intros [[[Hpow [H2 H128]] [Hn1 Hn255]] Hph].
    rewrite guint_wrap_id in Hpow by (unfold is_guint; lia).
    rewrite guint_wrap_id in Hn1 by (unfold is_guint; lia).
    rewrite guint_wrap_id in Hph by (unfold is_guint; lia).
    apply land_pred_power in Hpow; [|lia].
    repeat split; try assumption; try lia.
  - intros (Hpow & H2 & Hn1 & Hph & _).
    rewrite !guint_wrap_id by (unfold is_guint; lia).
    apply land_pred_power in Hpow; [|lia].
    repeat split; try assumption; lia.
Qed.

(** C8.  [pgm_transport_set_fec] returns TRUE exactly for the parameters
    the specification admits; when it does, [n], [k], [proactive_h] and the
    parity and variable-length flags are stored, and when it does not it
    returns FALSE and the transport is as it was. *)
Theorem set_fec_accepts_exactly_valid t w h od vl n k :
  is_guint h -> is_guint n -> is_guint k ->
  let x := pgm_transport_set_fec h od vl n k t w in
  (rs x = Val TRUE <-> fec_valid h n k) /\
  (rs x = Val TRUE ->
     rs_n (st x) = n /\ rs_k (st x) = k /\ rs_proactive_h (st x) = h /\
     use_proactive_parity (st x) = (0 <? h) /\
     use_ondemand_parity (st x) = od /\ use_varpkt_len (st x) = vl) /\
  (rs x <> Val TRUE -> rs x = Val FALSE /\ st x = t).
Proof.
  intros Hh Hn Hk x. subst x.
  rewrite <- (fec_checks_valid h n k Hh Hn Hk).
  change (wp (pgm_transport_set_fec h od vl n k) t w
            (fun r t' _ =>
               (r = Val TRUE <-> fec_checks h n k = true) /\
               (r = Val TRUE ->
                  rs_n t' = n /\ rs_k t' = k /\ rs_proactive_h t' = h /\
                  use_proactive_parity t' = (0 <? h) /\
                  use_ondemand_parity t' = od /\ use_varpkt_len t' = vl) /\
               (r <> Val TRUE -> r = Val FALSE /\ t' = t))).
  unfold pgm_transport_set_fec, fec_checks.
  wp_run_all.
  1: { exfalso. apply andb_true_iff in Heqb0 as [_ Hle], Heqb3 as [Hlt _].
       apply Z.leb_le in Hle. apply Z.ltb_lt in Hlt. lia. }
  all: cbn; unfold TRUE, FALSE; repeat split; intros; try discriminate;
    try reflexivity; congruence.
Qed.

(** ** Group membership *)

Section Membership.

Variable pgm_sockaddr_cmp : sockaddr -> sockaddr -> Z.

Lemma recv_gsr_len_with_recv_gsr a t : recv_gsr_len (with_recv_gsr a t) = recv_gsr_len t.
Proof. reflexivity. Qed.

Lemma recv_list_snoc t e :
  wf_transport t -> (recv_gsr_len t < IP_MAX_MEMBERSHIPS)%nat ->
  recv_list (with_recv_gsr_len (S (recv_gsr_len t))
               (with_recv_gsr (<[recv_gsr_len t := e]> (recv_gsr t)) t))
  = recv_list t ++ [e].
Proof.
  intros [Hlen _] Hlt. unfold recv_list. cbn.
  rewrite (take_S_r _ _ e).
  - rewrite take_insert_ge by lia. reflexivity.
  - apply list_lookup_insert_eq. lia.
Qed.

(** C10.  When [pgm_transport_join_group] succeeds (returns 0), the receive
    list has grown by one entry, and that entry is normalised: its group
    and its source are both [gr->gr_group] and its interface is 0, whatever
    interface the request named. *)
Theorem join_group_appends_normalized (gr : group_req) (len : Z) t w :
  wf_transport t ->
  let x := pgm_transport_join_group pgm_sockaddr_cmp gr len t w in
  rs x = Val 0 ->
  exists e,
    recv_list (st x) = recv_list t ++ [e] /\
    recv_gsr_len (st x) = S (recv_gsr_len t) /\
    gsr_source e = gr_group gr /\
    gsr_group e = gr_group gr /\
    gsr_interface e = 0.
Proof.
  intros Hwf x. subst x.
  change (wp (pgm_transport_join_group pgm_sockaddr_cmp gr len) t w
            (fun r t' _ =>
               r = Val 0 ->
               exists e,
                 recv_list t' = recv_list t ++ [e] /\
                 recv_gsr_len t' = S (recv_gsr_len t) /\
                 gsr_source e = gr_group gr /\
                 gsr_group e = gr_group gr /\
                 gsr_interface e = 0)).
  unfold pgm_transport_join_group.
  wp_run_all; intros Hr; try discriminate Hr.
  exists (join_group_entry gr). split; [|repeat split].
  rewrite recv_gsr_len_with_recv_gsr.
  apply recv_list_snoc; [exact Hwf|].
  apply Nat.ltb_lt. assumption.
Qed.

Lemma join_group_dup_own_entry gr :
  (forall a, pgm_sockaddr_cmp a a = 0) ->
  join_group_dup pgm_sockaddr_cmp gr (join_group_entry gr) = true.
Proof.
  intros Hrefl. unfold join_group_dup, join_group_entry. cbn.
  rewrite Hrefl. cbn. apply orb_true_r.
Qed.

(** C5.  A second [pgm_transport_join_group] with the group and interface
    of the first returns [-EINVAL] and leaves the transport, and so the
    receive list, as the first call left it.  The comparison of addresses
    is taken to find an address equal to itself. *)
Theorem join_group_twice_rejected (gr : group_req) (len : Z) t w :
  (forall a, pgm_sockaddr_cmp a a = 0) ->
  wf_transport t ->
  let x1 := pgm_transport_join_group pgm_sockaddr_cmp gr len t w in
  let x2 := pgm_transport_join_group pgm_sockaddr_cmp gr len (st x1) (wd x1) in
  rs x2 = Val (- EINVAL) /\ st x2 = st x1 /\
  recv_list (st x2) = recv_list (st x1) /\
  recv_gsr_len (st x2) = recv_gsr_len (st x1).
Proof.
  intros Hrefl Hwf x1 x2.
  enough (rs x2 = Val (- EINVAL) /\ st x2 = st x1) as [H1 H2]
    by (rewrite H2; auto).
  subst x1 x2.
  change (wp (pgm_transport_join_group pgm_sockaddr_cmp gr len) t w
            (fun _ t1 w1 =>
               wp (pgm_transport_join_group pgm_sockaddr_cmp gr len) t1 w1
                  (fun r2 t2 _ => r2 = Val (- EINVAL) /\ t2 = t1))).
  unfold pgm_transport_join_group.
  wp_run_all; try (split; reflexivity); try congruence.
  all: exfalso.
  all: rewrite ?recv_gsr_len_with_recv_gsr in *.
  all: repeat match goal with
         | H : existsb _ (recv_list (with_recv_gsr_len _ _)) = false |- _ =>
             rewrite recv_list_snoc in H;
             [ rewrite existsb_app in H; cbn in H;
               rewrite join_group_dup_own_entry in H by exact Hrefl;
               rewrite orb_true_r in H; discriminate H
             | exact Hwf
             | apply Nat.ltb_lt; assumption ]
         end.
Qed.

(** [pgm_transport_leave_group] never changes the transport: with an empty
    receive list the scan has nothing to visit, and otherwise the call is
    refused before the scan. *)
Lemma leave_group_keeps_transport (gr : group_req) (len : Z) t w :
  st (pgm_transport_leave_group pgm_sockaddr_cmp gr len t w) = t.
Proof.
  change (wp (pgm_transport_leave_group pgm_sockaddr_cmp gr len) t w
            (fun _ t' _ => t' = t)).
  unfold pgm_transport_leave_group.
  wp_step. wp_step. wp_step. wp_step; [|wp_run_all; reflexivity].
  wp_step. wp_step. wp_step. wp_step. wp_step. wp_step.
  wp_step; [|wp_run_all; reflexivity].
  apply Nat.eqb_eq in Heqb0. rewrite Heqb0. cbn [leave_group_loop Nat.ltb Nat.leb].
  wp_run_all. destruct t; cbn in *; subst; reflexivity.
Qed.


(** With a receive list in use the call is refused with [-EINVAL] and
    [setsockopt] is not reached. *)
Lemma leave_group_nonempty_list (gr : group_req) (len : Z) t w :
  recv_gsr_len t <> 0%nat ->
  let x := pgm_transport_leave_group pgm_sockaddr_cmp gr len t w in
  rs x = Val (- EINVAL) /\ count_calls is_setsockopt (new_events w x) = 0%nat.
Proof.
  intros Hlen x. subst x. unfold new_events.
  change (wp (pgm_transport_leave_group pgm_sockaddr_cmp gr len) t w
            (fun r0 _ w' =>
               r0 = Val (- EINVAL) /\
               count_calls is_setsockopt (drop (length (w_trace w)) (w_trace w')) = 0%nat)).
  unfold pgm_transport_leave_group.
  wp_step. wp_step. wp_step. wp_step;
    [|wp_run_all; cbn [w_trace log]; rewrite drop_app_length; split; reflexivity].
  wp_step. wp_step. wp_step. wp_step. wp_step. wp_step.
  wp_step; [apply Nat.eqb_eq in Heqb0; contradiction|].
  wp_run_all. cbn [w_trace log]. rewrite drop_app_length. split; reflexivity.
Qed.

End Membership.

(** The scan of [pgm_transport_leave_group] ends within [len - i] rounds. *)
Lemma leave_group_loop_fuel cmp fuel gr i a len :
  (len - i <= fuel)%nat -> leave_group_loop cmp fuel gr i a len <> None.
Proof.
  revert i a len. induction fuel as [|fuel IH]; intros i a len Hfuel; simpl.
  - destruct (i <? len)%nat eqn:E; [apply Nat.ltb_lt in E; lia | discriminate].
  - destruct (i <? len)%nat eqn:E; [|discriminate].
    apply Nat.ltb_lt in E.
    destruct (leave_group_match cmp gr (nth i a gsr_zero)).
    + match goal with |- context [if ?b then _ else _] => destruct b end; apply IH; lia.
    + apply IH. lia.
Qed.

(** C4.  [example_bound] has joined [group1] only.  Leaving [group2], which
    is not in its receive list, leaves the list alone but does not return
    what [setsockopt] answers: the call is refused with [-EINVAL] before
    [setsockopt] is reached, because the receive list is not empty. *)
Theorem leave_group_unjoined_is_refused (o : nat -> call -> reply) :
  let w := world_init o in
  let x := pgm_transport_leave_group sockaddr_cmp_model (mk_group_req 0 group2)
             sizeof_group_req example_bound w in
  recv_list example_bound = [mk_group_source_req 0 group1 group1] /\
  rs x = Val (- EINVAL) /\
  count_calls is_setsockopt (new_events w x) = 0%nat /\
  recv_list (st x) = recv_list example_bound.
Proof.
  intros w x. split; [vm_compute; reflexivity|].
  destruct (leave_group_nonempty_list sockaddr_cmp_model (mk_group_req 0 group2)
              sizeof_group_req example_bound w) as [Hr Hc].
  { vm_compute. discriminate. }
  split; [exact Hr|]. split; [exact Hc|].
  subst x. rewrite leave_group_keeps_transport. reflexivity.
Qed.

(** C3.  [example_bound] accepts the request [example_gsr] (valid length,
    list not full, no duplicate) and its receive list grows by one entry,
    but the entry is not the requested structure: it is read off the
    storage of the pointer argument, so its interface field holds the low
    32 bits of the pointer instead of the requested interface 2, and its
    group and source are what lies beyond the pointer. *)
Theorem join_source_group_stores_the_pointer (o : nat -> call -> reply) :
  let w := world_init o in
  let x := pgm_transport_join_source_group sockaddr_cmp_model example_gsr_param example_gsr
             sizeof_group_source_req example_bound w in
  exists c e,
    rs x = Val (r_val (o 0%nat c)) /\ is_setsockopt c = true /\
    recv_list (st x) = recv_list example_bound ++ [e] /\
    e <> example_gsr /\
    gsr_interface e = gsr_pointer example_gsr_param mod 2 ^ 32 /\
    gsr_interface example_gsr = 2 /\
    gsr_group e <> gsr_group example_gsr.
Proof.
  intros w x. eexists _, (gsr_of_param example_gsr_param).
  split; [vm_compute; reflexivity|].
  split; [reflexivity|].
  split; [vm_compute; reflexivity|].
  split; [vm_compute; discriminate|].
  split; [reflexivity|].
  split; [reflexivity|].
  vm_compute. discriminate.
Qed.

(** The five configurators that test [is_bound] reject a bound
    transport and leave it alone. *)
Lemma guarded_configurators_reject_bound t w :
  is_bound t = true ->
  (forall v, rs (pgm_transport_set_max_tpdu v t w) = Val FALSE /\
             st (pgm_transport_set_max_tpdu v t w) = t) /\
  (forall v, rs (pgm_transport_set_multicast_loop v t w) = Val FALSE /\
             st (pgm_transport_set_multicast_loop v t w) = t) /\
  (forall v, rs (pgm_transport_set_hops v t w) = Val FALSE /\
             st (pgm_transport_set_hops v t w) = t) /\
  (forall v, rs (pgm_transport_set_sndbuf v t w) = Val FALSE /\
             st (pgm_transport_set_sndbuf v t w) = t) /\
  (forall v, rs (pgm_transport_set_rcvbuf v t w) = Val FALSE /\
             st (pgm_transport_set_rcvbuf v t w) = t).
Proof.
  intros Hb.
  repeat split; unfold pgm_transport_set_max_tpdu, pgm_transport_set_multicast_loop,
    pgm_transport_set_hops, pgm_transport_set_sndbuf, pgm_transport_set_rcvbuf,
    fn, g_return_val_if_fail, emit, sys_reply, get, return_, mbind, M_bind, bindM, mret,
    M_ret, ret, rs, st; cbn; rewrite Hb; reflexivity.
Qed.

(** C2.  The other five configurators do not test [is_bound]: on a bound
    transport each of them returns TRUE and changes the configuration. *)
Theorem unguarded_configurators_accept_bound (t : pgm_transport_t) (w : world) :
  let tb := with_is_bound true t in
  is_bound tb = true /\
  (let x := pgm_transport_set_nonblocking (negb (is_nonblocking tb)) tb w in
   rs x = Val TRUE /\ is_nonblocking (st x) <> is_nonblocking tb) /\
  (let x := pgm_transport_set_abort_on_reset (negb (is_abort_on_reset tb)) tb w in
   rs x = Val TRUE /\ is_abort_on_reset (st x) <> is_abort_on_reset tb) /\
  (let x := pgm_transport_set_send_only (can_recv_data tb) tb w in
   rs x = Val TRUE /\ can_recv_data (st x) <> can_recv_data tb) /\
  (let x := pgm_transport_set_recv_only (can_send_nak tb) tb w in
   rs x = Val TRUE /\ can_send_nak (st x) <> can_send_nak tb) /\
  (let k := if rs_k tb =? 128 then 64 else 128 in
   let x := pgm_transport_set_fec 0 false false 255 k tb w in
   rs x = Val TRUE /\ rs_k (st x) <> rs_k tb).
Proof.
  intros tb. split; [reflexivity|].
  repeat split; cbn.
  - destruct (is_nonblocking t); discriminate.
  - destruct (is_abort_on_reset t); discriminate.
  - destruct (can_recv_data t); discriminate.
  - destruct (can_send_nak t); discriminate.
  - destruct (rs_k t =? 128); reflexivity.
  - destruct (Z.eqb_spec (rs_k t) 128) as [E|E]; cbn; [rewrite E; discriminate | intros H; apply E; symmetry; exact H].
Qed.

(** ** [pgm_transport_create]: the source port *)

Lemma g_htons_involutive_table :
  forallb (fun h =>
             forallb (fun l => let z := Z.of_nat h * 256 + Z.of_nat l in
                               g_htons (g_htons z) =? z)
                     (seq 0 256))
          (seq 0 256) = true.
Proof. vm_compute. reflexivity. Qed.

Lemma g_htons_involutive z : is_guint16 z -> g_htons (g_htons z) = z.
Proof.
  unfold is_guint16. intros Hz. pose proof g_htons_involutive_table as T.
  assert (Hh : 0 <= z / 256 < 256)
    by (split; [apply Z.div_pos|apply Z.div_lt_upper_bound]; lia).
  assert (Hl : 0 <= z mod 256 < 256) by (apply Z.mod_pos_bound; lia).
  rewrite forallb_forall in T.
  specialize (T (Z.to_nat (z / 256)) ltac:(apply in_seq; lia)).
  rewrite forallb_forall in T.
  specialize (T (Z.to_nat (z mod 256)) ltac:(apply in_seq; lia)).
  cbv zeta in T. rewrite !Z2Nat.id in T by lia.
  replace (z / 256 * 256 + z mod 256) with z in T
    by (rewrite (Z.div_mod z 256) at 1 by lia; ring).
  apply Z.eqb_eq, T.
Qed.

Lemma g_htons_inj a b : is_guint16 a -> is_guint16 b -> g_htons a = g_htons b -> a = b.
Proof.
  intros Ha Hb E. rewrite <- (g_htons_involutive a Ha), <- (g_htons_involutive b Hb), E.
  reflexivity.
Qed.

Lemma draw_sport_spec fuel : forall t w,
  wp (draw_sport fuel) t w
     (fun r t' w' =>
        match r with
        | Val _ =>
            exists pre rl,
              w_trace w' = w_trace w ++ pre ++ [(Random_int_range 0 UINT16_MAX, rl)] /\
              redraws (dport t) pre /\
              t' = with_tsi_sport (g_htons (r_val rl)) t /\
              g_htons (r_val rl) <> dport t
        | Out_of_fuel => True
        | _ => False
        end).
Proof.
  induction fuel as [|fuel IH]; intros t w; simpl.
  - wp_step. exact I.
  - wp_run_all.
    + eapply wp_mono; [apply IH|]. cbn beta.
      intros [[]|?| |] t' w' H'; try exact H'.
      destruct H' as (pre & rl & Htr & Hpre & Ht & Hne).
      exists ((Random_int_range 0 UINT16_MAX, r) :: pre), rl.
      split; [|split; [|split]].
      * rewrite Htr. cbn [w_trace log]. rewrite <- app_assoc. reflexivity.
      * constructor; [|exact Hpre]. split; [reflexivity|].
        apply Z.eqb_eq in Heqb. exact Heqb.
      * rewrite Ht. reflexivity.
      * exact Hne.
    + exists [], r. split; [reflexivity|].
      split; [constructor|]. split; [reflexivity|].
      apply Z.eqb_neq in Heqb. exact Heqb.
Qed.

(** Enough draws end the loop: it runs out of fuel only when every one of
    its [fuel] draws gave the destination port. *)
Lemma draw_sport_out_of_fuel fuel : forall t w,
  wp (draw_sport fuel) t w
     (fun r _ w' =>
        r = Out_of_fuel ->
        exists es, w_trace w' = w_trace w ++ es /\ length es = fuel /\ redraws (dport t) es).
Proof.
  induction fuel as [|fuel IH]; intros t w.
  - intros _. exists []. split; [apply eq_sym, app_nil_r|]. split; [reflexivity|constructor].
  -
    simpl. wp_run_all.
    + eapply wp_mono; [apply IH|].
      cbn beta. intros r' t' w' H' E. destruct (H' E) as (es & Htr & Hlen & Hes).
      exists ((Random_int_range 0 UINT16_MAX, r) :: es). split; [|split].
      * rewrite Htr. cbn [w_trace log]. rewrite <- app_assoc. reflexivity.
      * simpl. rewrite Hlen. reflexivity.
      * constructor; [|exact Hes]. split; [reflexivity|].
        apply Z.eqb_eq in Heqb. exact Heqb.
    + discriminate.
Qed.

Lemma tsi_sport_copy_recv_addrs n : forall i tinfo t,
  tsi_sport (copy_recv_addrs n i tinfo t) = tsi_sport t /\
  dport (copy_recv_addrs n i tinfo t) = dport t.
Proof.
  induction n as [|n IH]; intros i tinfo t; simpl; [split; reflexivity|].
  destruct (IH (S i) tinfo
              (with_recv_gsr
                 (<[i := mk_group_source_req (gsr_interface (addr_at (ti_recv_addrs tinfo) i))
                           (with_sin_port (g_htons (udp_encap_mcast_port t))
                                          (gsr_group (addr_at (ti_recv_addrs tinfo) i)))
                           (gsr_source (addr_at (ti_recv_addrs tinfo) i))]> (recv_gsr t)) t))
    as [H1 H2].
  rewrite H1, H2. split; reflexivity.
Qed.

(** A field read through setters that do not write it. *)
Ltac peel_field f :=
  repeat match goal with
    | |- context [f (?g ?v ?t)] => progress change (f (g v t)) with (f t)
    end.

(** C9.  A transport handed out by [pgm_transport_create] has a source
    port different from its destination port.  A source port given by the
    caller passed the check against the destination port and is stored in
    network order; a source port left zero is drawn at random, and drawn
    again as long as the draw gives the destination port. *)
Theorem create_source_port_differs fuel tinfo w v t w' :
  is_guint16 (ti_sport tinfo) -> is_guint16 (ti_dport tinfo) ->
  pgm_transport_create fuel tinfo w = (Val v, Some t, w') ->
  tsi_sport t <> dport t /\
  dport t = g_htons (ti_dport tinfo) /\
  (ti_sport tinfo <> 0 ->
     ti_sport tinfo <> ti_dport tinfo /\ tsi_sport t = g_htons (ti_sport tinfo)) /\
  (ti_sport tinfo = 0 ->
     exists pre rl post,
       drop (length (w_trace w)) (w_trace w') = pre ++ (Random_int_range 0 UINT16_MAX, rl) :: post /\
       tsi_sport t = g_htons (r_val rl) /\
       no_calls is_random post /\
       (forall e, In e pre -> is_random e.1 = true -> g_htons (r_val e.2) = dport t)).
Proof.
  intros Hs Hd. unfold pgm_transport_create.
  destruct (create_body fuel tinfo transport_zero w) as [[r t1] w1] eqn:E.
  destruct r as [v1| | |]; try discriminate.
  destruct (v1 =? TRUE) eqn:Ev; try discriminate.
  intros [= <- <- <-]. apply Z.eqb_eq in Ev. subst v1.
  enough (Hwp : wp (create_body fuel tinfo) transport_zero w
                   (fun r t1 w1 =>
                      r = Val TRUE ->
  tsi_sport t1 <> dport t1 /\
  dport t1 = g_htons (ti_dport tinfo) /\
  (ti_sport tinfo <> 0 ->
     ti_sport tinfo <> ti_dport tinfo /\ tsi_sport t1 = g_htons (ti_sport tinfo)) /\
  (ti_sport tinfo = 0 ->
     exists pre rl post,
       drop (length (w_trace w)) (w_trace w1) = pre ++ (Random_int_range 0 UINT16_MAX, rl) :: post /\
       tsi_sport t1 = g_htons (r_val rl) /\
       no_calls is_random post /\
       (forall e, In e pre -> is_random e.1 = true -> g_htons (r_val e.2) = dport t1)))).
  { exact (wp_run _ _ _ _ _ _ _ Hwp E eq_refl). }
  clear E.
  unfold create_body, err_destroy.
  wp_run_all.
  all: try (intros [=]; fail).
  all: forget_replies.
  all: try match goal with
         | |- wp (draw_sport _) _ _ _ =>
             eapply wp_mono; [apply draw_sport_spec|]; cbn beta;
             intros [[]|?| |] t' w' Hdraw; cbn [after];
             try contradiction; try (intros [=]; fail);
             destruct Hdraw as (pre & rl & Htr & Hpre & -> & Hne);
             wp_run_all; try (intros [=]; fail); forget_replies
         end.
  all: intros _.
  all: cbn [w_trace log]; rewrite ?Htr; cbn [w_trace log].
  all: rewrite <- ?app_assoc; rewrite ?drop_app_length; cbn [app].
  all: peel_field tsi_sport; peel_field dport.
  all: rewrite ?(proj1 (tsi_sport_copy_recv_addrs _ _ _ _)),
         ?(proj2 (tsi_sport_copy_recv_addrs _ _ _ _)).
  all: peel_field tsi_sport; peel_field dport.
  all: repeat match goal with
         | |- context [tsi_sport (with_tsi_sport ?v ?t)] =>
             change (tsi_sport (with_tsi_sport v t)) with v
         | |- context [dport (with_dport ?v ?t)] =>
             change (dport (with_dport v t)) with v
         end.
  all: unfold nonzero in Heqb.
  all: destruct (Z.eqb_spec (ti_sport tinfo) 0) as [Hz|Hnz]; try discriminate Heqb.
  - (* source port given, UDP encapsulation *)
    apply negb_true_iff, Z.eqb_neq in Heqb0.
    split; [intros E; apply Heqb0, g_htons_inj; assumption|].
    split; [reflexivity|]. split; [auto|]. intros E. contradiction.
  - (* source port given, raw PGM *)
    apply negb_true_iff, Z.eqb_neq in Heqb0.
    split; [intros E; apply Heqb0, g_htons_inj; assumption|].
    split; [reflexivity|]. split; [auto|]. intros E. contradiction.
  - (* source port drawn, UDP encapsulation *)
    unfold redraws in Hpre. cbn [dport with_dport] in Hne, Hpre.
    split; [exact Hne|]. split; [reflexivity|]. split; [intros E; contradiction|].
    intros _. eexists (_ :: _ :: _ :: _ :: pre), rl, _.
    split; [reflexivity|]. split; [reflexivity|]. split; [repeat constructor|].
    intros e [<-|[<-|[<-|[<-|Hin]]]] Hrand; try discriminate Hrand.
    rewrite Forall_forall in Hpre. apply Hpre. apply list_elem_of_In. exact Hin.
  - (* source port drawn, raw PGM *)
    unfold redraws in Hpre. cbn [dport with_dport] in Hne, Hpre.
    split; [exact Hne|]. split; [reflexivity|]. split; [intros E; contradiction|].
    intros _. eexists (_ :: _ :: _ :: _ :: pre), rl, _.
    split; [reflexivity|]. split; [reflexivity|]. split; [repeat constructor|].
    intros e [<-|[<-|[<-|[<-|Hin]]]] Hrand; try discriminate Hrand.
    rewrite Forall_forall in Hpre. apply Hpre. apply list_elem_of_In. exact Hin.
Qed.
(** ** [pgm_transport_bind] *)

Section Bind.

Variable pgm_sockaddr_cmp : sockaddr -> sockaddr -> Z.
Variable CONFIG_BIND_INADDR_ANY : bool.

Section Blocks.

(** The blocks between construction and announcement touch only fields
    that [S] does not read, and make only calls that [ok] allows. *)
Variable S : pgm_transport_t -> Prop.
Variable ok : call -> bool.
Variable tr0 : list event.

Hypothesis S_rand : forall v t, S t -> S (with_rand_ v t).
Hypothesis S_iphdr_len : forall v t, S t -> S (with_iphdr_len v t).
Hypothesis S_max_tsdu : forall v t, S t -> S (with_max_tsdu v t).
Hypothesis S_max_tsdu_fragment : forall v t, S t -> S (with_max_tsdu_fragment v t).
Hypothesis S_max_apdu : forall v t, S t -> S (with_max_apdu v t).
Hypothesis S_send_addr : forall v t, S t -> S (with_send_addr v t).
Hypothesis S_rate_control : forall v t, S t -> S (with_rate_control v t).

Hypothesis ok_all : forall c,
  is_send_spm c = false -> is_unlock_send c = false -> is_notify_error c = false ->
  ok c = true.

Ltac ok_call := apply ok_all; reflexivity.

Ltac inv_block :=
  repeat first
    [ inv_step
    | lazymatch goal with
      | |- inv _ (Inv _ _ _) (modify _) =>
          apply Inv_modify; intros ? HS;
          first [ apply S_rand | apply S_iphdr_len | apply S_max_tsdu
                | apply S_max_tsdu_fragment | apply S_max_apdu | apply S_send_addr
                | apply S_rate_control ]; exact HS
      | |- inv _ (Inv _ _ _) (sys_reply _) => apply Inv_sys_reply; ok_call
      end ].

Lemma bind_socket_options_inv : inv returns_false (Inv S ok tr0) bind_socket_options.
Proof. unfold bind_socket_options. inv_block. Qed.

Lemma bind_addresses_inv :
  inv returns_false (Inv S ok tr0) (bind_addresses CONFIG_BIND_INADDR_ANY).
Proof. unfold bind_addresses. inv_block. Qed.

Lemma bind_join_groups_inv ps :
  inv returns_false (Inv S ok tr0) (bind_join_groups pgm_sockaddr_cmp ps).
Proof.
  induction ps as [|p ps IH]; cbn [bind_join_groups]; [inv_block|].
  apply inv_bind; [|intros _; exact IH].
  unfold bind_join_one.
  destruct (pgm_sockaddr_cmp (gsr_group p) (gsr_source p) =? 0); inv_block.
Qed.

Lemma bind_multicast_options_inv : inv returns_false (Inv S ok tr0) bind_multicast_options.
Proof. unfold bind_multicast_options. inv_block. Qed.

End Blocks.

(** *** The announcement *)

Lemma no_calls_count p es : no_calls p es -> count_calls p es = 0%nat.
Proof.
  unfold no_calls, count_calls. induction 1 as [|e es He _ IH]; simpl; [reflexivity|].
  rewrite He. exact IH.
Qed.

Lemma count_calls_app p es1 es2 :
  count_calls p (es1 ++ es2) = (count_calls p es1 + count_calls p es2)%nat.
Proof. unfold count_calls. rewrite List.filter_app, length_app. reflexivity. Qed.

Lemma pgm_time_add_exact a b : 0 <= a -> 0 <= b -> a + b < 2 ^ 64 -> pgm_time_add a b = a + b.
Proof. intros. unfold pgm_time_add. apply Z.mod_small. lia. Qed.

Lemma bind_announce_spec t w :
  wp bind_announce t w
     (fun r t' w' =>
        match r with
        | Val _ =>
            exists s1 s2 s3 now,
              w_trace w' = w_trace w ++
                [(Send_spm_unlocked, s1); (Send_spm_unlocked, s2); (Send_spm_unlocked, s3);
                 (Time_update_now, now)] /\
              r_val s1 <> 0 /\ r_val s2 <> 0 /\ r_val s3 <> 0 /\
              t' = with_next_poll (pgm_time_add (r_val now) (spm_ambient_interval t))
                     (with_next_ambient_spm
                        (pgm_time_add (r_val now) (spm_ambient_interval t)) t)
        | Return v => v = FALSE /\ t' = t /\ exists es, w_trace w' = w_trace w ++ es
        | _ => False
        end).
Proof.
  unfold bind_announce. wp_run_all.
  all: try (split; [reflexivity|]; split; [reflexivity|];
            cbn [w_trace log]; rewrite <- !app_assoc; eexists; reflexivity).
  repeat match goal with H : (r_val _ =? 0) = false |- _ => apply Z.eqb_neq in H end.
  eexists _, _, _, _. cbn [w_trace log]. rewrite <- !app_assoc.
  split; [reflexivity|]. repeat split; assumption.
Qed.

Lemma bind_finish_spec t w :
  wp bind_finish t w
     (fun r t' w' =>
        r = Return TRUE /\
        t' = with_is_bound true (with_rx_buffer (Some (max_tpdu t)) t) /\
        exists es u,
          w_trace w' = w_trace w ++ es /\
          no_calls is_send_spm es /\ In (Mutex_unlock Send_mutex, u) es).
Proof.
  unfold bind_finish. wp_run_all.
  all: split; [reflexivity|]; split; [reflexivity|].
  all: cbn [w_trace log]; rewrite <- !app_assoc; eexists _, _.
  all: split; [reflexivity|]; split; [repeat constructor|].
  all: cbn; tauto.
Qed.

Lemma before_announce_no_spm es :
  Forall (fun e : event => before_announce e.1 = true) es ->
  no_calls is_send_spm es /\ no_calls is_unlock_send es.
Proof.
  intros F. split; (eapply Forall_impl; [exact F|]); intros e He;
    unfold before_announce in He; apply andb_true_iff in He as [H1 H2];
    apply negb_true_iff; assumption.
Qed.

Lemma announce_early_exit ivl tr0 r t' w' :
  Inv (sender_state ivl) before_announce tr0 t' w' -> r <> Val TRUE ->
  announce_post ivl tr0 r t' w'.
Proof.
  intros [_ (es & E & F)] Hr. exists es. split; [exact E|]. left. split; [exact Hr|].
  left. apply before_announce_no_spm, F.
Qed.

Ltac sender_block lem :=
  apply (lem (sender_state _) before_announce);
  solve [ intros ? ? HS; exact HS
        | intros c Hc1 Hc2 _; unfold before_announce; rewrite Hc1, Hc2; reflexivity ].

Lemma bind_announce_wp t w :
  can_send_data t = true ->
  wp (pgm_transport_bind pgm_sockaddr_cmp CONFIG_BIND_INADDR_ANY) t w
     (announce_post (spm_ambient_interval t) (w_trace w)).
Proof.
  intros Hsend.
  set (ivl := spm_ambient_interval t). set (tr0 := w_trace w).
  assert (HI0 : Inv (sender_state ivl) before_announce tr0 t w)
    by (apply Inv_start; split; [exact Hsend | reflexivity]).
  unfold pgm_transport_bind.
  wp_step. wp_step. wp_step. wp_step. wp_step. wp_step. wp_step.
  2: { wp_run_all. eexists. split; [reflexivity|]. left. split; [discriminate|].
       right. reflexivity. }
  wp_step. wp_step. wp_step.
  (* construction *)
  apply (wp_inv returns_false (Inv (sender_state ivl) before_announce tr0));
    [unfold bind_construct; inv_auto | exact HI0 |].
  intros r1 t1 w1 HI1 HE1.
  destruct r1 as [[]|v| |]; cbn [after exits_in] in *;
    try (apply announce_early_exit; [assumption | try rewrite HE1; discriminate]).
  (* socket options *)
  wp_step.
  apply (wp_inv returns_false (Inv (sender_state ivl) before_announce tr0));
    [sender_block bind_socket_options_inv | exact HI1 |].
  intros r2 t2 w2 HI2 HE2.
  destruct r2 as [[]|v| |]; cbn [after exits_in] in *;
    try (apply announce_early_exit; [assumption | try rewrite HE2; discriminate]).
  (* addresses *)
  wp_step.
  apply (wp_inv returns_false (Inv (sender_state ivl) before_announce tr0));
    [sender_block bind_addresses_inv | exact HI2 |].
  intros r3 t3 w3 HI3 HE3.
  destruct r3 as [[]|v| |]; cbn [after exits_in] in *;
    try (apply announce_early_exit; [assumption | try rewrite HE3; discriminate]).
  (* group joins *)
  wp_step. wp_step. wp_step. wp_step.
  apply (wp_inv returns_false (Inv (sender_state ivl) before_announce tr0));
    [sender_block bind_join_groups_inv | exact HI3 |].
  intros r4 t4 w4 HI4 HE4.
  destruct r4 as [[]|v| |]; cbn [after exits_in] in *;
    try (apply announce_early_exit; [assumption | try rewrite HE4; discriminate]).
  (* multicast options *)
  wp_step.
  apply (wp_inv returns_false (Inv (sender_state ivl) before_announce tr0));
    [sender_block bind_multicast_options_inv | exact HI4 |].
  intros r5 t5 w5 HI5 HE5.
  destruct r5 as [[]|v| |]; cbn [after exits_in] in *;
    try (apply announce_early_exit; [assumption | try rewrite HE5; discriminate]).
  (* rate regulation *)
  unfold bind_source_side.
  wp_step. wp_step. wp_step. wp_step. wp_step.
  2: { destruct HI5 as [[Hs _] _]. congruence. }
  wp_step.
  apply (wp_inv returns_false (Inv (sender_state ivl) before_announce tr0));
    [inv_auto | exact HI5 |].
  intros r6 t6 w6 HI6 HE6.
  destruct r6 as [[]|v| |]; cbn [after exits_in] in *;
    try (apply announce_early_exit; [assumption | try rewrite HE6; discriminate]).
  (* announcement *)
  eapply wp_mono; [apply bind_announce_spec|]. cbn beta.
  intros r7 t7 w7 H7. destruct HI6 as [[_ Hivl] (pre & Epre & Fpre)].
  destruct r7 as [[]|v| |]; cbn [after]; try contradiction.
  2: { destruct H7 as (-> & -> & es & Ees). exists (pre ++ es).
       split; [rewrite Ees, Epre; apply eq_sym, app_assoc|].
       left. split; [discriminate | right; reflexivity]. }
  destruct H7 as (s1 & s2 & s3 & now & E7 & Hs1 & Hs2 & Hs3 & ->).
  (* completion *)
  eapply wp_mono; [apply bind_finish_spec|]. cbn beta.
  intros r8 t8 w8 (-> & -> & post & u & E8 & Fpost & Hu).
  eexists. split.
  { rewrite E8, E7, Epre. rewrite <- !app_assoc. reflexivity. }
  right. split; [reflexivity|].
  destruct (before_announce_no_spm _ Fpre) as [Fspm Funl].
  exists pre, s1, s2, s3, now, post, u.
  split; [reflexivity|]. repeat (split; [assumption|]).
  split; [|reflexivity].
  cbn. rewrite Hivl. reflexivity.
Qed.

(** C6.  For a transport that can send data, a successful
    [pgm_transport_bind] sends exactly three SPMs, one after the other and
    each accepted, before it releases the send lock and returns; right
    after them it reads the clock and sets the ambient-SPM timer to that
    time plus [spm_ambient_interval].  When one of the SPMs is refused,
    [pgm_transport_bind] returns FALSE. *)
Theorem bind_announces_three_spms t w :
  can_send_data t = true ->
  let x := pgm_transport_bind pgm_sockaddr_cmp CONFIG_BIND_INADDR_ANY t w in
  (rs x = Val TRUE ->
     count_calls is_send_spm (new_events w x) = 3%nat /\
     exists pre s1 s2 s3 now post u,
       new_events w x =
         pre ++ [(Send_spm_unlocked, s1); (Send_spm_unlocked, s2); (Send_spm_unlocked, s3);
                 (Time_update_now, now)] ++ post /\
       no_calls is_send_spm pre /\ no_calls is_unlock_send pre /\
       no_calls is_send_spm post /\ In (Mutex_unlock Send_mutex, u) post /\
       r_val s1 <> 0 /\ r_val s2 <> 0 /\ r_val s3 <> 0 /\
       next_ambient_spm (st x) = pgm_time_add (r_val now) (spm_ambient_interval t) /\
       is_bound (st x) = true) /\
  (forall s, In (Send_spm_unlocked, s) (new_events w x) -> r_val s = 0 -> rs x = Val FALSE).
Proof.
  intros Hsend x.
  destruct (bind_announce_wp t w Hsend) as (es & E & H).
  fold x in E, H. rewrite (new_events_app w x es E).
  split.
  - intros Hr. destruct H as [[Hne _]|[_ Ha]]; [contradiction|].
    split; [|exact Ha].
    destruct Ha as (pre & s1 & s2 & s3 & now & post & u & -> & Fpre & _ & Fpost & _).
    rewrite !count_calls_app, (no_calls_count _ _ Fpre), (no_calls_count _ _ Fpost).
    reflexivity.
  - intros s Hin Hs. destruct H as [[_ [Fno|Hr]]|[_ Ha]].
    + exfalso. unfold no_calls in Fno. rewrite Forall_forall in Fno.
      specialize (Fno _ (proj2 (list_elem_of_In _ _) Hin)). discriminate Fno.
    + exact Hr.
    + exfalso.
      destruct Ha as (pre & s1 & s2 & s3 & now & post & u & -> & Fpre & _ & Fpost & _ &
                      Hs1 & Hs2 & Hs3 & _).
      unfold no_calls in Fpre, Fpost. rewrite Forall_forall in Fpre, Fpost.
      apply in_app_or in Hin as [Hin|Hin].
      * specialize (Fpre _ (proj2 (list_elem_of_In _ _) Hin)). discriminate Fpre.
      * apply in_app_or in Hin as [Hin|Hin].
        -- cbn in Hin. destruct Hin as [[= <-]|[[= <-]|[[= <-]|[[=]|[]]]]]; contradiction.
        -- specialize (Fpost _ (proj2 (list_elem_of_In _ _) Hin)). discriminate Fpost.
Qed.

(** *** Failure *)

Lemma bind_construct_spec t w :
  is_bound t = false ->
  wp bind_construct t w
     (fun r t' w' =>
        match r with
        | Val _ => Inv (constructed t) after_notify (w_trace w) t' w'
        | Return v =>
            v = FALSE /\ untouched t t' /\
            exists es e, w_trace w' = w_trace w ++ es /\
                         In (G_set_error Err_notify_init, e) es
        | _ => True
        end).
Proof.
  intros Hb. unfold bind_construct. wp_run_all; try exact Logic.I.
  all: forget_replies.
  all: unfold Inv; cbn [w_trace log]; rewrite <- ?app_assoc.
  all: try (split; [reflexivity|]; split; [repeat split|];
            eexists _, _; split; [reflexivity|]; cbn; tauto).
  all: split; [|eexists; split; [reflexivity|repeat constructor]].
  all: split; [exact Hb|].
  all: repeat match goal with
         | H : can_send_data ?x = ?v |- _ =>
             tryif is_var x then fail else change (can_send_data t = v) in H
         | H : can_recv_data ?x = ?v |- _ =>
             tryif is_var x then fail else change (can_recv_data t = v) in H
         end.
  all: split; intros Hc; try congruence.
  all: try (eexists; reflexivity).
  all: split; reflexivity.
Qed.

Lemma after_notify_no_error es :
  Forall (fun e : event => after_notify e.1 = true) es -> no_calls is_notify_error es.
Proof.
  intros F. eapply Forall_impl; [exact F|]. intros e He.
  apply negb_true_iff. exact He.
Qed.

Lemma failure_late_exit t0 tr0 r t' w' :
  is_bound t0 = false ->
  Inv (constructed t0) after_notify tr0 t' w' -> failure_post t0 tr0 r t' w'.
Proof.
  intros Hb [HS (es & E & F)] _. exists es. split; [exact E|]. right.
  split; [exact Hb|]. split; [exact HS|]. apply after_notify_no_error, F.
Qed.

Ltac constructed_block lem :=
  apply (lem (constructed _) after_notify);
  solve [ intros ? ? HS; exact HS
        | intros c _ _ Hc; unfold after_notify; rewrite Hc; reflexivity ].

Lemma bind_failure_wp t w :
  wp (pgm_transport_bind pgm_sockaddr_cmp CONFIG_BIND_INADDR_ANY) t w
     (failure_post t (w_trace w)).
Proof.
  set (tr0 := w_trace w).
  unfold pgm_transport_bind.
  wp_step. wp_step. wp_step. wp_step. wp_step. wp_step. wp_step.
  2: { wp_run_all. intros _. eexists. split; [reflexivity|]. left.
       split; [repeat split|]. left. apply negb_false_iff. assumption. }
  apply negb_true_iff in Heqb. rename Heqb into Hb.
  wp_step. wp_step. wp_step.
  (* construction *)
  eapply wp_mono; [apply bind_construct_spec, Hb|]. cbn beta.
  intros r1 t1 w1 HI1.
  destruct r1 as [[]|v| |]; cbn [after]; try (intros [=]; fail).
  2: { destruct HI1 as (-> & Hun & es & e & E & Hin). intros _.
       exists es. split; [exact E|]. left. split; [exact Hun|]. right. exists e. exact Hin. }
  (* socket options *)
  wp_step.
  apply (wp_inv returns_false (Inv (constructed t) after_notify tr0));
    [constructed_block bind_socket_options_inv | exact HI1 |].
  intros r2 t2 w2 HI2 HE2.
  destruct r2 as [[]|v| |]; cbn [after exits_in] in *;
    try (apply failure_late_exit; assumption).
  (* addresses *)
  wp_step.
  apply (wp_inv returns_false (Inv (constructed t) after_notify tr0));
    [constructed_block bind_addresses_inv | exact HI2 |].
  intros r3 t3 w3 HI3 HE3.
  destruct r3 as [[]|v| |]; cbn [after exits_in] in *;
    try (apply failure_late_exit; assumption).
  (* group joins *)
  wp_step. wp_step. wp_step. wp_step.
  apply (wp_inv returns_false (Inv (constructed t) after_notify tr0));
    [constructed_block bind_join_groups_inv | exact HI3 |].
  intros r4 t4 w4 HI4 HE4.
  destruct r4 as [[]|v| |]; cbn [after exits_in] in *;
    try (apply failure_late_exit; assumption).
  (* multicast options *)
  wp_step.
  apply (wp_inv returns_false (Inv (constructed t) after_notify tr0));
    [constructed_block bind_multicast_options_inv | exact HI4 |].
  intros r5 t5 w5 HI5 HE5.
  destruct r5 as [[]|v| |]; cbn [after exits_in] in *;
    try (apply failure_late_exit; assumption).
  (* rate regulation and announcement *)
  wp_step.
  apply (wp_inv returns_false (Inv (constructed t) after_notify tr0));
    [unfold bind_source_side, bind_announce; inv_auto | exact HI5 |].
  intros r6 t6 w6 HI6 HE6.
  destruct r6 as [[]|v| |]; cbn [after exits_in] in *;
    try (apply failure_late_exit; assumption).
  (* completion returns TRUE *)
  eapply wp_mono; [apply bind_finish_spec|]. cbn beta.
  intros r7 t7 w7 (-> & _). intros [=].
Qed.

(** C1, as the code has it.  When [pgm_transport_bind] returns FALSE the
    bound flag is as before the call.  The transmit window, the peer table
    and the notification channel are as before the call when the
    transport was refused as already bound or when the notification channel
    could not be created.  After any later failure nothing is unwound: a
    sending transport keeps the transmit window that was constructed, and a
    receiving transport keeps the peer table and the notification channel
    that were constructed. *)
Theorem bind_failure_keeps_construction t w :
  let x := pgm_transport_bind pgm_sockaddr_cmp CONFIG_BIND_INADDR_ANY t w in
  rs x = Val FALSE ->
  is_bound (st x) = is_bound t /\
  ((is_bound t = true \/ exists e, In (G_set_error Err_notify_init, e) (new_events w x)) ->
     window (st x) = window t /\
     peers_hashtable (st x) = peers_hashtable t /\
     pending_notify (st x) = pending_notify t) /\
  (is_bound t = false -> no_calls is_notify_error (new_events w x) ->
     (can_send_data t = true -> is_Some (window (st x))) /\
     (can_recv_data t = true ->
        peers_hashtable (st x) = Some [] /\ pending_notify (st x) = true)).
Proof.
  intros x Hr.
  destruct (bind_failure_wp t w Hr) as (es & E & H).
  fold x in E, H. rewrite (new_events_app w x es E).
  destruct H as [[(Hb & Hw & Hp & Hn) Hwhy]|(Hb & (Hb' & Hw & Hp) & Hno)].
  - split; [exact Hb|]. split; [auto|].
    intros Hb0 Hno. exfalso. destruct Hwhy as [Hb1|[e Hin]]; [congruence|].
    unfold no_calls in Hno. rewrite Forall_forall in Hno.
    specialize (Hno _ (proj2 (list_elem_of_In _ _) Hin)). discriminate Hno.
  - split; [congruence|]. split; [|auto].
    intros [Hb1|[e Hin]]; exfalso; [congruence|].
    unfold no_calls in Hno. rewrite Forall_forall in Hno.
    specialize (Hno _ (proj2 (list_elem_of_In _ _) Hin)). discriminate Hno.
Qed.

End Bind.

(** ** The properties on concrete runs *)

Lemma sockaddr_cmp_model_refl a : sockaddr_cmp_model a a = 0.
Proof. unfold sockaddr_cmp_model. rewrite !Z.eqb_refl. reflexivity. Qed.

Lemma example_bound_wf : wf_transport example_bound.
Proof. split; vm_compute; [reflexivity | lia]. Defined.

(** C1: a bind that fails when the receive socket is bound returns FALSE
    and leaves behind the transmit window, the peer table and the
    notification channel it had constructed. *)
Lemma bind_failure_is_not_unwound :
  let x := example_bind_fails_at_bind in
  rs x = Val FALSE /\
  window example_configured = None /\ is_Some (window (st x)) /\
  peers_hashtable example_configured = None /\ peers_hashtable (st x) = Some [] /\
  pending_notify example_configured = false /\ pending_notify (st x) = true /\
  is_bound (st x) = is_bound example_configured.
Proof.
  vm_compute. repeat split; try reflexivity. eexists. reflexivity.
Qed.

(** C1 on the bind whose first SPM is refused. *)
Lemma bind_failure_keeps_construction_witness :
  let x := example_bind_fails_at_spm in
  rs x = Val FALSE /\
  is_bound (st x) = false /\
  is_Some (window (st x)) /\
  peers_hashtable (st x) = Some [] /\ pending_notify (st x) = true.
Proof.
  unfold example_bind_fails_at_spm. cbv zeta.
  pose proof (bind_failure_keeps_construction sockaddr_cmp_model false example_configured
                (world_init (oracle_with 22 (reply_val 0)))) as H.
  cbv zeta in H.
  assert (Hr : rs (pgm_transport_bind sockaddr_cmp_model false example_configured
                     (world_init (oracle_with 22 (reply_val 0)))) = Val FALSE)
    by (vm_compute; reflexivity).
  destruct (H Hr) as (Hb & _ & Hc).
  destruct Hc as [Hw Hp].
  { vm_compute. reflexivity. }
  { vm_compute. repeat constructor. }
  split; [exact Hr|]. split; [exact Hb|].
  split; [apply Hw; vm_compute; reflexivity|].
  apply Hp. vm_compute. reflexivity.
Defined.

(** C5 on [example_bound]: the first join of [group2] is accepted, the
    second is rejected. *)
Lemma join_group_twice_rejected_witness :
  let x1 := pgm_transport_join_group sockaddr_cmp_model example_gr sizeof_group_req
              example_bound (world_init oracle_ok) in
  let x2 := pgm_transport_join_group sockaddr_cmp_model example_gr sizeof_group_req
              (st x1) (wd x1) in
  (rs x1 = Val 0 /\ recv_gsr_len (st x1) = 2%nat) /\
  rs x2 = Val (- EINVAL) /\ st x2 = st x1 /\
  recv_list (st x2) = recv_list (st x1) /\
  recv_gsr_len (st x2) = recv_gsr_len (st x1).
Proof.
  pose proof (join_group_twice_rejected sockaddr_cmp_model example_gr sizeof_group_req
                example_bound (world_init oracle_ok) sockaddr_cmp_model_refl
                example_bound_wf) as H.
  cbv zeta in *.
  split; [split; vm_compute; reflexivity | exact H].
Defined.

(** C6 on the successful bind of [example_configured]. *)
Lemma bind_announces_three_spms_witness :
  can_send_data example_configured = true /\
  rs example_bind_run = Val TRUE /\
  count_calls is_send_spm (new_events (world_init oracle_ok) example_bind_run) = 3%nat /\
  next_ambient_spm (st example_bind_run) = 1000000 + 30000000.
Proof.
  unfold example_bind_run.
  pose proof (bind_announces_three_spms sockaddr_cmp_model false example_configured
                (world_init oracle_ok)) as H.
  cbv zeta in H.
  assert (Hs : can_send_data example_configured = true) by (vm_compute; reflexivity).
  assert (Hr : rs (pgm_transport_bind sockaddr_cmp_model false example_configured
                     (world_init oracle_ok)) = Val TRUE) by (vm_compute; reflexivity).
  destruct (H Hs) as [H3 _]. destruct (H3 Hr) as [Hcount _].
  split; [exact Hs|]. split; [exact Hr|]. split; [exact Hcount|].
  vm_compute. reflexivity.
Defined.

(** C7 on two runs in which the first [sendto] on the send socket of
    [example_bound], descriptor 7, is refused.  In the build with [poll]
    the refusal is followed by a 500 ms wait on the send socket and one
    repetition.  In the build without, it is followed by
    [select (1, ...)], which examines no descriptor of its set and is not a
    wait for descriptor 7; it answers 0 and the send is not repeated. *)
Lemma sendto_retry_policy_witness :
  (0 < 3 /\ 0 < 16 /\ r_val example_send_refusal < 0 /\
   new_events example_send_world
     (_pgm_sendto true false false [80; 71; 77] 3 0 group1 16 example_bound
        example_send_world)
   = example_send_before ++ (example_send_call, example_send_refusal) :: example_send_after /\
   new_events example_select_world
     (_pgm_sendto false false false [80; 71; 77] 3 0 group1 16 example_bound
        example_select_world)
   = example_send_before ++ (example_send_call, example_send_refusal)
       :: example_select_after) /\
  (exists cw rw post',
     example_send_after = (cw, rw) :: post' /\
     waits_500ms_for (send_sock example_bound) cw = true /\
     count_calls is_wait post' = 0%nat /\
     count_calls is_sendto post' = (if 0 <? r_val rw then 1%nat else 0%nat)) /\
  (exists cw rw post',
     example_select_after = (cw, rw) :: post' /\
     cw = Select 1 [7] 0 (500 * 1000) /\
     examined cw = [] /\
     waits_500ms_for (send_sock example_bound) cw = false /\
     count_calls is_wait post' = 0%nat /\
     count_calls is_sendto post' = 0%nat).
Proof.
  assert (Hev : new_events example_send_world
                  (_pgm_sendto true false false [80; 71; 77] 3 0 group1 16 example_bound
                     example_send_world)
                = example_send_before ++
                  (example_send_call, example_send_refusal) :: example_send_after)
    by (vm_compute; reflexivity).
  assert (Hsel : new_events example_select_world
                   (_pgm_sendto false false false [80; 71; 77] 3 0 group1 16 example_bound
                      example_select_world)
                 = example_send_before ++
                   (example_send_call, example_send_refusal) :: example_select_after)
    by (vm_compute; reflexivity).
  assert (Hpre : no_calls is_sendto example_send_before) by (repeat constructor).
  assert (Hr : r_val example_send_refusal < 0) by reflexivity.
  assert (Hno : ~ (r_errno example_send_refusal = ENETUNREACH \/
                   r_errno example_send_refusal = EHOSTUNREACH \/
                   (r_errno example_send_refusal = EAGAIN /\ Z.land 0 MSG_DONTWAIT <> 0)))
    by (intros [H|[H|[H _]]]; discriminate H).
  split; [split; [lia | split; [lia | split; [exact Hr | split; [exact Hev | exact Hsel]]]]|].
  split.
  - pose proof (sendto_retry_policy true false false [80; 71; 77] 3 0 group1 16 example_bound
                  example_send_world example_send_before example_send_call
                  example_send_refusal example_send_after
                  ltac:(lia) ltac:(lia) Hev eq_refl Hpre Hr) as H.
    cbv zeta in H. destruct H as [Hretry _].
    destruct (Hretry Hno) as (cw & rw & post' & Epost & _ & Hwait & Hnowait & Hcount & _).
    exists cw, rw, post'.
    split; [exact Epost|]. split; [exact Hwait|]. split; [exact Hnowait | exact Hcount].
  - pose proof (sendto_retry_policy false false false [80; 71; 77] 3 0 group1 16 example_bound
                  example_select_world example_send_before example_send_call
                  example_send_refusal example_select_after
                  ltac:(lia) ltac:(lia) Hsel eq_refl Hpre Hr) as H.
    cbv zeta in H. destruct H as [Hretry _].
    destruct (Hretry Hno) as (cw & rw & post' & Epost & Ecw & Hwait & Hnowait & _ & _ & Hnever).
    assert (Erw : rw = reply_val 0).
    { change (reply_val 0)
        with (match example_select_after with (_, r0) :: _ => r0 | [] => reply_ok end).
      rewrite Epost. reflexivity. }
    exists cw, rw, post'.
    split; [exact Epost|]. split; [rewrite Ecw; vm_compute; reflexivity|].
    split; [rewrite Ecw; vm_compute; reflexivity|].
    split; [etransitivity; [exact Hwait | vm_compute; reflexivity]|].
    split; [exact Hnowait|].
    apply Hnever; [reflexivity | vm_compute; discriminate |].
    rewrite Erw, Ecw. vm_compute. discriminate.
Defined.

(** C8 on RS(255,128) with 16 proactive parity packets. *)
Lemma set_fec_accepts_exactly_valid_witness :
  let x := pgm_transport_set_fec 16 true false 255 128 example_transport
             (world_init oracle_ok) in
  (is_guint 16 /\ is_guint 255 /\ is_guint 128) /\
  fec_valid 16 255 128 /\
  rs_n (st x) = 255 /\ rs_k (st x) = 128 /\ rs_proactive_h (st x) = 16.
Proof.
  assert (H16 : is_guint 16) by (unfold is_guint; lia).
  assert (H255 : is_guint 255) by (unfold is_guint; lia).
  assert (H128 : is_guint 128) by (unfold is_guint; lia).
  split; [split; [exact H16 | split; [exact H255 | exact H128]]|].
  destruct (set_fec_accepts_exactly_valid example_transport (world_init oracle_ok)
              16 true false 255 128 H16 H255 H128) as (Hiff & Hstore & _).
  assert (Hr : rs (pgm_transport_set_fec 16 true false 255 128 example_transport
                     (world_init oracle_ok)) = Val TRUE) by (vm_compute; reflexivity).
  split; [apply Hiff, Hr|].
  destruct (Hstore Hr) as (Hn & Hk & Hh & _).
  split; [exact Hn|]. split; [exact Hk | exact Hh].
Defined.

(** C9 on [example_create_run], whose first draw is the destination port. *)
Lemma create_source_port_differs_witness :
  (is_guint16 (ti_sport example_tinfo) /\ is_guint16 (ti_dport example_tinfo)) /\
  example_create_run.1.1 = Val TRUE /\
  tsi_sport example_transport <> dport example_transport /\
  dport example_transport = g_htons 7500.
Proof.
  unfold example_create_run.
  assert (Hs : is_guint16 (ti_sport example_tinfo)) by (unfold is_guint16; cbn; lia).
  assert (Hd : is_guint16 (ti_dport example_tinfo)) by (unfold is_guint16; cbn; lia).
  assert (Hrun : pgm_transport_create 2 example_tinfo
                   (world_init (oracle_with 4 (reply_val 7500)))
                 = (Val TRUE, Some example_transport,
                    (pgm_transport_create 2 example_tinfo
                       (world_init (oracle_with 4 (reply_val 7500)))).2))
    by (vm_compute; reflexivity).
  destruct (create_source_port_differs 2 example_tinfo _ _ _ _ Hs Hd Hrun)
    as (Hne & Hdp & _).
  split; [split; assumption|].
  split; [vm_compute; reflexivity|].
  split; [exact Hne | exact Hdp].
Defined.

(** C10 on [example_bound]: [group2] joined on interface 2 is recorded with
    interface 0 and itself as source. *)
Lemma join_group_appends_normalized_witness :
  let x := pgm_transport_join_group sockaddr_cmp_model example_gr sizeof_group_req
             example_bound (world_init oracle_ok) in
  (wf_transport example_bound /\ rs x = Val 0) /\
  exists e,
    recv_list (st x) = recv_list example_bound ++ [e] /\
    recv_gsr_len (st x) = S (recv_gsr_len example_bound) /\
    gsr_source e = group2 /\ gsr_group e = group2 /\ gsr_interface e = 0.
Proof.
  pose proof (join_group_appends_normalized sockaddr_cmp_model example_gr sizeof_group_req
                example_bound (world_init oracle_ok) example_bound_wf) as H.
  cbv zeta in *.
  assert (Hr : rs (pgm_transport_join_group sockaddr_cmp_model example_gr sizeof_group_req
                     example_bound (world_init oracle_ok)) = Val 0)
    by (vm_compute; reflexivity).
  split; [split; [exact example_bound_wf | exact Hr]|].
  destruct (H Hr) as (e & He1 & He2 & He3 & He4 & He5).
  exists e.
  split; [exact He1|]. split; [exact He2|]. split; [exact He3|].
  split; [exact He4 | exact He5].
Defined.
(** * Further properties *)

(** A run is stepped up to its next external call. *)
Ltac wp_to_call :=
  repeat lazymatch goal with
         | |- wp (sys_reply _) _ _ _ => fail
         | _ => wp_step
         end.

(** ** [_pgm_sendto]: locking, rate limit, result *)


(** X2.  The rate limit.  With [use_rate_limit] set, the first call is the
    rate check; when it answers a negative value with [errno] EAGAIN, that
    value is returned and nothing else is called: no lock is taken and
    nothing is sent.  In every other case, and always without
    [use_rate_limit], the lock is taken next and exactly one rate check or
    none was made. *)
Theorem sendto_rate_limit poll rl ra buf len flags to tolen t w :
  0 < len -> 0 < tolen ->
  let x := _pgm_sendto poll rl ra buf len flags to tolen t w in
  let rc := Rate_check (rate_control t) len flags in
  let r := next_reply w rc in
  let held_back := (r_val r <? 0) && (r_errno r =? EAGAIN) in
  (rl = true -> held_back = true ->
     rs x = Val (r_val r) /\ new_events w x = [(rc, r)]) /\
  (rl = true -> held_back = false ->
     exists u rest, new_events w x = (rc, r) :: (Mutex_lock (sendto_mutex ra), u) :: rest /\
                    no_calls is_rate_check rest) /\
  (rl = false ->
     exists u rest, new_events w x = (Mutex_lock (sendto_mutex ra), u) :: rest /\
                    no_calls is_rate_check rest).
Proof.
  intros Hlen Htolen x rc r held_back. subst x rc. unfold new_events.
  set (rc := Rate_check (rate_control t) len flags) in *.
  change (wp (_pgm_sendto poll rl ra buf len flags to tolen) t w
            (fun r0 _ w' =>
               let es := drop (length (w_trace w)) (w_trace w') in
               (rl = true -> held_back = true -> r0 = Val (r_val r) /\ es = [(rc, r)]) /\
               (rl = true -> held_back = false ->
                  exists u rest, es = (rc, r) :: (Mutex_lock (sendto_mutex ra), u) :: rest /\
                                 no_calls is_rate_check rest) /\
               (rl = false ->
                  exists u rest, es = (Mutex_lock (sendto_mutex ra), u) :: rest /\
                                 no_calls is_rate_check rest))).
  unfold _pgm_sendto, wait_send_sock. fold rc.
  apply Z.ltb_lt in Hlen, Htolen.
  wp_step. wp_step. wp_step. rewrite Hlen. wp_step. wp_step. wp_step. rewrite Htolen.
  wp_step. wp_step. wp_step. wp_step. wp_step. wp_step.
  destruct rl; cbn [when].
  - (* rate limited *)
    wp_to_call. apply wp_sys_reply. intros r0 Hr0.
    assert (Hheld : (r_val r0 <? 0) && (w_errno (log rc r0 w) =? EAGAIN) = held_back).
    { subst held_back r r0. unfold rc. rewrite w_errno_log.
      match goal with |- context [r_val ?z <? 0] => destruct (r_val z <? 0) end;
        reflexivity. }
    unfold rc in Hheld.
    wp_step. wp_step. wp_step. wp_step. wp_step. wp_step. rewrite Hheld.
    destruct held_back eqn:Eh.
    + wp_run_all. cbn zeta. cbn [w_trace log]. rewrite drop_app_length.
      subst r0. split; [intros _ _; split; reflexivity|].
      split; intros; discriminate.
    + subst r0. wp_run_all.
      all: forget_replies; cbn zeta; cbn [w_trace log].
      all: rewrite <- ?app_assoc; rewrite drop_app_length; cbn [app].
      all: split; [intros _ [=]|]; split; [|intros [=]]; intros _ _.
      all: eexists _, _; split; [reflexivity|]; repeat constructor.
  - (* not rate limited *)
    wp_run_all.
    all: forget_replies; cbn zeta; cbn [w_trace log].
    all: rewrite <- ?app_assoc; rewrite drop_app_length; cbn [app].
    all: split; [intros [=]|]; split; [intros [=]|]; intros _.
    all: eexists _, _; split; [reflexivity|]; repeat constructor.
Qed.

Lemma last_answer_app p es1 es2 :
  last_answer p (es1 ++ es2)
  = match last_answer p es2 with Some r => Some r | None => last_answer p es1 end.
Proof.
  unfold last_answer. rewrite fold_left_app.
  generalize (fold_left (fun acc (e : event) => if p e.1 then Some e.2 else acc) es1 None).
  induction es2 as [|e es2 IH] using rev_ind; intros acc; [reflexivity|].
  rewrite !fold_left_app. cbn. destruct (p e.1); [reflexivity|]. apply IH.
Qed.

(** X3.  The value [_pgm_sendto] returns after sending is the answer of the
    last [sendto] it made: the answer of the retry when there was one, and
    otherwise the answer of the first [sendto], also when the wait timed out or
    failed. *)
Theorem sendto_returns_last_answer poll rl ra buf len flags to tolen t w :
  let x := _pgm_sendto poll rl ra buf len flags to tolen t w in
  match last_answer is_sendto (new_events w x) with
  | Some r => rs x = Val (r_val r)
  | None => count_calls is_sendto (new_events w x) = 0%nat
  end.
Proof.
  intros x. subst x. unfold new_events.
  change (wp (_pgm_sendto poll rl ra buf len flags to tolen) t w
            (fun r0 _ w' =>
               match last_answer is_sendto (drop (length (w_trace w)) (w_trace w')) with
               | Some r => r0 = Val (r_val r)
               | None => count_calls is_sendto (drop (length (w_trace w)) (w_trace w')) = 0%nat
               end)).
  unfold _pgm_sendto, wait_send_sock.
  wp_run_all.
  all: forget_replies.
  all: cbn [w_trace log]; rewrite <- ?app_assoc; rewrite ?drop_app_length;
       rewrite ?drop_all; cbn [app].
  all: reflexivity.
Qed.

(** ** The configurators: bounds *)

(** The outcomes of the tests passed on the way are put to use. *)
Ltac use_tests :=
  repeat match goal with
         | H : ?b = ?v |- context [?b] =>
             lazymatch v with true => idtac | false => idtac end;
             lazymatch b with true => fail | false => fail | _ => rewrite H end
         end.

(** X4.  For a size [v] that fits the [guint16] parameter,
    [pgm_transport_set_max_tpdu] accepts it exactly when the transport is
    not bound and the size is at least 36, the IP header and the PGM header
    together; [pgm_transport_set_hops] accepts a hop limit [h] exactly when
    the transport is not bound and the limit lies in 1..255.  An accepted
    value is stored and nothing else changes; a refused call returns FALSE
    and changes nothing. *)
Theorem set_max_tpdu_and_hops_bounds (v h : Z) t w :
  (is_guint16 v ->
   let x := pgm_transport_set_max_tpdu v t w in
   if negb (is_bound t) && (36 <=? v)
   then rs x = Val TRUE /\ st x = with_max_tpdu v t
   else rs x = Val FALSE /\ st x = t) /\
  (let x := pgm_transport_set_hops h t w in
   if negb (is_bound t) && (1 <=? h) && (h <=? 255)
   then rs x = Val TRUE /\ st x = with_hops h t
   else rs x = Val FALSE /\ st x = t).
Proof.
  split; [intros _|]; cbv zeta.
  - change (wp (pgm_transport_set_max_tpdu v) t w
              (fun r t' _ =>
                 if negb (is_bound t) && (36 <=? v)
                 then r = Val TRUE /\ t' = with_max_tpdu v t
                 else r = Val FALSE /\ t' = t)).
    unfold pgm_transport_set_max_tpdu. wp_run_all.
    all: change (sizeof_pgm_ip + sizeof_pgm_header) with 36 in *.
    all: repeat match goal with H : _ = _ |- _ => rewrite H end.
    all: cbn [andb]; split; reflexivity.
  - change (wp (pgm_transport_set_hops h) t w
              (fun r t' _ =>
                 if negb (is_bound t) && (1 <=? h) && (h <=? 255)
                 then r = Val TRUE /\ t' = with_hops h t
                 else r = Val FALSE /\ t' = t)).
    unfold pgm_transport_set_hops. wp_run_all.
    all: forget_replies.
    all: replace (1 <=? h) with (0 <? h) by (destruct (Z.ltb_spec 0 h), (Z.leb_spec 1 h); lia).
    all: replace (h <=? 255) with (h <? 256)
           by (destruct (Z.ltb_spec h 256), (Z.leb_spec h 255); lia).
    all: repeat match goal with H : _ = _ |- _ => rewrite H end.
    all: cbn [andb]; split; reflexivity.
Qed.

(** X5.  The socket buffer sizes.  [pgm_transport_set_sndbuf] and
    [pgm_transport_set_rcvbuf] refuse with FALSE a bound transport and a
    size that is not positive.  Otherwise they open the system's limit
    file: when it opens, a size above the number read from it is refused
    with [-EINVAL], a value that is not FALSE; when it does not open, every
    positive size is accepted.  The size is stored exactly when TRUE is
    returned, and nothing else changes. *)
Theorem set_buffer_size_bound (is_wmem : bool) (size : Z) t w :
  let x := set_buffer_size is_wmem size t w in
  let fp := next_reply w (Fopen_mem_max is_wmem) in
  let mem_max := r_val (next_reply (log (Fopen_mem_max is_wmem) fp w) Fscanf_int) in
  rs x = Val (if is_bound t || (size <=? 0) then FALSE
              else if nonzero (r_val fp) && (mem_max <? size) then - EINVAL
              else TRUE) /\
  st x = (if is_bound t || (size <=? 0) then t
          else if nonzero (r_val fp) && (mem_max <? size) then t
          else with_buffer_size is_wmem size t) /\
  - EINVAL <> FALSE.
Proof.
  intros x fp mem_max. subst x fp mem_max. split; [|split; [|discriminate]].
  all: destruct is_wmem; cbn [set_buffer_size with_buffer_size].
  all: match goal with
       | |- rs (?f ?a ?b ?c) = ?v =>
           change (wp (f a) b c (fun r _ _ => r = v))
       | |- st (?f ?a ?b ?c) = ?v =>
           change (wp (f a) b c (fun _ t' _ => t' = v))
       end.
  all: unfold pgm_transport_set_sndbuf, pgm_transport_set_rcvbuf, check_mem_max.
  all: wp_run_all.
  all: repeat match goal with H : _ = next_reply _ _ |- _ => subst end.
  all: try match goal with
         | |- context [?m <? ?s] => rewrite (Z.ltb_antisym s m)
         end.
  all: rewrite (Z.leb_antisym 0 size).
  all: destruct (is_bound _); cbn [negb orb] in *; try discriminate.
  all: use_tests; cbn [andb orb negb]; reflexivity.
Qed.

(** ** Membership: bounds, failure, leaving *)

Section More_membership.

Variable pgm_sockaddr_cmp : sockaddr -> sockaddr -> Z.

Lemma wf_transport_grow t e :
  wf_transport t -> (recv_gsr_len t < IP_MAX_MEMBERSHIPS)%nat ->
  wf_transport (with_recv_gsr_len (S (recv_gsr_len t))
                  (with_recv_gsr (<[recv_gsr_len t := e]> (recv_gsr t)) t)).
Proof.
  intros [Hlen _] Hlt. split; cbn.
  - rewrite length_insert. exact Hlen.
  - lia.
Qed.

Lemma leave_source_group_keeps_transport (gsr : group_source_req) (len : Z) t w :
  st (pgm_transport_leave_source_group pgm_sockaddr_cmp gsr len t w) = t.
Proof.
  change (wp (pgm_transport_leave_source_group pgm_sockaddr_cmp gsr len) t w
            (fun _ t' _ => t' = t)).
  unfold pgm_transport_leave_source_group.
  wp_step. wp_step. wp_step. wp_step; [|wp_run_all; reflexivity].
  wp_step. wp_step. wp_step. wp_step. wp_step. wp_step.
  wp_step; [|wp_run_all; reflexivity].
  match goal with H : (recv_gsr_len _ =? 0)%nat = true |- _ =>
    apply Nat.eqb_eq in H; rewrite H end.
  cbn [leave_source_group_loop Nat.ltb Nat.leb].
  wp_run_all. destruct t; cbn in *; subst; reflexivity.
Qed.

(** X6.  The receive array is never overrun: a transport whose array has
    [IP_MAX_MEMBERSHIPS] slots of which at most all are in use is still such
    a transport after any join or leave request, whatever the request and
    whatever the system answers. *)
Theorem membership_keeps_array_bounds t w :
  wf_transport t ->
  (forall gr len, wf_transport (st (pgm_transport_join_group pgm_sockaddr_cmp gr len t w))) /\
  (forall p gsr len,
     wf_transport (st (pgm_transport_join_source_group pgm_sockaddr_cmp p gsr len t w))) /\
  (forall gr len, wf_transport (st (pgm_transport_leave_group pgm_sockaddr_cmp gr len t w))) /\
  (forall gsr len,
     wf_transport (st (pgm_transport_leave_source_group pgm_sockaddr_cmp gsr len t w))).
Proof.
  intros Hwf. split; [|split; [|split]].
  - intros gr len.
    change (wp (pgm_transport_join_group pgm_sockaddr_cmp gr len) t w
              (fun _ t' _ => wf_transport t')).
    unfold pgm_transport_join_group. wp_run_all; try exact Hwf.
    rewrite recv_gsr_len_with_recv_gsr.
    apply wf_transport_grow; [exact Hwf | apply Nat.ltb_lt; assumption].
  - intros p gsr len.
    change (wp (pgm_transport_join_source_group pgm_sockaddr_cmp p gsr len) t w
              (fun _ t' _ => wf_transport t')).
    unfold pgm_transport_join_source_group. wp_run_all; try exact Hwf.
    all: rewrite recv_gsr_len_with_recv_gsr.
    all: apply wf_transport_grow; [exact Hwf | apply Nat.ltb_lt; assumption].
  - intros gr len. rewrite leave_group_keeps_transport. exact Hwf.
  - intros gsr len. rewrite leave_source_group_keeps_transport. exact Hwf.
Qed.

(** X7.  A full receive list takes no further group: with all
    [IP_MAX_MEMBERSHIPS] slots in use, [pgm_transport_join_group] and
    [pgm_transport_join_source_group] return [-EINVAL], leave the transport
    as it was and do not call [setsockopt]. *)
Theorem join_refused_when_full t w :
  recv_gsr_len t = IP_MAX_MEMBERSHIPS ->
  (forall gr len,
     let x := pgm_transport_join_group pgm_sockaddr_cmp gr len t w in
     rs x = Val (- EINVAL) /\ st x = t /\
     count_calls is_setsockopt (new_events w x) = 0%nat) /\
  (forall p gsr len,
     let x := pgm_transport_join_source_group pgm_sockaddr_cmp p gsr len t w in
     rs x = Val (- EINVAL) /\ st x = t /\
     count_calls is_setsockopt (new_events w x) = 0%nat).
Proof.
  intros Hfull. split.
  - intros gr len x. subst x. unfold new_events.
    change (wp (pgm_transport_join_group pgm_sockaddr_cmp gr len) t w
              (fun r t' w' =>
                 r = Val (- EINVAL) /\ t' = t /\
                 count_calls is_setsockopt (drop (length (w_trace w)) (w_trace w')) = 0%nat)).
    unfold pgm_transport_join_group.
    wp_step. wp_step. wp_step.
    wp_step; [|wp_run_all; cbn [w_trace log]; rewrite drop_app_length; repeat split].
    wp_step. wp_step. wp_step. wp_step. wp_step. wp_step.
    rewrite Hfull. cbn [Nat.ltb Nat.leb IP_MAX_MEMBERSHIPS].
    wp_run_all. cbn [w_trace log]. rewrite drop_app_length. repeat split.
  - intros p gsr len x. subst x. unfold new_events.
    change (wp (pgm_transport_join_source_group pgm_sockaddr_cmp p gsr len) t w
              (fun r t' w' =>
                 r = Val (- EINVAL) /\ t' = t /\
                 count_calls is_setsockopt (drop (length (w_trace w)) (w_trace w')) = 0%nat)).
    unfold pgm_transport_join_source_group.
    wp_step. wp_step. wp_step.
    wp_step; [|wp_run_all; cbn [w_trace log]; rewrite drop_app_length; repeat split].
    wp_step. wp_step. wp_step.
    wp_step; [|wp_run_all; cbn [w_trace log]; rewrite drop_app_length; repeat split].
    wp_step. wp_step. wp_step. wp_step. wp_step. wp_step.
    rewrite Hfull. cbn [Nat.ltb Nat.leb IP_MAX_MEMBERSHIPS].
    wp_run_all. cbn [w_trace log]. rewrite drop_app_length. repeat split.
Qed.

(** X8.  A join is not taken back when the system refuses it.  Once
    [pgm_transport_join_group] has called [setsockopt], the group is in the
    receive list whatever the answer; the answer is what the call returns.
    A refused join has therefore still recorded the group.  The request
    is made on the receive socket, at the level of the first group of the
    receive list. *)
Theorem join_group_records_before_asking (gr : group_req) (len : Z) t w c r :
  wf_transport t ->
  let x := pgm_transport_join_group pgm_sockaddr_cmp gr len t w in
  In (c, r) (new_events w x) -> is_setsockopt c = true ->
  rs x = Val (r_val r) /\
  recv_list (st x) = recv_list t ++ [join_group_entry gr] /\
  c = Setsockopt (recv_sock t) (TRANSPORT_TO_LEVEL (st x)) MCAST_JOIN_GROUP
        (Opt_group_req gr) sizeof_group_req.
Proof.
  intros Hwf x. subst x. unfold new_events.
  change (wp (pgm_transport_join_group pgm_sockaddr_cmp gr len) t w
            (fun r0 t' w' =>
               In (c, r) (drop (length (w_trace w)) (w_trace w')) ->
               is_setsockopt c = true ->
               r0 = Val (r_val r) /\
               recv_list t' = recv_list t ++ [join_group_entry gr] /\
               c = Setsockopt (recv_sock t) (TRANSPORT_TO_LEVEL t') MCAST_JOIN_GROUP
                     (Opt_group_req gr) sizeof_group_req)).
  unfold pgm_transport_join_group.
  wp_run_all.
  all: forget_replies.
  all: cbn [w_trace log]; rewrite ?drop_app_length, ?drop_all.
  all: intros Hin Hc; cbn [In] in Hin; try contradiction.
  all: destruct Hin as [[= <- <-]|[]]; try discriminate Hc.
  split; [reflexivity|]. split.
  - rewrite recv_gsr_len_with_recv_gsr.
    apply recv_list_snoc; [exact Hwf | apply Nat.ltb_lt; assumption].
  - match goal with H : (sizeof_group_req =? _) = true |- _ =>
      apply Z.eqb_eq in H; rewrite <- H end.
    reflexivity.
Qed.


(** X10.  [pgm_transport_leave_source_group] removes nothing either: the
    transport is as it was before the call; with a receive list in use the
    call is refused with [-EINVAL] before [setsockopt] is reached, and with
    an empty list the request is handed to [setsockopt] and its answer
    returned. *)
Theorem leave_source_group_removes_nothing (gsr : group_source_req) (len : Z) t w :
  let x := pgm_transport_leave_source_group pgm_sockaddr_cmp gsr len t w in
  st x = t /\
  (recv_gsr_len t <> 0%nat ->
     rs x = Val (- EINVAL) /\ count_calls is_setsockopt (new_events w x) = 0%nat) /\
  (recv_gsr_len t = 0%nat -> len = sizeof_group_source_req ->
     exists r,
       new_events w x
       = [(Setsockopt (recv_sock t) (TRANSPORT_TO_LEVEL t) MCAST_LEAVE_SOURCE_GROUP
             (Opt_group_source_req gsr) sizeof_group_source_req, r)] /\
       rs x = Val (r_val r)).
Proof.
  intros x. subst x. split; [apply leave_source_group_keeps_transport|].
  unfold new_events. split.
  - intros Hlen.
    change (wp (pgm_transport_leave_source_group pgm_sockaddr_cmp gsr len) t w
              (fun r0 _ w' =>
                 r0 = Val (- EINVAL) /\
                 count_calls is_setsockopt (drop (length (w_trace w)) (w_trace w')) = 0%nat)).
    unfold pgm_transport_leave_source_group.
    wp_step. wp_step. wp_step. wp_step;
      [|wp_run_all; cbn [w_trace log]; rewrite drop_app_length; split; reflexivity].
    wp_step. wp_step. wp_step. wp_step. wp_step. wp_step.
    wp_step; [match goal with H : (_ =? 0)%nat = true |- _ => apply Nat.eqb_eq in H end;
              contradiction|].
    wp_run_all. cbn [w_trace log]. rewrite drop_app_length. split; reflexivity.
  - intros Hlen ->.
    change (wp (pgm_transport_leave_source_group pgm_sockaddr_cmp gsr sizeof_group_source_req)
              t w
              (fun r0 _ w' =>
                 exists r,
                   drop (length (w_trace w)) (w_trace w')
                   = [(Setsockopt (recv_sock t) (TRANSPORT_TO_LEVEL t)
                         MCAST_LEAVE_SOURCE_GROUP (Opt_group_source_req gsr)
                         sizeof_group_source_req, r)] /\
                   r0 = Val (r_val r))).
    unfold pgm_transport_leave_source_group.
    wp_step. wp_step. wp_step. wp_step; [|discriminate].
    wp_step. wp_step. wp_step. wp_step. wp_step. wp_step.
    rewrite Hlen. cbn [Nat.eqb leave_source_group_loop Nat.ltb Nat.leb].
    wp_run_all. cbn [w_trace log]. rewrite drop_app_length.
    eexists. split; [|reflexivity].
    destruct t; cbn in *; subst; reflexivity.
Qed.

(** X11.  [pgm_transport_block_source] and [pgm_transport_unblock_source]
    hand the request to the system and keep no record of it: the transport
    is as it was, a request of the wrong size is refused with [-EINVAL]
    without a call to [setsockopt], and a request of the right size is
    answered with what one [setsockopt] on the receive socket returns. *)
Theorem block_source_keeps_no_record (gsr : group_source_req) (len : Z) t w :
  let block := pgm_transport_block_source gsr len t w in
  let unblock := pgm_transport_unblock_source gsr len t w in
  st block = t /\ st unblock = t /\
  (len <> sizeof_group_source_req ->
     rs block = Val (- EINVAL) /\ rs unblock = Val (- EINVAL) /\
     count_calls is_setsockopt (new_events w block) = 0%nat /\
     count_calls is_setsockopt (new_events w unblock) = 0%nat) /\
  (len = sizeof_group_source_req ->
     exists r1 r2,
       new_events w block
       = [(Setsockopt (recv_sock t) (TRANSPORT_TO_LEVEL t) MCAST_BLOCK_SOURCE
             (Opt_group_source_req gsr) len, r1)] /\
       rs block = Val (r_val r1) /\
       new_events w unblock
       = [(Setsockopt (recv_sock t) (TRANSPORT_TO_LEVEL t) MCAST_UNBLOCK_SOURCE
             (Opt_group_source_req gsr) len, r2)] /\
       rs unblock = Val (r_val r2)).
Proof.
  intros block unblock. subst block unblock.
  unfold new_events, pgm_transport_block_source, pgm_transport_unblock_source,
    fn, g_return_val_if_fail, emit, sys, sys_reply, get, return_, mbind, M_bind, bindM,
    mret, M_ret, ret, rs, st, wd.
  destruct (Z.eqb_spec sizeof_group_source_req len) as [E|E]; cbn.
  - rewrite !drop_app_length.
    split; [reflexivity|]. split; [reflexivity|]. split; [intros H; congruence|].
    intros _. eexists _, _. repeat split.
  - rewrite !drop_app_length.
    split; [reflexivity|]. split; [reflexivity|]. split; [|intros H; congruence].
    intros _. repeat split.
Qed.

End More_membership.

(** ** [pgm_transport_create]: validation, sockets, addresses *)

Lemma redraws_no_sockets d pre :
  redraws d pre -> socket_answers pre = [] /\ closed_fds pre = [] /\
                   no_calls is_mutex_call pre.
Proof.
  induction 1 as [|e pre [He _] _ (IH1 & IH2 & IH3)]; [repeat split; constructor|].
  unfold socket_answers, closed_fds in *. cbn. rewrite He, IH1, IH2. cbn.
  repeat split. constructor; [rewrite He; reflexivity | exact IH3].
Qed.

Lemma socket_answers_app es1 es2 :
  socket_answers (es1 ++ es2) = socket_answers es1 ++ socket_answers es2.
Proof. apply flat_map_app. Qed.

Lemma closed_fds_app es1 es2 : closed_fds (es1 ++ es2) = closed_fds es1 ++ closed_fds es2.
Proof. apply flat_map_app. Qed.

Lemma copy_recv_addrs_only_recv_gsr n : forall i tinfo t,
  copy_recv_addrs n i tinfo t = with_recv_gsr (recv_gsr (copy_recv_addrs n i tinfo t)) t.
Proof.
  induction n as [|n IH]; intros i tinfo t; cbn [copy_recv_addrs].
  - destruct t; reflexivity.
  - rewrite IH at 1. reflexivity.
Qed.

Lemma copy_recv_addrs_take n : forall i tinfo t,
  (i + n <= length (recv_gsr t))%nat ->
  length (recv_gsr (copy_recv_addrs n i tinfo t)) = length (recv_gsr t) /\
  take (i + n) (recv_gsr (copy_recv_addrs n i tinfo t))
  = take i (recv_gsr t) ++
    map (fun j =>
           mk_group_source_req (gsr_interface (addr_at (ti_recv_addrs tinfo) j))
             (with_sin_port (g_htons (udp_encap_mcast_port t))
                            (gsr_group (addr_at (ti_recv_addrs tinfo) j)))
             (gsr_source (addr_at (ti_recv_addrs tinfo) j)))
        (seq i n).
Proof.
  induction n as [|n IH]; intros i tinfo t Hlen; cbn [copy_recv_addrs seq map].
  - rewrite Nat.add_0_r, app_nil_r. split; reflexivity.
  - match goal with |- context [copy_recv_addrs n (S i) tinfo ?t1] =>
      destruct (IH (S i) tinfo t1) as [IH1 IH2]
    end.
    { cbn. rewrite length_insert. lia. }
    cbn [recv_gsr with_recv_gsr udp_encap_mcast_port] in IH1, IH2.
    rewrite length_insert in IH1. split; [exact IH1|].
    rewrite Nat.add_succ_r. cbn [Nat.add] in IH2. rewrite IH2.
    erewrite take_S_r by (apply list_lookup_insert_eq; lia).
    rewrite take_insert_ge by lia. rewrite <- app_assoc. reflexivity.
Qed.

Lemma tinfo_checks_valid tinfo : tinfo_checks tinfo = true <-> tinfo_valid tinfo.
Proof.
  unfold tinfo_checks, tinfo_valid, nonzero, recv_families_ok, pgm_sockaddr_family.
  rewrite !andb_true_iff, forallb_forall, !bool_decide_eq_true.
  rewrite Nat.ltb_lt, Nat.leb_le, Nat.eqb_eq, Z.eqb_eq.
  split.
  - intros ((((((((H1 & H2) & H3) & H4) & H5) & H6) & H7) & H8) & H9).
    split; [|split; [|split; [|split; [|split; [|split; [|split]]]]]].
    + intros Hs E. destruct (Z.eqb_spec (ti_sport tinfo) 0); [contradiction|].
      cbn in H1. apply negb_true_iff, Z.eqb_neq in H1. contradiction.
    + destruct (Z.eqb_spec (ti_udp_encap_ucast_port tinfo) 0),
        (Z.eqb_spec (ti_udp_encap_mcast_port tinfo) 0); cbn in H2;
        try discriminate; split; intros; congruence.
    + split; assumption.
    + exact H5.
    + symmetry. exact H6.
    + exact H7.
    + intros i Hi.
      assert (Hin : In i (seq 0 (ti_recv_addrs_len tinfo))) by (apply in_seq; lia).
      apply H8 in Hin. apply andb_true_iff in Hin as [Ha Hb].
      apply Z.eqb_eq in Ha, Hb. split; assumption.
    + exact H9.
  - intros (H1 & H2 & [H3 H3'] & H4 & H5 & H6 & H7 & H8).
    repeat split; try assumption; try (symmetry; assumption).
    + destruct (Z.eqb_spec (ti_sport tinfo) 0); [reflexivity|]. cbn.
      apply negb_true_iff, Z.eqb_neq. auto.
    + destruct (Z.eqb_spec (ti_udp_encap_ucast_port tinfo) 0),
        (Z.eqb_spec (ti_udp_encap_mcast_port tinfo) 0); cbn; try reflexivity;
        exfalso; tauto.
    + intros i Hi. apply in_seq in Hi.
      assert (Hlt : (i < ti_recv_addrs_len tinfo)%nat) by lia.
      destruct (H7 i Hlt) as [Ha Hb].
      apply andb_true_iff. split; apply Z.eqb_eq; assumption.
Qed.

Lemma redraws_random d pre rl :
  redraws d pre ->
  Forall (fun e : event => is_random e.1 = true)
         (pre ++ [(Random_int_range 0 UINT16_MAX, rl)]).
Proof.
  intros H. apply Forall_app. split; [|repeat constructor].
  eapply Forall_impl; [exact H|]. intros e [He _]. rewrite He. reflexivity.
Qed.

Lemma created_from_sockets tinfo s1 s2 s3 t :
  created_from tinfo 0 0 0 t ->
  created_from tinfo s1 s2 s3
    (with_send_with_router_alert_sock s3 (with_send_sock s2 (with_recv_sock s1 t))).
Proof.
  intros (_ & _ & _ & H4 & H5 & H6 & H7 & H8 & H9 & H10 & H11 & H12 & H13 & H14 & H15).
  unfold created_from. repeat split; try reflexivity; try assumption.
  - exact (proj1 H15).
  - exact (proj2 H15).
Qed.

(** The transport as [pgm_transport_create] has filled it in when it comes
    to open the sockets: [base] is the transport before the receive
    addresses are copied. *)
Lemma created_from_copy tinfo base :
  (ti_recv_addrs_len tinfo <= IP_MAX_MEMBERSHIPS)%nat ->
  length (recv_gsr base) = IP_MAX_MEMBERSHIPS ->
  recv_sock base = 0 -> send_sock base = 0 -> send_with_router_alert_sock base = 0 ->
  can_send_data base = true -> can_send_nak base = true -> can_recv_data base = true ->
  is_bound base = false ->
  tsi_gsi base = ti_gsi tinfo -> dport base = g_htons (ti_dport tinfo) ->
  udp_encap_ucast_port base = ti_udp_encap_ucast_port tinfo ->
  udp_encap_mcast_port base = ti_udp_encap_mcast_port tinfo ->
  send_gsr base = with_encap_port tinfo (addr_at (ti_send_addrs tinfo) 0) ->
  created_from tinfo 0 0 0
    (with_recv_gsr_len (ti_recv_addrs_len tinfo)
       (copy_recv_addrs (ti_recv_addrs_len tinfo) 0 tinfo base)).
Proof.
  intros Hn Hlen H1 H2 H3 H4 H5 H6 H7 H8 H9 H10 H11 H12.
  rewrite copy_recv_addrs_only_recv_gsr.
  destruct (copy_recv_addrs_take (ti_recv_addrs_len tinfo) 0 tinfo base) as [Hl Ht];
    [cbn; lia|].
  cbn [Nat.add take app] in Ht. rewrite H11 in Ht.
  unfold created_from. repeat split; try assumption.
  cbn [recv_gsr with_recv_gsr with_recv_gsr_len]. rewrite Hl. exact Hlen.
Qed.

Lemma created_socket_calls tinfo t :
  (0 < ti_recv_addrs_len tinfo)%nat ->
  created_from tinfo 0 0 0 t ->
  pgm_sockaddr_family (gsr_group (recv_slot t 0))
  = sa_family (gsr_group (addr_at (ti_recv_addrs tinfo) 0)) /\
  pgm_sockaddr_family (gsr_group (send_gsr t))
  = sa_family (gsr_group (addr_at (ti_send_addrs tinfo) 0)) /\
  udp_encap_ucast_port t = ti_udp_encap_ucast_port tinfo.
Proof.
  intros Hn (_ & _ & _ & _ & _ & _ & _ & _ & _ & Hu & _ & Hs & Hlen & Hl & _).
  split; [|split; [rewrite Hs; reflexivity | exact Hu]].
  unfold recv_list in Hl. rewrite Hlen in Hl. unfold recv_slot.
  destruct (ti_recv_addrs_len tinfo) as [|n]; [lia|].
  destruct (recv_gsr t) as [|e l]; [discriminate Hl|].
  cbn in Hl. injection Hl as -> _. reflexivity.
Qed.

Ltac read_socks :=
  cbn [recv_sock send_sock send_with_router_alert_sock
       with_recv_sock with_send_sock with_send_with_router_alert_sock] in *.

(** The checks passed or failed on the way decide [tinfo_checks]. *)
Ltac decide_checks v :=
  assert (tinfo_checks _ = v) as -> by (unfold tinfo_checks; use_tests; reflexivity).

Ltac wp_to_sockets :=
  repeat lazymatch goal with
         | |- wp (sys_reply (Socket _ _ _)) _ _ _ => fail
         | |- wp (draw_sport _) _ _ _ => fail
         | _ => wp_step
         end.

Lemma create_body_outcome fuel tinfo w :
  wp (create_body fuel tinfo) transport_zero w
     (fun r t1 w1 => create_outcome tinfo r t1 (drop (length (w_trace w)) (w_trace w1))).
Proof.
  unfold create_body, err_destroy.
  wp_to_sockets.
  all: try congruence.
  (* an invalid description *)
  all: try (unfold create_outcome; cbn [w_trace log]; rewrite drop_app_length;
            decide_checks false; split; [reflexivity | eexists; reflexivity]).
  (* the draws of a source port *)
  all: try match goal with
         | |- wp (draw_sport _) _ _ _ =>
             eapply wp_mono; [apply draw_sport_spec|]; cbn beta;
             let Hdraw := fresh "Hdraw" in
             intros [[]|?| |] ? ? Hdraw; cbn [after];
             try contradiction;
             [ destruct Hdraw as (pre & rl & Htr & Hpre & -> & _);
               apply (redraws_random _ _ rl) in Hpre; wp_to_sockets
             | unfold create_outcome; decide_checks true; split; [reflexivity|];
               match goal with H : nonzero _ = false |- _ =>
                 apply negb_false_iff, Z.eqb_eq in H; exact H end ]
         end.
  (* the sockets *)
  all: forget_replies.
  all: assert (Hchk : tinfo_checks tinfo = true)
         by (unfold tinfo_checks; use_tests; reflexivity).
  all: match goal with |- wp _ ?t _ _ => set (tb := t) end.
  all: repeat match goal with
         | H : (_ <? _)%nat = true |- _ => apply Nat.ltb_lt in H
         | H : (_ <=? _)%nat = true |- _ => apply Nat.leb_le in H
         end.
  all: assert (Hcf : created_from tinfo 0 0 0 tb)
         by (subst tb; apply created_from_copy; first [assumption | reflexivity]).
  all: destruct (created_socket_calls tinfo tb) as (Hc1 & Hc2 & Hc3); [assumption..|].
  all: rewrite ?Hc1, ?Hc2, ?Hc3.
  all: pose proof Hcf as (Hs1 & Hs2 & Hs3 & _).
  all: clearbody tb.
  all: wp_run_all.
  all: forget_replies; read_socks; rewrite ?Hs1, ?Hs2, ?Hs3 in *.
  all: try match goal with H : nonzero 0 = true |- _ => discriminate H end.
  all: unfold create_outcome; rewrite Hchk.
  all: cbn [w_trace log]; rewrite ?Htr; cbn [w_trace log].
  all: rewrite <- ?app_assoc; rewrite drop_app_length; cbn [app].
  all: first [ exists (pre ++ [(Random_int_range 0 UINT16_MAX, rl)]) | exists [] ].
  all: eexists; split;
         [ eexists _, _, _, _; split;
           [ cbn [app]; rewrite <- ?app_assoc; reflexivity
           | first [assumption | constructor] ] |].
  all: repeat match goal with
         | H : (_ <? 0) = false |- _ => apply Z.ltb_ge in H
         | H : (_ <? 0) = true |- _ => apply Z.ltb_lt in H
         end.
  all: first
         [ left; split; [reflexivity|];
           eexists _, _, _, _; split; [reflexivity|];
           repeat (split; [assumption|]);
           apply created_from_sockets; exact Hcf
         | right; split; [reflexivity|]; unfold create_failed ].
  all: split;
         [ cbn [closed_fds socket_answers flat_map fst snd app List.filter r_val];
           use_tests; reflexivity |].
  all: split; [cbn; eexists; split; [reflexivity | assumption] |].
  all: split; [reflexivity|].
  all: split; [|repeat constructor].
  all: match goal with |- exists pre u, ?l = _ => exists (removelast l) end.
  all: eexists; cbn [removelast]; reflexivity.
Qed.

Lemma create_run_outcome fuel tinfo w :
  let x := pgm_transport_create fuel tinfo w in
  exists t1,
    create_outcome tinfo x.1.1 t1 (create_events w x) /\
    x.1.2 = match x.1.1 with
            | Val v => if v =? TRUE then Some t1 else None
            | _ => None
            end.
Proof.
  cbv zeta. unfold pgm_transport_create, create_events.
  pose proof (create_body_outcome fuel tinfo w) as H. unfold wp, rs, st, wd in H.
  destruct (create_body fuel tinfo transport_zero w) as [[r t1] w1].
  exists t1. cbn in H. destruct r; cbn; split; try exact H; reflexivity.
Qed.

Lemma random_no_sockets draws :
  Forall (fun e : event => is_random e.1 = true) draws ->
  socket_answers draws = [] /\ closed_fds draws = [] /\ freed_mutexes draws = [] /\
  no_calls is_lock_send draws /\ no_calls is_unlock_send draws.
Proof.
  induction 1 as [|e draws He _ (IH1 & IH2 & IH3 & IH4 & IH5)];
    [repeat split; constructor|].
  unfold socket_answers, closed_fds, freed_mutexes in *. cbn.
  destruct e as [c r]. destruct c; try discriminate He. cbn.
  repeat split; try assumption; constructor; try reflexivity; assumption.
Qed.

(** X12.  [pgm_transport_create] validates the description before it
    allocates anything.  A description that is not valid costs one warning
    and nothing else: FALSE is returned, no transport is handed out, no
    lock is set up and no socket opened.  A valid description leads to the
    setting up of the three locks, the taking of the send lock and, when no
    source port was given, the draws of one; only in these draws can the
    run go on without end. *)
Theorem create_validates_first fuel tinfo w :
  let x := pgm_transport_create fuel tinfo w in
  (~ tinfo_valid tinfo ->
     x.1.1 = Val FALSE /\ x.1.2 = None /\
     exists u, create_events w x = [(G_warning Critical_check_failed, u)]) /\
  (tinfo_valid tinfo ->
     match x.1.1 with
     | Val v => (v = TRUE \/ v = FALSE) /\
                exists draws rest, create_calls draws rest (create_events w x)
     | Out_of_fuel => ti_sport tinfo = 0
     | _ => False
     end).
Proof.
  intros x. destruct (create_run_outcome fuel tinfo w) as (t1 & Ho & Ht). fold x in Ho, Ht.
  unfold create_outcome in Ho. rewrite <- tinfo_checks_valid.
  destruct (tinfo_checks tinfo) eqn:Hc; split; intros Hv; try congruence.
  - destruct (x.1.1) as [v| | |]; try contradiction; [|apply Ho].
    destruct Ho as (draws & rest & Hcalls & [[-> _]|[-> _]]);
      (split; [auto | eexists _, _; exact Hcalls]).
  - destruct (x.1.1) as [v| | |]; try contradiction; [|destruct Ho; congruence].
    destruct Ho as (-> & u & Hes). rewrite Ht. cbn.
    split; [reflexivity|]. split; [reflexivity|]. exists u. exact Hes.
Qed.

(** X13.  The descriptors of a creation.  When [pgm_transport_create]
    succeeds, the three descriptors that [socket] answered are those of the
    transport handed out, none of them is negative and none is closed.
    When it fails, no transport is handed out, and every descriptor that
    [socket] answered other than 0 has been handed to [close] once, in the
    order of opening: the open sockets, and also the negative answer of the
    call that failed; a descriptor 0 is not closed. *)
Theorem create_closes_what_it_opened fuel tinfo w :
  let x := pgm_transport_create fuel tinfo w in
  let es := create_events w x in
  match x.1.1 with
  | Val v =>
      if v =? TRUE
      then closed_fds es = [] /\ Forall (fun s => 0 <= s) (socket_answers es) /\
           exists t, x.1.2 = Some t /\
                     socket_answers es
                     = [recv_sock t; send_sock t; send_with_router_alert_sock t]
      else x.1.2 = None /\ closed_fds es = List.filter nonzero (socket_answers es)
  | _ => x.1.2 = None
  end.
Proof.
  intros x es. destruct (create_run_outcome fuel tinfo w) as (t1 & Ho & Ht).
  fold x in Ho, Ht. fold es in Ho. unfold create_outcome in Ho.
  destruct (x.1.1) as [v| | |]; try exact Ht.
  destruct (tinfo_checks tinfo).
  - destruct Ho as (draws & rest & (u1 & u2 & u3 & u4 & -> & Hd) & Hrest).
    destruct (random_no_sockets _ Hd) as (Hd1 & Hd2 & _).
    rewrite !closed_fds_app, !socket_answers_app, Hd1, Hd2. cbn [app].
    change (closed_fds [(Mutex_init Send_mutex, u1);
                        (Mutex_init Send_with_router_alert_mutex, u2);
                        (Mutex_init Transport_mutex, u3); (Mutex_lock Send_mutex, u4)])
      with (@nil Z).
    change (socket_answers [(Mutex_init Send_mutex, u1);
                            (Mutex_init Send_with_router_alert_mutex, u2);
                            (Mutex_init Transport_mutex, u3); (Mutex_lock Send_mutex, u4)])
      with (@nil Z).
    cbn [app].
    destruct Hrest as [[-> Hs]|[-> Hf]]; cbn [Z.eqb TRUE FALSE Pos.eqb] in *.
    + destruct Hs as (r1 & r2 & r3 & u & -> & H1 & H2 & H3 & Hcf).
      destruct Hcf as (E1 & E2 & E3 & _).
      split; [reflexivity|]. split; [repeat constructor; assumption|].
      exists t1. split; [exact Ht|]. rewrite E1, E2, E3. reflexivity.
    + split; [exact Ht|]. apply Hf.
  - destruct Ho as (-> & u & ->). split; [exact Ht | reflexivity].
Qed.

(** X14.  What a successful [pgm_transport_create] hands out: a transport
    that is not bound, can send data and NAKs and can receive, with the
    global source identifier and the encapsulation ports of the
    description; its send address and its receive list are those of the
    description, in the same order, except that the port of every group is
    overwritten with the multicast encapsulation port in network order;
    and its receive array is within bounds. *)
Theorem create_fills_the_transport fuel tinfo w t :
  (pgm_transport_create fuel tinfo w).1.2 = Some t ->
  tinfo_valid tinfo /\ wf_transport t /\
  is_bound t = false /\
  can_send_data t = true /\ can_send_nak t = true /\ can_recv_data t = true /\
  tsi_gsi t = ti_gsi tinfo /\
  udp_encap_ucast_port t = ti_udp_encap_ucast_port tinfo /\
  udp_encap_mcast_port t = ti_udp_encap_mcast_port tinfo /\
  send_gsr t = with_encap_port tinfo (addr_at (ti_send_addrs tinfo) 0) /\
  recv_gsr_len t = ti_recv_addrs_len tinfo /\
  (forall addrs,
     ti_recv_addrs tinfo = Some addrs -> length addrs = ti_recv_addrs_len tinfo ->
     recv_list t = map (with_encap_port tinfo) addrs).
Proof.
  intros Hsome. destruct (create_run_outcome fuel tinfo w) as (t1 & Ho & Ht).
  rewrite Hsome in Ht. unfold create_outcome in Ho.
  destruct ((pgm_transport_create fuel tinfo w).1.1) as [v| | |]; try discriminate Ht.
  destruct (v =? TRUE) eqn:Ev; [|discriminate Ht]. injection Ht as ->.
  apply Z.eqb_eq in Ev. subst v.
  destruct (tinfo_checks tinfo) eqn:Hc; [|destruct Ho; discriminate].
  destruct Ho as (draws & rest & _ & [[_ Hs]|[[=] _]]).
  destruct Hs as (r1 & r2 & r3 & u & _ & _ & _ & _ & Hcf).
  destruct Hcf as (_ & _ & _ & H4 & H5 & H6 & H7 & H8 & _ & H10 & H11 & H12 & H13 & H14 & H15).
  split; [apply tinfo_checks_valid, Hc|].
  repeat (split; [assumption|]).
  intros addrs Ha Hlen. rewrite H14, <- Hlen. unfold addr_at. rewrite Ha. cbn [default].
  clear. induction addrs as [|a addrs IH]; [reflexivity|].
  cbn [length seq map nth]. f_equal.
  rewrite <- seq_shift, map_map. exact IH.
Qed.

(** X15.  The send lock after a creation.  A [pgm_transport_create] that
    passed validation and returned took the send lock once and never
    released it, whether it succeeded or failed.  When it failed it
    disposed of the transport lock alone: the send lock is left taken and
    the two send locks are not disposed of. *)
Theorem create_keeps_the_send_lock fuel tinfo w :
  let x := pgm_transport_create fuel tinfo w in
  let es := create_events w x in
  forall v, x.1.1 = Val v -> tinfo_valid tinfo ->
  count_calls is_lock_send es = 1%nat /\
  count_calls is_unlock_send es = 0%nat /\
  freed_mutexes es = (if v =? TRUE then [] else [Transport_mutex]).
Proof.
  intros x es v Hv Hvalid. destruct (create_run_outcome fuel tinfo w) as (t1 & Ho & _).
  fold x in Ho. fold es in Ho. rewrite Hv in Ho. unfold create_outcome in Ho.
  apply tinfo_checks_valid in Hvalid. rewrite Hvalid in Ho.
  destruct Ho as (draws & rest & (u1 & u2 & u3 & u4 & -> & Hd) & Hrest).
  destruct (random_no_sockets _ Hd) as (_ & _ & Hd3 & Hd4 & Hd5).
  unfold freed_mutexes in *.
  rewrite !count_calls_app, !flat_map_app, Hd3,
    (no_calls_count _ _ Hd4), (no_calls_count _ _ Hd5).
  cbn [flat_map fst app].
  change (count_calls is_lock_send
            [(Mutex_init Send_mutex, u1); (Mutex_init Send_with_router_alert_mutex, u2);
             (Mutex_init Transport_mutex, u3); (Mutex_lock Send_mutex, u4)]) with 1%nat.
  change (count_calls is_unlock_send
            [(Mutex_init Send_mutex, u1); (Mutex_init Send_with_router_alert_mutex, u2);
             (Mutex_init Transport_mutex, u3); (Mutex_lock Send_mutex, u4)]) with 0%nat.
  destruct Hrest as [[-> Hs]|[-> Hf]]; cbn [Z.eqb TRUE FALSE Pos.eqb].
  - destruct Hs as (r1 & r2 & r3 & u & -> & _). repeat split.
  - destruct Hf as (_ & _ & Hfree & _ & Hno).
    assert (H1 : no_calls is_lock_send rest)
      by (eapply Forall_impl; [exact Hno|]; intros [[] ?]; cbn; congruence).
    assert (H2 : no_calls is_unlock_send rest)
      by (eapply Forall_impl; [exact Hno|]; intros [[] ?]; cbn; try congruence;
          destruct m; congruence).
    rewrite (no_calls_count _ _ H1), (no_calls_count _ _ H2).
    fold (freed_mutexes rest). rewrite Hfree. repeat split.
Qed.

(** ** [pgm_transport_bind]: locks, roles, memberships *)

Lemma steps_bind {A B : Type} P R (m : M A) (k : A -> M B) :
  steps P R m -> (forall a, steps P R (k a)) -> steps P R (m ≫= k).
Proof.
  intros Hm Hk t w HP. apply wp_bind. eapply wp_mono; [apply Hm, HP|].
  intros [a|v| |] t' w' H; simpl; auto. apply Hk, H.
Qed.

Lemma steps_ret {A : Type} P R (a : A) : steps P R (mret a).
Proof. intros t w HP. exact HP. Qed.

Lemma steps_return {A : Type} (P : pgm_transport_t -> world -> Prop)
    (R : Z -> pgm_transport_t -> world -> Prop) v :
  (forall t w, P t w -> R v t w) -> steps P R (@return_ A v).
Proof. intros H t w HP. apply H, HP. Qed.

Lemma steps_abort {A : Type} P R : steps P R (@abort A).
Proof. intros t w HP. exact Logic.I. Qed.

Lemma steps_get P R : steps P R get.
Proof. intros t w HP. exact HP. Qed.

Lemma steps_get_errno P R : steps P R get_errno.
Proof. intros t w HP. exact HP. Qed.

Lemma steps_modify (P : pgm_transport_t -> world -> Prop) R f :
  (forall t w, P t w -> P (f t) w) -> steps P R (modify f).
Proof. intros H t w HP. apply H, HP. Qed.

Lemma steps_sys_reply (P : pgm_transport_t -> world -> Prop) R c :
  (forall t w r, P t w -> P t (log c r w)) -> steps P R (sys_reply c).
Proof. intros H t w HP. apply H, HP. Qed.

(** A block that steps, used inside a run. *)
Lemma wp_steps {A : Type} P R (m : M A) t w Q :
  steps P R m -> P t w ->
  (forall r t' w',
     match r with
     | Val _ => P t' w' | Return v => R v t' w' | Abort => True | Out_of_fuel => False
     end -> Q r t' w') ->
  wp m t w Q.
Proof. intros Hm HP HQ. eapply wp_mono; [apply Hm, HP|]. exact HQ. Qed.

Section Bind_blocks.

Variable pgm_sockaddr_cmp : sockaddr -> sockaddr -> Z.
Variable CONFIG_BIND_INADDR_ANY : bool.
Variable P : pgm_transport_t -> world -> Prop.
Variable R : Z -> pgm_transport_t -> world -> Prop.

Hypothesis P_send_addr : forall v t w, P t w -> P (with_send_addr v t) w.
Hypothesis P_setup : forall c r t w, is_setup_call c = true -> P t w -> P t (log c r w).
Hypothesis P_fail :
  forall r t w, P t w -> R FALSE t (log (Mutex_unlock Transport_mutex) r w).

Lemma steps_bind_fail {A : Type} : steps P R (@bind_fail A).
Proof.
  unfold bind_fail, emit. intros t w HP.
  apply wp_bind, wp_bind, wp_sys_reply. intros r _. cbn [after].
  apply wp_ret. cbn [after]. apply wp_return. apply P_fail, HP.
Qed.

Lemma steps_bind_fail_with {A : Type} site : steps P R (@bind_fail_with A site).
Proof.
  unfold bind_fail_with, emit. apply steps_bind; [|intros _; apply steps_bind_fail].
  apply steps_bind; [|intros _; apply steps_ret].
  apply steps_sys_reply. intros t w r. apply P_setup. reflexivity.
Qed.

Ltac steps_block :=
  repeat lazymatch goal with
    | |- steps _ _ (mbind _ _) => apply steps_bind; [| intro]
    | |- steps _ _ (bindM _ _) => apply steps_bind; [| intro]
    | |- steps _ _ (mret _) => apply steps_ret
    | |- steps _ _ (ret _) => apply steps_ret
    | |- steps _ _ abort => apply steps_abort
    | |- steps _ _ get => apply steps_get
    | |- steps _ _ bind_fail => apply steps_bind_fail
    | |- steps _ _ (bind_fail_with _) => apply steps_bind_fail_with
    | |- steps _ _ (modify _) => apply steps_modify; intros ? ? HP; apply P_send_addr, HP
    | |- steps _ _ (sys_reply _) =>
        apply steps_sys_reply; intros ? ? ?; apply P_setup; reflexivity
    | |- steps _ _ (sys _) => unfold sys
    | |- steps _ _ (emit _) => unfold emit
    | |- steps _ _ (g_assert _) => unfold g_assert
    | |- steps _ _ (when _ _) => unfold when
    | |- steps _ _ (fails _) => unfold fails
    | |- steps _ _ (orM _ _) => unfold orM
    | |- steps _ _ (if ?b then _ else _) => destruct b
    end.

Lemma bind_socket_options_steps : steps P R bind_socket_options.
Proof. unfold bind_socket_options. steps_block. Qed.

Lemma bind_addresses_steps : steps P R (bind_addresses CONFIG_BIND_INADDR_ANY).
Proof. unfold bind_addresses. steps_block. Qed.

Lemma bind_multicast_options_steps : steps P R bind_multicast_options.
Proof. unfold bind_multicast_options. steps_block. Qed.

End Bind_blocks.

Section Bind_outcome.

Variable pgm_sockaddr_cmp : sockaddr -> sockaddr -> Z.
Variable CONFIG_BIND_INADDR_ANY : bool.

Lemma membership_calls_snoc es c r :
  membership_calls (es ++ [(c, r)])
  = membership_calls es ++ (if is_membership c then [(c, r)] else []).
Proof. unfold membership_calls. rewrite List.filter_app. reflexivity. Qed.

Lemma no_calls_snoc p es c (r : reply) :
  no_calls p es -> p c = false -> no_calls p (es ++ [(c, r)]).
Proof. intros H Hc. apply Forall_app. split; [exact H | repeat constructor; exact Hc]. Qed.

Lemma binding_log t0 tr0 done t w c r :
  binding pgm_sockaddr_cmp t0 tr0 done t w ->
  is_lifetime_call c = false -> is_membership c = false ->
  (can_send_data t0 = false -> is_sender_call c = false) ->
  (can_recv_data t0 = false -> is_receiver_call c = false) ->
  binding pgm_sockaddr_cmp t0 tr0 done t (log c r w).
Proof.
  intros (Hb & Hrole & u & body & E & Hm & [Hs Hr] & Hj) Hc1 Hc2 Hc3 Hc4.
  split; [exact Hb|]. split; [exact Hrole|].
  exists u, (body ++ [(c, r)]). split; [|split; [|split; [split|]]].
  - rewrite w_trace_log, E, <- app_assoc. reflexivity.
  - apply no_calls_snoc; assumption.
  - intros H. apply no_calls_snoc; auto.
  - intros H. apply no_calls_snoc; auto.
  - unfold joined in *. rewrite membership_calls_snoc, Hc2, app_nil_r. exact Hj.
Qed.

Lemma binding_modify t0 tr0 done t t' w :
  binding pgm_sockaddr_cmp t0 tr0 done t w ->
  is_bound t' = false -> same_role t0 t' ->
  binding pgm_sockaddr_cmp t0 tr0 done t' w.
Proof. intros (_ & _ & H) Hb Hrole. split; [exact Hb|]. split; [exact Hrole | exact H]. Qed.

Lemma binding_fail t0 tr0 done t w r :
  binding pgm_sockaddr_cmp t0 tr0 done t w ->
  bind_failed t0 tr0 t (log (Mutex_unlock Transport_mutex) r w).
Proof.
  intros (Hb & Hrole & u & body & E & Hm & Hrc & _).
  split; [exact Hb|]. split; [exact Hrole|].
  exists u, body, r. split; [|split; assumption].
  rewrite w_trace_log, E, <- app_assoc. reflexivity.
Qed.

Lemma setup_call_quiet c :
  is_setup_call c = true ->
  is_lifetime_call c = false /\ is_membership c = false /\
  is_sender_call c = false /\ is_receiver_call c = false.
Proof.
  destruct c; try discriminate; try (intros _; repeat split; fail).
  destruct v; try discriminate. intros _. repeat split.
Qed.

Lemma binding_setup t0 tr0 done c r t w :
  is_setup_call c = true ->
  binding pgm_sockaddr_cmp t0 tr0 done t w ->
  binding pgm_sockaddr_cmp t0 tr0 done t (log c r w).
Proof.
  intros Hc HP. destruct (setup_call_quiet c Hc) as (H1 & H2 & H3 & H4).
  apply binding_log; auto.
Qed.

Lemma binding_send_addr t0 tr0 done v t w :
  binding pgm_sockaddr_cmp t0 tr0 done t w ->
  binding pgm_sockaddr_cmp t0 tr0 done (with_send_addr v t) w.
Proof. intros HP. exact HP. Qed.

Lemma binding_exit t0 tr0 done r t w :
  binding pgm_sockaddr_cmp t0 tr0 done t w ->
  bind_exit t0 tr0 FALSE t (log (Mutex_unlock Transport_mutex) r w).
Proof. intros HP. split; [reflexivity|]. eapply binding_fail, HP. Qed.

Lemma joined_snoc t0 done p es r :
  joined pgm_sockaddr_cmp t0 done es -> r_val r = 0 ->
  joined pgm_sockaddr_cmp t0 (done ++ [p])
    (es ++ [(bind_join_call pgm_sockaddr_cmp (recv_sock t0) p, r)]).
Proof.
  intros [H1 H2] Hr. unfold joined. rewrite membership_calls_snoc.
  change (is_membership (bind_join_call pgm_sockaddr_cmp (recv_sock t0) p)) with true.
  cbn iota. rewrite !List.map_app, H1. split; [reflexivity|].
  apply Forall_app. split; [exact H2 | repeat constructor; exact Hr].
Qed.

Lemma binding_join t0 tr0 done p t w r :
  binding pgm_sockaddr_cmp t0 tr0 done t w -> r_val r = 0 ->
  binding pgm_sockaddr_cmp t0 tr0 (done ++ [p]) t
    (log (bind_join_call pgm_sockaddr_cmp (recv_sock t0) p) r w).
Proof.
  intros (Hb & Hrole & u & body & E & Hm & [Hs Hr] & Hj) Hz.
  split; [exact Hb|]. split; [exact Hrole|].
  exists u, (body ++ [(bind_join_call pgm_sockaddr_cmp (recv_sock t0) p, r)]).
  split; [|split; [|split; [split|]]].
  - rewrite w_trace_log, E, <- app_assoc. reflexivity.
  - apply no_calls_snoc; [assumption | reflexivity].
  - intros H. apply no_calls_snoc; [auto | reflexivity].
  - intros H. apply no_calls_snoc; [auto | reflexivity].
  - apply joined_snoc; assumption.
Qed.

(** A failure after some more calls that touch no lock. *)
Lemma binding_fail_after t0 tr0 done t w t' es u w' :
  binding pgm_sockaddr_cmp t0 tr0 done t w ->
  is_bound t' = false -> same_role t0 t' ->
  w_trace w' = w_trace w ++ es ++ [(Mutex_unlock Transport_mutex, u)] ->
  no_calls is_lifetime_call es ->
  (can_send_data t0 = false -> no_calls is_sender_call es) ->
  (can_recv_data t0 = false -> no_calls is_receiver_call es) ->
  bind_exit t0 tr0 FALSE t' w'.
Proof.
  intros (_ & _ & u0 & body & E & Hm & [Hs Hr] & _) Hb Hrole E' H1 H2 H3.
  split; [reflexivity|]. split; [exact Hb|]. split; [exact Hrole|].
  exists u0, (body ++ es), u. split; [|split; [|split]].
  - rewrite E', E. repeat rewrite <- app_assoc. reflexivity.
  - apply Forall_app. split; assumption.
  - intros H. apply Forall_app. split; [apply Hs, H | apply H2, H].
  - intros H. apply Forall_app. split; [apply Hr, H | apply H3, H].
Qed.

(** The success, after the release of the two locks. *)
Lemma binding_succeed t0 tr0 t w t' u1 u2 u3 :
  binding pgm_sockaddr_cmp t0 tr0 (recv_list t0) t w ->
  can_send_data t0 = true \/ can_recv_data t0 = true ->
  is_bound t' = true -> same_role t0 t' -> is_Some (rx_buffer t') ->
  bind_succeeded pgm_sockaddr_cmp t0 tr0 t'
    (log Timer_prepare u3
       (log (Mutex_unlock Transport_mutex) u2 (log (Mutex_unlock Send_mutex) u1 w))).
Proof.
  intros (_ & _ & u & body & E & Hm & Hrc & Hj) Hor Hb Hrole Hrx.
  split; [exact Hb|]. split; [exact Hrole|]. split; [exact Hor|]. split; [exact Hrx|].
  exists u, body, u1, u2, u3. split; [|split; [|split]]; try assumption.
  cbn [w_trace log]. rewrite E. repeat rewrite <- app_assoc. reflexivity.
Qed.

Lemma bind_join_groups_joined t0 tr0 ps : forall done t w,
  binding pgm_sockaddr_cmp t0 tr0 done t w ->
  wp (bind_join_groups pgm_sockaddr_cmp ps) t w
     (fun r t' w' =>
        match r with
        | Val _ => binding pgm_sockaddr_cmp t0 tr0 (done ++ ps) t' w'
        | Return v => bind_exit t0 tr0 v t' w'
        | Abort => True
        | Out_of_fuel => False
        end).
Proof.
  induction ps as [|p ps IH]; intros done t w HP; cbn [bind_join_groups].
  - apply wp_ret. rewrite app_nil_r. exact HP.
  - apply wp_bind. unfold bind_join_one, fails.
    wp_to_call. apply wp_sys_reply. intros r _.
    assert (Hsock : recv_sock t = recv_sock t0) by apply HP.
    rewrite Hsock.
    change (Setsockopt (recv_sock t0) _ _ _ _)
      with (bind_join_call pgm_sockaddr_cmp (recv_sock t0) p).
    cbn [after]. wp_step. cbn [after]. wp_step. cbn [after].
    unfold nonzero. destruct (Z.eqb_spec (r_val r) 0) as [Hr|Hr]; cbn [negb].
    + wp_step. cbn [after].
      eapply wp_mono; [apply (IH (done ++ [p])), binding_join; assumption|].
      cbn beta. intros r' t' w' H. rewrite <- app_assoc in H. exact H.
    + unfold bind_fail_with, bind_fail. wp_run_all.
      match goal with
      | |- bind_exit _ _ _ _ (log _ ?r3 (log ?c2 ?r2 (log ?c1 ?r1 _))) =>
          apply (binding_fail_after t0 tr0 done t w t [(c1, r1); (c2, r2)] r3 _ HP);
            [apply HP | apply HP | | | |]
      end.
      * cbn [w_trace log]. rewrite <- !app_assoc. reflexivity.
      * repeat constructor.
      * intros _. repeat constructor.
      * intros _. repeat constructor.
Qed.

(** The fields that [pgm_transport_bind] reads of its roles are read
    through the setters it has applied. *)
Ltac role_facts :=
  cbn [can_send_data can_recv_data is_bound recv_sock send_sock
       send_with_router_alert_sock recv_gsr recv_gsr_len
       window rate_control peers_hashtable pending_notify rx_buffer
       with_rand_ with_pending_notify with_iphdr_len with_max_tsdu with_max_tsdu_fragment
       with_max_apdu with_window with_peers_hashtable with_send_addr with_rate_control
       with_next_ambient_spm with_next_poll with_rx_buffer with_is_bound] in *.

Ltac same_role_tac :=
  unfold same_role; role_facts;
  repeat match goal with
         | |- _ /\ _ => split
         | |- _ -> _ => intro
         end;
  try match goal with
      | H : ?a -> _ /\ _, H' : ?a |- _ => destruct (H H')
      end;
  first [reflexivity | assumption | congruence].

(** The events since the transport lock was taken are told apart from
    it, whatever their number: up to a release as the last event, or up to
    the end. *)
Ltac split_body_to_release :=
  cbn [w_trace log]; rewrite <- ?app_assoc; cbn [app];
  first [ eexists _, [], _; split; [reflexivity|]
        | eexists _, [_], _; split; [reflexivity|]
        | eexists _, [_; _], _; split; [reflexivity|]
        | eexists _, [_; _; _], _; split; [reflexivity|]
        | eexists _, [_; _; _; _], _; split; [reflexivity|]
        | eexists _, [_; _; _; _; _], _; split; [reflexivity|]
        | eexists _, [_; _; _; _; _; _], _; split; [reflexivity|]
        | eexists _, [_; _; _; _; _; _; _], _; split; [reflexivity|] ].

Ltac split_body :=
  cbn [w_trace log]; rewrite <- ?app_assoc; cbn [app];
  first [ eexists _, []; split; [reflexivity|]
        | eexists _, [_]; split; [reflexivity|]
        | eexists _, [_; _]; split; [reflexivity|]
        | eexists _, [_; _; _]; split; [reflexivity|]
        | eexists _, [_; _; _; _]; split; [reflexivity|]
        | eexists _, [_; _; _; _; _]; split; [reflexivity|]
        | eexists _, [_; _; _; _; _; _]; split; [reflexivity|]
        | eexists _, [_; _; _; _; _; _; _]; split; [reflexivity|] ].

Ltac role_calls_tac :=
  split; intros ?; repeat constructor; role_facts; congruence.

Ltac finish_failed :=
  unfold bind_exit, bind_failed;
  split; [reflexivity|]; split; [role_facts; assumption|]; split; [same_role_tac|];
  split_body_to_release;
  split; [repeat constructor | role_calls_tac].

Ltac finish_binding :=
  unfold binding;
  split; [role_facts; assumption|]; split; [same_role_tac|];
  split_body;
  split; [repeat constructor|]; split; [role_calls_tac|];
  split; [reflexivity | constructor].

Lemma bind_construct_binding t w :
  is_bound t = false ->
  wp bind_construct t w
     (fun r t' w' =>
        match r with
        | Val _ => binding pgm_sockaddr_cmp t (w_trace w) [] t' w'
        | Return v => bind_exit t (w_trace w) v t' w'
        | Abort => True
        | Out_of_fuel => False
        end).
Proof.
  intros Hb. unfold bind_construct. wp_run_all; try exact Logic.I.
  all: forget_replies; role_facts.
  all: lazymatch goal with
       | |- bind_exit _ _ _ _ _ => finish_failed
       | |- binding _ _ _ _ _ _ => finish_binding
       end.
Qed.

(** The events logged on top of a world, oldest first. *)
Ltac events_onto w acc :=
  lazymatch w with
  | log ?c ?r ?w' => events_onto w' constr:((c, r) :: acc)
  | _ => acc
  end.

Ltac quiet_call :=
  first [ reflexivity | intros ?; first [reflexivity | role_facts; congruence] ].

(** The facts of a bind under way, put in the context. *)
Ltac binding_facts HP :=
  let Hb := fresh "Hb" in
  pose proof HP as (Hb & (? & ? & (? & ? & ?) & ? & ? & ? & ?) & _).

(** A bind under way that goes on from the state of [HP]. *)
Ltac go_on HP :=
  eapply binding_modify;
  [ repeat (apply binding_log; [| quiet_call ..]); exact HP
  | role_facts; assumption
  | same_role_tac ].

(** A bind that fails from the state of [HP]. *)
Ltac give_up_from HP :=
  lazymatch goal with
  | |- bind_exit _ _ _ _ (log (Mutex_unlock Transport_mutex) ?u ?w') =>
      let es := events_onto w' constr:(@nil event) in
      eapply (binding_fail_after _ _ _ _ _ _ es u _ HP);
      [ role_facts; assumption
      | same_role_tac
      | cbn [w_trace log]; repeat rewrite <- app_assoc; reflexivity
      | repeat constructor
      | intros ?; repeat constructor; role_facts; congruence
      | intros ?; repeat constructor; role_facts; congruence ]
  end.

Lemma bind_source_side_binding t0 tr0 done t w :
  binding pgm_sockaddr_cmp t0 tr0 done t w ->
  wp bind_source_side t w
     (fun r t' w' =>
        match r with
        | Val _ => binding pgm_sockaddr_cmp t0 tr0 done t' w' /\
                   (can_send_data t0 = true \/ can_recv_data t0 = true)
        | Return v => bind_exit t0 tr0 v t' w'
        | Abort => True
        | Out_of_fuel => False
        end).
Proof.
  intros HP. binding_facts HP.
  unfold bind_source_side, bind_announce. wp_run_all; try exact Logic.I.
  all: forget_replies; role_facts.
  all: lazymatch goal with
       | |- bind_exit _ _ _ _ _ => give_up_from HP
       | |- _ /\ _ => split; [go_on HP | first [left; congruence | right; congruence]]
       end.
Qed.

Lemma bind_finish_succeeded t0 tr0 t w :
  binding pgm_sockaddr_cmp t0 tr0 (recv_list t0) t w ->
  can_send_data t0 = true \/ can_recv_data t0 = true ->
  wp bind_finish t w
     (fun r t' w' => r = Return TRUE /\ bind_succeeded pgm_sockaddr_cmp t0 tr0 t' w').
Proof.
  intros HP Hor. binding_facts HP.
  unfold bind_finish. wp_run_all.
  all: forget_replies; role_facts.
  all: split; [reflexivity|].
  all: eapply binding_succeed;
         [ repeat (apply binding_log; [| quiet_call ..]); exact HP
         | exact Hor
         | reflexivity
         | same_role_tac
         | eexists; reflexivity ].
Qed.

Lemma bind_run_outcome t w :
  wp (pgm_transport_bind pgm_sockaddr_cmp CONFIG_BIND_INADDR_ANY) t w
     (bind_outcome pgm_sockaddr_cmp t (w_trace w)).
Proof.
  set (tr0 := w_trace w).
  unfold pgm_transport_bind.
  wp_step. wp_step. wp_step. wp_step. wp_step. wp_step. wp_step.
  2: { wp_run_all. unfold bind_outcome.
       match goal with H : negb (is_bound t) = false |- _ =>
         apply negb_false_iff in H; rewrite H end.
       split; [reflexivity|]. split; [reflexivity|]. eexists. reflexivity. }
  match goal with H : negb (is_bound t) = true |- _ =>
    apply negb_true_iff in H; rename H into Hb end.
  assert (Hfail : forall v t' w', bind_exit t tr0 v t' w' ->
                    bind_outcome pgm_sockaddr_cmp t tr0 (Val v) t' w').
  { intros v t' w' [-> H]. unfold bind_outcome. rewrite Hb. right. split; [reflexivity|exact H]. }
  wp_step. wp_step. wp_step.
  (* construction *)
  eapply wp_mono; [apply bind_construct_binding, Hb|]. cbn beta.
  intros r1 t1 w1 H1.
  destruct r1 as [[]|v| |]; cbn [after]; [|apply Hfail, H1|exact Hb|contradiction].
  (* socket options *)
  wp_step.
  apply (wp_steps (binding pgm_sockaddr_cmp t tr0 []) (bind_exit t tr0));
    [ apply bind_socket_options_steps;
      [intros; apply binding_setup; assumption | intros; eapply binding_exit; eassumption]
    | exact H1 |].
  intros r2 t2 w2 H2.
  destruct r2 as [[]|v| |]; cbn [after]; [|apply Hfail, H2|exact Hb|contradiction].
  (* addresses *)
  wp_step.
  apply (wp_steps (binding pgm_sockaddr_cmp t tr0 []) (bind_exit t tr0));
    [ apply bind_addresses_steps;
      [ intros; apply binding_send_addr; assumption
      | intros; apply binding_setup; assumption
      | intros; eapply binding_exit; eassumption ]
    | exact H2 |].
  intros r3 t3 w3 H3.
  destruct r3 as [[]|v| |]; cbn [after]; [|apply Hfail, H3|exact Hb|contradiction].
  (* group joins *)
  wp_step. wp_step. cbn [after]. wp_step.
  assert (Hlist : recv_list t3 = recv_list t).
  { destruct H3 as (_ & (_ & _ & _ & Hg & Hl & _) & _). unfold recv_list.
    rewrite Hg, Hl. reflexivity. }
  rewrite Hlist.
  eapply wp_mono; [apply (bind_join_groups_joined t tr0 (recv_list t) []), H3|]. cbn beta.
  intros r4 t4 w4 H4. cbn [app] in H4.
  destruct r4 as [[]|v| |]; cbn [after]; [|apply Hfail, H4|exact Hb|contradiction].
  (* multicast options *)
  wp_step.
  apply (wp_steps (binding pgm_sockaddr_cmp t tr0 (recv_list t)) (bind_exit t tr0));
    [ apply bind_multicast_options_steps;
      [intros; apply binding_setup; assumption | intros; eapply binding_exit; eassumption]
    | exact H4 |].
  intros r5 t5 w5 H5.
  destruct r5 as [[]|v| |]; cbn [after]; [|apply Hfail, H5|exact Hb|contradiction].
  (* rate regulation and announcement, or the receiver's timer *)
  wp_step.
  eapply wp_mono; [apply bind_source_side_binding, H5|]. cbn beta.
  intros r6 t6 w6 H6.
  destruct r6 as [[]|v| |]; cbn [after]; [|apply Hfail, H6|exact Hb|contradiction].
  destruct H6 as [H6 Hor].
  (* completion *)
  eapply wp_mono; [apply bind_finish_succeeded; [exact H6 | exact Hor]|]. cbn beta.
  intros r7 t7 w7 [-> H7]. unfold bind_outcome. rewrite Hb. left.
  split; [reflexivity | exact H7].
Qed.

End Bind_outcome.

Section Bind_properties.

Variable pgm_sockaddr_cmp : sockaddr -> sockaddr -> Z.
Variable CONFIG_BIND_INADDR_ANY : bool.

Lemma new_events_cons {A : Type} (w : world) (x : result A * pgm_transport_t * world) es :
  w_trace (wd x) = w_trace w ++ es -> new_events w x = es.
Proof. apply new_events_app. Qed.

(** X16.  The locks of a bind.  A [pgm_transport_bind] of a transport that
    is not bound takes the transport lock as its first call and, until its
    end, touches no other lock, opens no socket and closes none.  When it
    returns TRUE it has marked the
    transport bound and ends by releasing the send lock, then the
    transport lock, and preparing the timer; when it returns FALSE the
    transport is not bound, the transport lock is released as the last
    call and the send lock is not released. *)
Theorem bind_holds_the_transport_lock t w v :
  let x := pgm_transport_bind pgm_sockaddr_cmp CONFIG_BIND_INADDR_ANY t w in
  is_bound t = false -> rs x = Val v ->
  exists u body,
    no_calls is_lifetime_call body /\
    ((v = TRUE /\ is_bound (st x) = true /\
      exists u1 u2 u3,
        new_events w x
        = (Mutex_lock Transport_mutex, u) :: body
          ++ [(Mutex_unlock Send_mutex, u1); (Mutex_unlock Transport_mutex, u2);
              (Timer_prepare, u3)]) \/
     (v = FALSE /\ is_bound (st x) = false /\
      exists u',
        new_events w x
        = (Mutex_lock Transport_mutex, u) :: body ++ [(Mutex_unlock Transport_mutex, u')])).
Proof.
  intros x Hb Hv.
  pose proof (bind_run_outcome pgm_sockaddr_cmp CONFIG_BIND_INADDR_ANY t w) as H.
  unfold wp in H. fold x in H. rewrite Hv in H. unfold bind_outcome in H. rewrite Hb in H.
  destruct H as [[-> Hs]|[-> Hf]].
  - destruct Hs as (Hb' & _ & _ & _ & u & body & u1 & u2 & u3 & E & Hm & _).
    exists u, body. split; [exact Hm|]. left. split; [reflexivity|]. split; [exact Hb'|].
    exists u1, u2, u3. apply new_events_app. exact E.
  - destruct Hf as (Hb' & _ & u & body & u' & E & Hm & _).
    exists u, body. split; [exact Hm|]. right. split; [reflexivity|]. split; [exact Hb'|].
    exists u'. apply new_events_app. exact E.
Qed.

Lemma no_calls_cons p (e : event) es :
  p e.1 = false -> no_calls p es -> no_calls p (e :: es).
Proof. intros. constructor; assumption. Qed.

(** X17.  A bind serves the roles of the transport and no other.  On a
    transport that does not send data, a [pgm_transport_bind] that returns
    creates no transmit window and no rate regulator and sends no SPM, and
    leaves the window and the regulator of the transport as they were; on
    a transport that does not receive, it creates no notification channel
    and no peer table and leaves those of the transport as they were.  The
    roles themselves are not changed. *)
Theorem bind_serves_the_roles t w :
  let x := pgm_transport_bind pgm_sockaddr_cmp CONFIG_BIND_INADDR_ANY t w in
  match rs x with
  | Val _ =>
      can_send_data (st x) = can_send_data t /\ can_recv_data (st x) = can_recv_data t /\
      (can_send_data t = false ->
         no_calls is_sender_call (new_events w x) /\
         window (st x) = window t /\ rate_control (st x) = rate_control t) /\
      (can_recv_data t = false ->
         no_calls is_receiver_call (new_events w x) /\
         peers_hashtable (st x) = peers_hashtable t /\
         pending_notify (st x) = pending_notify t)
  | _ => True
  end.
Proof.
  intros x.
  pose proof (bind_run_outcome pgm_sockaddr_cmp CONFIG_BIND_INADDR_ANY t w) as H.
  unfold wp in H. fold x in H. destruct (rs x) as [v| | |]; try exact Logic.I.
  unfold bind_outcome in H. destruct (is_bound t).
  - destruct H as (_ & Ht & u & E). rewrite Ht, (new_events_app w x _ E).
    repeat split; repeat constructor.
  - destruct H as [[_ Hs]|[_ Hf]].
    + destruct Hs as (_ & (R1 & R2 & _ & _ & _ & R6 & R7) & _ & _ &
                      u & body & u1 & u2 & u3 & E & _ & [C1 C2] & _).
      rewrite (new_events_app w x _ E).
      split; [exact R1|]. split; [exact R2|]. split; intros Hc.
      * split; [|apply R6, Hc]. apply no_calls_cons; [reflexivity|].
        apply Forall_app. split; [apply C1, Hc | repeat constructor].
      * split; [|apply R7, Hc]. apply no_calls_cons; [reflexivity|].
        apply Forall_app. split; [apply C2, Hc | repeat constructor].
    + destruct Hf as (_ & (R1 & R2 & _ & _ & _ & R6 & R7) & u & body & u' & E & _ & [C1 C2]).
      rewrite (new_events_app w x _ E).
      split; [exact R1|]. split; [exact R2|]. split; intros Hc.
      * split; [|apply R6, Hc]. apply no_calls_cons; [reflexivity|].
        apply Forall_app. split; [apply C1, Hc | repeat constructor].
      * split; [|apply R7, Hc]. apply no_calls_cons; [reflexivity|].
        apply Forall_app. split; [apply C2, Hc | repeat constructor].
Qed.

Lemma membership_calls_app es1 es2 :
  membership_calls (es1 ++ es2) = membership_calls es1 ++ membership_calls es2.
Proof. apply List.filter_app. Qed.

(** X18.  A bind joins the whole receive list.  The membership requests of
    a [pgm_transport_bind] that returns TRUE are one for each entry of the
    receive list, in the order of the list, each made on the receive socket
    and each granted: an any-source join for an entry whose source compares
    equal to its group, a source-specific join otherwise.  The receive list
    itself is left as it was. *)
Theorem bind_joins_every_group t w :
  let x := pgm_transport_bind pgm_sockaddr_cmp CONFIG_BIND_INADDR_ANY t w in
  rs x = Val TRUE ->
  @map event call fst (membership_calls (new_events w x))
  = map (bind_join_call pgm_sockaddr_cmp (recv_sock t)) (recv_list t) /\
  Forall (fun e : event => r_val e.2 = 0) (membership_calls (new_events w x)) /\
  recv_list (st x) = recv_list t.
Proof.
  intros x Hv.
  pose proof (bind_run_outcome pgm_sockaddr_cmp CONFIG_BIND_INADDR_ANY t w) as H.
  unfold wp in H. fold x in H. rewrite Hv in H. unfold bind_outcome in H.
  destruct (is_bound t); [destruct H as [[=] _]|].
  destruct H as [[_ Hs]|[[=] _]].
  destruct Hs as (_ & (_ & _ & _ & R4 & R5 & _) & _ & _ &
                  u & body & u1 & u2 & u3 & E & _ & _ & [J1 J2]).
  rewrite (new_events_app w x _ E).
  change ((Mutex_lock Transport_mutex, u) :: body ++ ?tl)
    with ([(Mutex_lock Transport_mutex, u)] ++ body ++ tl).
  rewrite !membership_calls_app. cbn [membership_calls List.filter is_membership fst app].
  rewrite app_nil_r. split; [exact J1|]. split; [exact J2|].
  unfold recv_list. rewrite R4, R5. reflexivity.
Qed.

(** X19.  A transport made send-only and then receive-only has no role
    left, and no bind of it succeeds, whatever the system answers. *)
Theorem no_role_no_bind (passive : bool) t w1 w2 w3 :
  let t1 := st (pgm_transport_set_send_only true t w1) in
  let t2 := st (pgm_transport_set_recv_only passive t1 w2) in
  can_send_data t2 = false /\ can_recv_data t2 = false /\
  rs (pgm_transport_bind pgm_sockaddr_cmp CONFIG_BIND_INADDR_ANY t2 w3) <> Val TRUE.
Proof.
  intros t1 t2. split; [reflexivity|]. split; [reflexivity|]. intros Hv.
  pose proof (bind_run_outcome pgm_sockaddr_cmp CONFIG_BIND_INADDR_ANY t2 w3) as H.
  unfold wp in H. rewrite Hv in H. unfold bind_outcome in H.
  destruct (is_bound t2); [destruct H as [[=] _]|].
  destruct H as [[_ Hs]|[[=] _]].
  destruct Hs as (_ & _ & [Hor|Hor] & _); discriminate Hor.
Qed.

(** X20.  A second bind is refused.  After a [pgm_transport_bind] that
    returned TRUE, another [pgm_transport_bind] of the transport returns
    FALSE, makes no call but the report of the failed check, and leaves the
    transport as the first bind left it. *)
Theorem bind_twice_refused t w :
  let x1 := pgm_transport_bind pgm_sockaddr_cmp CONFIG_BIND_INADDR_ANY t w in
  let x2 := pgm_transport_bind pgm_sockaddr_cmp CONFIG_BIND_INADDR_ANY (st x1) (wd x1) in
  rs x1 = Val TRUE ->
  rs x2 = Val FALSE /\ st x2 = st x1 /\
  exists u, new_events (wd x1) x2 = [(G_warning Critical_check_failed, u)].
Proof.
  intros x1 x2 Hv.
  pose proof (bind_run_outcome pgm_sockaddr_cmp CONFIG_BIND_INADDR_ANY t w) as H1.
  unfold wp in H1. fold x1 in H1. rewrite Hv in H1. unfold bind_outcome in H1.
  assert (Hb : is_bound (st x1) = true).
  { destruct (is_bound t) eqn:Hb0.
    - destruct H1 as [[=] _].
    - destruct H1 as [[_ Hs]|[[=] _]]. apply Hs. }
  pose proof (bind_run_outcome pgm_sockaddr_cmp CONFIG_BIND_INADDR_ANY (st x1) (wd x1)) as H2.
  unfold wp in H2. fold x2 in H2.
  assert (Hr : exists v, rs x2 = Val v).
  { subst x2. unfold pgm_transport_bind, fn, g_return_val_if_fail, emit, sys_reply, get,
      return_, mbind, M_bind, bindM, mret, M_ret, ret, rs. cbn. rewrite Hb. cbn.
    eexists. reflexivity. }
  destruct Hr as [v Hr]. rewrite Hr in H2 |- *. unfold bind_outcome in H2. rewrite Hb in H2.
  destruct H2 as (-> & Ht & u & E).
  split; [reflexivity|]. split; [exact Ht|]. exists u. apply new_events_app. exact E.
Qed.

End Bind_properties.

Section Lifecycle.

Variable pgm_sockaddr_cmp : sockaddr -> sockaddr -> Z.
Variable CONFIG_BIND_INADDR_ANY : bool.

Lemma no_mutex_no_send_lock body :
  no_calls is_lifetime_call body ->
  count_calls is_lock_send body = 0%nat /\ count_calls is_unlock_send body = 0%nat.
Proof.
  intros H. split; apply no_calls_count; (eapply Forall_impl; [exact H|]);
    intros [[] ?]; cbn; congruence.
Qed.

(** X21.  The send lock from creation to bind.  Over the calls of a
    successful [pgm_transport_create] followed by those of a
    [pgm_transport_bind] of the transport it handed out, the send lock is
    taken once, by the creation, and it is released once when the bind
    returns TRUE and not at all when the bind returns FALSE: sending stays
    locked until the transport is bound. *)
Theorem send_lock_is_held_until_bound fuel tinfo w t v :
  let c := pgm_transport_create fuel tinfo w in
  let x := pgm_transport_bind pgm_sockaddr_cmp CONFIG_BIND_INADDR_ANY t c.2 in
  let es := create_events w c ++ new_events c.2 x in
  c.1.2 = Some t -> rs x = Val v ->
  count_calls is_lock_send es = 1%nat /\
  count_calls is_unlock_send es = (if v =? TRUE then 1%nat else 0%nat) /\
  (v = TRUE \/ v = FALSE).
Proof.
  intros c x es Hsome Hv. subst es.
  (* the creation *)
  destruct (create_run_outcome fuel tinfo w) as (t1 & Ho & Ht).
  fold c in Ho, Ht. rewrite Hsome in Ht. unfold create_outcome in Ho.
  destruct (c.1.1) as [v0| | |]; try discriminate Ht.
  destruct (v0 =? TRUE) eqn:Ev0; [|discriminate Ht]. injection Ht as <-.
  apply Z.eqb_eq in Ev0. subst v0.
  destruct (tinfo_checks tinfo); [|destruct Ho; discriminate].
  destruct Ho as (draws & rest & (u1 & u2 & u3 & u4 & -> & Hd) & [[_ Hs]|[[=] _]]).
  destruct Hs as (r1 & r2 & r3 & u & -> & _ & _ & _ & Hcf).
  assert (Hb : is_bound t = false) by apply Hcf.
  destruct (random_no_sockets _ Hd) as (_ & _ & _ & Hd4 & Hd5).
  (* the bind *)
  pose proof (bind_run_outcome pgm_sockaddr_cmp CONFIG_BIND_INADDR_ANY t c.2) as H.
  unfold wp in H. fold x in H. rewrite Hv in H. unfold bind_outcome in H. rewrite Hb in H.
  rewrite !count_calls_app, (no_calls_count _ _ Hd4), (no_calls_count _ _ Hd5).
  destruct H as [[-> Hs]|[-> Hf]].
  - destruct Hs as (_ & _ & _ & _ & u0 & body & v1 & v2 & v3 & E & Hm & _).
    rewrite (new_events_app c.2 x _ E).
    change ((Mutex_lock Transport_mutex, u0) :: body ++ ?tl)
      with ([(Mutex_lock Transport_mutex, u0)] ++ body ++ tl).
    rewrite !count_calls_app.
    destruct (no_mutex_no_send_lock body Hm) as [-> ->].
    repeat split. left. reflexivity.
  - destruct Hf as (_ & _ & u0 & body & u' & E & Hm & _).
    rewrite (new_events_app c.2 x _ E).
    change ((Mutex_lock Transport_mutex, u0) :: body ++ ?tl)
      with ([(Mutex_lock Transport_mutex, u0)] ++ body ++ tl).
    rewrite !count_calls_app.
    destruct (no_mutex_no_send_lock body Hm) as [-> ->].
    repeat split. right. reflexivity.
Qed.

End Lifecycle.
(** ** [_pgm_set_nonblocking] *)

Lemma added_app {S A : Type} (o : outside) (x : result A * S * outside) es :
  o_trace x.2 = o_trace o ++ es -> added o x = es.
Proof. intros E. unfold added. rewrite E. apply drop_app_length. Qed.

Ltac act_unfold :=
  unfold a_fn, a_when, a_assert, a_emit, a_sys, a_return, a_abort, a_get, a_modify,
    a_set_errno, mbind, Act_bind, a_bind, mret, Act_ret, a_ret.

(** X22.  What [_pgm_set_nonblocking] reports.  It always returns.  Its
    value is negative exactly when the first call, the reading of the
    flags of the write end, failed; that answer is then returned and no
    other call is made.  A failure to set the flags, of either end, is
    reported by returning the flags read, which are not negative: with a
    flag word 0 it is reported as 0, the value of success. *)
Theorem set_nonblocking_report (filedes : Z * Z) (o : outside) :
  let x := _pgm_set_nonblocking filedes tt o in
  let first := (Fcntl_getfl filedes.2, next_answer o (Fcntl_getfl filedes.2)) in
  let flags := r_val first.2 in
  exists v,
    x.1.1 = Val v /\
    (v < 0 <-> flags < 0) /\
    (flags < 0 -> v = flags /\ added o x = [first]) /\
    (forall fd fl r,
       In (Fcntl_setfl fd fl, r) (added o x) -> r_val r < 0 -> v = flags /\ 0 <= v).
Proof.
  intros x first flags. subst x first flags. unfold _pgm_set_nonblocking.
  act_unfold. cbn.
  repeat (match goal with |- context [if ?b then _ else _] => destruct b eqn:? end; cbn).
  all: eexists; (split; [reflexivity|]).
  all: unfold added, record, next_answer in *; cbn [o_trace o_oracle snd] in *;
    repeat rewrite <- app_assoc in *; rewrite drop_app_length; cbn [app] in *.
  all: repeat match goal with
         | H : (_ <? _) = true |- _ => apply Z.ltb_lt in H
         | H : (_ <? _) = false |- _ => apply Z.ltb_ge in H
         end.
  all: split; [lia|].
  all: split; [intros ?; try lia; split; reflexivity|].
  all: intros fd fl r Hin Hr; cbn [In] in Hin.
  all: repeat match goal with
         | H : _ \/ _ |- _ => destruct H as [H|H]
         | H : (_, _) = (_, _) |- _ => injection H as ? ?; subst
         | H : False |- _ => destruct H
         end; try discriminate; try lia.
Qed.

(** X23.  Both ends of the pipe are given the flags of the write end.  The
    calls of [_pgm_set_nonblocking] are the first of these four, in this
    order, and at least the first: the reading of the flags of the write
    end, the setting of these flags with [O_NONBLOCK] on the write end, a
    reading of the flags of the read end, and the setting on the read end
    of the flags of the write end with [O_NONBLOCK].  What the read end
    answered for its own flags is not used. *)
Theorem set_nonblocking_uses_write_end_flags (filedes : Z * Z) (o : outside) :
  let x := _pgm_set_nonblocking filedes tt o in
  let flags := r_val (next_answer o (Fcntl_getfl filedes.2)) in
  added o x <> [] /\
  map fst (added o x) `prefix_of`
    [Fcntl_getfl filedes.2; Fcntl_setfl filedes.2 (Z.lor flags O_NONBLOCK);
     Fcntl_getfl filedes.1; Fcntl_setfl filedes.1 (Z.lor flags O_NONBLOCK)].
Proof.
  intros x flags. subst x flags. unfold _pgm_set_nonblocking.
  act_unfold. cbn.
  repeat (match goal with |- context [if ?b then _ else _] => destruct b eqn:? end; cbn).
  all: unfold added, record, next_answer; cbn [o_trace o_oracle snd];
    repeat rewrite <- app_assoc; rewrite drop_app_length; cbn [app map fst].
  all: split; [discriminate|]; eexists; reflexivity.
Qed.

(** ** The descriptors to wait on *)

Lemma FD_ISSET_lor s fd x :
  0 <= fd -> FD_ISSET x (Z.lor s (Z.shiftl 1 fd)) = FD_ISSET x s || (fd =? x).
Proof.
  intros H. unfold FD_ISSET. rewrite Z.lor_spec, Z.shiftl_1_l, Z.pow2_bits_eqb by exact H.
  reflexivity.
Qed.

Section Wait_properties.

Variable pgm_notify_get_fd : pgm_transport_t -> Z.

(** X24.  [pgm_transport_select_info] on a transport that is not destroyed,
    given [*n_fds].  It makes no call.  When every descriptor it has to set
    fits a descriptor set, it returns; and the value it returns is stored
    in [*n_fds], is not below the [*n_fds] given and is above every
    descriptor it set.  A set given holds afterwards what it held and the
    descriptors to wait on: to read, the receive socket and, for a
    transport that receives, the notification channel; to write, the send
    socket of a transport that sends data.  A set not given stays so. *)
Theorem select_info_covers_its_descriptors t m a o n :
  sel_n_fds a = Some n -> is_destroyed m = false ->
  let x := pgm_transport_select_info pgm_notify_get_fd t m a o in
  ((forall fd, In fd (select_fds pgm_notify_get_fd t a) -> 0 <= fd < FD_SETSIZE) -> exists v, x.1.1 = Val v) /\
  forall v, x.1.1 = Val v ->
    x.2 = o /\ sel_n_fds x.1.2 = Some v /\ n <= v /\
    (forall fd, In fd (select_fds pgm_notify_get_fd t a) -> 0 <= fd < v) /\
    match sel_readfds a, sel_readfds x.1.2 with
    | Some s, Some s' =>
        forall fd, FD_ISSET fd s' = true <-> FD_ISSET fd s = true \/ In fd (wait_read_fds pgm_notify_get_fd t)
    | None, None => True
    | _, _ => False
    end /\
    match sel_writefds a, sel_writefds x.1.2 with
    | Some s, Some s' =>
        forall fd, FD_ISSET fd s' = true <-> FD_ISSET fd s = true \/ In fd (wait_write_fds t)
    | None, None => True
    | _, _ => False
    end.
Proof.
  intros Hn Hd x. subst x. unfold pgm_transport_select_info, FD_SET_readfds,
    FD_SET_writefds, FD_SET, select_fds, wait_read_fds, wait_write_fds.
  destruct a as [rd wr nf]. cbn [sel_n_fds sel_readfds sel_writefds] in *. subst nf.
  rewrite Hd. act_unfold.
  destruct rd as [s|], wr as [s'|], (can_recv_data t), (can_send_data t); cbn.
  all: repeat (match goal with
               | |- context [(0 <=? ?a) && (?a <? FD_SETSIZE)] =>
                   destruct ((0 <=? a) && (a <? FD_SETSIZE)) eqn:?
               end; cbn).
  all: split;
    [intros Hall;
     repeat match goal with
       | H : (0 <=? ?a) && (?a <? FD_SETSIZE) = false |- _ =>
           exfalso; specialize (Hall a); cbn [In app] in Hall;
           assert (0 <= a < FD_SETSIZE) by (apply Hall; tauto); lia
       end; eexists; reflexivity
    | intros v Hv; try discriminate Hv; injection Hv as <-].
  all: repeat match goal with
         | H : _ && _ = true |- _ => apply andb_true_iff in H; destruct H
         | H : (_ <=? _) = true |- _ => apply Z.leb_le in H
         | H : (_ <? _) = true |- _ => apply Z.ltb_lt in H
         end.
  all: split; [reflexivity|]; split; [reflexivity|].
  all: split; [unfold MAX; repeat case_match; lia|].
  all: split;
    [intros fd Hin; unfold MAX; repeat case_match; cbn [In app] in Hin;
     repeat match goal with H : _ \/ _ |- _ => destruct H as [H|H] end;
     try contradiction; lia|].
  all: split; try exact Logic.I.
  all: intros fd; rewrite ?FD_ISSET_lor by lia;
    rewrite ?orb_true_iff, ?Z.eqb_eq; cbn [In]; tauto.
Qed.

(** X25.  [pgm_transport_poll_info] on a transport that is not destroyed,
    given an array and an [*n_fds] that is not negative.  The entries it has to store are, for
    [POLLIN], the receive socket and, for a transport that receives, the
    notification channel and, for [POLLOUT], the send socket of a transport
    that sends data: at most three.  When [*n_fds] is below their number,
    the function does not return: the run ends at the assertion on
    [*n_fds], or before it at a store outside the array given.  Otherwise,
    with an array that holds them, the entries are stored at the head of the array in this
    order, their number is returned and stored in [*n_fds], the rest of the
    array and every [revents] are left as they were, and no call is
    made. *)
Theorem poll_info_fills_the_array t m events fds n o :
  is_destroyed m = false -> 0 <= n ->
  let x := pgm_transport_poll_info pgm_notify_get_fd t m events
             (mk_poll_args (Some fds) (Some n)) o in
  let want := poll_entries pgm_notify_get_fd t events in
  (length want <= 3)%nat /\
  (n < Z.of_nat (length want) -> x.1.1 = Abort) /\
  (Z.of_nat (length want) <= n -> (length want <= length fds)%nat ->
     x.1.1 = Val (Z.of_nat (length want)) /\ x.2 = o /\
     poll_n_fds x.1.2 = Some (Z.of_nat (length want)) /\
     exists fds',
       poll_fds x.1.2 = Some fds' /\
       map (fun p => (pfd_fd p, pfd_events p)) (take (length want) fds') = want /\
       drop (length want) fds' = drop (length want) fds /\
       map pfd_revents fds' = map pfd_revents fds).
Proof.
  intros Hd Hn0 x want. subst x want.
  unfold pgm_transport_poll_info, poll_entries, wait_read_fds, wait_write_fds, poll_room,
    poll_store.
  rewrite Hd. act_unfold.
  destruct (nonzero (Z.land events POLLIN)), (nonzero (Z.land events POLLOUT)),
    (can_recv_data t), (can_send_data t); cbn.
  all: destruct fds as [|p0 [|p1 [|p2 fds]]]; simpl.
  all: repeat (match goal with
               | |- context [?a <=? ?b] => destruct (Z.leb_spec a b)
               end; simpl).
  all: split; [lia|]; split; [intros; first [lia | reflexivity]|].
  all: intros Hk Hlen; try lia.
  all: repeat (split; [reflexivity|]).
  all: eexists; repeat split; reflexivity.
Qed.

(** X26.  [pgm_transport_epoll_ctl] with [EPOLL_CTL_ADD] on a transport that
    is not destroyed always returns.  Its registrations are made in this
    order: for [EPOLLIN] the receive socket and, for a transport that
    receives, the notification channel, each with the [EPOLLIN] and
    [EPOLLET] bits of [events]; for [EPOLLOUT] the send socket of a
    transport that sends data, with the [EPOLLOUT] and [EPOLLET] bits.  It
    stops at the first registration that is not granted and takes none
    back: every call but the last was granted, the answer of the last is
    returned, 0 when there was none, and a return of 0 means that all were
    made.  The transport is marked edge-triggered exactly when it was so
    before or [events] has [EPOLLIN] and [EPOLLET] and the registrations
    for reading were all granted, whatever became of the one for
    writing; nothing else in it changes. *)
Theorem epoll_ctl_registers_in_order t m epfd events o :
  is_destroyed m = false ->
  let x := pgm_transport_epoll_ctl pgm_notify_get_fd epfd EPOLL_CTL_ADD events (t, m) o in
  let es := added o x in
  exists v,
    x.1.1 = Val v /\
    map fst es `prefix_of` epoll_calls pgm_notify_get_fd t epfd events /\
    Forall granted (List.removelast es) /\
    v = r_val (List.last (map snd es) reply_ok) /\
    (v = 0 -> map fst es = epoll_calls pgm_notify_get_fd t epfd events) /\
    x.1.2 = (t, with_is_edge_triggered_recv
                  (is_edge_triggered_recv m
                   || nonzero (Z.land events EPOLLIN) && nonzero (Z.land events EPOLLET)
                      && registered_to_read pgm_notify_get_fd t es) m).
Proof.
  intros Hd x es. subst x es.
  unfold pgm_transport_epoll_ctl, epoll_calls, epoll_read_calls, epoll_write_calls,
    registered_to_read, wait_read_fds, wait_write_fds.
  act_unfold. cbn [fst snd]. rewrite Hd, Z.eqb_refl. cbn [negb].
  destruct (nonzero (Z.land events EPOLLIN)), (nonzero (Z.land events EPOLLOUT)),
    (can_recv_data t), (can_send_data t), (nonzero (Z.land events EPOLLET)); cbn.
  all: unfold nonzero.
  all: repeat (match goal with
               | |- context [negb (?a =? 0)] => destruct (Z.eqb_spec a 0)
               end; cbn).
  all: unfold added, record, next_answer in *; cbn [o_trace o_oracle snd fst] in *;
    repeat rewrite <- app_assoc in *; rewrite ?drop_app_length, ?drop_all;
    cbn [app] in *.
  all: eexists; (split; [reflexivity|]).
  all: cbn [map fst snd List.last List.removelast length take forallb Nat.leb andb].
  all: repeat match goal with
         | H : ?a = 0 |- context [?a =? 0] => rewrite H
         | H : ?a <> 0 |- context [?a =? 0] => rewrite (proj2 (Z.eqb_neq a 0) H)
         end.
  all: cbn [Z.eqb andb orb].
  all: split; [eexists; reflexivity|].
  all: split; [repeat constructor; assumption|].
  all: split; [reflexivity|].
  all: split; [intros Hv; first [reflexivity | contradiction]|].
  all: destruct m; cbn; rewrite ?orb_false_r, ?orb_true_r; reflexivity.
Qed.

(** X27.  What the three functions refuse.  On a destroyed transport
    [pgm_transport_select_info] and [pgm_transport_poll_info], given
    [*n_fds] and the array, return -1 with [errno] set to [EBADF]; they
    leave the sets, the array and [*n_fds] as they were.
    [pgm_transport_epoll_ctl] returns -1 for every operation other than
    [EPOLL_CTL_ADD], with [errno] set to [EINVAL], also on a destroyed
    transport, and for [EPOLL_CTL_ADD] on a destroyed transport, with
    [errno] set to [EBADF]; it registers nothing and leaves the transport
    as it was.  None of the three makes a call. *)
Theorem wait_refusals t m :
  is_destroyed m = true ->
  (forall a o n, sel_n_fds a = Some n ->
     pgm_transport_select_info pgm_notify_get_fd t m a o
     = (Val (-1), a, mk_outside (o_oracle o) (o_trace o) EBADF)) /\
  (forall events fds n o,
     pgm_transport_poll_info pgm_notify_get_fd t m events
       (mk_poll_args (Some fds) (Some n)) o
     = (Val (-1), mk_poll_args (Some fds) (Some n),
        mk_outside (o_oracle o) (o_trace o) EBADF)) /\
  (forall m' epfd op events o,
     is_destroyed m' = true \/ op <> EPOLL_CTL_ADD ->
     pgm_transport_epoll_ctl pgm_notify_get_fd epfd op events (t, m') o
     = (Val (-1), (t, m'),
        mk_outside (o_oracle o) (o_trace o) (if op =? EPOLL_CTL_ADD then EBADF else EINVAL))).
Proof.
  intros Hd. split; [|split].
  - intros [rd wr nf] o n Hn. cbn [sel_n_fds] in Hn. subst nf.
    unfold pgm_transport_select_info. act_unfold. cbn. rewrite Hd. reflexivity.
  - intros events fds n o. unfold pgm_transport_poll_info. act_unfold. cbn.
    rewrite Hd. reflexivity.
  - intros m' epfd op events o H. unfold pgm_transport_epoll_ctl. act_unfold. cbn [fst snd].
    destruct (Z.eqb_spec op EPOLL_CTL_ADD) as [->|Hop]; cbn [negb].
    + destruct H as [H|H]; [rewrite H; reflexivity | contradiction].
    + reflexivity.
Qed.

End Wait_properties.
(** ** [pgm_transport_destroy] *)

Lemma does_ret {S A : Type} (a : A) (s : S) (Q : S -> Prop) :
  Q s -> does (mret a) s [] (Val a) Q.
Proof. intros HQ o. exists o, [], s. rewrite app_nil_r. repeat split. exact HQ. Qed.

Lemma does_bind {S A B : Type} (Q1 : S -> Prop) (m : Act S A) (k : A -> Act S B)
    s cs1 a cs2 r Q2 :
  does m s cs1 (Val a) Q1 -> (forall s1, Q1 s1 -> does (k a) s1 cs2 r Q2) ->
  does (m ≫= k) s (cs1 ++ cs2) r Q2.
Proof.
  intros Hm Hk o. destruct (Hm o) as (o1 & es1 & s1 & E1 & T1 & M1 & H1).
  destruct (Hk s1 H1 o1) as (o2 & es2 & s2 & E2 & T2 & M2 & H2).
  exists o2, (es1 ++ es2), s2. unfold mbind, Act_bind, a_bind. rewrite E1, E2.
  split; [reflexivity|]. split; [|split; [|exact H2]].
  - rewrite T2, T1, <- app_assoc. reflexivity.
  - subst cs1 cs2. apply List.map_app.
Qed.

Lemma does_emit {S : Type} (c : more_call) (s : S) (Q : S -> Prop) :
  Q s -> does (a_emit c) s [c] (Val tt) Q.
Proof. intros HQ o. eexists _, [_], s. repeat split. exact HQ. Qed.

Lemma does_modify {S : Type} (f : S -> S) (s : S) (Q : S -> Prop) :
  Q (f s) -> does (a_modify f) s [] (Val tt) Q.
Proof. intros HQ o. exists o, [], (f s). rewrite app_nil_r. repeat split. exact HQ. Qed.

Lemma does_get {S : Type} (s : S) (Q : S -> Prop) : Q s -> does a_get s [] (Val s) Q.
Proof. intros HQ o. exists o, [], s. rewrite app_nil_r. repeat split. exact HQ. Qed.

Lemma does_return {S A : Type} (v : Z) (s : S) (Q : S -> Prop) :
  Q s -> does (@a_return S A v) s [] (Return v) Q.
Proof. intros HQ o. exists o, [], s. rewrite app_nil_r. repeat split. exact HQ. Qed.

Lemma does_fn {S : Type} (body : Act S Z) s cs v Q :
  does body s cs (Return v) Q -> does (a_fn body) s cs (Val v) Q.
Proof.
  intros H o. destruct (H o) as (o' & es & s' & E & T & M & HQ). exists o', es, s'.
  unfold a_fn. rewrite E. repeat split; assumption.
Qed.

Lemma does_when {S : Type} (c : bool) (m : Act S unit) s cs Q :
  (c = true -> does m s cs (Val tt) Q) -> Q s ->
  does (a_when c m) s (if c then cs else []) (Val tt) Q.
Proof. destruct c; intros H HQ; [apply H; reflexivity | apply does_ret, HQ]. Qed.

Lemma does_match_option {S X : Type} (x : option X) (f : X -> Act S unit) s
    (cs : X -> list more_call) Q :
  (forall w, does (f w) s (cs w) (Val tt) Q) -> Q s ->
  does (match x with Some w => f w | None => mret tt end) s
       (match x with Some w => cs w | None => [] end) (Val tt) Q.
Proof. intros H HQ. destruct x; [apply H | apply does_ret, HQ]. Qed.

Lemma does_unref_peers (Q : whole_transport -> Prop) peers : forall s,
  (forall m', Q (s.1, m')) ->
  does (unref_peers peers) s (map Peer_unref peers) (Val tt) Q.
Proof.
  induction peers as [|p next IH]; intros [t m] HQ; cbn [unref_peers fst snd] in *.
  - apply does_ret, HQ.
  - change (map Peer_unref (p :: next)) with ([Peer_unref p] ++ [] ++ map Peer_unref next).
    eapply (does_bind (eq (t, m))); [apply does_emit; reflexivity|]. intros _ <-.
    eapply (does_bind (eq (t, with_peers_list next m))); [apply does_modify; reflexivity|].
    intros _ <-. apply IH. exact HQ.
Qed.

Ltac sockets_left_tac :=
  unfold sockets_left in *;
  cbn [fst snd recv_sock send_sock send_with_router_alert_sock
       with_peers_hashtable with_window with_rate_control with_recv_sock with_send_sock
       with_send_with_router_alert_sock with_rand_ with_rx_buffer] in *;
  first [exact Logic.I | intuition congruence].

(** A run of statements of [pgm_transport_destroy] that keeps [Q]. *)
Ltac does_auto Q :=
  cbn beta;
  lazymatch goal with
  | |- does (mbind _ _) _ _ _ _ =>
      eapply (does_bind Q); [does_auto Q | intros ? ?; does_auto Q]
  | |- does (a_when _ _) _ _ _ _ =>
      eapply does_when; [intros ?; does_auto Q | sockets_left_tac]
  | |- does (match _ with Some _ => _ | None => mret tt end) _ _ _ _ =>
      eapply does_match_option; [intros ?; does_auto Q | sockets_left_tac]
  | |- does (a_emit _) _ _ _ _ => apply does_emit; sockets_left_tac
  | |- does (a_modify _) _ _ _ _ => apply does_modify; sockets_left_tac
  | |- does (modify_rest _) _ _ _ _ => apply does_modify; sockets_left_tac
  | |- does (modify_transport _) _ _ _ _ => apply does_modify; sockets_left_tac
  | |- does (a_return _) _ _ _ _ => apply does_return; sockets_left_tac
  | |- does (mret _) _ _ _ _ => apply does_ret; sockets_left_tac
  | |- does (unref_peers _) _ _ _ _ => apply does_unref_peers; intros ?; sockets_left_tac
  end.

Lemma does_mono {S A : Type} (m : Act S A) s cs r (Q Q' : S -> Prop) :
  does m s cs r Q -> (forall s', Q s' -> Q' s') -> does m s cs r Q'.
Proof.
  intros H HQ o. destruct (H o) as (o' & es & s' & E & T & M & H').
  exists o', es, s'. repeat split; auto.
Qed.

Lemma does_close_and_clear i t sock clear s :
  sockets_left i t s -> sock s.1 = sock t ->
  (forall s', sockets_left i t s' -> sockets_left (S i) t (clear 0 s'.1, s'.2)) ->
  (forall s', sockets_left i t s' -> sockets_left (S i) t s') ->
  does (close_and_clear sock clear) s
       (if nonzero (sock t) then [Base (Close (sock t))] else []) (Val tt)
       (sockets_left (S i) t).
Proof.
  intros HQ Hs Hc Hk. unfold close_and_clear.
  change (if nonzero (sock t) then [Base (Close (sock t))] else [])
    with ([] ++ (if nonzero (sock t) then [Base (Close (sock t))] else [])).
  eapply (does_bind (eq s)); [apply does_get; reflexivity|]. intros _ <-.
  rewrite Hs.
  change [Base (Close (sock t))] with ([Base (Close (sock t))] ++ []).
  eapply does_when; [intros _|apply Hk, HQ].
  eapply (does_bind (eq s)); [apply does_emit; reflexivity|]. intros _ <-.
  apply does_modify. apply Hc, HQ.
Qed.

Lemma destroy_does flush t m :
  (is_apdu_eagain m = true -> is_Some (window t)) ->
  exists cs,
    does (pgm_transport_destroy flush) (t, m) cs (Val TRUE) (fun _ => True) /\
    cs = destroy_calls t m.
Proof.
  intros Hw. eexists. split.
  - unfold pgm_transport_destroy. apply does_fn.
    eapply (does_bind (eq (t, m))); [apply does_emit; reflexivity|]. intros _ <-.
    eapply (does_bind (eq (t, with_is_destroyed true m)));
      [apply does_modify; reflexivity|]. intros _ <-.
    eapply (does_bind (eq (t, with_is_destroyed true m)));
      [apply does_get; reflexivity|]. intros _ <-.
    cbn [fst snd is_apdu_eagain with_is_destroyed pkt_dontwait_first_sqn peers_list
         spm_heartbeat_interval].
    eapply (does_bind (sockets_left 0 t)).
    { eapply does_when; [intros He|sockets_left_tac].
      destruct (Hw He) as [w0 Ew]. rewrite Ew. does_auto (sockets_left 0 t). }
    intros s1 H1.
    do 6 (eapply (does_bind (sockets_left 0 t)); [does_auto (sockets_left 0 t)|];
          clear s1 H1; intros s1 H1).
    eapply (does_bind (sockets_left 1 t)).
    { apply (does_close_and_clear 0 t recv_sock with_recv_sock);
        [exact H1 | apply H1 | |]; intros s' H'; sockets_left_tac. }
    clear s1 H1; intros s1 H1.
    eapply (does_bind (sockets_left 2 t)).
    { apply (does_close_and_clear 1 t send_sock with_send_sock);
        [exact H1 | apply H1 | |]; intros s' H'; sockets_left_tac. }
    clear s1 H1; intros s1 H1.
    eapply (does_bind (fun _ => True)).
    { eapply does_mono; [apply (does_close_and_clear 2 t send_with_router_alert_sock
                                  with_send_with_router_alert_sock);
                         [exact H1 | apply H1 | |]; intros s' H'; sockets_left_tac|].
      intros ? _. exact Logic.I. }
    clear s1 H1; intros s1 _.
    does_auto (fun _ : whole_transport => True).
  - cbn beta. cbn [app]. reflexivity.
Qed.


Lemma destroy_run flush t m o :
  (is_apdu_eagain m = true -> is_Some (window t)) ->
  let x := pgm_transport_destroy flush (t, m) o in
  x.1.1 = Val TRUE /\ map fst (added o x) = destroy_calls t m.
Proof.
  intros Hw x. destruct (destroy_does flush t m Hw) as (cs & H & ->).
  destruct (H o) as (o' & es & s' & E & T & M & _). subst x. rewrite E.
  split; [reflexivity|]. unfold added. cbn [snd]. rewrite T, drop_app_length. exact M.
Qed.

Lemma base_calls_app cs1 cs2 : base_calls (cs1 ++ cs2) = base_calls cs1 ++ base_calls cs2.
Proof. apply flat_map_app. Qed.

Lemma base_calls_if (c : bool) cs1 cs2 :
  base_calls (if c then cs1 else cs2) = if c then base_calls cs1 else base_calls cs2.
Proof. destruct c; reflexivity. Qed.

Lemma base_calls_peers peers : base_calls (map Peer_unref peers) = [].
Proof. induction peers; [reflexivity | exact IHpeers]. Qed.

Lemma if_same {A : Type} (c : bool) (a : A) : (if c then a else a) = a.
Proof. destruct c; reflexivity. Qed.

Lemma base_calls_destroy t m : base_calls (destroy_calls t m) = destroy_base_calls t.
Proof.
  unfold destroy_calls, destroy_base_calls, destroy_closes.
  rewrite !base_calls_app, !base_calls_if, base_calls_peers.
  cbn [base_calls flat_map app List.filter map].
  rewrite !if_same.
  destruct (window t), (rate_control t), (rx_buffer t); cbn [flat_map app].
  all: destruct (nonzero (recv_sock t)), (nonzero (send_sock t)),
         (nonzero (send_with_router_alert_sock t)), (is_bound t); reflexivity.
Qed.

Lemma filter_if {A : Type} (p : A -> bool) (c : bool) l1 l2 :
  List.filter p (if c then l1 else l2) = if c then List.filter p l1 else List.filter p l2.
Proof. destruct c; reflexivity. Qed.

Lemma filter_peer_unref peers :
  List.filter is_peer_unref (map Peer_unref peers) = map Peer_unref peers.
Proof. induction peers as [|p peers IH]; [reflexivity|]. cbn. rewrite IH. reflexivity. Qed.

(** X28.  [pgm_transport_destroy] releases what the transport holds, each
    thing once.  Whatever the system answers, it returns TRUE, on a
    transport whose window is there when an APDU is to be rolled back.  It
    first takes the transport out of the list of transports and last frees
    the structure.  Of the locks and descriptors, it takes the transport
    lock; takes the two send locks of a bound transport, and of a transport
    that is not bound neither, the send lock being held since the creation;
    closes the receive socket, the send socket and the router-alert send
    socket, in this order, each once and none that is 0; releases the send
    locks it took; disposes of the two send locks; releases the transport
    lock and disposes of it.  Every peer of the peer list is released once,
    in the order of the list. *)
Theorem destroy_releases_what_is_held flush t m o :
  (is_apdu_eagain m = true -> is_Some (window t)) ->
  let x := pgm_transport_destroy flush (t, m) o in
  let cs := map fst (added o x) in
  x.1.1 = Val TRUE /\
  base_calls cs = destroy_base_calls t /\
  List.filter is_peer_unref cs = map Peer_unref (peers_list m) /\
  exists mid, cs = Transport_list_remove :: mid ++ [Free_transport].
Proof.
  intros Hw x cs. destruct (destroy_run flush t m o Hw) as [Hv Hcs].
  fold x in Hv, Hcs. subst cs. rewrite Hcs.
  split; [exact Hv|]. split; [apply base_calls_destroy|]. split.
  - unfold destroy_calls. rewrite !List.filter_app, !filter_if, filter_peer_unref.
    cbn [List.filter is_peer_unref app]. rewrite !if_same.
    destruct (window t), (rate_control t), (rx_buffer t); cbn [List.filter is_peer_unref app];
      rewrite ?app_nil_r; reflexivity.
  - eexists. unfold destroy_calls.
    lazymatch goal with |- [?a] ++ ?X = _ => change ([a] ++ X) with (a :: X) end.
    f_equal. repeat rewrite app_assoc. reflexivity.
Qed.

(** ** The life of a transport *)

Lemma count_of_app p cs1 cs2 : count_of p (cs1 ++ cs2) = (count_of p cs1 + count_of p cs2)%nat.
Proof. unfold count_of. rewrite List.filter_app, length_app. reflexivity. Qed.

Lemma closes_of_app cs1 cs2 : closes_of (cs1 ++ cs2) = closes_of cs1 ++ closes_of cs2.
Proof. apply flat_map_app. Qed.

Lemma closes_of_closes fds : closes_of (map Close fds) = fds.
Proof.
  induction fds as [|fd fds IH]; [reflexivity|].
  change (closes_of (map Close (fd :: fds))) with (fd :: closes_of (map Close fds)).
  rewrite IH. reflexivity.
Qed.

(** Calls that are no lifetime calls count for nothing here. *)
Lemma quiet_calls (es : list event) :
  no_calls is_lifetime_call es ->
  closes_of (calls_of es) = [] /\ count_of is_socket (calls_of es) = 0%nat /\
  forall mu, count_of (is_init mu) (calls_of es) = 0%nat /\
             count_of (is_free mu) (calls_of es) = 0%nat /\
             count_of (is_lock mu) (calls_of es) = 0%nat /\
             count_of (is_unlock mu) (calls_of es) = 0%nat.
Proof.
  induction 1 as [|[c r] es Hc _ (IH1 & IH0 & IH2)]; [repeat split|].
  unfold calls_of in *. cbn [map fst closes_of flat_map]. fold (closes_of (map fst es)).
  cbn [fst] in Hc. split; [|split].
  - rewrite IH1. destruct c; try reflexivity; discriminate Hc.
  - unfold count_of in *. cbn [List.filter].
    destruct c; try discriminate Hc; cbn [is_socket]; exact IH0.
  - intros mu. destruct (IH2 mu) as (I1 & I2 & I3 & I4). unfold count_of in *.
    cbn [List.filter].
    destruct c; try discriminate Hc; cbn [is_init is_free is_lock is_unlock];
      repeat split; assumption.
Qed.

Lemma calls_of_app es1 es2 : calls_of (es1 ++ es2) = calls_of es1 ++ calls_of es2.
Proof. apply List.map_app. Qed.

Lemma random_quiet (draws : list event) :
  Forall (fun e : event => is_random e.1 = true) draws -> no_calls is_lifetime_call draws.
Proof.
  intros H. eapply Forall_impl; [exact H|]. intros [c r] Hc. cbn [fst] in *.
  destruct c; try discriminate Hc; reflexivity.
Qed.

Lemma count_of_closes p fds :
  (forall fd, p (Close fd) = false) -> count_of p (map Close fds) = 0%nat.
Proof.
  intros Hp. unfold count_of. induction fds as [|fd fds IH]; [reflexivity|].
  cbn. rewrite Hp. exact IH.
Qed.

Section Life.

Variable pgm_sockaddr_cmp : sockaddr -> sockaddr -> Z.
Variable CONFIG_BIND_INADDR_ANY : bool.

(** X29.  The life of a transport.  Take a [pgm_transport_create] that
    handed out a transport, a [pgm_transport_bind] of it that returned, and
    the [pgm_transport_destroy] of what the bind left.  Over the calls of
    the three together: three sockets are opened, and every descriptor
    that [socket] answered is closed once, in the order of opening, except
    a descriptor 0, which is never closed; each of the three locks is set
    up once and disposed of once; and each lock is released as often as it
    is taken, except the send lock of a transport whose bind returned
    FALSE: it is taken once, by the creation, and disposed of without ever
    being released. *)
Theorem life_of_a_transport fuel tinfo w t v flush m o :
  let c := pgm_transport_create fuel tinfo w in
  let x := pgm_transport_bind pgm_sockaddr_cmp CONFIG_BIND_INADDR_ANY t c.2 in
  let d := pgm_transport_destroy flush (st x, m) o in
  let cs := calls_of (create_events w c) ++ calls_of (new_events c.2 x)
            ++ base_calls (map fst (added o d)) in
  c.1.2 = Some t -> rs x = Val v ->
  (is_apdu_eagain m = true -> is_Some (window (st x))) ->
  d.1.1 = Val TRUE /\
  count_of is_socket cs = 3%nat /\
  closes_of cs = List.filter nonzero (socket_answers (create_events w c)) /\
  (forall mu, count_of (is_init mu) cs = 1%nat /\ count_of (is_free mu) cs = 1%nat) /\
  (forall mu, count_of (is_lock mu) cs
              = (count_of (is_unlock mu) cs
                 + (if mutex_eqb mu Send_mutex && negb (v =? TRUE)%Z then 1 else 0))%nat).
Proof.
  intros c x d cs Hsome Hv Hw. subst cs.
  (* the destruction *)
  destruct (destroy_run flush (st x) m o Hw) as [Hd Hcs]. fold d in Hd, Hcs.
  rewrite Hcs, base_calls_destroy. split; [exact Hd|]. clear Hd Hcs d Hw.
  (* the creation *)
  destruct (create_run_outcome fuel tinfo w) as (t1 & Ho & Ht).
  fold c in Ho, Ht. rewrite Hsome in Ht. unfold create_outcome in Ho.
  destruct (c.1.1) as [v0| | |]; try discriminate Ht.
  destruct (v0 =? TRUE) eqn:Ev0; [|discriminate Ht]. injection Ht as <-.
  apply Z.eqb_eq in Ev0. subst v0.
  destruct (tinfo_checks tinfo); [|destruct Ho; discriminate].
  destruct Ho as (draws & rest & (u1 & u2 & u3 & u4 & -> & Hdr) & [[_ Hs]|[[=] _]]).
  destruct Hs as (r1 & r2 & r3 & u & -> & _ & _ & _ & Hcf).
  destruct Hcf as (S1 & S2 & S3 & _ & _ & _ & Hb & _).
  destruct (random_no_sockets _ Hdr) as (Hd1 & _).
  destruct (quiet_calls draws (random_quiet draws Hdr)) as (Dc & Ds & Dm).
  rewrite !socket_answers_app, Hd1.
  change (socket_answers [(create_socket_call tinfo false, r1);
                          (create_socket_call tinfo true, r2);
                          (create_socket_call tinfo true, r3); (Transport_list_append, u)])
    with [r_val r1; r_val r2; r_val r3].
  cbn [socket_answers flat_map fst app].
  (* the bind *)
  pose proof (bind_run_outcome pgm_sockaddr_cmp CONFIG_BIND_INADDR_ANY t c.2) as H.
  unfold wp in H. fold x in H. rewrite Hv in H. unfold bind_outcome in H. rewrite Hb in H.
  assert (Hx : exists body tail,
             calls_of (new_events c.2 x) = Mutex_lock Transport_mutex :: calls_of body ++ tail /\
             no_calls is_lifetime_call body /\ same_role t (st x) /\
             is_bound (st x) = (v =? TRUE) /\
             tail = (if v =? TRUE
                     then [Mutex_unlock Send_mutex; Mutex_unlock Transport_mutex; Timer_prepare]
                     else [Mutex_unlock Transport_mutex])).
  { destruct H as [[-> Hs]|[-> Hf]].
    - destruct Hs as (Hb' & Hr & _ & _ & u0 & body & v1 & v2 & v3 & E & Hm & _).
      exists body, [Mutex_unlock Send_mutex; Mutex_unlock Transport_mutex; Timer_prepare].
      rewrite (new_events_app c.2 x _ E). unfold calls_of. cbn [map fst].
      rewrite List.map_app.
      split; [reflexivity|]. split; [exact Hm|]. split; [exact Hr|].
      split; [exact Hb' | reflexivity].
    - destruct Hf as (Hb' & Hr & u0 & body & u' & E & Hm & _).
      exists body, [Mutex_unlock Transport_mutex].
      rewrite (new_events_app c.2 x _ E). unfold calls_of. cbn [map fst].
      rewrite List.map_app.
      split; [reflexivity|]. split; [exact Hm|]. split; [exact Hr|].
      split; [exact Hb' | reflexivity]. }
  destruct Hx as (body & tail & -> & Hm & Hr & Hb' & ->). clear H.
  destruct Hr as (_ & _ & (R1 & R2 & R3) & _).
  destruct (quiet_calls body Hm) as (Bc & Bs & Bm).
  unfold destroy_base_calls, destroy_closes. rewrite Hb', R1, R2, R3, S1, S2, S3.
  assert (Hcl : forall p, (forall fd, p (Close fd) = false) -> forall fds,
                 List.filter p (map Close fds) = []).
  { intros p Hp fds. induction fds as [|fd fds IH]; [reflexivity|]. cbn. rewrite Hp. exact IH. }
  pose proof (closes_of_closes (List.filter nonzero [r_val r1; r_val r2; r_val r3])) as Hcc.
  unfold count_of, closes_of, calls_of in *.
  cbn [map fst]. rewrite !List.map_app. cbn [map fst].
  change event with (call * reply)%type in *.
  split; [|split; [|split]].
  - repeat (cbn [List.filter is_socket create_socket_call length app];
            rewrite ?List.filter_app, ?length_app, ?filter_if, ?Ds, ?Bs).
    rewrite (Hcl is_socket) by reflexivity. rewrite !if_same. reflexivity.
  - destruct (v =? TRUE);
      repeat (cbn [flat_map app create_socket_call];
              rewrite ?flat_map_app, ?Dc, ?Bc, ?Hcc, ?app_nil_r); reflexivity.
  - intros mu. destruct (Dm mu) as (D1 & D2 & _), (Bm mu) as (B1 & B2 & _).
    split.
    + destruct (v =? TRUE), mu;
        repeat (cbn [List.filter is_init mutex_eqb create_socket_call length app];
                rewrite ?List.filter_app, ?length_app, ?D1, ?B1);
        rewrite (Hcl (is_init _)) by reflexivity; reflexivity.
    + destruct (v =? TRUE), mu;
        repeat (cbn [List.filter is_free mutex_eqb create_socket_call length app];
                rewrite ?List.filter_app, ?length_app, ?D2, ?B2);
        rewrite (Hcl (is_free _)) by reflexivity; reflexivity.
  - intros mu. destruct (Dm mu) as (_ & _ & D3 & D4), (Bm mu) as (_ & _ & B3 & B4).
    destruct (v =? TRUE), mu;
      repeat (cbn [List.filter is_lock is_unlock mutex_eqb create_socket_call length app];
              rewrite ?List.filter_app, ?length_app, ?D3, ?D4, ?B3, ?B4);
      rewrite (Hcl (is_lock _)), (Hcl (is_unlock _)) by reflexivity; reflexivity.
Qed.

End Life.
(** X4 on a size of 1500 and a hop limit of 16 for the transport just
    created. *)
Lemma set_max_tpdu_and_hops_bounds_witness :
  is_guint16 1500 /\
  (let x := pgm_transport_set_max_tpdu 1500 example_transport (world_init oracle_ok) in
   rs x = Val TRUE /\ max_tpdu (st x) = 1500) /\
  (let x := pgm_transport_set_hops 16 example_transport (world_init oracle_ok) in
   rs x = Val TRUE /\ hops (st x) = 16).
Proof.
  assert (Hv : is_guint16 1500) by (unfold is_guint16; lia).
  pose proof (set_max_tpdu_and_hops_bounds 1500 16 example_transport (world_init oracle_ok))
    as [Htpdu Hhops].
  specialize (Htpdu Hv). cbv zeta in Htpdu, Hhops.
  change (negb (is_bound example_transport) && (36 <=? 1500)) with true in Htpdu.
  change (negb (is_bound example_transport) && (1 <=? 16) && (16 <=? 255)) with true in Hhops.
  destruct Htpdu as [Er Es], Hhops as [Er' Es'].
  split; [exact Hv|]. cbv zeta.
  split; (split; [assumption|]); [rewrite Es | rewrite Es']; reflexivity.
Defined.


(** ** The further properties on concrete runs *)

(** X2 on a send that the rate regulator holds back. *)
Lemma sendto_rate_limit_witness :
  (0 < 3 /\ 0 < 16) /\
  rs (_pgm_sendto true true false [80; 71; 77] 3 0 group1 16 example_bound example_held_back)
  = Val (-1) /\
  new_events example_held_back
    (_pgm_sendto true true false [80; 71; 77] 3 0 group1 16 example_bound example_held_back)
  = [(Rate_check (rate_control example_bound) 3 0, reply_err (-1) EAGAIN)].
Proof.
  split; [lia|].
  pose proof (sendto_rate_limit true true false [80; 71; 77] 3 0 group1 16 example_bound
                example_held_back ltac:(lia) ltac:(lia)) as H.
  cbv zeta in H. destruct H as (H & _).
  apply (H eq_refl). vm_compute. reflexivity.
Defined.

(** X6 on [example_bound] and the join of [example_gr]. *)
Lemma membership_keeps_array_bounds_witness :
  wf_transport example_bound /\
  wf_transport (st (pgm_transport_join_group sockaddr_cmp_model example_gr sizeof_group_req
                      example_bound (world_init oracle_ok))).
Proof.
  split; [exact example_bound_wf|].
  destruct (membership_keeps_array_bounds sockaddr_cmp_model example_bound
              (world_init oracle_ok) example_bound_wf) as (H & _).
  exact (H example_gr sizeof_group_req).
Defined.

(** X7 on [example_full]: a twenty-first group is refused. *)
Lemma join_refused_when_full_witness :
  recv_gsr_len example_full = IP_MAX_MEMBERSHIPS /\
  rs (pgm_transport_join_group sockaddr_cmp_model example_gr sizeof_group_req example_full
        (world_init oracle_ok)) = Val (- EINVAL).
Proof.
  assert (Hfull : recv_gsr_len example_full = IP_MAX_MEMBERSHIPS) by (vm_compute; reflexivity).
  split; [exact Hfull|].
  destruct (join_refused_when_full sockaddr_cmp_model example_full (world_init oracle_ok)
              Hfull) as (H & _).
  pose proof (H example_gr sizeof_group_req) as H'. cbv zeta in H'. apply H'.
Defined.

(** X8 on a join of [example_gr] that the system refuses for want of
    buffer space: the group is in the receive list all the same. *)
Lemma join_group_records_before_asking_witness :
  let x := pgm_transport_join_group sockaddr_cmp_model example_gr sizeof_group_req
             example_bound example_no_buffers in
  (wf_transport example_bound /\
   In (example_join_call, reply_err (-1) ENOBUFS) (new_events example_no_buffers x)) /\
  rs x = Val (-1) /\
  recv_list (st x) = recv_list example_bound ++ [join_group_entry example_gr].
Proof.
  cbv zeta.
  assert (Hin : In (example_join_call, reply_err (-1) ENOBUFS)
                  (new_events example_no_buffers
                     (pgm_transport_join_group sockaddr_cmp_model example_gr sizeof_group_req
                        example_bound example_no_buffers)))
    by (vm_compute; left; reflexivity).
  split; [split; [exact example_bound_wf | exact Hin]|].
  pose proof (join_group_records_before_asking sockaddr_cmp_model example_gr sizeof_group_req
                example_bound example_no_buffers example_join_call
                (reply_err (-1) ENOBUFS) example_bound_wf) as H.
  cbv zeta in H. destruct (H Hin eq_refl) as (H1 & H2 & _).
  split; [exact H1 | exact H2].
Defined.

(** X14 on [example_create_run]. *)
Lemma create_fills_the_transport_witness :
  example_create_run.1.2 = Some example_transport /\
  is_bound example_transport = false /\
  recv_list example_transport = [mk_group_source_req 0 group1 group1] /\
  wf_transport example_transport.
Proof.
  assert (Hsome : (pgm_transport_create 2 example_tinfo
                     (world_init (oracle_with 4 (reply_val 7500)))).1.2
                  = Some example_transport) by (vm_compute; reflexivity).
  split; [exact Hsome|].
  destruct (create_fills_the_transport 2 example_tinfo
              (world_init (oracle_with 4 (reply_val 7500))) example_transport Hsome)
    as (_ & Hwf & Hb & _ & _ & _ & _ & _ & _ & _ & _ & Hl).
  split; [exact Hb|]. split; [|exact Hwf].
  exact (Hl [mk_group_source_req 0 group1 group1] eq_refl eq_refl).
Defined.

(** X15 on [example_create_run]. *)
Lemma create_keeps_the_send_lock_witness :
  (example_create_run.1.1 = Val TRUE /\ tinfo_valid example_tinfo) /\
  count_calls is_lock_send (create_events (world_init (oracle_with 4 (reply_val 7500)))
                              example_create_run) = 1%nat /\
  count_calls is_unlock_send (create_events (world_init (oracle_with 4 (reply_val 7500)))
                                example_create_run) = 0%nat.
Proof.
  assert (Hv : (pgm_transport_create 2 example_tinfo
                  (world_init (oracle_with 4 (reply_val 7500)))).1.1 = Val TRUE)
    by (vm_compute; reflexivity).
  assert (Hvalid : tinfo_valid example_tinfo)
    by (apply tinfo_checks_valid; vm_compute; reflexivity).
  split; [split; [exact Hv | exact Hvalid]|].
  pose proof (create_keeps_the_send_lock 2 example_tinfo
                (world_init (oracle_with 4 (reply_val 7500)))) as H.
  cbv zeta in H. destruct (H TRUE Hv Hvalid) as (H1 & H2 & _).
  split; [exact H1 | exact H2].
Defined.

(** X16 on [example_bind_run]. *)
Lemma bind_holds_the_transport_lock_witness :
  (is_bound example_configured = false /\ rs example_bind_run = Val TRUE) /\
  is_bound (st example_bind_run) = true /\
  exists u body u1 u2 u3,
    no_calls is_lifetime_call body /\
    new_events (world_init oracle_ok) example_bind_run
    = (Mutex_lock Transport_mutex, u) :: body
      ++ [(Mutex_unlock Send_mutex, u1); (Mutex_unlock Transport_mutex, u2);
          (Timer_prepare, u3)].
Proof.
  assert (Hb : is_bound example_configured = false) by (vm_compute; reflexivity).
  assert (Hv : rs (pgm_transport_bind sockaddr_cmp_model false example_configured
                     (world_init oracle_ok)) = Val TRUE) by (vm_compute; reflexivity).
  split; [split; [exact Hb | exact Hv]|].
  pose proof (bind_holds_the_transport_lock sockaddr_cmp_model false example_configured
                (world_init oracle_ok) TRUE) as H.
  cbv zeta in H.
  destruct (H Hb Hv) as (u & body & Hm & [(_ & Hb' & u1 & u2 & u3 & E)|(E & _)]);
    [|discriminate E].
  split; [exact Hb'|].
  exists u, body, u1, u2, u3. split; [exact Hm | exact E].
Defined.

(** X18 on [example_bind_run]: the one group of [example_configured] is
    joined, once. *)
Lemma bind_joins_every_group_witness :
  rs example_bind_run = Val TRUE /\
  @map event call fst (membership_calls (new_events (world_init oracle_ok) example_bind_run))
  = map (bind_join_call sockaddr_cmp_model (recv_sock example_configured))
      (recv_list example_configured) /\
  recv_list (st example_bind_run) = recv_list example_configured.
Proof.
  assert (Hv : rs (pgm_transport_bind sockaddr_cmp_model false example_configured
                     (world_init oracle_ok)) = Val TRUE) by (vm_compute; reflexivity).
  split; [exact Hv|].
  pose proof (bind_joins_every_group sockaddr_cmp_model false example_configured
                (world_init oracle_ok)) as H.
  cbv zeta in H. destruct (H Hv) as (H1 & _ & H3).
  split; [exact H1 | exact H3].
Defined.

(** X20 on [example_bind_run], bound a second time. *)
Lemma bind_twice_refused_witness :
  rs example_bind_run = Val TRUE /\
  rs (pgm_transport_bind sockaddr_cmp_model false (st example_bind_run) (wd example_bind_run))
  = Val FALSE /\
  st (pgm_transport_bind sockaddr_cmp_model false (st example_bind_run) (wd example_bind_run))
  = st example_bind_run.
Proof.
  assert (Hv : rs (pgm_transport_bind sockaddr_cmp_model false example_configured
                     (world_init oracle_ok)) = Val TRUE) by (vm_compute; reflexivity).
  split; [exact Hv|].
  pose proof (bind_twice_refused sockaddr_cmp_model false example_configured
                (world_init oracle_ok)) as H.
  cbv zeta in H. destruct (H Hv) as (H1 & H2 & _).
  split; [exact H1 | exact H2].
Defined.

(** X21 on [example_create_run] followed by [example_first_bind]. *)
Lemma send_lock_is_held_until_bound_witness :
  (example_create_run.1.2 = Some example_transport /\ rs example_first_bind = Val TRUE) /\
  count_calls is_lock_send
    (create_events (world_init (oracle_with 4 (reply_val 7500))) example_create_run
     ++ new_events example_create_run.2 example_first_bind) = 1%nat /\
  count_calls is_unlock_send
    (create_events (world_init (oracle_with 4 (reply_val 7500))) example_create_run
     ++ new_events example_create_run.2 example_first_bind) = 1%nat.
Proof.
  assert (Hsome : (pgm_transport_create 2 example_tinfo
                     (world_init (oracle_with 4 (reply_val 7500)))).1.2
                  = Some example_transport) by (vm_compute; reflexivity).
  assert (Hv : rs (pgm_transport_bind sockaddr_cmp_model false example_transport
                     (pgm_transport_create 2 example_tinfo
                        (world_init (oracle_with 4 (reply_val 7500)))).2) = Val TRUE)
    by (vm_compute; reflexivity).
  split; [split; [exact Hsome | exact Hv]|].
  pose proof (send_lock_is_held_until_bound sockaddr_cmp_model false 2 example_tinfo
                (world_init (oracle_with 4 (reply_val 7500))) example_transport TRUE) as H.
  cbv zeta in H. destruct (H Hsome Hv) as (H1 & H2 & _).
  split; [exact H1 | exact H2].
Defined.

(** X24 on [example_bound], with empty sets and [*n_fds] 0: the receive
    socket 6, the notification channel 9 and the send socket 7 give 10. *)
Lemma select_info_covers_its_descriptors_witness :
  (sel_n_fds example_select_args = Some 0 /\ is_destroyed rest_zero = false) /\
  (pgm_transport_select_info example_notify_fd example_bound rest_zero example_select_args
     outside_ok).1.1 = Val 10 /\
  forall fd, In fd (select_fds example_notify_fd example_bound example_select_args) ->
             0 <= fd < 10.
Proof.
  split; [split; reflexivity|].
  assert (Hv : (pgm_transport_select_info example_notify_fd example_bound rest_zero
                  example_select_args outside_ok).1.1 = Val 10) by (vm_compute; reflexivity).
  split; [exact Hv|].
  pose proof (select_info_covers_its_descriptors example_notify_fd example_bound rest_zero
                example_select_args outside_ok 0 eq_refl eq_refl) as H.
  cbv zeta in H. destruct H as (_ & H). destruct (H 10 Hv) as (_ & _ & _ & H4 & _).
  exact H4.
Defined.

(** X25 on [example_bound], with an array of three entries, for [POLLIN]
    and [POLLOUT]. *)
Lemma poll_info_fills_the_array_witness :
  (is_destroyed rest_zero = false /\ 0 <= 3) /\
  (pgm_transport_poll_info example_notify_fd example_bound rest_zero 5
     (mk_poll_args (Some example_pollfds) (Some 3)) outside_ok).1.1 = Val 3.
Proof.
  split; [split; [reflexivity | lia]|].
  pose proof (poll_info_fills_the_array example_notify_fd example_bound rest_zero 5
                example_pollfds 3 outside_ok eq_refl ltac:(lia)) as H.
  cbv zeta in H. destruct H as (_ & _ & H).
  assert (Hlen : length (poll_entries example_notify_fd example_bound 5) = 3%nat)
    by (vm_compute; reflexivity).
  rewrite Hlen in H. destruct H as (H & _); [lia | cbn; lia | exact H].
Defined.

(** X26 on [example_bound], for [EPOLLIN] and [EPOLLOUT], every
    registration granted. *)
Lemma epoll_ctl_registers_in_order_witness :
  is_destroyed rest_zero = false /\
  map fst (added outside_ok
             (pgm_transport_epoll_ctl example_notify_fd 3 EPOLL_CTL_ADD 5
                (example_bound, rest_zero) outside_ok))
  `prefix_of` epoll_calls example_notify_fd example_bound 3 5.
Proof.
  split; [reflexivity|].
  pose proof (epoll_ctl_registers_in_order example_notify_fd example_bound rest_zero 3 5
                outside_ok eq_refl) as H.
  cbv zeta in H. destruct H as (v & _ & H & _). exact H.
Defined.

(** X27 on [example_bound] after its destruction. *)
Lemma wait_refusals_witness :
  is_destroyed example_destroyed = true /\
  pgm_transport_select_info example_notify_fd example_bound example_destroyed
    example_select_args outside_ok
  = (Val (-1), example_select_args, mk_outside (o_oracle outside_ok) [] EBADF).
Proof.
  split; [reflexivity|].
  destruct (wait_refusals example_notify_fd example_bound example_destroyed eq_refl)
    as (H & _).
  exact (H example_select_args outside_ok 0 eq_refl).
Defined.

(** X28 on [example_bound]. *)
Lemma destroy_releases_what_is_held_witness :
  (is_apdu_eagain rest_zero = true -> is_Some (window example_bound)) /\
  base_calls (map fst (added outside_ok
                         (pgm_transport_destroy false (example_bound, rest_zero) outside_ok)))
  = destroy_base_calls example_bound.
Proof.
  assert (Hw : is_apdu_eagain rest_zero = true -> is_Some (window example_bound))
    by (intros H; discriminate H).
  split; [exact Hw|].
  pose proof (destroy_releases_what_is_held false example_bound rest_zero outside_ok Hw) as H.
  cbv zeta in H. destruct H as (_ & H & _). exact H.
Defined.

(** X29 on [example_create_run], [example_first_bind] and the destruction
    of the transport so bound. *)
Lemma life_of_a_transport_witness :
  (example_create_run.1.2 = Some example_transport /\
   rs example_first_bind = Val TRUE /\
   (is_apdu_eagain rest_zero = true -> is_Some (window (st example_first_bind)))) /\
  (pgm_transport_destroy false (st example_first_bind, rest_zero) outside_ok).1.1 = Val TRUE /\
  closes_of (calls_of (create_events (world_init (oracle_with 4 (reply_val 7500)))
                         example_create_run)
             ++ calls_of (new_events example_create_run.2 example_first_bind)
             ++ base_calls (map fst (added outside_ok
                                       (pgm_transport_destroy false
                                          (st example_first_bind, rest_zero) outside_ok))))
  = List.filter nonzero
      (socket_answers (create_events (world_init (oracle_with 4 (reply_val 7500)))
                         example_create_run)).
Proof.
  assert (Hsome : (pgm_transport_create 2 example_tinfo
                     (world_init (oracle_with 4 (reply_val 7500)))).1.2
                  = Some example_transport) by (vm_compute; reflexivity).
  assert (Hv : rs (pgm_transport_bind sockaddr_cmp_model false example_transport
                     (pgm_transport_create 2 example_tinfo
                        (world_init (oracle_with 4 (reply_val 7500)))).2) = Val TRUE)
    by (vm_compute; reflexivity).
  assert (Hw : is_apdu_eagain rest_zero = true ->
               is_Some (window (st (pgm_transport_bind sockaddr_cmp_model false
                                      example_transport
                                      (pgm_transport_create 2 example_tinfo
                                         (world_init (oracle_with 4 (reply_val 7500)))).2))))
    by (intros H; discriminate H).
  split; [split; [exact Hsome | split; [exact Hv | exact Hw]]|].
  pose proof (life_of_a_transport sockaddr_cmp_model false 2 example_tinfo
                (world_init (oracle_with 4 (reply_val 7500))) example_transport TRUE
                false rest_zero outside_ok) as H.
  cbv zeta in H. destruct (H Hsome Hv Hw) as (H1 & _ & H3 & _).
  split; [exact H1 | exact H3].
Defined.
